(** * axiom8-mcp: the hybrid search core

    A shallow embedding of the retrieval pipeline of axiom8-mcp
    (embedding service, vector repository, reciprocal rank fusion,
    Cohere reranker and the hybrid search engine), with the properties
    its specification states about them.

    JavaScript numbers are kept behind a small interface, [Number], with
    two implementations: [F64], the IEEE-754 binary64 arithmetic that the
    program really runs on (Rocq's executable [SpecFloat] specification),
    and [RExact], exact real arithmetic.  Every function of the program is
    written once, over the interface.  Statements that only depend on the
    shape of the computation are proved for every implementation;
    statements about rounding, NaN, signed zeros and the order of
    binary64 numbers are proved on [F64]; statements that need the laws
    of an ordered field are proved on [RExact], or say so through the law
    classes [ExactArith] and [OrderedArith].  That the operations of
    [F64] return binary64 numbers is taken from the Standard Library's
    specification of the hardware floats ([FloatAxioms]). *)

From Stdlib Require Import ZArith List String Ascii Bool Lia Permutation Sorted.
From Stdlib Require Import Reals Lra.
From Stdlib Require Import Floats.SpecFloat.
From Stdlib Require Floats Uint63.
From Stdlib Require Import DecimalString.
Import ListNotations.

Set Implicit Arguments.

(* ================================================================== *)
(** * The JavaScript runtime the program relies on *)
(* ================================================================== *)

(** ** Promises and exceptions

    An [async] function either resolves with a value or rejects; a
    synchronous call either returns or throws.  Both are an [Outcome]. *)

Inductive Outcome (A : Type) : Type :=
| Ok (a : A)
| Throw (msg : string).

Arguments Ok {A} a.
Arguments Throw {A} msg.

Definition bind {A B : Type} (m : Outcome A) (f : A -> Outcome B) : Outcome B :=
  match m with
  | Ok a => f a
  | Throw e => Throw e
  end.

(** [try { m } catch (error) { h error }]. *)
Definition tryCatch {A : Type} (m : Outcome A) (h : string -> Outcome A) : Outcome A :=
  match m with
  | Ok a => Ok a
  | Throw e => h e
  end.

Declare Scope js_scope.
Delimit Scope js_scope with js.
Notation "x <- m ;; k" := (bind m (fun x => k))
  (at level 61, m at next level, right associativity) : js_scope.
Notation "m ;;; k" := (bind m (fun _ => k))
  (at level 61, right associativity) : js_scope.

(** ** Numbers *)

Class Number (num : Type) : Type := {
  nofZ : Z -> num;               (* an integer literal, an index, a length *)
  nadd : num -> num -> num;      (* a + b *)
  nsub : num -> num -> num;      (* a - b *)
  nmul : num -> num -> num;      (* a * b *)
  ndiv : num -> num -> num;      (* a / b *)
  nsqrt : num -> num;            (* Math.sqrt(a) *)
  nfround : num -> num;          (* the value an element of a Float32Array holds *)
  nisNaN : num -> bool;          (* isNaN(a) *)
  neqb : num -> num -> bool;     (* a === b *)
  ngtb : num -> num -> bool;     (* a > b *)
  ngeb : num -> num -> bool      (* a >= b *)
}.

Declare Scope num_scope.
Delimit Scope num_scope with num.
Infix "+" := nadd : num_scope.
Infix "-" := nsub : num_scope.
Infix "*" := nmul : num_scope.
Infix "/" := ndiv : num_scope.

(** A decimal literal such as [0.2] denotes the number nearest to the
    rational it spells; a correctly rounded division of its numerator by
    its denominator yields that number when both are small integers. *)
Definition ndecimal {num} `{Number num} (numerator denominator : Z) : num :=
  ndiv (nofZ numerator) (nofZ denominator).

(** [x || fallback] on numbers: [0], [-0] and [NaN] are falsy. *)
Definition nfalsy {num} `{Number num} (x : num) : bool :=
  nisNaN x || neqb x (nofZ 0).

Definition norElse {num} `{Number num} (x : option num) (fallback : num) : num :=
  match x with
  | Some v => if nfalsy v then fallback else v
  | None => fallback
  end.

(** [x] is [-0]: it equals [0] and its reciprocal is negative. *)
Definition nisNegativeZero {num} `{Number num} (x : num) : bool :=
  neqb x (nofZ 0) && ngtb (nofZ 0) (ndiv (nofZ 1) x).

(** [Math.min(a, b)]: NaN when either is NaN, and [-0] is below [+0]. *)
Definition mathMin2 {num} `{Number num} (a b : num) : num :=
  if nisNaN a then a
  else if nisNaN b then b
  else if ngtb a b then b
  else if ngtb b a then a
  else if nisNegativeZero b then b else a.

(** [Math.max(a, b)]. *)
Definition mathMax2 {num} `{Number num} (a b : num) : num :=
  if nisNaN a then a
  else if nisNaN b then b
  else if ngtb b a then b
  else if ngtb a b then a
  else if nisNegativeZero a then b else a.

(** [Math.min(...values)] and [Math.max(...values)] on an array that
    is not empty, [first] being its first element. *)
Definition mathMin {num} `{Number num} (first : num) (rest : list num) : num :=
  fold_left mathMin2 rest first.

Definition mathMax {num} `{Number num} (first : num) (rest : list num) : num :=
  fold_left mathMax2 rest first.

(** *** IEEE-754 binary64, the arithmetic of the running program *)

Module F64.
Definition prec : Z := 53.
Definition emax : Z := 1024.

Definition t : Type := spec_float.

Definition ofZ (z : Z) : t := binary_normalize prec emax z 0 false.
Definition add : t -> t -> t := SFadd prec emax.
Definition sub : t -> t -> t := SFsub prec emax.
Definition mul : t -> t -> t := SFmul prec emax.
Definition div : t -> t -> t := SFdiv prec emax.
Definition sqrt : t -> t := SFsqrt prec emax.

Definition isNaN (x : t) : bool :=
  match x with
  | S754_nan => true
  | _ => false
  end.

Definition eqb (x y : t) : bool := SFeqb x y.
Definition gtb (x y : t) : bool := SFltb y x.
Definition geb (x y : t) : bool := SFleb y x.

(** Rounding to binary32 (24 bits, emax 128), the result read back as
    a binary64 number: what storing into a [Float32Array] and loading
    from it does. *)
Definition fround (x : t) : t :=
  match x with
  | S754_finite s m e =>
      match binary_round 24 128 s m e with
      | S754_finite s' m' e' => binary_round prec emax s' m' e'
      | y => y
      end
  | _ => x
  end.

Definition zero : t := S754_zero false.
Definition one : t := ofZ 1.

(** The representations that are binary64 numbers: a finite one has
    its mantissa and exponent in canonical form and in range. *)
Definition valid (x : t) : bool := valid_binary prec emax x.

(** The binary64 numbers that are not NaN. *)
Definition isNumber (x : t) : bool := valid x && negb (isNaN x).

(** Every element of an array is a binary64 number. *)
Definition allValid (values : list t) : bool := forallb valid values.

(** [+0], the positive numbers and [+Infinity]. *)
Definition isNonNegative (x : t) : bool :=
  match x with
  | S754_zero s | S754_infinity s | S754_finite s _ _ => negb s
  | S754_nan => false
  end.

(** The positive numbers but [+Infinity]. *)
Definition isPositiveFinite (x : t) : bool :=
  match x with
  | S754_finite s _ _ => negb s
  | _ => false
  end.
End F64.

#[export] Instance F64Number : Number F64.t := {
  nofZ := F64.ofZ;
  nadd := F64.add;
  nsub := F64.sub;
  nmul := F64.mul;
  ndiv := F64.div;
  nsqrt := F64.sqrt;
  nfround := F64.fround;
  nisNaN := F64.isNaN;
  neqb := F64.eqb;
  ngtb := F64.gtb;
  ngeb := F64.geb
}.

(** *** Exact real arithmetic: no rounding, no NaN *)

Module RExact.
Definition eqb (x y : R) : bool := if Req_dec_T x y then true else false.
Definition gtb (x y : R) : bool := if Rgt_dec x y then true else false.
Definition geb (x y : R) : bool := if Rge_dec x y then true else false.
End RExact.

#[export] Instance RNumber : Number R := {
  nofZ := IZR;
  nadd := Rplus;
  nsub := Rminus;
  nmul := Rmult;
  ndiv := Rdiv;
  nsqrt := sqrt;
  nfround := fun x => x;
  nisNaN := fun _ => false;
  neqb := RExact.eqb;
  ngtb := RExact.gtb;
  ngeb := RExact.geb
}.

(** *** Laws an arithmetic may satisfy *)

(** [0] and [1] are neutral, [===] is equality and there is no NaN. *)
Class ExactArith (num : Type) `{Number num} : Prop := {
  exact_no_NaN : forall x : num, nisNaN x = false;
  exact_eqb_eq : forall x y : num, neqb x y = true -> x = y;
  exact_add_0_l : forall x : num, nadd (nofZ 0) x = x;
  exact_mul_1_l : forall x : num, nmul (nofZ 1) x = x
}.

(** The sign of a difference decides the order: what a comparator
    [(a, b) => b - a] needs in order to be consistent. *)
Class OrderedArith (num : Type) `{Number num} : Prop := {
  ord_sub_not_pos : forall a b : num, ngtb (nsub b a) (nofZ 0) = false -> ngeb a b = true;
  ord_sub_pos : forall a b : num, ngtb (nsub b a) (nofZ 0) = true -> ngeb b a = true;
  ord_geb_trans : forall a b c : num, ngeb a b = true -> ngeb b c = true -> ngeb a c = true
}.

Arguments ExactArith num {_}.
Arguments OrderedArith num {_}.

(** ** Arrays *)

(** [array.slice(0, end)] for an integer [end]: a negative [end] counts
    from the end of the array. *)
Definition sliceTo {A : Type} (l : list A) (stop : Z) : list A :=
  if (0 <=? stop)%Z then firstn (Z.to_nat stop) l
  else firstn (List.length l - Z.to_nat (- stop)) l.

(** [array.slice(start)] for a natural [start]. *)
Definition sliceFrom {A : Type} (l : list A) (start : nat) : list A := skipn start l.

(** [array[i]] for an integer index: [undefined] out of range. *)
Definition at_index {A : Type} (l : list A) (i : Z) : option A :=
  if (i <? 0)%Z then None else nth_error l (Z.to_nat i).

(** [array[i]] when [i] itself may be [undefined]. *)
Definition at_property {A : Type} (l : list A) (i : option Z) : option A :=
  match i with
  | Some i => at_index l i
  | None => None
  end.

(** [array.slice(start, end)] for naturals [start <= end]. *)
Definition slice {A : Type} (l : list A) (start stop : nat) : list A :=
  firstn (stop - start) (skipn start l).

(** ** Array buffers and typed arrays

    An [ArrayBuffer], and with it a [Buffer] over the whole of it and
    the value of a BLOB column: its bytes, taken four at a time as
    binary32 numbers ([slots]), and the number of bytes that are left
    after the last whole slot ([trailing], 0 to 3). *)
Module ArrayBuffer.
Record t (num : Type) : Type := { slots : list num; trailing : nat }.

Arguments slots {num} _.
Arguments trailing {num} _.

(** [new Float32Array(buffer)]: the whole buffer as an array of
    binary32 numbers, given by its elements; a byte length that is no
    multiple of 4 is a [RangeError]. *)
Definition asFloat32Array {num : Type} (buffer : t num) : Outcome (list num) :=
  if (trailing buffer =? 0)%nat then Ok (slots buffer)
  else Throw "RangeError: byte length of Float32Array should be a multiple of 4".
End ArrayBuffer.

(** A [Float32Array] together with the [ArrayBuffer] it is a view of:
    its elements, the slots of the buffer before its [byteOffset] and
    after its last element, and the bytes after the last whole slot. *)
Module TypedArray.
Record t (num : Type) : Type := {
  before : list num;
  elements : list num;
  behind : list num;
  trailing : nat
}.

Arguments before {num} _.
Arguments elements {num} _.
Arguments behind {num} _.
Arguments trailing {num} _.

(** [array.buffer]. *)
Definition buffer {num : Type} (array : t num) : ArrayBuffer.t num :=
  {| ArrayBuffer.slots := before array ++ elements array ++ behind array;
     ArrayBuffer.trailing := trailing array |}.

(** [array.length]. *)
Definition length {num : Type} (array : t num) : nat := List.length (elements array).

(** An array that owns a buffer of just its size, as [new
    Float32Array(values)] and [new Float32Array(length)] build it. *)
Definition ofElements {num : Type} (values : list num) : t num :=
  {| before := []; elements := values; behind := []; trailing := 0 |}.

(** [array.subarray(start, stop)] for [start <= stop <= array.length]:
    a view of the same buffer. *)
Definition subarray {num : Type} (array : t num) (start stop : nat) : t num :=
  {| before := before array ++ firstn start (elements array);
     elements := slice (elements array) start stop;
     behind := skipn stop (elements array) ++ behind array;
     trailing := trailing array |}.
End TypedArray.

(** [array.sort(compare)].  [after a b] says [compare(a, b) > 0]: [a]
    must come after [b].  The sort is stable (ECMAScript 2019), so an
    element moves behind a later one only when the comparator says so;
    with a consistent comparator every stable sort returns this list. *)
Section Sort.
Context {A : Type} (after : A -> A -> bool).

Fixpoint sortInsert (x : A) (sorted : list A) : list A :=
  match sorted with
  | [] => [x]
  | y :: rest => if after x y then y :: sortInsert x rest else x :: y :: rest
  end.

Fixpoint jsSort (l : list A) : list A :=
  match l with
  | [] => []
  | x :: rest => sortInsert x (jsSort rest)
  end.
End Sort.

(** ** [Map<string, V>]: insertion-ordered, one entry per key *)

Section JSMap.
Context {V : Type}.

Definition JSMap : Type := list (string * V).

Fixpoint map_get (key : string) (m : JSMap) : option V :=
  match m with
  | [] => None
  | (k, v) :: rest => if String.eqb k key then Some v else map_get key rest
  end.

(** [set] keeps the position of a key that is already present. *)
Fixpoint map_set (key : string) (v : V) (m : JSMap) : JSMap :=
  match m with
  | [] => [(key, v)]
  | (k, v0) :: rest =>
      if String.eqb k key then (k, v) :: rest else (k, v0) :: map_set key v rest
  end.

Definition map_keys (m : JSMap) : list string := map fst m.
End JSMap.

Arguments JSMap V : clear implicits.

(** ** Strings

    A string is held as the bytes of its UTF-8 encoding, which is what
    a string literal of this file denotes; every well-formed JavaScript
    string is one such sequence of bytes.  Emptiness, equality and
    concatenation do not depend on the encoding. *)

(** The white space of ECMAScript ([WhiteSpace] and [LineTerminator]):
    what [String.prototype.trim] removes and what [\s] matches.  In one
    byte the code points 9 to 13 and 32; in two bytes U+00A0 (C2 A0); in
    three bytes U+1680 (E1 9A 80), U+2000 to U+200A (E2 80 80 to
    E2 80 8A), U+2028 and U+2029 (E2 80 A8, E2 80 A9), U+202F
    (E2 80 AF), U+205F (E2 81 9F), U+3000 (E3 80 80) and U+FEFF
    (EF BB BF). *)
Definition isWhiteSpace1 (c1 : ascii) : bool :=
  let n := nat_of_ascii c1 in
  (n =? 32)%nat || ((9 <=? n)%nat && (n <=? 13)%nat).

Definition isWhiteSpace2 (c1 c2 : ascii) : bool :=
  (nat_of_ascii c1 =? 194)%nat && (nat_of_ascii c2 =? 160)%nat.

Definition isWhiteSpace3 (c1 c2 c3 : ascii) : bool :=
  let n1 := nat_of_ascii c1 in
  let n2 := nat_of_ascii c2 in
  let n3 := nat_of_ascii c3 in
  ((n1 =? 225)%nat && (n2 =? 154)%nat && (n3 =? 128)%nat)
  || ((n1 =? 226)%nat && (n2 =? 128)%nat
      && (((128 <=? n3)%nat && (n3 <=? 138)%nat)
          || (n3 =? 168)%nat || (n3 =? 169)%nat || (n3 =? 175)%nat))
  || ((n1 =? 226)%nat && (n2 =? 129)%nat && (n3 =? 159)%nat)
  || ((n1 =? 227)%nat && (n2 =? 128)%nat && (n3 =? 128)%nat)
  || ((n1 =? 239)%nat && (n2 =? 187)%nat && (n3 =? 191)%nat).

(** The bytes [s] without the white space at their head. *)
Fixpoint dropWhiteSpace (s : list ascii) : list ascii :=
  match s with
  | [] => []
  | c1 :: rest1 =>
      if isWhiteSpace1 c1 then dropWhiteSpace rest1
      else
        match rest1 with
        | [] => s
        | c2 :: rest2 =>
            if isWhiteSpace2 c1 c2 then dropWhiteSpace rest2
            else
              match rest2 with
              | [] => s
              | c3 :: rest3 => if isWhiteSpace3 c1 c2 c3 then dropWhiteSpace rest3 else s
              end
        end
  end.

(** The same from the other end: [s] is a text last byte first, and so
    is the result.  A byte sequence that ends a well-formed text and
    spells a character is the last character of the text. *)
Fixpoint dropWhiteSpaceReversed (s : list ascii) : list ascii :=
  match s with
  | [] => []
  | c1 :: rest1 =>
      if isWhiteSpace1 c1 then dropWhiteSpaceReversed rest1
      else
        match rest1 with
        | [] => s
        | c2 :: rest2 =>
            if isWhiteSpace2 c2 c1 then dropWhiteSpaceReversed rest2
            else
              match rest2 with
              | [] => s
              | c3 :: rest3 =>
                  if isWhiteSpace3 c3 c2 c1 then dropWhiteSpaceReversed rest3 else s
              end
        end
  end.

(** [s.trim()]. *)
Definition trim (s : string) : string :=
  string_of_list_ascii
    (rev (dropWhiteSpaceReversed (rev (dropWhiteSpace (list_ascii_of_string s))))).

(** The words read so far, with the run [current] (last byte first)
    closed when it is not empty. *)
Definition closeWord (current : list ascii) (others : list string) : list string :=
  match current with
  | [] => others
  | _ => string_of_list_ascii (rev current) :: others
  end.

(** [s.split(/\s+/).filter(w => w.length > 0)]: the maximal runs of
    characters that are not white space.  [current] is the run being
    read, last byte first. *)
Fixpoint wordsFrom (current : list ascii) (s : list ascii) : list string :=
  match s with
  | [] => closeWord current []
  | c1 :: rest1 =>
      if isWhiteSpace1 c1 then closeWord current (wordsFrom [] rest1)
      else
        match rest1 with
        | [] => wordsFrom (c1 :: current) rest1
        | c2 :: rest2 =>
            if isWhiteSpace2 c1 c2 then closeWord current (wordsFrom [] rest2)
            else
              match rest2 with
              | [] => wordsFrom (c1 :: current) rest1
              | c3 :: rest3 =>
                  if isWhiteSpace3 c1 c2 c3 then closeWord current (wordsFrom [] rest3)
                  else wordsFrom (c1 :: current) rest1
              end
        end
  end.

Definition words (s : string) : list string := wordsFrom [] (list_ascii_of_string s).

(** [s.trim().length === 0]: white space from end to end. *)
Definition isBlank (s : string) : bool :=
  match dropWhiteSpace (list_ascii_of_string s) with
  | [] => true
  | _ :: _ => false
  end.

(* ================================================================== *)
(** * Search types (types/search-types.ts) *)
(* ================================================================== *)

Inductive SearchMethod : Type := fts5 | vector | hybrid | like.

Record Metadata (num : Type) : Type := {
  ftsRank : option Z;
  vectorSimilarity : option num;
  vectorRank : option Z;
  rrfScore : option num;
  cohereScore : option num;
  cohereRank : option Z;
  rerankQuery : option string;
  appliedBoost : option num
}.

Record SearchResult (num : Type) : Type := {
  nodeType : string;
  displayName : string;
  description : string;
  category : string;
  package : string;
  relevanceScore : num;
  searchMethod : SearchMethod;
  metadata : option (Metadata num)
}.

Section ObjectSpread.
Context {num : Type}.

Definition emptyMetadata : Metadata num :=
  {| ftsRank := None; vectorSimilarity := None; vectorRank := None; rrfScore := None;
     cohereScore := None; cohereRank := None; rerankQuery := None; appliedBoost := None |}.

(** [{ ...result.metadata }]: spreading [undefined] gives the empty object. *)
Definition spread (m : option (Metadata num)) : Metadata num :=
  match m with
  | Some fields => fields
  | None => emptyMetadata
  end.

Definition set_ftsRank (m : Metadata num) (v : Z) : Metadata num :=
  {| ftsRank := Some v; vectorSimilarity := vectorSimilarity m; vectorRank := vectorRank m;
     rrfScore := rrfScore m; cohereScore := cohereScore m; cohereRank := cohereRank m;
     rerankQuery := rerankQuery m; appliedBoost := appliedBoost m |}.

Definition set_vectorSimilarity (m : Metadata num) (v : num) : Metadata num :=
  {| ftsRank := ftsRank m; vectorSimilarity := Some v; vectorRank := vectorRank m;
     rrfScore := rrfScore m; cohereScore := cohereScore m; cohereRank := cohereRank m;
     rerankQuery := rerankQuery m; appliedBoost := appliedBoost m |}.

Definition set_vectorRank (m : Metadata num) (v : Z) : Metadata num :=
  {| ftsRank := ftsRank m; vectorSimilarity := vectorSimilarity m; vectorRank := Some v;
     rrfScore := rrfScore m; cohereScore := cohereScore m; cohereRank := cohereRank m;
     rerankQuery := rerankQuery m; appliedBoost := appliedBoost m |}.

Definition set_rrfScore (m : Metadata num) (v : num) : Metadata num :=
  {| ftsRank := ftsRank m; vectorSimilarity := vectorSimilarity m; vectorRank := vectorRank m;
     rrfScore := Some v; cohereScore := cohereScore m; cohereRank := cohereRank m;
     rerankQuery := rerankQuery m; appliedBoost := appliedBoost m |}.

Definition set_cohere (m : Metadata num) (score : num) (rank : Z) (query : string) : Metadata num :=
  {| ftsRank := ftsRank m; vectorSimilarity := vectorSimilarity m; vectorRank := vectorRank m;
     rrfScore := rrfScore m; cohereScore := Some score; cohereRank := Some rank;
     rerankQuery := Some query; appliedBoost := appliedBoost m |}.

(** [{ ...result, searchMethod, metadata }]. *)
Definition set_method_metadata (r : SearchResult num) (method : SearchMethod)
    (m : Metadata num) : SearchResult num :=
  {| nodeType := nodeType r; displayName := displayName r; description := description r;
     category := category r; package := package r; relevanceScore := relevanceScore r;
     searchMethod := method; metadata := Some m |}.

(** [{ ...result, relevanceScore, metadata }]. *)
Definition set_score_metadata (r : SearchResult num) (score : num)
    (m : Metadata num) : SearchResult num :=
  {| nodeType := nodeType r; displayName := displayName r; description := description r;
     category := category r; package := package r; relevanceScore := score;
     searchMethod := searchMethod r; metadata := Some m |}.

(** [{ ...result, relevanceScore, searchMethod, metadata }]. *)
Definition set_score_method_metadata (r : SearchResult num) (score : num)
    (method : SearchMethod) (m : Metadata num) : SearchResult num :=
  {| nodeType := nodeType r; displayName := displayName r; description := description r;
     category := category r; package := package r; relevanceScore := score;
     searchMethod := method; metadata := Some m |}.
End ObjectSpread.

(** [{ ...result, relevanceScore }]. *)
Definition set_relevanceScore {num : Type} (r : SearchResult num) (score : num) : SearchResult num :=
  {| nodeType := nodeType r; displayName := displayName r; description := description r;
     category := category r; package := package r; relevanceScore := score;
     searchMethod := searchMethod r; metadata := metadata r |}.

(** The comparator [(a, b) => b.relevanceScore - a.relevanceScore],
    read as "[a] goes after [b]": its result is positive. *)
Definition byScoreDescending {num} `{Number num} (a b : SearchResult num) : bool :=
  ngtb (nsub (relevanceScore b) (relevanceScore a)) (nofZ 0).

(* ================================================================== *)
(** * Reciprocal rank fusion (search/rrf-fusion.ts) *)
(* ================================================================== *)

Module RRFFusion.
Section WithNumber.
Context {num : Type} `{Number num}.
Local Open Scope num_scope.

Record Weights : Type := { weight_fts5 : num; weight_vector : num }.

Record RRFOptions : Type := { options_k : num; options_weights : option Weights }.

(** The instance: [this.k] and [this.weights]. *)
Record t : Type := { k : num; weights : Weights }.

(** [constructor(options: RRFOptions = { k: 60 })]. *)
Definition new (options : option RRFOptions) : t :=
  let options :=
    match options with
    | Some o => o
    | None => {| options_k := nofZ 60; options_weights := None |}
    end in
  {| k := options_k options;
     weights :=
       match options_weights options with
       | Some w => w
       | None => {| weight_fts5 := nofZ 1; weight_vector := nofZ 1 |}
       end |}.

(** The first loop of [createUnifiedDocumentSet]; [index] is the
    position of [result] in [fts5Results], which is what
    [fts5Results.indexOf(result)] finds when no object occurs twice. *)
Fixpoint addFts5Results (index : nat) (fts5Results : list (SearchResult num))
    (documents : JSMap (SearchResult num)) : JSMap (SearchResult num) :=
  match fts5Results with
  | [] => documents
  | result :: rest =>
      addFts5Results (S index) rest
        (map_set (nodeType result)
           (set_method_metadata result fts5
              (set_ftsRank (spread (metadata result)) (Z.of_nat index + 1)))
           documents)
  end.

(** The second loop of [createUnifiedDocumentSet]. *)
Fixpoint addVectorResults (index : nat) (vectorResults : list (SearchResult num))
    (documents : JSMap (SearchResult num)) : JSMap (SearchResult num) :=
  match vectorResults with
  | [] => documents
  | result :: rest =>
      addVectorResults (S index) rest
        (match map_get (nodeType result) documents with
         | Some existing =>
             map_set (nodeType result)
               (set_method_metadata existing hybrid
                  (set_vectorRank
                     (set_vectorSimilarity (spread (metadata existing)) (relevanceScore result))
                     (Z.of_nat index + 1)))
               documents
         | None =>
             map_set (nodeType result)
               (set_method_metadata result vector
                  (set_vectorRank
                     (set_vectorSimilarity (spread (metadata result)) (relevanceScore result))
                     (Z.of_nat index + 1)))
               documents
         end)
  end.

Definition createUnifiedDocumentSet (fts5Results vectorResults : list (SearchResult num))
    : JSMap (SearchResult num) :=
  addVectorResults 0 vectorResults (addFts5Results 0 fts5Results []).

(** [results.forEach((result, index) => rankings.set(result.nodeType, index + 1))]. *)
Fixpoint setRankings (index : nat) (results : list (SearchResult num))
    (rankings : JSMap Z) : JSMap Z :=
  match results with
  | [] => rankings
  | result :: rest =>
      setRankings (S index) rest (map_set (nodeType result) (Z.of_nat index + 1)%Z rankings)
  end.

(** The body of the scoring loop of [calculateRRFScores]. *)
Definition rrfScoreOf (this : t) (fts5Rankings vectorRankings : JSMap Z)
    (nodeType : string) : num :=
  let rrfScore := nofZ 0 in
  let rrfScore :=
    match map_get nodeType fts5Rankings with
    | Some ftsRank =>
        rrfScore + weight_fts5 (weights this) * (nofZ 1 / (k this + nofZ ftsRank))
    | None => rrfScore
    end in
  let rrfScore :=
    match map_get nodeType vectorRankings with
    | Some vectorRank =>
        rrfScore + weight_vector (weights this) * (nofZ 1 / (k this + nofZ vectorRank))
    | None => rrfScore
    end in
  rrfScore.

Definition calculateRRFScores (this : t) (documents : JSMap (SearchResult num))
    (fts5Results vectorResults : list (SearchResult num)) : JSMap num :=
  let fts5Rankings := setRankings 0 fts5Results [] in
  let vectorRankings := setRankings 0 vectorResults [] in
  fold_left
    (fun rrfScores entry =>
       map_set (fst entry) (rrfScoreOf this fts5Rankings vectorRankings (fst entry)) rrfScores)
    documents [].

Definition createFusedResults (documents : JSMap (SearchResult num))
    (rrfScores : JSMap num) : list (SearchResult num) :=
  map
    (fun entry =>
       let document := snd entry in
       let rrfScore := norElse (map_get (fst entry) rrfScores) (nofZ 0) in
       set_score_metadata document rrfScore (set_rrfScore (spread (metadata document)) rrfScore))
    documents.

(** [fuseResults].  Nothing in the [try] block throws on arrays of
    search results, so the [catch] branch is not reached. *)
Definition fuseResults (this : t) (fts5Results vectorResults : list (SearchResult num))
    : list (SearchResult num) :=
  let allDocuments := createUnifiedDocumentSet fts5Results vectorResults in
  let rrfScores := calculateRRFScores this allDocuments fts5Results vectorResults in
  let fusedResults := createFusedResults allDocuments rrfScores in
  jsSort byScoreDescending fusedResults.

(** What a validation returns. *)
Record Validation : Type := { valid : bool; errors : list string }.

(** [static validateParameters(k, weights)]: each test that holds
    pushes its message. *)
Definition validateParameters (k : num) (weights : Weights) : Validation :=
  let errors := [] in
  let errors :=
    if ngtb (nofZ 1) k then errors ++ ["RRF parameter k must be >= 1"%string] else errors in
  let errors :=
    if ngtb k (nofZ 1000)
    then errors ++ ["RRF parameter k should be <= 1000 for practical use"%string] else errors in
  let errors :=
    if ngtb (nofZ 0) (weight_fts5 weights) || ngtb (nofZ 0) (weight_vector weights)
    then errors ++ ["RRF weights must be non-negative"%string] else errors in
  let errors :=
    if neqb (weight_fts5 weights + weight_vector weights) (nofZ 0)
    then errors ++ ["At least one RRF weight must be > 0"%string] else errors in
  {| valid := (List.length errors =? 0)%nat; errors := errors |}.

(** [updateParameters(k, weights?)]: the instance after the call, or
    the exception of a failed validation. *)
Definition updateParameters (this : t) (k' : num) (weights' : option Weights) : Outcome t :=
  let validation :=
    validateParameters k' (match weights' with Some w => w | None => weights this end) in
  if negb (valid validation) then
    Throw (String.append "Invalid RRF parameters: " (String.concat ", " (errors validation)))
  else
    Ok {| k := k';
          weights := match weights' with Some w => w | None => weights this end |}.

(** [getParameters()]. *)
Definition getParameters (this : t) : num * Weights := (k this, weights this).

(** [static normalizeScores(results)]. *)
Definition normalizeScores (results : list (SearchResult num)) : list (SearchResult num) :=
  match map (@relevanceScore num) results with
  | [] => results
  | first :: rest =>
      let minScore := mathMin first rest in
      let maxScore := mathMax first rest in
      let scoreRange := maxScore - minScore in
      if neqb scoreRange (nofZ 0) then
        map (fun r => set_relevanceScore r (nofZ 1)) results
      else
        map (fun r => set_relevanceScore r ((relevanceScore r - minScore) / scoreRange)) results
  end.
End WithNumber.

(** [static getOptimalK(fts5Count, vectorCount)], on integer counts. *)
Definition getOptimalK (fts5Count vectorCount : Z) : Z :=
  let totalResults := (fts5Count + vectorCount)%Z in
  if (totalResults <? 10)%Z then 30%Z
  else if (totalResults <? 50)%Z then 60%Z
  else 90%Z.
End RRFFusion.

Arguments RRFFusion.t num : clear implicits.
Arguments RRFFusion.Weights num : clear implicits.
Arguments RRFFusion.RRFOptions num : clear implicits.

(* ================================================================== *)
(** * The document store (database/database-adapter.ts, SQLite) *)
(* ================================================================== *)

(** SQL's three-valued logic, as far as the queries use it.  A column
    is [None] when it is NULL; a comparison with NULL is unknown. *)
Definition sqlIsNull {A : Type} (x : option A) : option bool :=
  Some match x with Some _ => false | None => true end.

(** [column IS NOT NULL], which is never unknown. *)
Definition isNotNull {A : Type} (x : option A) : bool :=
  match x with Some _ => true | None => false end.

Definition sqlLt (x y : option Z) : option bool :=
  match x, y with
  | Some a, Some b => Some (a <? b)%Z
  | _, _ => None
  end.

Definition sqlOr (p q : option bool) : option bool :=
  match p, q with
  | Some true, _ | _, Some true => Some true
  | Some false, Some false => Some false
  | _, _ => None
  end.

(** [WHERE condition] keeps the rows whose condition is true. *)
Definition sqlWhere {A : Type} (condition : A -> option bool) (rows : list A) : list A :=
  filter (fun row => match condition row with Some true => true | _ => false end) rows.

(** [LIMIT n]: a negative [n] sets no limit. *)
Definition sqlLimit {A : Type} (rows : list A) (n : Z) : list A :=
  if (n <? 0)%Z then rows else firstn (Z.to_nat n) rows.

(** A row of [nodes], with the columns the search core reads and
    writes.  Time stamps are seconds on the database clock. *)
Module Node.
Record Row (num : Type) : Type := {
  node_type : string;
  display_name : string;
  description : option string;
  category : option string;
  package_name : string;
  documentation : option string;
  operations : option string;
  updated_at : option Z;
  embedding_vector : option (ArrayBuffer.t num);
  embedding_content_hash : option string;
  embedding_generated_at : option Z;
  embedding_model : option string;
  embedding_dimensions : option Z
}.
End Node.

(** A row of [templates]. *)
Module Template.
Record Row (num : Type) : Type := {
  id : Z;
  workflow_id : Z;
  name : string;
  description : option string;
  categories : option string;
  nodes_used : option string;
  updated_at : option Z;
  embedding_vector : option (ArrayBuffer.t num);
  embedding_content_hash : option string;
  embedding_generated_at : option Z;
  embedding_model : option string;
  embedding_dimensions : option Z
}.
End Template.

(** The database: its two tables, whether the embedding columns exist
    (a statement naming a missing column throws), the clock behind
    [CURRENT_TIMESTAMP], and the FTS5 table [nodes_fts] when there is
    one.  The table is SQLite's: for a MATCH expression it gives the
    matching rows of [nodes] in the order [ORDER BY rank, display_name],
    or the statement throws (a MATCH expression can be ill-formed). *)
Record DatabaseAdapter (num : Type) : Type := {
  nodes : list (Node.Row num);
  templates : list (Template.Row num);
  embeddingColumns : bool;
  CURRENT_TIMESTAMP : Z;
  nodes_fts : option (string -> Outcome (list (Node.Row num)))
}.

(** [value || ''] on a nullable text column. *)
Definition orEmpty (value : option string) : string :=
  match value with
  | Some text => text
  | None => EmptyString
  end.

(* ================================================================== *)
(** * The vector repository (search/vector-repository.ts) *)
(* ================================================================== *)

Module VectorRepository.
Section WithNumber.
Context {num : Type} `{Number num}.
Local Open Scope num_scope.

(** A [Float32Array] of which only the elements are read, by the
    values of its elements. *)
Definition Float32Array : Type := list num.

Record VectorSearchOptions : Type := {
  queryVector : Float32Array;
  limit : Z;
  threshold : option num;
  includeDistances : option bool
}.

(** The loop of [calculateCosineSimilarity], on two arrays of the same
    length. *)
Fixpoint accumulate (a b : Float32Array) (dotProduct normA normB : num) : num * num * num :=
  match a, b with
  | ai :: a', bi :: b' =>
      accumulate a' b' (dotProduct + ai * bi) (normA + ai * ai) (normB + bi * bi)
  | _, _ => (dotProduct, normA, normB)
  end.

Definition calculateCosineSimilarity (a b : Float32Array) : Outcome num :=
  if negb (List.length a =? List.length b)%nat then
    Throw "Vectors must have the same length"
  else
    let '(dotProduct, normA, normB) := accumulate a b (nofZ 0) (nofZ 0) (nofZ 0) in
    let similarity := dotProduct / (nsqrt normA * nsqrt normB) in
    Ok (if nisNaN similarity then nofZ 0 else similarity).

(** The first two statements of the [try] in the loops of
    [findSimilarNodes] and [findSimilarTemplates]: [new
    Float32Array(node.embedding_vector.buffer)], the buffer being the
    stored bytes, and the similarity of the query with it. *)
Definition similarityWith (queryVector : Float32Array) (stored : ArrayBuffer.t num)
    : Outcome num :=
  bind (ArrayBuffer.asFloat32Array stored)
    (fun nodeEmbedding => calculateCosineSimilarity queryVector nodeEmbedding).

(** The scan shared by [findSimilarNodes] and [findSimilarTemplates]:
    a row whose similarity cannot be computed is skipped, a row below
    the threshold is dropped. *)
Definition scan {Row : Type} (embedding : Row -> option (ArrayBuffer.t num))
    (queryVector : Float32Array) (threshold : num) (rows : list Row) : list (Row * num) :=
  flat_map
    (fun row =>
       match embedding row with
       | Some stored =>
           match similarityWith queryVector stored with
           | Ok similarity => if ngeb similarity threshold then [(row, similarity)] else []
           | Throw _ => []
           end
       | None => []
       end)
    rows.

(** [(a, b) => b.similarity - a.similarity], read as "[a] after [b]". *)
Definition bySimilarityDescending {Row : Type} (a b : Row * num) : bool :=
  ngtb (snd b - snd a) (nofZ 0).

Definition vectorMetadata (includeDistances : bool) (similarity : num) : option (Metadata num) :=
  if includeDistances then Some (set_vectorSimilarity emptyMetadata similarity) else None.

Definition nodeResult (includeDistances : bool) (entry : Node.Row num * num) : SearchResult num :=
  let (node, similarity) := entry in
  {| nodeType := Node.node_type node;
     displayName := Node.display_name node;
     description := orEmpty (Node.description node);
     category := orEmpty (Node.category node);
     package := Node.package_name node;
     relevanceScore := similarity;
     searchMethod := vector;
     metadata := vectorMetadata includeDistances similarity |}.

(** [SELECT ... FROM nodes WHERE embedding_vector IS NOT NULL]. *)
Definition selectNodesWithEmbeddings (db : DatabaseAdapter num) : Outcome (list (Node.Row num)) :=
  if embeddingColumns db then
    Ok (filter (fun row => isNotNull (Node.embedding_vector row)) (nodes db))
  else Throw "no such column: embedding_vector".

Definition findSimilarNodes (db : DatabaseAdapter num) (queryVector : Float32Array)
    (options : VectorSearchOptions) : list (SearchResult num) :=
  let limit := limit options in
  let threshold := match threshold options with Some t => t | None => ndecimal 5 10 end in
  let includeDistances := match includeDistances options with Some b => b | None => false end in
  match selectNodesWithEmbeddings db with
  | Ok nodesWithEmbeddings =>
      let similarities := scan (@Node.embedding_vector num) queryVector threshold nodesWithEmbeddings in
      let topResults := sliceTo (jsSort bySimilarityDescending similarities) limit in
      map (nodeResult includeDistances) topResults
  | Throw _ => []
  end.

(** The decimal spelling of an integer, for [`template:${template.id}`]. *)
Definition decimal (z : Z) : string := NilZero.string_of_int (Z.to_int z).

Definition templateResult (includeDistances : bool) (entry : Template.Row num * num)
    : SearchResult num :=
  let (template, similarity) := entry in
  {| nodeType := String.append "template:" (decimal (Template.id template));
     displayName := Template.name template;
     description := orEmpty (Template.description template);
     category := "template";
     package := "n8n-templates";
     relevanceScore := similarity;
     searchMethod := vector;
     metadata := vectorMetadata includeDistances similarity |}.

Definition selectTemplatesWithEmbeddings (db : DatabaseAdapter num)
    : Outcome (list (Template.Row num)) :=
  if embeddingColumns db then
    Ok (filter (fun row => isNotNull (Template.embedding_vector row)) (templates db))
  else Throw "no such column: embedding_vector".

Definition findSimilarTemplates (db : DatabaseAdapter num) (queryVector : Float32Array)
    (options : VectorSearchOptions) : list (SearchResult num) :=
  let limit := limit options in
  let threshold := match threshold options with Some t => t | None => ndecimal 5 10 end in
  let includeDistances := match includeDistances options with Some b => b | None => false end in
  match selectTemplatesWithEmbeddings db with
  | Ok templatesWithEmbeddings =>
      let similarities :=
        scan (@Template.embedding_vector num) queryVector threshold templatesWithEmbeddings in
      let topResults := sliceTo (jsSort bySimilarityDescending similarities) limit in
      map (templateResult includeDistances) topResults
  | Throw _ => []
  end.

(** [WHERE embedding_vector IS NULL OR embedding_content_hash IS NULL
           OR embedding_generated_at < updated_at]. *)
Definition nodeNeedsEmbedding (row : Node.Row num) : option bool :=
  sqlOr (sqlOr (sqlIsNull (Node.embedding_vector row)) (sqlIsNull (Node.embedding_content_hash row)))
        (sqlLt (Node.embedding_generated_at row) (Node.updated_at row)).

(** The rows [getNodesNeedingEmbeddings] returns; each carries its
    stored hash as [current_hash]. *)
Definition getNodesNeedingEmbeddings (db : DatabaseAdapter num) : list (Node.Row num) :=
  if embeddingColumns db then sqlWhere nodeNeedsEmbedding (nodes db) else [].

Definition templateNeedsEmbedding (row : Template.Row num) : option bool :=
  sqlOr (sqlOr (sqlIsNull (Template.embedding_vector row))
               (sqlIsNull (Template.embedding_content_hash row)))
        (sqlLt (Template.embedding_generated_at row) (Template.updated_at row)).

Definition getTemplatesNeedingEmbeddings (db : DatabaseAdapter num) : list (Template.Row num) :=
  if embeddingColumns db then sqlWhere templateNeedsEmbedding (templates db) else [].

(** [UPDATE nodes SET embedding_vector = ?, embedding_content_hash = ?,
    embedding_generated_at = CURRENT_TIMESTAMP, embedding_model = ?,
    embedding_dimensions = ? WHERE node_type = ?], on one row, run with
    [Buffer.from(embedding.buffer)] and [embedding.length]: the bytes
    stored are those of the whole buffer of the array. *)
Definition updateNode (now : Z) (nodeType : string) (embedding : TypedArray.t num)
    (contentHash model : string) (row : Node.Row num) : Node.Row num :=
  if String.eqb (Node.node_type row) nodeType then
    {| Node.node_type := Node.node_type row;
       Node.display_name := Node.display_name row;
       Node.description := Node.description row;
       Node.category := Node.category row;
       Node.package_name := Node.package_name row;
       Node.documentation := Node.documentation row;
       Node.operations := Node.operations row;
       Node.updated_at := Node.updated_at row;
       Node.embedding_vector := Some (TypedArray.buffer embedding);
       Node.embedding_content_hash := Some contentHash;
       Node.embedding_generated_at := Some now;
       Node.embedding_model := Some model;
       Node.embedding_dimensions := Some (Z.of_nat (TypedArray.length embedding)) |}
  else row.

(** [saveEmbedding]: the database after the statement ran, or the
    exception of a statement that names a missing column. *)
Definition saveEmbedding (db : DatabaseAdapter num) (nodeType : string)
    (embedding : TypedArray.t num) (contentHash : string) (model : option string)
    : Outcome (DatabaseAdapter num) :=
  let model := match model with Some m => m | None => "text-embedding-3-small"%string end in
  if embeddingColumns db then
    Ok {| nodes := map (updateNode (CURRENT_TIMESTAMP db) nodeType embedding contentHash model) (nodes db);
          templates := templates db;
          embeddingColumns := embeddingColumns db;
          CURRENT_TIMESTAMP := CURRENT_TIMESTAMP db;
          nodes_fts := nodes_fts db |}
  else Throw "no such column: embedding_vector".

Definition updateTemplate (now : Z) (templateId : Z) (embedding : TypedArray.t num)
    (contentHash model : string) (row : Template.Row num) : Template.Row num :=
  if (Template.id row =? templateId)%Z then
    {| Template.id := Template.id row;
       Template.workflow_id := Template.workflow_id row;
       Template.name := Template.name row;
       Template.description := Template.description row;
       Template.categories := Template.categories row;
       Template.nodes_used := Template.nodes_used row;
       Template.updated_at := Template.updated_at row;
       Template.embedding_vector := Some (TypedArray.buffer embedding);
       Template.embedding_content_hash := Some contentHash;
       Template.embedding_generated_at := Some now;
       Template.embedding_model := Some model;
       Template.embedding_dimensions := Some (Z.of_nat (TypedArray.length embedding)) |}
  else row.

Definition saveTemplateEmbedding (db : DatabaseAdapter num) (templateId : Z)
    (embedding : TypedArray.t num) (contentHash : string) (model : option string)
    : Outcome (DatabaseAdapter num) :=
  let model := match model with Some m => m | None => "text-embedding-3-small"%string end in
  if embeddingColumns db then
    Ok {| nodes := nodes db;
          templates := map (updateTemplate (CURRENT_TIMESTAMP db) templateId embedding contentHash model)
                         (templates db);
          embeddingColumns := embeddingColumns db;
          CURRENT_TIMESTAMP := CURRENT_TIMESTAMP db;
          nodes_fts := nodes_fts db |}
  else Throw "no such column: embedding_vector".

(** [getEmbedding]: [stmt.get] gives the first row of
    [SELECT ... WHERE node_type = ? AND embedding_vector IS NOT NULL],
    and the answer is [new Float32Array(row.embedding_vector.buffer)],
    the buffer being the stored bytes; whatever throws inside the [try]
    is answered with [null]. *)
Definition getEmbedding (db : DatabaseAdapter num) (nodeType : string) : option Float32Array :=
  if embeddingColumns db then
    match find (fun row => String.eqb (Node.node_type row) nodeType
                           && isNotNull (Node.embedding_vector row)) (nodes db) with
    | Some row =>
        match Node.embedding_vector row with
        | Some stored =>
            match ArrayBuffer.asFloat32Array stored with
            | Ok embedding => Some embedding
            | Throw _ => None
            end
        | None => None
        end
    | None => None
    end
  else None.

(** [UPDATE nodes SET embedding_vector = NULL, embedding_content_hash =
    NULL, embedding_generated_at = NULL, embedding_model = NULL,
    embedding_dimensions = NULL WHERE node_type = ?], on one row. *)
Definition clearNode (nodeType : string) (row : Node.Row num) : Node.Row num :=
  if String.eqb (Node.node_type row) nodeType then
    {| Node.node_type := Node.node_type row;
       Node.display_name := Node.display_name row;
       Node.description := Node.description row;
       Node.category := Node.category row;
       Node.package_name := Node.package_name row;
       Node.documentation := Node.documentation row;
       Node.operations := Node.operations row;
       Node.updated_at := Node.updated_at row;
       Node.embedding_vector := None;
       Node.embedding_content_hash := None;
       Node.embedding_generated_at := None;
       Node.embedding_model := None;
       Node.embedding_dimensions := None |}
  else row.

Definition deleteEmbedding (db : DatabaseAdapter num) (nodeType : string)
    : Outcome (DatabaseAdapter num) :=
  if embeddingColumns db then
    Ok {| nodes := map (clearNode nodeType) (nodes db);
          templates := templates db;
          embeddingColumns := embeddingColumns db;
          CURRENT_TIMESTAMP := CURRENT_TIMESTAMP db;
          nodes_fts := nodes_fts db |}
  else Throw "no such column: embedding_vector".

Definition clearTemplate (templateId : Z) (row : Template.Row num) : Template.Row num :=
  if (Template.id row =? templateId)%Z then
    {| Template.id := Template.id row;
       Template.workflow_id := Template.workflow_id row;
       Template.name := Template.name row;
       Template.description := Template.description row;
       Template.categories := Template.categories row;
       Template.nodes_used := Template.nodes_used row;
       Template.updated_at := Template.updated_at row;
       Template.embedding_vector := None;
       Template.embedding_content_hash := None;
       Template.embedding_generated_at := None;
       Template.embedding_model := None;
       Template.embedding_dimensions := None |}
  else row.

Definition deleteTemplateEmbedding (db : DatabaseAdapter num) (templateId : Z)
    : Outcome (DatabaseAdapter num) :=
  if embeddingColumns db then
    Ok {| nodes := nodes db;
          templates := map (clearTemplate templateId) (templates db);
          embeddingColumns := embeddingColumns db;
          CURRENT_TIMESTAMP := CURRENT_TIMESTAMP db;
          nodes_fts := nodes_fts db |}
  else Throw "no such column: embedding_vector".

(** [isVectorStorageReady]: the three embedding columns exist. *)
Definition isVectorStorageReady (db : DatabaseAdapter num) : bool := embeddingColumns db.
End WithNumber.
End VectorRepository.

Arguments VectorRepository.VectorSearchOptions num : clear implicits.

(* ================================================================== *)
(** * The embedding service (search/embedding-service.ts) *)
(* ================================================================== *)

(** One entry of [response.data]. *)
Module EmbeddingItem.
Record t (num : Type) : Type := {
  embedding : list num;
  index : Z
}.
End EmbeddingItem.

Module EmbeddingService.
Section WithNumber.
Context {num : Type} `{Number num}.
Local Open Scope num_scope.

(** [crypto.createHash('sha256').update(content).digest('hex')]. *)
Variable sha256 : string -> string.

(** The argument of [openai.embeddings.create] ([encoding_format] is
    always ['float']). *)
Record CreateRequest : Type := {
  request_model : string;
  input : list string;
  request_dimensions : Z
}.

(** The value it resolves with, as far as the code reads it. *)
Record CreateResponse : Type := {
  data : list (EmbeddingItem.t num);
  total_tokens : num                       (* [usage.total_tokens] *)
}.

(** What surrounds the service: the environment variable, whether
    [import('openai')] succeeds, the remote service and the clock.  The
    remote service is asked with a request and the number of calls made
    before it. *)
Record Environment : Type := {
  OPENAI_API_KEY : option string;
  importOpenAI : bool;
  embeddingsCreate : CreateRequest -> nat -> Outcome CreateResponse;
  now : Z                                  (* [Date.now()] *)
}.

Record CacheEntry : Type := {
  cached_embedding : list num;
  timestamp : Z
}.

(** The instance.  [batchSize] is a positive integer: the constructor
    replaces 0, and [createBatches] does not end on 0. *)
Record t : Type := {
  openai : bool;                           (* [this.openai !== null] *)
  batchSize : positive;
  model : string;
  dimensions : Z;
  maxRetries : nat;
  cache : JSMap CacheEntry;
  cacheTTL : Z
}.

(** [config.openai], as far as the constructor reads it. *)
Record OpenAIConfig : Type := {
  config_model : string;
  config_batchSize : N;
  config_maxRetries : nat
}.

(** [constructor(config?)]: [x || default] replaces 0 and ['']. *)
Definition new (config : option OpenAIConfig) : t :=
  {| openai := false;
     batchSize :=
       match config with
       | Some c => match config_batchSize c with Npos p => p | N0 => 100%positive end
       | None => 100%positive
       end;
     model :=
       match config with
       | Some c => match config_model c with EmptyString => "text-embedding-3-small"%string | m => m end
       | None => "text-embedding-3-small"%string
       end;
     dimensions := 1536;
     maxRetries :=
       match config with
       | Some c => match config_maxRetries c with O => 3 | n => n end
       | None => 3
       end;
     cache := [];
     cacheTTL := 24 * 60 * 60 * 1000 |}.

Definition withClient (this : t) : t :=
  {| openai := true; batchSize := batchSize this; model := model this;
     dimensions := dimensions this; maxRetries := maxRetries this; cache := cache this;
     cacheTTL := cacheTTL this |}.

Definition withCache (this : t) (cache' : JSMap CacheEntry) : t :=
  {| openai := openai this; batchSize := batchSize this; model := model this;
     dimensions := dimensions this; maxRetries := maxRetries this; cache := cache';
     cacheTTL := cacheTTL this |}.

(** [!apiKey]. *)
Definition missing (apiKey : option string) : bool :=
  match apiKey with
  | Some EmptyString | None => true
  | Some _ => false
  end.

Definition initializeOpenAI (env : Environment) (this : t) : Outcome t :=
  if openai this then Ok this
  else if missing (OPENAI_API_KEY env) then
    Throw "OPENAI_API_KEY environment variable is required"
  else if importOpenAI env then Ok (withClient this)
  else Throw "Failed to initialize OpenAI client. Make sure openai package is installed.".

(** A computation that calls the remote service: it starts from the
    requests sent so far and ends with its outcome and the requests sent
    by then. *)
Definition Calls (A : Type) : Type := list CreateRequest -> Outcome A * list CreateRequest.

Definition ret {A : Type} (a : A) : Calls A := fun sent => (Ok a, sent).

Definition raise {A : Type} (msg : string) : Calls A := fun sent => (Throw msg, sent).

Definition andThen {A B : Type} (m : Calls A) (f : A -> Calls B) : Calls B :=
  fun sent =>
    match m sent with
    | (Ok a, sent') => f a sent'
    | (Throw msg, sent') => (Throw msg, sent')
    end.

Definition orElse {A : Type} (m : Calls A) (handler : string -> Calls A) : Calls A :=
  fun sent =>
    match m sent with
    | (Ok a, sent') => (Ok a, sent')
    | (Throw msg, sent') => handler msg sent'
    end.

(** [await this.openai.embeddings.create(request)]. *)
Definition create (env : Environment) (request : CreateRequest) : Calls CreateResponse :=
  fun sent => (embeddingsCreate env request (List.length sent), sent ++ [request]).

Record BatchEmbeddingResult : Type := {
  embeddings : list (list num);            (* [Float32Array[]] *)
  totalTokens : num;
  totalCost : num
}.

Record EmbeddingResult : Type := {
  embedding : list num;
  tokenCount : num;
  cost : num
}.

(** [costPerToken = 0.00002 / 1000]. *)
Definition costPerToken : num := ndecimal 2 100000 / nofZ 1000.

(** [(a, b) => a.index - b.index], read as "[a] after [b]"; the
    indices are integers. *)
Definition byIndex (a b : EmbeddingItem.t num) : bool :=
  (EmbeddingItem.index a - EmbeddingItem.index b >? 0)%Z.

(** [new Float32Array(item.embedding)]. *)
Definition toFloat32Array (values : list num) : list num := map nfround values.

(** The body of the [try] in [processBatch], after the call returned. *)
Definition batchResult (response : CreateResponse) : BatchEmbeddingResult :=
  let embeddings :=
    map (fun item => toFloat32Array (EmbeddingItem.embedding item)) (jsSort byIndex (data response)) in
  let totalTokens := total_tokens response in
  {| embeddings := embeddings; totalTokens := totalTokens;
     totalCost := totalTokens * costPerToken |}.

(** The [while (attempt < this.maxRetries)] loop of [processBatch],
    [remaining] being [this.maxRetries - attempt]. *)
Fixpoint retryBatch (env : Environment) (this : t) (texts : list string) (remaining : nat)
    : Calls BatchEmbeddingResult :=
  match remaining with
  | O => raise "Failed to process batch after this.maxRetries attempts"
  | S remaining' =>
      orElse
        (if negb (openai this) then raise "OpenAI client not initialized"
         else
           andThen
             (create env {| request_model := model this; input := texts;
                            request_dimensions := dimensions this |})
             (fun response => ret (batchResult response)))
        (fun _ => retryBatch env this texts remaining')
  end.

Definition processBatch (env : Environment) (this : t) (texts : list string)
    : Calls BatchEmbeddingResult :=
  retryBatch env this texts (maxRetries this).

(** The loop of [createBatches]; [fuel] bounds its iterations, and
    [List.length texts] of them are enough since [i] grows by a positive
    [batchSize] each time. *)
Fixpoint batchesFrom (fuel i : nat) (texts : list string) (batchSize : nat) : list (list string) :=
  match fuel with
  | O => []
  | S fuel' =>
      if (i <? List.length texts)%nat
      then slice texts i (i + batchSize) :: batchesFrom fuel' (i + batchSize) texts batchSize
      else []
  end.

Definition createBatches (texts : list string) (batchSize : positive) : list (list string) :=
  batchesFrom (List.length texts) 0 texts (Pos.to_nat batchSize).

(** The [for] loop of [generateEmbeddings] over the batches, with the
    three accumulators. *)
Fixpoint processBatches (env : Environment) (this : t) (batches : list (list string))
    (acc : BatchEmbeddingResult) : Calls BatchEmbeddingResult :=
  match batches with
  | [] => ret acc
  | batch :: rest =>
      andThen (processBatch env this batch) (fun result =>
        processBatches env this rest
          {| embeddings := embeddings acc ++ embeddings result;
             totalTokens := totalTokens acc + totalTokens result;
             totalCost := totalCost acc + totalCost result |})
  end.

Definition emptyResult : BatchEmbeddingResult :=
  {| embeddings := []; totalTokens := nofZ 0; totalCost := nofZ 0 |}.

Definition generateEmbeddings (env : Environment) (this : t) (texts : list string)
    : Calls BatchEmbeddingResult :=
  if (List.length texts =? 0)%nat then ret emptyResult
  else
    match initializeOpenAI env this with
    | Throw msg => raise msg
    | Ok this =>
        let batches := createBatches texts (batchSize this) in
        processBatches env this batches emptyResult
    end.

Definition generateContentHash (content : string) : string := sha256 content.

(** [getEmbedding]: the result and the instance with its cache as the
    call leaves it. *)
Definition getEmbedding (env : Environment) (this : t) (text : string)
    : Calls (EmbeddingResult * t) :=
  let contentHash := generateContentHash text in
  let cached := map_get contentHash (cache this) in
  let hit :=
    match cached with
    | Some entry => if (now env - timestamp entry <? cacheTTL this)%Z then Some entry else None
    | None => None
    end in
  match hit with
  | Some entry =>
      ret ({| embedding := cached_embedding entry; tokenCount := nofZ 0; cost := nofZ 0 |}, this)
  | None =>
      andThen (generateEmbeddings env this [text]) (fun batchResult =>
        match embeddings batchResult with
        | [] => raise "Failed to generate embedding"
        | embedding :: _ =>
            ret ({| embedding := embedding; tokenCount := totalTokens batchResult;
                    cost := totalCost batchResult |},
                 withCache this
                   (map_set contentHash {| cached_embedding := embedding; timestamp := now env |}
                      (cache this)))
        end)
  end.

Definition clearCache (this : t) : t := withCache this [].

Definition isAvailable (env : Environment) (this : t) : bool :=
  match initializeOpenAI env this with
  | Ok _ => true
  | Throw _ => false
  end.
End WithNumber.
End EmbeddingService.

Arguments EmbeddingService.Environment num : clear implicits.
Arguments EmbeddingService.t num : clear implicits.
Arguments EmbeddingService.CreateResponse num : clear implicits.
Arguments EmbeddingService.BatchEmbeddingResult num : clear implicits.
Arguments EmbeddingService.EmbeddingResult num : clear implicits.
Arguments EmbeddingService.Calls A : clear implicits.

(* ================================================================== *)
(** * The Cohere reranker (search/cohere-reranker.ts) *)
(* ================================================================== *)

(** One entry of [response.results]. *)
Module RerankItem.
Record t (num : Type) : Type := {
  index : option Z;                (* [None]: the entry has no index *)
  relevanceScore : option num;     (* the property of the new SDK *)
  relevance_score : option num     (* the property of the old SDK *)
}.
End RerankItem.

Module CohereReranker.
Section WithNumber.
Context {num : Type} `{Number num}.

Record CohereRerankOptions : Type := {
  options_model : string;
  topN : Z;
  returnDocuments : option bool;
  maxChunksPerDoc : option Z
}.

(** The argument of [client.rerank]. *)
Record RerankRequest : Type := {
  request_model : string;
  request_query : string;
  request_documents : list string;
  top_n : Z;
  max_chunks_per_doc : option Z;
  return_documents : option bool
}.

(** The value [client.rerank] resolves with, as far as the code reads
    it; [results] is [None] when the property is missing. *)
Record RerankResponse : Type := { results : option (list (RerankItem.t num)) }.

(** What surrounds the reranker: the environment variable, whether
    [import('cohere-ai')] succeeds, and the remote service.  The service
    is asked with a request and the number of failed attempts before
    it; it rejects, or resolves with a response or with [undefined]. *)
Record Environment : Type := {
  COHERE_API_KEY : option string;
  importCohere : bool;
  rerankEndpoint : RerankRequest -> nat -> Outcome (option RerankResponse)
}.

(** The instance: whether [this.client] is set, and the configuration. *)
Record t : Type := {
  client : bool;
  model : string;
  maxDocuments : nat;
  maxRetries : nat
}.

(** [constructor(model = 'rerank-multilingual-v3.0', maxDocuments = 1000,
    maxRetries = 3)]. *)
Definition new (model : option string) (maxDocuments maxRetries : option nat) : t :=
  {| client := false;
     model := match model with Some m => m | None => "rerank-multilingual-v3.0"%string end;
     maxDocuments := match maxDocuments with Some n => n | None => 1000 end;
     maxRetries := match maxRetries with Some n => n | None => 3 end |}.

Definition withClient (this : t) : t :=
  {| client := true; model := model this; maxDocuments := maxDocuments this;
     maxRetries := maxRetries this |}.

(** [!apiKey]: the variable is unset or empty. *)
Definition missing (apiKey : option string) : bool :=
  match apiKey with
  | Some EmptyString | None => true
  | Some _ => false
  end.

(** [initializeCohere]: the instance once the call returned. *)
Definition initializeCohere (env : Environment) (this : t) : Outcome t :=
  if client this then Ok this
  else if missing (COHERE_API_KEY env) then
    Throw "COHERE_API_KEY environment variable is required"
  else if importCohere env then Ok (withClient this)
  else Throw "Failed to initialize Cohere client. Make sure cohere-ai package is installed.".

(** [text.replace(/^prefix/, '')]. *)
Definition stripPrefix (prefix text : string) : string :=
  if String.prefix prefix text
  then String.substring (String.length prefix) (String.length text - String.length prefix) text
  else text.

Definition prepareDocuments (documents : list (SearchResult num)) : list string :=
  map
    (fun doc =>
       let parts :=
         filter (fun part => negb (isBlank part))
           [displayName doc; description doc; category doc;
            stripPrefix "nodes-langchain." (stripPrefix "nodes-base." (nodeType doc))] in
       String.concat " | " parts)
    documents.

(** [a ?? b ?? 0]. *)
Definition coalesce (a b : option num) : num :=
  match a, b with
  | Some v, _ => v
  | None, Some v => v
  | None, None => nofZ 0
  end.

(** The loop of [processRerankResponse]: an entry whose index names no
    document is skipped. *)
Fixpoint collectReranked (items : list (RerankItem.t num))
    (originalDocuments : list (SearchResult num)) (query : string)
    (rerankedResults : list (SearchResult num)) : list (SearchResult num) :=
  match items with
  | [] => rerankedResults
  | result :: rest =>
      match at_property originalDocuments (RerankItem.index result) with
      | Some originalDocument =>
          let relevanceScore :=
            coalesce (RerankItem.relevanceScore result) (RerankItem.relevance_score result) in
          collectReranked rest originalDocuments query
            (rerankedResults ++
             [set_score_method_metadata originalDocument relevanceScore hybrid
                (set_cohere (spread (metadata originalDocument)) relevanceScore
                   (Z.of_nat (List.length rerankedResults) + 1) query)])
      | None => collectReranked rest originalDocuments query rerankedResults
      end
  end.

(** [processRerankResponse]; reading [results] off [undefined] throws. *)
Definition processRerankResponse (response : option RerankResponse)
    (originalDocuments : list (SearchResult num)) (query : string)
    : Outcome (list (SearchResult num)) :=
  match response with
  | None => Throw "TypeError: Cannot read properties of undefined (reading 'results')"
  | Some response =>
      match results response with
      | None | Some [] => Ok originalDocuments
      | Some items => Ok (collectReranked items originalDocuments query [])
      end
  end.

(** The [while (attempt < this.maxRetries)] loop, [remaining] being
    [this.maxRetries - attempt]. *)
Fixpoint retryRerank (env : Environment) (request : RerankRequest)
    (originalDocuments : list (SearchResult num)) (query : string)
    (remaining attempt : nat) : Outcome (list (SearchResult num)) :=
  match remaining with
  | O => Throw "Cohere reranking failed after this.maxRetries attempts"
  | S remaining' =>
      tryCatch
        (bind (rerankEndpoint env request attempt)
           (fun response => processRerankResponse response originalDocuments query))
        (fun _ => retryRerank env request originalDocuments query remaining' (S attempt))
  end.

Definition rerankWithRetries (env : Environment) (this : t) (query : string)
    (cohereDocuments : list string) (originalDocuments : list (SearchResult num))
    (options : CohereRerankOptions) : Outcome (list (SearchResult num)) :=
  retryRerank env
    {| request_model := options_model options;
       request_query := query;
       request_documents := cohereDocuments;
       top_n := topN options;
       max_chunks_per_doc := maxChunksPerDoc options;
       return_documents := returnDocuments options |}
    originalDocuments query (maxRetries this) 0.

Definition rerank (env : Environment) (this : t) (query : string)
    (documents : list (SearchResult num)) (options : option CohereRerankOptions)
    : Outcome (list (SearchResult num)) :=
  let options :=
    match options with
    | Some o => o
    | None => {| options_model := model this; topN := 20; returnDocuments := Some false;
                 maxChunksPerDoc := Some 10%Z |}
    end in
  if (List.length documents =? 0)%nat || isBlank query then Ok documents
  else
    let limitedDocuments :=
      firstn (Nat.min (List.length documents) (maxDocuments this)) documents in
    tryCatch
      (bind (initializeCohere env this) (fun this =>
         if negb (client this) then Ok documents
         else
           let cohereDocuments := prepareDocuments limitedDocuments in
           bind (rerankWithRetries env this query cohereDocuments limitedDocuments options)
             (fun rerankedResults =>
                let remainingDocuments := sliceFrom documents (maxDocuments this) in
                Ok (rerankedResults ++ remainingDocuments))))
      (fun _ => Ok documents).

Definition isAvailable (env : Environment) (this : t) : bool :=
  match initializeCohere env this with
  | Ok _ => true
  | Throw _ => false
  end.

(** The argument of [updateConfig]: a property is [None] when the
    object does not have it. *)
Record Config : Type := {
  config_model : option string;
  config_maxDocuments : option nat;
  config_maxRetries : option nat
}.

(** [updateConfig(config)]: [if (config.x)] skips a property that is
    missing, [''] or [0]. *)
Definition updateConfig (this : t) (config : Config) : t :=
  {| client := client this;
     model :=
       match config_model config with
       | Some EmptyString | None => model this
       | Some m => m
       end;
     maxDocuments :=
       match config_maxDocuments config with
       | Some O | None => maxDocuments this
       | Some n => n
       end;
     maxRetries :=
       match config_maxRetries config with
       | Some O | None => maxRetries this
       | Some n => n
       end |}.

(** [getConfig()]. *)
Definition getConfig (this : t) : Config :=
  {| config_model := Some (model this);
     config_maxDocuments := Some (maxDocuments this);
     config_maxRetries := Some (maxRetries this) |}.

(** [estimateCost], in search units: one per document sent. *)
Definition searchUnits (this : t) (documentCount : nat) : nat :=
  Nat.min documentCount (maxDocuments this).
End WithNumber.
End CohereReranker.

Arguments CohereReranker.Environment num : clear implicits.
Arguments CohereReranker.RerankResponse num : clear implicits.

(* ================================================================== *)
(** * The result cache (utils/simple-cache.ts) *)
(* ================================================================== *)

(** What [getCacheKey] serialises with [JSON.stringify]: the query and
    four of the options, the search methods sorted.  Two keys are the
    same string exactly when these fields agree. *)
Record CacheKey : Type := {
  key_query : string;
  key_limit : Z;
  key_rrfK : Z;
  key_enableReranking : bool;
  key_searchMethods : list SearchMethod
}.

Definition SearchMethod_eqb (a b : SearchMethod) : bool :=
  match a, b with
  | fts5, fts5 | vector, vector | hybrid, hybrid | like, like => true
  | _, _ => false
  end.

Fixpoint methods_eqb (a b : list SearchMethod) : bool :=
  match a, b with
  | [], [] => true
  | x :: a', y :: b' => SearchMethod_eqb x y && methods_eqb a' b'
  | _, _ => false
  end.

Definition CacheKey_eqb (a b : CacheKey) : bool :=
  String.eqb (key_query a) (key_query b)
  && (key_limit a =? key_limit b)%Z
  && (key_rrfK a =? key_rrfK b)%Z
  && Bool.eqb (key_enableReranking a) (key_enableReranking b)
  && methods_eqb (key_searchMethods a) (key_searchMethods b).

(** Modelled from the spec: the class [SimpleCache] is not among the
    sources; the engine calls [get], [set] and [clear] on it.  The
    specification describes a cache entry as a result list with an
    expiry time stamp, immutable once written; an expired entry is
    inert and is replaced, not changed.  Time is in seconds. *)
Module SimpleCache.
Section WithValue.
Context {V : Type}.

Record Entry : Type := { entry_key : CacheKey; entry_value : V; expiresAt : Z }.

Definition t : Type := list Entry.

Definition empty : t := [].

Fixpoint get (cache : t) (now : Z) (key : CacheKey) : option V :=
  match cache with
  | [] => None
  | entry :: rest =>
      if CacheKey_eqb (entry_key entry) key && (now <? expiresAt entry)%Z
      then Some (entry_value entry)
      else get rest now key
  end.

Definition set (cache : t) (now : Z) (key : CacheKey) (value : V) (ttl : Z) : t :=
  {| entry_key := key; entry_value := value; expiresAt := (now + ttl)%Z |}
  :: filter (fun entry => negb (CacheKey_eqb (entry_key entry) key)) cache.

Definition clear (cache : t) : t := [].
End WithValue.
Arguments t V : clear implicits.
End SimpleCache.

(* ================================================================== *)
(** * The hybrid search engine (search/hybrid-search-engine.ts) *)
(* ================================================================== *)

Module HybridSearchEngine.
Section WithNumber.
Context {num : Type} `{Number num}.
Local Open Scope num_scope.

Variable sha256 : string -> string.

Record HybridSearchOptions : Type := {
  query : string;
  limit : Z;
  rrfK : Z;
  enableReranking : bool;
  searchMethods : list SearchMethod;
  includeMetadata : bool
}.

(** [Partial<HybridSearchOptions>]: a property is [None] when the
    object does not have it. *)
Record PartialOptions : Type := {
  partial_query : option string;
  partial_limit : option Z;
  partial_rrfK : option Z;
  partial_enableReranking : option bool;
  partial_searchMethods : option (list SearchMethod);
  partial_includeMetadata : option bool
}.

Definition noOptions : PartialOptions :=
  {| partial_query := None; partial_limit := None; partial_rrfK := None;
     partial_enableReranking := None; partial_searchMethods := None;
     partial_includeMetadata := None |}.

(** What surrounds the engine: the surroundings of its two remote
    clients, and the clock of the result cache. *)
Record Environment : Type := {
  embeddingEnvironment : EmbeddingService.Environment num;
  cohereEnvironment : CohereReranker.Environment num;
  clock : Z
}.

Record t : Type := {
  db : DatabaseAdapter num;
  embeddingService : EmbeddingService.t num;
  rrfFusion : RRFFusion.t num;
  cohereReranker : CohereReranker.t;
  cache : option (SimpleCache.t (list (SearchResult num)));
  enableCache : bool;
  defaultOptions : PartialOptions
}.

Definition withCache (this : t) (cache' : option (SimpleCache.t (list (SearchResult num)))) : t :=
  {| db := db this; embeddingService := embeddingService this; rrfFusion := rrfFusion this;
     cohereReranker := cohereReranker this; cache := cache'; enableCache := enableCache this;
     defaultOptions := defaultOptions this |}.

(** The second argument of the constructor.  The engine's repository
    is the one over [db], which is what the constructor builds when it
    is given none. *)
Record EngineOptions : Type := {
  option_embeddingService : option (EmbeddingService.t num);
  option_rrfFusion : option (RRFFusion.t num);
  option_cohereReranker : option CohereReranker.t;
  option_enableCache : option bool;
  option_defaultOptions : option PartialOptions
}.

(** [constructor(db, options = {})]. *)
Definition new (db : DatabaseAdapter num) (options : EngineOptions) : t :=
  let enableCache := match option_enableCache options with Some false => false | _ => true end in
  {| db := db;
     embeddingService :=
       match option_embeddingService options with
       | Some service => service
       | None => EmbeddingService.new None
       end;
     rrfFusion :=
       match option_rrfFusion options with Some fusion => fusion | None => RRFFusion.new None end;
     cohereReranker :=
       match option_cohereReranker options with
       | Some reranker => reranker
       | None => CohereReranker.new None None None
       end;
     cache := if enableCache then Some SimpleCache.empty else None;
     enableCache := enableCache;
     defaultOptions :=
       match option_defaultOptions options with Some defaults => defaults | None => noOptions end |}.

(** [{ ...a, ...b }] on two partial option objects. *)
Definition spreadOver {A : Type} (a b : option A) : option A :=
  match b with
  | Some v => Some v
  | None => a
  end.

Definition mergePartial (a b : PartialOptions) : PartialOptions :=
  {| partial_query := spreadOver (partial_query a) (partial_query b);
     partial_limit := spreadOver (partial_limit a) (partial_limit b);
     partial_rrfK := spreadOver (partial_rrfK a) (partial_rrfK b);
     partial_enableReranking := spreadOver (partial_enableReranking a) (partial_enableReranking b);
     partial_searchMethods := spreadOver (partial_searchMethods a) (partial_searchMethods b);
     partial_includeMetadata := spreadOver (partial_includeMetadata a) (partial_includeMetadata b) |}.

(** The argument of [updateConfig]. *)
Record EngineConfig : Type := {
  config_enableCache : option bool;
  config_defaultOptions : option PartialOptions
}.

(** [updateConfig(config)]. *)
Definition updateConfig (this : t) (config : EngineConfig) : t :=
  let this :=
    match config_enableCache config with
    | Some enable =>
        {| db := db this; embeddingService := embeddingService this; rrfFusion := rrfFusion this;
           cohereReranker := cohereReranker this;
           cache :=
             if negb enable && isNotNull (cache this) then None
             else if enable && negb (isNotNull (cache this)) then Some SimpleCache.empty
             else cache this;
           enableCache := enable;
           defaultOptions := defaultOptions this |}
    | None => this
    end in
  match config_defaultOptions config with
  | Some defaults =>
      {| db := db this; embeddingService := embeddingService this; rrfFusion := rrfFusion this;
         cohereReranker := cohereReranker this; cache := cache this;
         enableCache := enableCache this;
         defaultOptions := mergePartial (defaultOptions this) defaults |}
  | None => this
  end.

(** [{ ...computed, ...this.defaultOptions, ...options }], property by
    property: the caller's value, else the engine's default, else the
    computed one. *)
Definition pick {A : Type} (fromOptions fromDefaults : option A) (computed : A) : A :=
  match fromOptions, fromDefaults with
  | Some v, _ => v
  | None, Some v => v
  | None, None => computed
  end.

Definition mergeOptions (this : t) (options : PartialOptions) : HybridSearchOptions :=
  let defaults := defaultOptions this in
  {| query := pick (partial_query options) (partial_query defaults) EmptyString;
     limit := pick (partial_limit options) (partial_limit defaults) 20%Z;
     rrfK := pick (partial_rrfK options) (partial_rrfK defaults) 60%Z;
     enableReranking :=
       pick (partial_enableReranking options) (partial_enableReranking defaults) true;
     searchMethods :=
       pick (partial_searchMethods options) (partial_searchMethods defaults) [fts5; vector];
     includeMetadata :=
       pick (partial_includeMetadata options) (partial_includeMetadata defaults) false |}.

(** The order of the method names as strings: ['fts5'], ['hybrid'],
    ['like'], ['vector']. *)
Definition methodRank (m : SearchMethod) : nat :=
  match m with
  | fts5 => 0
  | hybrid => 1
  | like => 2
  | vector => 3
  end.

(** [options.searchMethods.sort()]. *)
Definition sortMethods (methods : list SearchMethod) : list SearchMethod :=
  jsSort (fun a b => (methodRank b <? methodRank a)%nat) methods.

Definition getCacheKey (query : string) (options : HybridSearchOptions) : CacheKey :=
  {| key_query := query;
     key_limit := limit options;
     key_rrfK := rrfK options;
     key_enableReranking := enableReranking options;
     key_searchMethods := sortMethods (searchMethods options) |}.

Definition includes (methods : list SearchMethod) (m : SearchMethod) : bool :=
  existsb (SearchMethod_eqb m) methods.

(** The [nodes.map((node, index) => ...)] of [executeFTS5Search]. *)
Fixpoint ftsResults (count : nat) (index : nat) (rows : list (Node.Row num))
    : list (SearchResult num) :=
  match rows with
  | [] => []
  | node :: rest =>
      {| nodeType := Node.node_type node;
         displayName := Node.display_name node;
         description := orEmpty (Node.description node);
         category := orEmpty (Node.category node);
         package := Node.package_name node;
         relevanceScore :=
           nofZ 1 - nofZ (Z.of_nat index) / nofZ (Z.of_nat (Nat.max count 1));
         searchMethod := fts5;
         metadata := Some (set_ftsRank emptyMetadata (Z.of_nat index + 1)) |}
      :: ftsResults count (S index) rest
  end.

Definition executeFTS5Search (this : t) (query : string) (limit : Z) : list (SearchResult num) :=
  match nodes_fts (db this) with
  | None => []
  | Some nodes_fts =>
      let ftsQuery := String.concat " OR " (words query) in
      match nodes_fts ftsQuery with
      | Ok matching =>
          let nodes := sqlLimit matching limit in
          ftsResults (List.length nodes) 0 nodes
      | Throw _ => []
      end
  end.

(** [executeVectorSearch]; the embedding service's own cache, which the
    call may fill, is not followed further. *)
Definition executeVectorSearch (env : Environment) (this : t) (query : string) (limit : Z)
    : list (SearchResult num) :=
  if negb (VectorRepository.isVectorStorageReady (db this)) then []
  else
    match fst (EmbeddingService.getEmbedding sha256 (embeddingEnvironment env)
                 (embeddingService this) query []) with
    | Ok (embeddingResult, _) =>
        let queryVector := EmbeddingService.embedding embeddingResult in
        VectorRepository.findSimilarNodes (db this) queryVector
          {| VectorRepository.queryVector := queryVector;
             VectorRepository.limit := limit;
             VectorRepository.threshold := Some (ndecimal 2 10);
             VectorRepository.includeDistances := Some true |}
    | Throw _ => []
    end.

(** Stage 2 of the pipeline. *)
Definition fuse (this : t) (rrf : bool) (fts5Results vectorResults : list (SearchResult num))
    : list (SearchResult num) :=
  if rrf && (0 <? List.length fts5Results)%nat && (0 <? List.length vectorResults)%nat then
    RRFFusion.fuseResults (rrfFusion this) fts5Results vectorResults
  else if (0 <? List.length fts5Results)%nat && (List.length vectorResults =? 0)%nat then
    fts5Results
  else if (0 <? List.length vectorResults)%nat && (List.length fts5Results =? 0)%nat then
    vectorResults
  else fts5Results ++ vectorResults.

(** Stage 3 of the pipeline. *)
Definition rerankStage (env : Environment) (this : t) (query : string)
    (options : HybridSearchOptions) (fusedResults : list (SearchResult num))
    : Outcome (list (SearchResult num)) :=
  if enableReranking options && (0 <? List.length fusedResults)%nat then
    if CohereReranker.isAvailable (cohereEnvironment env) (cohereReranker this) then
      CohereReranker.rerank (cohereEnvironment env) (cohereReranker this) query fusedResults
        (Some {| CohereReranker.options_model := "rerank-multilingual-v3.0";
                 CohereReranker.topN := limit options;
                 CohereReranker.returnDocuments := Some false;
                 CohereReranker.maxChunksPerDoc := None |})
    else Ok fusedResults
  else Ok fusedResults.

Definition executeSearchPipeline (env : Environment) (this : t) (query : string)
    (options : HybridSearchOptions) : Outcome (list (SearchResult num)) :=
  let pipeline_fts5 := includes (searchMethods options) fts5 in
  let pipeline_vector := includes (searchMethods options) vector in
  let pipeline_rrf := (1 <? List.length (searchMethods options))%nat in
  let fts5Results :=
    if pipeline_fts5 then executeFTS5Search this query (limit options * 2) else [] in
  let vectorResults :=
    if pipeline_vector then executeVectorSearch env this query (limit options * 2) else [] in
  let fusedResults := fuse this pipeline_rrf fts5Results vectorResults in
  bind (rerankStage env this query options fusedResults) (fun finalResults =>
    Ok (sliceTo finalResults (limit options))).

(** [search]: what the promise settles with, and the engine with its
    result cache as the call leaves it. *)
Definition search (env : Environment) (this : t) (query : string) (options : PartialOptions)
    : Outcome (list (SearchResult num)) * t :=
  let searchOptions := mergeOptions this options in
  if isBlank query then (Ok [], this)
  else
    let cleanQuery := trim query in
    let cacheKey := getCacheKey cleanQuery searchOptions in
    let cached :=
      match enableCache this, cache this with
      | true, Some cache => SimpleCache.get cache (clock env) cacheKey
      | _, _ => None
      end in
    match cached with
    | Some results => (Ok results, this)
    | None =>
        match executeSearchPipeline env this cleanQuery searchOptions with
        | Ok results =>
            (Ok results,
             match enableCache this, cache this with
             | true, Some cache =>
                 withCache this (Some (SimpleCache.set cache (clock env) cacheKey results 300))
             | _, _ => this
             end)
        | Throw error => (Throw error, this)
        end
    end.

(** [clearCache]. *)
Definition clearCache (this : t) : t :=
  match cache this with
  | Some cache => withCache this (Some (SimpleCache.clear cache))
  | None => this
  end.
End WithNumber.
End HybridSearchEngine.

Arguments HybridSearchEngine.Environment num : clear implicits.
Arguments HybridSearchEngine.t num : clear implicits.

(* ================================================================== *)
(** * The generation script (scripts/generate-embeddings.ts) *)
(* ================================================================== *)

Module GenerateEmbeddings.
Section WithNumber.
Context {num : Type}.

(** [EmbeddingService.prepareEmbeddingContent(node, 'node').contentHash]:
    the SHA-256 digest of the text assembled from the row.  The digest
    and the JSON parser behind it are libraries; the script only
    compares the result with the stored hash. *)
Variable contentHash : Node.Row num -> string.

(** [node.current_hash === content.contentHash]. *)
Definition unchanged (node : Node.Row num) : bool :=
  match Node.embedding_content_hash node with
  | Some current_hash => String.eqb current_hash (contentHash node)
  | None => false
  end.

(** The rows of a batch that [generateNodeEmbeddings] sends to the
    embedding service: [if (!options.forceRegenerate && unchanged)
    continue]. *)
Definition nodesToSave (forceRegenerate : bool) (batch : list (Node.Row num))
    : list (Node.Row num) :=
  filter (fun node => negb (negb forceRegenerate && unchanged node)) batch.
End WithNumber.
End GenerateEmbeddings.

(* ================================================================== *)
(** * Vocabulary of the statements *)
(* ================================================================== *)

(** Every entry of the map satisfies [P]. *)
Definition entriesAll {V : Type} (P : string -> V -> Prop) (m : JSMap V) : Prop :=
  forall key v, In (key, v) m -> P key v.

(** The invariant of the unified document set: one entry per key, and
    each entry is filed under its own [nodeType]. *)
Definition keyed {num : Type} (documents : JSMap (SearchResult num)) : Prop :=
  NoDup (map_keys documents) /\ entriesAll (fun key v => nodeType v = key) documents.

(** A list of results is non-increasing when every element scores at
    least as much as every later one. *)
Definition scoreGe {num} `{Number num} (a b : SearchResult num) : Prop :=
  ngeb (relevanceScore a) (relevanceScore b) = true.

Definition nonIncreasing {num} `{Number num} (l : list (SearchResult num)) : Prop :=
  StronglySorted scoreGe l.

(** The same order on the pairs of a row and its similarity. *)
Definition similarityGe {num} `{Number num} {Row : Type} (a b : Row * num) : Prop :=
  ngeb (snd a) (snd b) = true.

(** No two neighbours of a list are out of order for a comparator: of
    [a] just before [b], the comparator says that [b] goes after [a], or
    it does not say that [a] goes after [b]. *)
Definition neighboursInOrder {A : Type} (after : A -> A -> bool) (l : list A) : Prop :=
  forall i a b,
    nth_error l i = Some a -> nth_error l (S i) = Some b ->
    after b a = true \/ after a b = false.

(** The engine holds a result cache exactly when caching is enabled. *)
Definition cacheWhenEnabled {num : Type} (this : HybridSearchEngine.t num) : Prop :=
  isNotNull (HybridSearchEngine.cache this) = HybridSearchEngine.enableCache this.

(** Two results describe the same entity: they agree on everything
    but the score, the method and the metadata. *)
Definition sameEntity {num : Type} (a b : SearchResult num) : Prop :=
  nodeType a = nodeType b /\ displayName a = displayName b /\ description a = description b
  /\ category a = category b /\ package a = package b.

(** The entries of a response that name a candidate. *)
Definition namingCandidates {num : Type} (items : list (RerankItem.t num))
    (documents : list (SearchResult num)) : list (RerankItem.t num) :=
  filter (fun item => isNotNull (at_property documents (RerankItem.index item))) items.

(** The request [processBatch] sends for a batch of texts. *)
Definition requestFor {num : Type} (this : EmbeddingService.t num) (texts : list string)
    : EmbeddingService.CreateRequest :=
  {| EmbeddingService.request_model := EmbeddingService.model this;
     EmbeddingService.input := texts;
     EmbeddingService.request_dimensions := EmbeddingService.dimensions this |}.

(** The result [processRerankResponse] pushes for an entry of the
    response and the document it names, as the [rank]-th result. *)
Definition rerankedAs {num : Type} `{Number num} (item : RerankItem.t num)
    (document : SearchResult num) (rank : Z) (query : string) : SearchResult num :=
  let relevanceScore :=
    CohereReranker.coalesce (RerankItem.relevanceScore item) (RerankItem.relevance_score item) in
  set_score_method_metadata document relevanceScore hybrid
    (set_cohere (spread (metadata document)) relevanceScore rank query).

(** A binary64 number that is a zero or NaN: what a product with a
    zero is. *)
Definition zeroOrNaN (x : F64.t) : bool :=
  match x with
  | S754_zero _ | S754_nan => true
  | _ => false
  end.

(** ** Vectors the claims about cosine similarity speak of *)

Module VectorSpec.
(** A binary64 number that is [+0] or [-0]. *)
Definition isZero (x : F64.t) : bool :=
  match x with
  | S754_zero _ => true
  | _ => false
  end.

(** The zero vector: every element is a zero. *)
Definition zeroVector (a : list F64.t) : Prop := Forall (fun x => isZero x = true) a.

(** A real vector with an element other than 0. *)
Definition nonZero (a : list R) : Prop := Exists (fun x => x <> 0%R) a.
End VectorSpec.

(** The database with other rows in [nodes]. *)
Definition withNodes {num : Type} (db : DatabaseAdapter num) (rows : list (Node.Row num))
    : DatabaseAdapter num :=
  {| nodes := rows;
     templates := templates db;
     embeddingColumns := embeddingColumns db;
     CURRENT_TIMESTAMP := CURRENT_TIMESTAMP db;
     nodes_fts := nodes_fts db |}.

(** The row holds an array of [n] binary32 numbers. *)
Definition holdsVectorOfLength {num : Type} (n : nat) (row : Node.Row num) : bool :=
  match Node.embedding_vector row with
  | Some stored =>
      match ArrayBuffer.asFloat32Array stored with
      | Ok values => (n =? List.length values)%nat
      | Throw _ => false
      end
  | None => false
  end.

(** Every vector the rows hold is made of binary64 numbers. *)
Definition holdsBinary64 {Row : Type} (embedding : Row -> option (ArrayBuffer.t F64.t))
    (rows : list Row) : bool :=
  forallb
    (fun row =>
       match embedding row with
       | Some stored => F64.allValid (ArrayBuffer.slots stored)
       | None => true
       end)
    rows.

(** ** The candidates of a similarity search *)

Module SimilaritySpec.
Section WithNumber.
Context {num : Type} `{Number num} {Row : Type}.

(** The candidates among [rows], in the order of the table, each with
    its cosine similarity to the query: the rows that hold a vector of
    the length of the query.  A row that holds no vector, bytes that are
    no array of binary32 numbers, or a vector of another length has no
    similarity to the query and is no candidate. *)
Definition candidates (embedding : Row -> option (ArrayBuffer.t num)) (queryVector : list num)
    (rows : list Row) : list (Row * num) :=
  flat_map
    (fun row =>
       match embedding row with
       | Some stored =>
           match ArrayBuffer.asFloat32Array stored with
           | Ok nodeEmbedding =>
               match VectorRepository.calculateCosineSimilarity queryVector nodeEmbedding with
               | Ok similarity => [(row, similarity)]
               | Throw _ => []
               end
           | Throw _ => []
           end
       | None => []
       end)
    rows.

(** The candidates whose similarity reaches the threshold; the others
    are the ones discarded. *)
Definition reaching (threshold : num) (candidates : list (Row * num)) : list (Row * num) :=
  filter (fun candidate => ngeb (snd candidate) threshold) candidates.
End WithNumber.
End SimilaritySpec.

(** ** The staleness claim, in the words of the specification *)

Module StalenessSpec.
(** "Given an embedding record with [contentHash = H1] and an entity
    whose current text hashes to [H2 <> H1], the entity must be reported
    by the needs-embedding query", whatever the function [currentHash]
    that hashes the current text of a row. *)
Definition reportsEveryStaleNode : Prop :=
  forall (currentHash : Node.Row F64.t -> string) (db : DatabaseAdapter F64.t)
         (row : Node.Row F64.t) (H1 : string),
    embeddingColumns db = true ->
    In row (nodes db) ->
    Node.embedding_content_hash row = Some H1 ->
    H1 <> currentHash row ->
    In row (VectorRepository.getNodesNeedingEmbeddings db).
End StalenessSpec.

(** ** Failures of the reranking provider *)

Module RerankSpec.
Section WithNumber.
Context {num : Type}.

(** An attempt fails when the call rejects, or resolves with no
    response object at all. *)
Definition attemptFails (env : CohereReranker.Environment num)
    (request : CohereReranker.RerankRequest) (attempt : nat) : Prop :=
  (exists msg, CohereReranker.rerankEndpoint env request attempt = Throw msg)
  \/ CohereReranker.rerankEndpoint env request attempt = Ok None.

(** The entries of a response name no candidate: each index is
    missing, negative or past the end of the list. *)
Definition namesNoCandidate (items : list (RerankItem.t num))
    (documents : list (SearchResult num)) : Prop :=
  Forall (fun item => at_property documents (RerankItem.index item) = None) items.

(** A response that carries no results: the property is missing or
    the array is empty. *)
Definition withoutResults (response : CohereReranker.RerankResponse num) : Prop :=
  CohereReranker.results response = None \/ CohereReranker.results response = Some [].
End WithNumber.

Section Reranked.
Context {num : Type} `{Number num}.

(** What a response with entries stands for: one result for each entry
    that names a candidate, in the order of the response, numbered from
    [rank] on; an entry that names no candidate stands for nothing. *)
Fixpoint reranked (rank : Z) (items : list (RerankItem.t num))
    (documents : list (SearchResult num)) (query : string) : list (SearchResult num) :=
  match items with
  | [] => []
  | item :: rest =>
      match at_property documents (RerankItem.index item) with
      | Some document =>
          rerankedAs item document rank query :: reranked (rank + 1) rest documents query
      | None => reranked rank rest documents query
      end
  end.
End Reranked.
End RerankSpec.

(** ** A provider that answers every request *)

Module EmbeddingSpec.
Section WithNumber.
Context {num : Type}.

(** The entries a provider owes for the texts of a request: the
    embedding of each text, labelled with the position of the text. *)
Fixpoint indexedFrom (embed : string -> list num) (i : nat) (texts : list string)
    : list (EmbeddingItem.t num) :=
  match texts with
  | [] => []
  | text :: rest =>
      {| EmbeddingItem.embedding := embed text; EmbeddingItem.index := Z.of_nat i |}
      :: indexedFrom embed (S i) rest
  end.

(** The provider answers every request, at every time, with the owed
    entries in some order. *)
Definition answers (env : EmbeddingService.Environment num) (embed : string -> list num) : Prop :=
  forall request calls,
    exists response,
      EmbeddingService.embeddingsCreate env request calls = Ok response
      /\ Permutation (EmbeddingService.data response)
           (indexedFrom embed 0 (EmbeddingService.input request)).
End WithNumber.
End EmbeddingSpec.

(** ** Lexical-only search *)

Module EngineSpec.
(** The options with ['vector'] taken out of the search methods. *)
Definition lexicalOnly (options : HybridSearchEngine.HybridSearchOptions)
    : HybridSearchEngine.HybridSearchOptions :=
  {| HybridSearchEngine.query := HybridSearchEngine.query options;
     HybridSearchEngine.limit := HybridSearchEngine.limit options;
     HybridSearchEngine.rrfK := HybridSearchEngine.rrfK options;
     HybridSearchEngine.enableReranking := HybridSearchEngine.enableReranking options;
     HybridSearchEngine.searchMethods :=
       filter (fun m => negb (SearchMethod_eqb vector m)) (HybridSearchEngine.searchMethods options);
     HybridSearchEngine.includeMetadata := HybridSearchEngine.includeMetadata options |}.
End EngineSpec.

(** ** The specification's vocabulary for rank fusion

    These definitions follow the words of the specification, not the
    code: they are what the fused scores are compared with. *)

Module FusionSpec.
Section WithNumber.
Context {num : Type} `{Number num}.
Local Open Scope num_scope.

(** The 1-based position of the entity [entity] in a ranked list,
    counting from [Z.of_nat index + 1] at its head. *)
Fixpoint rankFrom (index : nat) (entity : string) (results : list (SearchResult num))
    : option Z :=
  match results with
  | [] => None
  | result :: rest =>
      if String.eqb (nodeType result) entity then Some (Z.of_nat index + 1)%Z
      else rankFrom (S index) entity rest
  end.

Definition rankOf (entity : string) (results : list (SearchResult num)) : option Z :=
  rankFrom 0 entity results.

(** [w * 1/(k + rank)]. *)
Definition term (w k : num) (rank : Z) : num := w * (nofZ 1 / (k + nofZ rank)).

(** [score = wA * 1/(k + rankA) + wB * 1/(k + rankB)], a term being
    omitted when the entity is absent from that list. *)
Definition score (this : RRFFusion.t num) (rankA rankB : option Z) : num :=
  match rankA, rankB with
  | Some a, Some b =>
      term (RRFFusion.weight_fts5 (RRFFusion.weights this)) (RRFFusion.k this) a
      + term (RRFFusion.weight_vector (RRFFusion.weights this)) (RRFFusion.k this) b
  | Some a, None => term (RRFFusion.weight_fts5 (RRFFusion.weights this)) (RRFFusion.k this) a
  | None, Some b => term (RRFFusion.weight_vector (RRFFusion.weights this)) (RRFFusion.k this) b
  | None, None => nofZ 0
  end.

(** The same sum as the scoring loop adds it up: from 0, the lexical
    term first. *)
Definition accumulated (this : RRFFusion.t num) (rankA rankB : option Z) : num :=
  let sum := nofZ 0 in
  let sum :=
    match rankA with
    | Some a => sum + term (RRFFusion.weight_fts5 (RRFFusion.weights this)) (RRFFusion.k this) a
    | None => sum
    end in
  match rankB with
  | Some b => sum + term (RRFFusion.weight_vector (RRFFusion.weights this)) (RRFFusion.k this) b
  | None => sum
  end.

(** A rank is at least as good as another when it is not larger;
    being absent from the list is the worst rank. *)
Definition atLeastAsGood (rank rank' : option Z) : Prop :=
  match rank, rank' with
  | Some a, Some b => (a <= b)%Z
  | _, None => True
  | None, Some _ => False
  end.

(** With both weights equal to 1: [1/(k + r1) + 1/(k + r2)], or the
    single term of the list the entity is in. *)
Definition unweightedScore (k : num) (rankA rankB : option Z) : num :=
  match rankA, rankB with
  | Some r1, Some r2 => nofZ 1 / (k + nofZ r1) + nofZ 1 / (k + nofZ r2)
  | Some r1, None => nofZ 1 / (k + nofZ r1)
  | None, Some r2 => nofZ 1 / (k + nofZ r2)
  | None, None => nofZ 0
  end.
End WithNumber.

End FusionSpec.

(* ================================================================== *)
(** * Concrete inputs used by the examples *)
(* ================================================================== *)

Module Examples.
Local Open Scope string_scope.

(** A search result that only carries a name, a score and a method. *)
Definition result {num : Type} (name : string) (score : num) (method : SearchMethod)
    : SearchResult num :=
  {| nodeType := name; displayName := name; description := ""; category := "";
     package := "n8n-nodes-base"; relevanceScore := score; searchMethod := method;
     metadata := None |}.

(** The end-to-end scenario of the specification: [A] is first in the
    lexical list and second in the vector list, [B] the other way
    round, [C] is third in the vector list only. *)
Definition lexicalAB {num : Type} `{Number num} : list (SearchResult num) :=
  [result "A" (nofZ 1) fts5; result "B" (ndecimal 5 10) fts5].

Definition vectorBAC {num : Type} `{Number num} : list (SearchResult num) :=
  [result "B" (ndecimal 9 10) vector; result "A" (ndecimal 8 10) vector;
   result "C" (ndecimal 7 10) vector].

(** The vector [(1, 1, 1)] and the zero vector of length 3. *)
Definition ones {num : Type} `{Number num} : list num := [nofZ 1; nofZ 1; nofZ 1].
Definition zeros {num : Type} `{Number num} : list num := [nofZ 0; nofZ 0; nofZ 0].

(** A row of [nodes] that only carries a name, an embedding with its
    hash and generation time, and the time of its last update.  The
    embedding was saved from an array that owns its buffer. *)
Definition node {num : Type} (name : string) (embedding : option (list num))
    (hash : option string) (generated updated : option Z) : Node.Row num :=
  {| Node.node_type := name; Node.display_name := name; Node.description := None;
     Node.category := None; Node.package_name := "n8n-nodes-base";
     Node.documentation := None; Node.operations := None; Node.updated_at := updated;
     Node.embedding_vector :=
       option_map (fun e => TypedArray.buffer (TypedArray.ofElements e)) embedding;
     Node.embedding_content_hash := hash;
     Node.embedding_generated_at := generated;
     Node.embedding_model := option_map (fun _ => "text-embedding-3-small") embedding;
     Node.embedding_dimensions := option_map (fun e => Z.of_nat (List.length e)) embedding |}.

(** A node embedded at time 10 from a text whose hash was ["H1"], and
    last updated at time 5. *)
Definition near {num : Type} `{Number num} : Node.Row num :=
  node "near" (Some [nofZ 5; nofZ 12]) (Some "H1") (Some 10%Z) (Some 5%Z).

Definition far {num : Type} `{Number num} : Node.Row num :=
  node "far" (Some [nofZ 0; nofZ 1]) (Some "H0") (Some 10%Z) (Some 5%Z).

Definition same {num : Type} `{Number num} : Node.Row num :=
  node "same" (Some [nofZ 2; nofZ 0]) (Some "H2") (Some 10%Z) (Some 5%Z).

(** Three embedded nodes in the plane: seen from the query [(1, 0)]
    their cosine similarities are [0], [5/13] and [1]. *)
Definition planeDb {num : Type} `{Number num} : DatabaseAdapter num :=
  {| nodes := [far; near; same];
     templates := [];
     embeddingColumns := true;
     CURRENT_TIMESTAMP := 20%Z;
     nodes_fts := Some (fun _ => Ok [near]) |}.


(** The plane with one more node between [far] and [near], whose stored
    vector has three elements. *)
Definition spaceNode {num : Type} `{Number num} : Node.Row num :=
  node "space" (Some [nofZ 1; nofZ 0; nofZ 0]) (Some "H3") (Some 10%Z) (Some 5%Z).

Definition mixedDb {num : Type} `{Number num} : DatabaseAdapter num :=
  {| nodes := [far; spaceNode; near; same];
     templates := [];
     embeddingColumns := true;
     CURRENT_TIMESTAMP := 20%Z;
     nodes_fts := None |}.

(** The elements 1 and 2 of the array [(7, 3, 4, 9)], as [subarray(1, 3)]
    shows them: a view of the buffer of that array. *)
Definition threeFourView {num : Type} `{Number num} : TypedArray.t num :=
  TypedArray.subarray (TypedArray.ofElements [nofZ 7; nofZ 3; nofZ 4; nofZ 9]) 1 3.

(** The text that is one no-break space, U+00A0. *)
Definition noBreakSpace : string := String "194"%char (String "160"%char EmptyString).

Definition planeQuery {num : Type} `{Number num} : list num := [nofZ 1; nofZ 0].

Definition planeOptions {num : Type} `{Number num} (threshold : option num)
    : VectorRepository.VectorSearchOptions num :=
  {| VectorRepository.queryVector := planeQuery;
     VectorRepository.limit := 10%Z;
     VectorRepository.threshold := threshold;
     VectorRepository.includeDistances := None |}.

(** A reranking service that is configured and down: every call
    rejects. *)
Definition rerankerDown {num : Type} : CohereReranker.Environment num :=
  {| CohereReranker.COHERE_API_KEY := Some "key";
     CohereReranker.importCohere := true;
     CohereReranker.rerankEndpoint := fun _ _ => Throw "503 Service Unavailable" |}.

(** A reranking service that scores the first document it is sent
    [1/10] and says nothing of the others. *)
Definition rerankerFirstOnly {num : Type} `{Number num} : CohereReranker.Environment num :=
  {| CohereReranker.COHERE_API_KEY := Some "key";
     CohereReranker.importCohere := true;
     CohereReranker.rerankEndpoint := fun _ _ =>
       Ok (Some {| CohereReranker.results :=
                     Some [ {| RerankItem.index := Some 0%Z;
                               RerankItem.relevanceScore := Some (ndecimal 1 10);
                               RerankItem.relevance_score := None |} ] |}) |}.

(** An embedding provider that embeds a text as the one-element vector
    of its length, and answers every request with the entries in
    reverse order. *)
Definition lengthEmbedding {num : Type} `{Number num} (text : string) : list num :=
  [nofZ (Z.of_nat (String.length text))].

Definition reversingProvider {num : Type} `{Number num} : EmbeddingService.Environment num :=
  {| EmbeddingService.OPENAI_API_KEY := Some "key";
     EmbeddingService.importOpenAI := true;
     EmbeddingService.embeddingsCreate := fun request _ =>
       Ok {| EmbeddingService.data :=
               rev (EmbeddingSpec.indexedFrom lengthEmbedding 0 (EmbeddingService.input request));
             EmbeddingService.total_tokens := nofZ 1 |};
     EmbeddingService.now := 0%Z |}.

(** A service configured for batches of two texts. *)
Definition batchesOfTwo {num : Type} : EmbeddingService.t num :=
  EmbeddingService.new
    (Some {| EmbeddingService.config_model := "";
             EmbeddingService.config_batchSize := 2%N;
             EmbeddingService.config_maxRetries := 0 |}).

(** An embedding provider that rejects the first two calls it gets and
    answers from the third on. *)
Definition flakyProvider {num : Type} `{Number num} : EmbeddingService.Environment num :=
  {| EmbeddingService.OPENAI_API_KEY := Some "key";
     EmbeddingService.importOpenAI := true;
     EmbeddingService.embeddingsCreate := fun request calls =>
       if (calls <? 2)%nat then Throw "429 Too Many Requests"
       else
         Ok {| EmbeddingService.data :=
                 EmbeddingSpec.indexedFrom lengthEmbedding 0 (EmbeddingService.input request);
               EmbeddingService.total_tokens := nofZ 1 |};
     EmbeddingService.now := 0%Z |}.

(** An embedding service with no API key: every call to the provider
    is preceded by an initialisation that throws. *)
Definition embeddingOffline {num : Type} : EmbeddingService.Environment num :=
  {| EmbeddingService.OPENAI_API_KEY := None;
     EmbeddingService.importOpenAI := true;
     EmbeddingService.embeddingsCreate := fun _ _ => Throw "unreachable";
     EmbeddingService.now := 0%Z |}.

(** A reranking service whose response has one entry, with a score and
    no index. *)
Definition rerankerNoIndex {num : Type} `{Number num} : CohereReranker.Environment num :=
  {| CohereReranker.COHERE_API_KEY := Some "key";
     CohereReranker.importCohere := true;
     CohereReranker.rerankEndpoint := fun _ _ =>
       Ok (Some {| CohereReranker.results :=
                     Some [ {| RerankItem.index := None;
                               RerankItem.relevanceScore := None;
                               RerankItem.relevance_score := Some (ndecimal 9 10) |} ] |}) |}.

(** A reranker with no API key. *)
Definition rerankerOffline {num : Type} : CohereReranker.Environment num :=
  {| CohereReranker.COHERE_API_KEY := None;
     CohereReranker.importCohere := true;
     CohereReranker.rerankEndpoint := fun _ _ => Throw "unreachable" |}.

(** Surroundings in which both remote services are out of reach. *)
Definition offline {num : Type} : HybridSearchEngine.Environment num :=
  {| HybridSearchEngine.embeddingEnvironment := embeddingOffline;
     HybridSearchEngine.cohereEnvironment := rerankerOffline;
     HybridSearchEngine.clock := 100%Z |}.

(** An engine over the plane database, as its constructor builds it. *)
Definition engine {num : Type} `{Number num} : HybridSearchEngine.t num :=
  {| HybridSearchEngine.db := planeDb;
     HybridSearchEngine.embeddingService := EmbeddingService.new None;
     HybridSearchEngine.rrfFusion := RRFFusion.new None;
     HybridSearchEngine.cohereReranker := CohereReranker.new None None None;
     HybridSearchEngine.cache := Some SimpleCache.empty;
     HybridSearchEngine.enableCache := true;
     HybridSearchEngine.defaultOptions := HybridSearchEngine.noOptions |}.


(** The caller asks for vector search alone. *)
Definition vectorOnly : HybridSearchEngine.PartialOptions :=
  {| HybridSearchEngine.partial_query := None;
     HybridSearchEngine.partial_limit := None;
     HybridSearchEngine.partial_rrfK := None;
     HybridSearchEngine.partial_enableReranking := None;
     HybridSearchEngine.partial_searchMethods := Some [vector];
     HybridSearchEngine.partial_includeMetadata := None |}.

(** The caller names the two methods, vector search first. *)
Definition vectorFirst : HybridSearchEngine.PartialOptions :=
  {| HybridSearchEngine.partial_query := None;
     HybridSearchEngine.partial_limit := None;
     HybridSearchEngine.partial_rrfK := None;
     HybridSearchEngine.partial_enableReranking := None;
     HybridSearchEngine.partial_searchMethods := Some [vector; fts5];
     HybridSearchEngine.partial_includeMetadata := None |}.

(** An embedding provider that embeds every text as [(1, 0)], and
    surroundings in which it is the embedding service and the reranker
    is out of reach. *)
Definition planeProvider {num : Type} `{Number num} : EmbeddingService.Environment num :=
  {| EmbeddingService.OPENAI_API_KEY := Some "key";
     EmbeddingService.importOpenAI := true;
     EmbeddingService.embeddingsCreate := fun request _ =>
       Ok {| EmbeddingService.data :=
               EmbeddingSpec.indexedFrom (fun _ => planeQuery) 0 (EmbeddingService.input request);
             EmbeddingService.total_tokens := nofZ 1 |};
     EmbeddingService.now := 0%Z |}.

Definition semanticOnly {num : Type} `{Number num} : HybridSearchEngine.Environment num :=
  {| HybridSearchEngine.embeddingEnvironment := planeProvider;
     HybridSearchEngine.cohereEnvironment := rerankerOffline;
     HybridSearchEngine.clock := 100%Z |}.

(** The identity, standing for SHA-256 where only equality of digests
    matters. *)
Definition digest (content : string) : string := content.

(** The surroundings at clock 399, with the embedding provider in reach
    and the reranking service down. *)
Definition later {num : Type} `{Number num} : HybridSearchEngine.Environment num :=
  {| HybridSearchEngine.embeddingEnvironment := planeProvider;
     HybridSearchEngine.cohereEnvironment := rerankerDown;
     HybridSearchEngine.clock := 399%Z |}.

(** An engine over another database, holding the result cache that a
    search for ["slack"] at clock 100 left in [engine]. *)
Definition engineLater {num : Type} `{Number num} : HybridSearchEngine.t num :=
  {| HybridSearchEngine.db := mixedDb;
     HybridSearchEngine.embeddingService := EmbeddingService.new None;
     HybridSearchEngine.rrfFusion := RRFFusion.new None;
     HybridSearchEngine.cohereReranker := CohereReranker.new None None None;
     HybridSearchEngine.cache :=
       HybridSearchEngine.cache
         (snd (HybridSearchEngine.search digest offline engine "slack"
                 HybridSearchEngine.noOptions));
     HybridSearchEngine.enableCache := true;
     HybridSearchEngine.defaultOptions := HybridSearchEngine.noOptions |}.

(** A vector list that names [X] twice. *)
Definition vectorXX {num : Type} `{Number num} : list (SearchResult num) :=
  [result "X" (ndecimal 9 10) vector; result "X" (ndecimal 8 10) vector].
End Examples.


(* ================================================================== *)
(** * Facts about the runtime *)
(* ================================================================== *)

Unset Implicit Arguments.

(** Exact real arithmetic satisfies both sets of laws. *)

#[export] Instance RExactArith : ExactArith R.
Proof.
  split; simpl; intros.
  - reflexivity.
  - unfold RExact.eqb in *. destruct (Req_dec_T x y); [assumption | discriminate].
  - lra.
  - lra.
Qed.

#[export] Instance ROrderedArith : OrderedArith R.
Proof.
  split; simpl; unfold RExact.gtb, RExact.geb; intros.
  - destruct (Rgt_dec (b - a) 0); [discriminate |].
    destruct (Rge_dec a b); [reflexivity | lra].
  - destruct (Rgt_dec (b - a) 0); [| discriminate].
    destruct (Rge_dec b a); [reflexivity | lra].
  - destruct (Rge_dec a b); [| discriminate].
    destruct (Rge_dec b c); [| discriminate].
    destruct (Rge_dec a c); [reflexivity | lra].
Qed.

Section JSMapFacts.
Context {V : Type}.
Implicit Types (m : JSMap V) (key : string) (v : V).

Lemma map_get_set_same key v m : map_get key (map_set key v m) = Some v.
Proof.
  induction m as [| [k0 v0] rest IH]; simpl.
  - now rewrite String.eqb_refl.
  - destruct (String.eqb k0 key) eqn:E; simpl; rewrite E; auto.
Qed.

Lemma map_get_set_other key key' v m :
  key <> key' -> map_get key' (map_set key v m) = map_get key' m.
Proof.
  intros Hne. induction m as [| [k0 v0] rest IH]; simpl.
  - destruct (String.eqb key key') eqn:E; [apply String.eqb_eq in E; contradiction | reflexivity].
  - destruct (String.eqb k0 key) eqn:E; simpl.
    + apply String.eqb_eq in E; subst k0.
      apply String.eqb_neq in Hne. now rewrite Hne.
    + now rewrite IH.
Qed.

Lemma map_get_in_keys key m : map_get key m <> None <-> In key (map_keys m).
Proof.
  induction m as [| [k0 v0] rest IH]; simpl.
  - split; [congruence | tauto].
  - destruct (String.eqb k0 key) eqn:E.
    + apply String.eqb_eq in E. split; [auto | discriminate].
    + apply String.eqb_neq in E. rewrite IH. split; [auto | intros [? | ?]; [contradiction | auto]].
Qed.

Lemma map_get_none key m : map_get key m = None <-> ~ In key (map_keys m).
Proof.
  rewrite <- map_get_in_keys. destruct (map_get key m); split; intros; try congruence.
  exfalso; apply H; discriminate.
Qed.

Lemma map_get_In key v m : map_get key m = Some v -> In (key, v) m.
Proof.
  induction m as [| [k0 v0] rest IH]; simpl; [discriminate |].
  destruct (String.eqb k0 key) eqn:E.
  - apply String.eqb_eq in E. intros [= ->]. left; now subst.
  - auto.
Qed.

Lemma In_map_get key v m : NoDup (map_keys m) -> In (key, v) m -> map_get key m = Some v.
Proof.
  induction m as [| [k0 v0] rest IH]; simpl; [tauto |].
  intros Hnd [Heq | Hin].
  - inversion Heq; subst. now rewrite String.eqb_refl.
  - inversion Hnd as [| ? ? Hnotin Hnd']; subst.
    destruct (String.eqb k0 key) eqn:E.
    + apply String.eqb_eq in E; subst k0. exfalso; apply Hnotin.
      unfold map_keys. change key with (fst (key, v)). now apply in_map.
    + auto.
Qed.

Lemma map_keys_set key v m :
  map_keys (map_set key v m) =
    if in_dec string_dec key (map_keys m) then map_keys m else map_keys m ++ [key].
Proof.
  induction m as [| [k0 v0] rest IH]; simpl; [reflexivity |].
  destruct (String.eqb k0 key) eqn:E; simpl.
  - apply String.eqb_eq in E; subst k0.
    destruct (string_dec key key); [reflexivity | contradiction].
  - apply String.eqb_neq in E. rewrite IH.
    destruct (string_dec k0 key); [contradiction |].
    unfold map_keys. destruct (in_dec string_dec key (map fst rest)); reflexivity.
Qed.

Lemma in_map_keys_set key key' v m :
  In key' (map_keys (map_set key v m)) <-> key' = key \/ In key' (map_keys m).
Proof.
  rewrite map_keys_set. destruct (in_dec string_dec key (map_keys m)) as [Hin | Hnotin].
  - split; [auto | intros [-> | ?]; auto].
  - rewrite in_app_iff; simpl. split; [intros [? | [? | []]]; auto | intros [? | ?]; auto].
Qed.

Lemma NoDup_map_keys_set key v m : NoDup (map_keys m) -> NoDup (map_keys (map_set key v m)).
Proof.
  intros Hnd. rewrite map_keys_set.
  destruct (in_dec string_dec key (map_keys m)) as [Hin | Hnotin]; [assumption |].
  apply NoDup_app; auto.
  - repeat constructor; simpl; tauto.
  - intros x Hx [<- | []]; contradiction.
Qed.
End JSMapFacts.

Section SortFacts.
Context {A : Type} (after : A -> A -> bool).

Lemma sortInsert_Permutation x l : Permutation (x :: l) (sortInsert after x l).
Proof.
  induction l as [| y rest IH]; simpl; [reflexivity |].
  destruct (after x y); [| reflexivity].
  rewrite perm_swap. now apply perm_skip.
Qed.

Lemma jsSort_Permutation l : Permutation l (jsSort after l).
Proof.
  induction l as [| x rest IH]; simpl; [constructor |].
  rewrite <- sortInsert_Permutation. now apply perm_skip.
Qed.

Lemma jsSort_In x l : In x (jsSort after l) <-> In x l.
Proof.
  split; apply Permutation_in; [symmetry |]; apply jsSort_Permutation.
Qed.

Lemma jsSort_length l : List.length (jsSort after l) = List.length l.
Proof. symmetry. apply Permutation_length, jsSort_Permutation. Qed.

(** Whatever the comparator, no two neighbours of the sorted array are
    out of order for it. *)
Lemma neighboursInOrder_single a : neighboursInOrder after [a].
Proof. intros i x y _ Hy. destruct i; discriminate Hy. Qed.

Lemma neighboursInOrder_cons a b l :
  after b a = true \/ after a b = false ->
  neighboursInOrder after (b :: l) -> neighboursInOrder after (a :: b :: l).
Proof.
  intros Hab Hrest [| i] x y; simpl.
  - intros [= <-] [= <-]. exact Hab.
  - apply Hrest.
Qed.

Lemma neighboursInOrder_tail a l : neighboursInOrder after (a :: l) -> neighboursInOrder after l.
Proof. intros Hl i x y Hx Hy. now apply (Hl (S i)). Qed.

Lemma sortInsert_neighbours x l :
  neighboursInOrder after l -> neighboursInOrder after (sortInsert after x l).
Proof.
  induction l as [| y rest IH]; intros Hl; simpl; [apply neighboursInOrder_single |].
  destruct (after x y) eqn:E.
  - specialize (IH (neighboursInOrder_tail _ _ Hl)).
    destruct rest as [| z rest']; simpl in *.
    + apply neighboursInOrder_cons; [now left | apply neighboursInOrder_single].
    + destruct (after x z) eqn:Ez.
      * apply neighboursInOrder_cons; [exact (Hl 0 y z eq_refl eq_refl) | exact IH].
      * apply neighboursInOrder_cons; [now left | exact IH].
  - apply neighboursInOrder_cons; [now right | exact Hl].
Qed.

Lemma jsSort_neighbours l : neighboursInOrder after (jsSort after l).
Proof.
  induction l as [| x rest IH]; simpl; [| now apply sortInsert_neighbours].
  intros i x y Hx. destruct i; discriminate Hx.
Qed.



(** With a comparator that orders every pair one way or the other and
    is transitive, the sorted array is ordered by [ge] throughout. *)
Section Ordered.
Variable ge : A -> A -> Prop.
Hypothesis after_false : forall a b, after a b = false -> ge a b.
Hypothesis after_true : forall a b, after a b = true -> ge b a.
Hypothesis ge_trans : forall a b c, ge a b -> ge b c -> ge a c.

Lemma sortInsert_StronglySorted x l :
  StronglySorted ge l -> StronglySorted ge (sortInsert after x l).
Proof.
  induction 1 as [| y rest Hsorted IH Hall]; simpl.
  - repeat constructor.
  - destruct (after x y) eqn:E.
    + constructor; [assumption |].
      rewrite Forall_forall in *. intros z Hz.
      apply (Permutation_in _ (Permutation_sym (sortInsert_Permutation x rest))) in Hz.
      destruct Hz as [<- | Hz]; [now apply after_true | auto].
    + constructor; [now constructor |].
      constructor; [now apply after_false |].
      rewrite Forall_forall in *. intros z Hz.
      apply ge_trans with y; [now apply after_false | auto].
Qed.

Lemma jsSort_StronglySorted l : StronglySorted ge (jsSort after l).
Proof.
  induction l as [| x rest IH]; simpl; [constructor | now apply sortInsert_StronglySorted].
Qed.
End Ordered.

(** The same when the comparator is only known to be consistent on the
    elements that satisfy [P], and the array holds no others. *)
Section OrderedOn.
Variable P : A -> Prop.
Variable ge : A -> A -> Prop.
Hypothesis after_false : forall a b, P a -> P b -> after a b = false -> ge a b.
Hypothesis after_true : forall a b, P a -> P b -> after a b = true -> ge b a.
Hypothesis ge_trans : forall a b c, ge a b -> ge b c -> ge a c.

Lemma sortInsert_StronglySorted_on x l :
  P x -> Forall P l -> StronglySorted ge l -> StronglySorted ge (sortInsert after x l).
Proof.
  intros Hx Hl Hsorted. induction Hsorted as [| y rest Hsorted IH Hall]; simpl.
  - repeat constructor.
  - inversion Hl as [| ? ? Hy Hrest]; subst.
    destruct (after x y) eqn:E.
    + constructor; [now apply IH |].
      rewrite Forall_forall in *. intros z Hz.
      apply (Permutation_in _ (Permutation_sym (sortInsert_Permutation x rest))) in Hz.
      destruct Hz as [<- | Hz]; [now apply after_true | auto].
    + constructor; [now constructor |].
      constructor; [now apply after_false |].
      rewrite Forall_forall in *. intros z Hz.
      apply ge_trans with y; [now apply after_false | auto].
Qed.

Lemma jsSort_StronglySorted_on l : Forall P l -> StronglySorted ge (jsSort after l).
Proof.
  induction l as [| x rest IH]; intros Hl; simpl; [constructor |].
  inversion Hl as [| ? ? Hx Hrest]; subst.
  apply sortInsert_StronglySorted_on; [assumption | | now apply IH].
  rewrite Forall_forall in *. intros y Hy. apply Hrest. now apply jsSort_In.
Qed.
End OrderedOn.
End SortFacts.

Lemma StronglySorted_firstn {A : Type} (R : A -> A -> Prop) (n : nat) (l : list A) :
  StronglySorted R l -> StronglySorted R (firstn n l).
Proof.
  intros Hs. revert n. induction Hs as [| x rest Hs IH Hall]; intros [| n]; simpl; try constructor.
  - apply IH.
  - rewrite Forall_forall in *. intros y Hy. apply Hall.
    rewrite <- (firstn_skipn n rest). apply in_or_app. now left.
Qed.

Lemma StronglySorted_sliceTo {A : Type} (R : A -> A -> Prop) (stop : Z) (l : list A) :
  StronglySorted R l -> StronglySorted R (sliceTo l stop).
Proof.
  intros Hs. unfold sliceTo. destruct (0 <=? stop)%Z; now apply StronglySorted_firstn.
Qed.

Lemma StronglySorted_map {A B : Type} (R : A -> A -> Prop) (S : B -> B -> Prop)
    (f : A -> B) (l : list A) :
  (forall a b, R a b -> S (f a) (f b)) -> StronglySorted R l -> StronglySorted S (map f l).
Proof.
  intros Hf. induction 1 as [| x rest Hs IH Hall]; simpl; constructor; auto.
  rewrite Forall_forall in *. intros y Hy. apply in_map_iff in Hy as [z [<- Hz]]. auto.
Qed.



Lemma jsSort_bySimilarity_sorted {num} `{OrderedArith num} {Row : Type} (l : list (Row * num)) :
  StronglySorted similarityGe (jsSort VectorRepository.bySimilarityDescending l).
Proof.
  apply jsSort_StronglySorted; unfold VectorRepository.bySimilarityDescending, similarityGe; intros.
  - now apply ord_sub_not_pos.
  - now apply ord_sub_pos.
  - eapply ord_geb_trans; eauto.
Qed.


(* ================================================================== *)
(** * Binary64 *)
(* ================================================================== *)

(** The facts about IEEE-754 binary64 that the program relies on, from
    the definitions of [SpecFloat]: the sign of a difference of two
    numbers is their order, [<=] is transitive, and the operations
    return binary64 numbers. *)
Section Binary64.
Local Open Scope Z_scope.

(** ** The sign of a rounded number *)

Lemma digits2_pos_bounds (m : positive) :
  2 ^ (Z.pos (digits2_pos m) - 1) <= Z.pos m < 2 ^ Z.pos (digits2_pos m).
Proof.
  induction m as [m IH | m IH |]; cbn [digits2_pos].
  - rewrite Pos2Z.inj_succ.
    replace (Z.succ (Z.pos (digits2_pos m)) - 1) with (Z.succ (Z.pos (digits2_pos m) - 1)) by lia.
    rewrite !Z.pow_succ_r by lia. lia.
  - rewrite Pos2Z.inj_succ.
    replace (Z.succ (Z.pos (digits2_pos m)) - 1) with (Z.succ (Z.pos (digits2_pos m) - 1)) by lia.
    rewrite !Z.pow_succ_r by lia. lia.
  - simpl. lia.
Qed.

Lemma shr_m_shr_1 (mrs : shr_record) : 0 <= shr_m mrs -> shr_m (shr_1 mrs) = shr_m mrs / 2.
Proof.
  destruct mrs as [m r s]. cbn [shr_m]. intros Hm.
  destruct m as [| p | p]; [reflexivity | | lia].
  destruct p as [p | p |]; cbn [shr_1 shr_m].
  - rewrite Pos2Z.inj_xI. apply Z.div_unique with 1; lia.
  - rewrite Pos2Z.inj_xO. apply Z.div_unique with 0; lia.
  - reflexivity.
Qed.

Lemma shr_m_iter_pos (p : positive) (mrs : shr_record) :
  0 <= shr_m mrs -> shr_m (iter_pos shr_1 p mrs) = shr_m mrs / 2 ^ Z.pos p.
Proof.
  revert mrs. induction p as [p IH | p IH |]; intros mrs Hm; cbn [iter_pos].
  - assert (H1 : 0 <= shr_m (shr_1 mrs)) by (rewrite shr_m_shr_1 by assumption; apply Z.div_pos; lia).
    assert (H2 : 0 <= shr_m (iter_pos shr_1 p (shr_1 mrs))) by (rewrite IH by assumption; apply Z.div_pos; lia).
    rewrite IH, IH, shr_m_shr_1 by assumption.
    rewrite !Z.div_div by lia. f_equal.
    rewrite Pos2Z.inj_xI. rewrite <- !Z.pow_add_r by lia.
    replace (2 * Z.pos p + 1) with (1 + Z.pos p + Z.pos p) by lia.
    rewrite !Z.pow_add_r by lia. lia.
  - assert (H2 : 0 <= shr_m (iter_pos shr_1 p mrs)) by (rewrite IH by assumption; apply Z.div_pos; lia).
    rewrite IH, IH by assumption.
    rewrite !Z.div_div by lia. f_equal.
    rewrite Pos2Z.inj_xO. rewrite <- !Z.pow_add_r by lia. f_equal. lia.
  - rewrite shr_m_shr_1 by assumption. reflexivity.
Qed.

Lemma Zdigits2_pos (m : Z) : 0 < m -> 2 ^ (Zdigits2 m - 1) <= m /\ 0 < Zdigits2 m.
Proof.
  destruct m as [| p | p]; try lia. intros _. cbn [Zdigits2].
  split; [apply digits2_pos_bounds | lia].
Qed.

(** Shifting to the exponent of the format keeps a positive mantissa positive. *)
Lemma shr_fexp_positive (m e : Z) (l : location) :
  0 < m -> -1074 <= e ->
  0 < shr_m (fst (shr_fexp F64.prec F64.emax m e l))
  /\ -1074 <= snd (shr_fexp F64.prec F64.emax m e l).
Proof.
  intros Hm He. unfold shr_fexp, shr.
  assert (Hrec : shr_m (shr_record_of_loc m l) = m) by (destruct l as [| []]; reflexivity).
  destruct (Zdigits2_pos m Hm) as [Hlow Hdig].
  destruct (fexp F64.prec F64.emax (Zdigits2 m + e) - e) as [| p | p] eqn:Hshift;
    cbn [fst snd]; rewrite ?Hrec; try (split; lia).
  unfold fexp, emin, F64.prec, F64.emax in Hshift.
  rewrite shr_m_iter_pos by lia. rewrite Hrec.
  split; [| lia].
  apply Z.div_str_pos. split; [apply Z.pow_pos_nonneg; lia |].
  apply Z.le_trans with (2 ^ (Zdigits2 m - 1)); [| exact Hlow].
  apply Z.pow_le_mono_r; lia.
Qed.

Lemma round_nearest_even_positive (m : Z) (l : location) : 0 < m -> 0 < round_nearest_even m l.
Proof. destruct l as [| []]; cbn [round_nearest_even]; try lia. destruct (Z.even m); lia. Qed.

(** Rounding a positive mantissa at an exponent of the format gives a
    number of the sign asked for, never a zero. *)
Lemma binary_round_aux_signed (s : bool) (m e : Z) (l : location) :
  0 < m -> -1074 <= e ->
  SFcompare (S754_zero false) (binary_round_aux F64.prec F64.emax s m e l)
  = Some (if s then Gt else Lt).
Proof.
  intros Hm He. unfold binary_round_aux.
  pose proof (shr_fexp_positive m e l Hm He) as [Hm' He'].
  destruct (shr_fexp F64.prec F64.emax m e l) as [mrs' e'] eqn:H1. cbn [fst snd] in Hm', He'.
  pose proof (shr_fexp_positive _ e' loc_Exact
                (round_nearest_even_positive _ (loc_of_shr_record mrs') Hm') He') as [Hm'' _].
  destruct (shr_fexp F64.prec F64.emax _ e' loc_Exact) as [mrs'' e''] eqn:H2. cbn [fst] in Hm''.
  destruct (shr_m mrs'') as [| p | p]; try lia.
  destruct (e'' <=? F64.emax - F64.prec); destruct s; reflexivity.
Qed.

Lemma binary_round_signed (s : bool) (m : positive) (e : Z) :
  -1074 <= e ->
  SFcompare (S754_zero false) (binary_round F64.prec F64.emax s m e)
  = Some (if s then Gt else Lt).
Proof.
  intros He. unfold binary_round, shl_align.
  destruct (fexp F64.prec F64.emax (Z.pos (digits2_pos m) + e) - e) as [| p | p] eqn:Hshift;
    apply binary_round_aux_signed; try lia.
  unfold fexp, emin, F64.prec, F64.emax in *. lia.
Qed.

(** The sign of a rounded integer is the sign of the integer. *)
Lemma binary_normalize_compare (d e : Z) :
  -1074 <= e ->
  SFcompare (S754_zero false) (binary_normalize F64.prec F64.emax d e false)
  = Some (0 ?= d).
Proof.
  intros He. destruct d as [| p | p]; cbn [binary_normalize]; [reflexivity | |];
    now rewrite binary_round_signed.
Qed.

(** A binary64 number has its exponent in the format and its mantissa
    of at most 53 bits, of 53 bits above the least exponent. *)
Lemma valid_finite (s : bool) (m : positive) (e : Z) :
  F64.valid (S754_finite s m e) = true ->
  -1074 <= e /\ Z.pos m < 2 ^ 53 /\ (-1074 < e -> 2 ^ 52 <= Z.pos m).
Proof.
  unfold F64.valid. cbn [valid_binary]. unfold bounded, canonical_mantissa. intros Hvalid.
  apply andb_prop in Hvalid as [Hcanon _]. apply Z.eqb_eq in Hcanon.
  unfold fexp, emin, F64.prec, F64.emax in Hcanon.
  pose proof (digits2_pos_bounds m) as [Hlow Hhigh].
  split; [lia |]. split.
  - apply Z.lt_le_trans with (2 ^ Z.pos (digits2_pos m)); [exact Hhigh |].
    apply Z.pow_le_mono_r; lia.
  - intros He. apply Z.le_trans with (2 ^ (Z.pos (digits2_pos m) - 1)); [| exact Hlow].
    apply Z.pow_le_mono_r; lia.
Qed.

Lemma shl_align_value (m : positive) (e e' : Z) :
  e' <= e -> Z.pos (fst (shl_align m e e')) = Z.pos m * 2 ^ (e - e').
Proof.
  intros Hle. unfold shl_align.
  destruct (e' - e) as [| p | p] eqn:Hshift; cbn [fst]; try lia.
  - replace (e - e') with 0 by lia. lia.
  - replace (e - e') with (Z.pos p) by lia.
    change (Pos.iter xO m p) with (shift_pos p m).
    rewrite shift_pos_correct. change (Z.pow_pos 2 p) with (2 ^ Z.pos p). lia.
Qed.

(** Of two binary64 numbers the one with the smaller exponent is the
    smaller in magnitude. *)
Lemma valid_exponent_lt (s1 s2 : bool) (m1 m2 : positive) (e1 e2 : Z) :
  F64.valid (S754_finite s1 m1 e1) = true -> F64.valid (S754_finite s2 m2 e2) = true ->
  e1 < e2 -> Z.pos m1 < Z.pos m2 * 2 ^ (e2 - e1).
Proof.
  intros H1 H2 Hlt.
  apply valid_finite in H1 as [He1 [Hm1 _]]. apply valid_finite in H2 as [_ [_ Hm2]].
  specialize (Hm2 ltac:(lia)).
  assert (2 ^ 1 <= 2 ^ (e2 - e1)) by (apply Z.pow_le_mono_r; lia).
  change (2 ^ 1) with 2 in *. change (2 ^ 53) with (2 * 2 ^ 52) in Hm1. nia.
Qed.

Lemma SFcompare_finite (s1 s2 : bool) (m1 m2 : positive) (e1 e2 : Z) :
  F64.valid (S754_finite s1 m1 e1) = true -> F64.valid (S754_finite s2 m2 e2) = true ->
  SFcompare (S754_finite s1 m1 e1) (S754_finite s2 m2 e2)
  = Some (cond_Zopp s1 (Z.pos m1 * 2 ^ (e1 - Z.min e1 e2))
          ?= cond_Zopp s2 (Z.pos m2 * 2 ^ (e2 - Z.min e1 e2))).
Proof.
  intros H1 H2. cbn [SFcompare]. f_equal.
  destruct (Z.compare_spec e1 e2) as [Heq | Hlt | Hgt].
  - subst e2. rewrite Z.min_id, Z.sub_diag, !Z.mul_1_r.
    rewrite Pos.compare_cont_spec.
    destruct s1, s2; cbn [cond_Zopp Z.opp Z.compare]; try reflexivity;
      destruct (m1 ?= m2)%positive; reflexivity.
  - pose proof (valid_exponent_lt _ _ _ _ _ _ H1 H2 Hlt) as Hm.
    rewrite Z.min_l by lia. rewrite Z.sub_diag, Z.mul_1_r.
    destruct s1, s2; cbn [cond_Zopp]; symmetry;
      first [apply Z.compare_lt_iff | apply Z.compare_gt_iff]; lia.
  - pose proof (valid_exponent_lt _ _ _ _ _ _ H2 H1 ltac:(lia)) as Hm.
    rewrite Z.min_r by lia. rewrite Z.sub_diag, Z.mul_1_r.
    destruct s1, s2; cbn [cond_Zopp]; symmetry;
      first [apply Z.compare_lt_iff | apply Z.compare_gt_iff]; lia.
Qed.

Lemma SFsub_finite_compare (s1 s2 : bool) (m1 m2 : positive) (e1 e2 : Z) :
  F64.valid (S754_finite s1 m1 e1) = true -> F64.valid (S754_finite s2 m2 e2) = true ->
  SFcompare (S754_zero false) (F64.sub (S754_finite s1 m1 e1) (S754_finite s2 m2 e2))
  = SFcompare (S754_finite s2 m2 e2) (S754_finite s1 m1 e1).
Proof.
  intros H1 H2. rewrite (SFcompare_finite _ _ _ _ _ _ H2 H1).
  unfold F64.sub. cbn [SFsub].
  rewrite !shl_align_value by lia.
  rewrite binary_normalize_compare
    by (apply valid_finite in H1 as [? _]; apply valid_finite in H2 as [? _]; lia).
  f_equal. rewrite (Z.min_comm e2 e1).
  set (x := cond_Zopp s1 _). set (y := cond_Zopp s2 _).
  destruct (Z.compare_spec y x); [apply Z.compare_eq_iff | apply Z.compare_lt_iff
                                  | apply Z.compare_gt_iff]; lia.
Qed.

(** The sign of a difference of binary64 numbers is their order; the
    difference of an infinity and itself is NaN. *)
Lemma SFsub_compare (x y : F64.t) :
  F64.valid x = true -> F64.valid y = true ->
  SFcompare (S754_zero false) (F64.sub x y) = SFcompare y x
  \/ (F64.sub x y = S754_nan /\ SFcompare y x = Some Eq).
Proof.
  intros Hx Hy.
  destruct x as [sx | sx | | sx mx ex], y as [sy | sy | | sy my ey];
    try (left; now apply SFsub_finite_compare);
    try (left; reflexivity);
    destruct sx, sy; (left; reflexivity) || (right; split; reflexivity).
Qed.

Lemma SFcompare_swap (x y : F64.t) : SFcompare y x = option_map CompOpp (SFcompare x y).
Proof.
  destruct x as [sx | sx | | sx mx ex], y as [sy | sy | | sy my ey];
    try reflexivity; try (destruct sx; reflexivity); try (destruct sy; reflexivity);
    try (destruct sx, sy; reflexivity).
  cbn [SFcompare option_map]. f_equal.
  assert (Hm : Pos.compare_cont Eq my mx = CompOpp (Pos.compare_cont Eq mx my))
    by (symmetry; apply (Pos.compare_cont_antisym mx my Eq)).
  rewrite (Z.compare_antisym ex ey), Hm.
  destruct sx, sy; try reflexivity; destruct (ex ?= ey); cbn [CompOpp]; try reflexivity;
    now rewrite CompOpp_involutive.
Qed.

(** [<=] on binary64 is transitive. *)
Lemma SFleb_trans (x y z : F64.t) :
  SFleb x y = true -> SFleb y z = true -> SFleb x z = true.
Proof.
  unfold SFleb.
  destruct x as [sx | sx | | sx mx ex], y as [sy | sy | | sy my ey], z as [sz | sz | | sz mz ez];
    cbn [SFcompare]; try discriminate; try (intros _ _; reflexivity);
    try (destruct sx; try discriminate; try reflexivity);
    try (destruct sy; try discriminate; try reflexivity);
    try (destruct sz; try discriminate; try reflexivity);
    try (intros _ _; reflexivity); try (intros _; discriminate);
    rewrite ?Pos.compare_cont_spec; unfold Pos.switch_Eq;
    destruct (Z.compare_spec ex ey); try discriminate;
    destruct (Z.compare_spec ey ez); try discriminate;
    destruct (Z.compare_spec ex ez); try reflexivity; try lia;
    destruct (Pos.compare_spec mx my); try discriminate;
    destruct (Pos.compare_spec my mz); try discriminate;
    destruct (Pos.compare_spec mx mz); try reflexivity; try lia.
Qed.


(** ** Numbers that are not below zero *)

Lemma shr_fexp_nonneg (m e : Z) (l : location) :
  0 <= m -> 0 <= shr_m (fst (shr_fexp F64.prec F64.emax m e l)).
Proof.
  intros Hm. unfold shr_fexp, shr.
  assert (Hrec : shr_m (shr_record_of_loc m l) = m) by (destruct l as [| []]; reflexivity).
  destruct (fexp F64.prec F64.emax (Zdigits2 m + e) - e) as [| p | p]; cbn [fst];
    rewrite ?shr_m_iter_pos, Hrec by lia; try assumption.
  apply Z.div_pos; lia.
Qed.

Lemma round_nearest_even_nonneg (m : Z) (l : location) : 0 <= m -> 0 <= round_nearest_even m l.
Proof. destruct l as [| []]; cbn [round_nearest_even]; try lia. destruct (Z.even m); lia. Qed.

Lemma binary_round_aux_nonneg (m e : Z) (l : location) :
  0 <= m -> F64.isNonNegative (binary_round_aux F64.prec F64.emax false m e l) = true.
Proof.
  intros Hm. unfold binary_round_aux.
  pose proof (shr_fexp_nonneg m e l Hm) as Hm'.
  destruct (shr_fexp F64.prec F64.emax m e l) as [mrs' e']. cbn [fst] in Hm'.
  pose proof (shr_fexp_nonneg _ e' loc_Exact
                (round_nearest_even_nonneg _ (loc_of_shr_record mrs') Hm')) as Hm''.
  destruct (shr_fexp F64.prec F64.emax _ e' loc_Exact) as [mrs'' e'']. cbn [fst] in Hm''.
  destruct (shr_m mrs'') as [| p | p]; try lia; [reflexivity |].
  destruct (e'' <=? F64.emax - F64.prec); reflexivity.
Qed.

Lemma binary_round_nonneg (m : positive) (e : Z) :
  F64.isNonNegative (binary_round F64.prec F64.emax false m e) = true.
Proof.
  unfold binary_round. destruct (shl_align m e _) as [mz ez].
  apply binary_round_aux_nonneg. lia.
Qed.

Lemma isNonNegative_add (x y : F64.t) :
  F64.isNonNegative x = true -> F64.isNonNegative y = true ->
  F64.isNonNegative (F64.add x y) = true.
Proof.
  destruct x as [sx | sx | | sx mx ex]; try discriminate;
    destruct y as [sy | sy | | sy my ey]; try discriminate;
    destruct sx; try discriminate; destruct sy; try discriminate; intros _ _; try reflexivity.
  unfold F64.add. cbn [SFadd cond_Zopp]. cbn [Z.add binary_normalize].
  apply binary_round_nonneg.
Qed.

Lemma isNonNegative_mul (w q : F64.t) :
  F64.isPositiveFinite w = true -> F64.isNonNegative q = true ->
  F64.isNonNegative (F64.mul w q) = true.
Proof.
  destruct w as [sw | sw | | sw mw ew]; try discriminate; destruct sw; try discriminate.
  destruct q as [sq | sq | | sq mq eq]; try discriminate; destruct sq; try discriminate;
    intros _ _; try reflexivity.
  unfold F64.mul. cbn [SFmul xorb]. apply binary_round_aux_nonneg. lia.
Qed.

(** The reciprocal of a positive number is not below zero. *)
Lemma isNonNegative_reciprocal (x : F64.t) :
  SFcompare (S754_zero false) x = Some Lt ->
  F64.isNonNegative (F64.div (F64.ofZ 1) x) = true.
Proof.
  destruct x as [sx | sx | | sx mx ex]; try discriminate; destruct sx; try discriminate;
    intros _; [reflexivity |].
  change (F64.ofZ 1) with (S754_finite false 4503599627370496 (-52)).
  unfold F64.div. cbn [SFdiv xorb]. unfold SFdiv_core_binary.
  set (m' := match _ with Z0 => _ | Z.pos _ => _ | Z.neg _ => _ end).
  assert (Hm' : 0 <= m').
  { unfold m'. destruct (_ - _ - _) as [| p | p]; try lia. apply Z.shiftl_nonneg. lia. }
  pose proof (Z_div_mod m' (Z.pos mx) ltac:(lia)) as Hdiv.
  destruct (Z.div_eucl m' (Z.pos mx)) as [q r]. destruct Hdiv as [Heq Hr].
  apply binary_round_aux_nonneg. nia.
Qed.

(** A positive integer is a positive number. *)
Lemma ofZ_positive (z : Z) : 0 < z -> SFcompare (S754_zero false) (F64.ofZ z) = Some Lt.
Proof.
  intros Hz. unfold F64.ofZ. rewrite binary_normalize_compare by lia.
  f_equal. now apply Z.compare_lt_iff.
Qed.

(** The sum of a number that is not below zero and a positive one is
    positive. *)
Lemma add_positive (k y : F64.t) :
  F64.valid k = true -> F64.valid y = true -> F64.isNonNegative k = true ->
  SFcompare (S754_zero false) y = Some Lt ->
  SFcompare (S754_zero false) (F64.add k y) = Some Lt.
Proof.
  intros Hk Hy.
  destruct k as [sk | sk | | sk mk ek]; try discriminate; destruct sk; try discriminate;
    destruct y as [sy | sy | | sy my ey]; try discriminate; destruct sy; try discriminate;
    intros _ _; try reflexivity.
  unfold F64.add. cbn [SFadd cond_Zopp].
  apply valid_finite in Hk as [Hek _]. apply valid_finite in Hy as [Hey _].
  rewrite binary_normalize_compare by lia. reflexivity.
Qed.

Lemma add_zero_nonNegative (x : F64.t) :
  F64.isNonNegative x = true -> F64.add (F64.ofZ 0) x = x.
Proof.
  destruct x as [sx | sx | | sx mx ex]; try discriminate; destruct sx; try discriminate;
    reflexivity.
Qed.

(** [x || 0] is [x] for a number that is not below zero. *)
Lemma norElse_nonNegative (x : F64.t) :
  F64.isNonNegative x = true -> norElse (Some x) (F64.ofZ 0) = x.
Proof.
  destruct x as [sx | sx | | sx mx ex]; try discriminate; destruct sx; try discriminate;
    reflexivity.
Qed.

(** ** The laws of a comparator [(a, b) => b - a] *)

Lemma isNumber_valid (x : F64.t) : F64.isNumber x = true -> F64.valid x = true.
Proof. unfold F64.isNumber. intros Hx. now apply andb_prop in Hx. Qed.

Lemma isNumber_compare (x y : F64.t) :
  F64.isNumber x = true -> F64.isNumber y = true -> exists c, SFcompare x y = Some c.
Proof.
  unfold F64.isNumber. intros Hx Hy.
  apply andb_prop in Hx as [_ Hx]. apply andb_prop in Hy as [_ Hy].
  destruct x as [sx | sx | | sx mx ex]; try discriminate Hx;
    destruct y as [sy | sy | | sy my ey]; try discriminate Hy; cbn [SFcompare]; eauto.
Qed.

Lemma F64_sub_not_pos (a b : F64.t) :
  F64.isNumber a = true -> F64.isNumber b = true ->
  F64.gtb (F64.sub b a) (F64.ofZ 0) = false -> F64.geb a b = true.
Proof.
  intros Ha Hb. unfold F64.gtb, F64.geb, SFltb, SFleb.
  change (F64.ofZ 0) with (S754_zero false).
  destruct (isNumber_compare a b Ha Hb) as [c Hc].
  rewrite (SFcompare_swap a b), Hc. cbn [option_map].
  destruct (SFsub_compare b a (isNumber_valid b Hb) (isNumber_valid a Ha)) as [-> | [_ Heq]].
  - rewrite Hc. destruct c; [reflexivity | discriminate | reflexivity].
  - rewrite Hc in Heq. injection Heq as ->. reflexivity.
Qed.

Lemma F64_sub_pos (a b : F64.t) :
  F64.valid a = true -> F64.valid b = true ->
  F64.gtb (F64.sub b a) (F64.ofZ 0) = true -> F64.geb b a = true.
Proof.
  intros Ha Hb. unfold F64.gtb, F64.geb, SFltb, SFleb.
  change (F64.ofZ 0) with (S754_zero false).
  destruct (SFsub_compare b a Hb Ha) as [-> | [-> _]]; [| discriminate].
  destruct (SFcompare a b) as [[| |] |]; try discriminate. reflexivity.
Qed.

Lemma F64_geb_trans (a b c : F64.t) :
  F64.geb a b = true -> F64.geb b c = true -> F64.geb a c = true.
Proof. unfold F64.geb. intros Hab Hbc. exact (SFleb_trans c b a Hbc Hab). Qed.

(** ** The operations return binary64 numbers

    They are the operations of the hardware floats, which are all
    binary64 numbers. *)

Lemma F64_valid_add (x y : F64.t) :
  F64.valid x = true -> F64.valid y = true -> F64.valid (F64.add x y) = true.
Proof.
  intros Hx Hy. unfold F64.valid, F64.add.
  rewrite <- (FloatAxioms.Prim2SF_SF2Prim x Hx), <- (FloatAxioms.Prim2SF_SF2Prim y Hy).
  change (SFadd F64.prec F64.emax) with FloatAxioms.SF64add.
  rewrite <- FloatAxioms.add_spec. apply FloatAxioms.Prim2SF_valid.
Qed.

Lemma F64_valid_mul (x y : F64.t) :
  F64.valid x = true -> F64.valid y = true -> F64.valid (F64.mul x y) = true.
Proof.
  intros Hx Hy. unfold F64.valid, F64.mul.
  rewrite <- (FloatAxioms.Prim2SF_SF2Prim x Hx), <- (FloatAxioms.Prim2SF_SF2Prim y Hy).
  change (SFmul F64.prec F64.emax) with FloatAxioms.SF64mul.
  rewrite <- FloatAxioms.mul_spec. apply FloatAxioms.Prim2SF_valid.
Qed.

Lemma F64_valid_div (x y : F64.t) :
  F64.valid x = true -> F64.valid y = true -> F64.valid (F64.div x y) = true.
Proof.
  intros Hx Hy. unfold F64.valid, F64.div.
  rewrite <- (FloatAxioms.Prim2SF_SF2Prim x Hx), <- (FloatAxioms.Prim2SF_SF2Prim y Hy).
  change (SFdiv F64.prec F64.emax) with FloatAxioms.SF64div.
  rewrite <- FloatAxioms.div_spec. apply FloatAxioms.Prim2SF_valid.
Qed.

Lemma F64_valid_sqrt (x : F64.t) : F64.valid x = true -> F64.valid (F64.sqrt x) = true.
Proof.
  intros Hx. unfold F64.valid, F64.sqrt.
  rewrite <- (FloatAxioms.Prim2SF_SF2Prim x Hx).
  change (SFsqrt F64.prec F64.emax) with FloatAxioms.SF64sqrt.
  rewrite <- FloatAxioms.sqrt_spec. apply FloatAxioms.Prim2SF_valid.
Qed.

Lemma F64_valid_ofZ (z : Z) : 0 <= z < 2 ^ 63 -> F64.valid (F64.ofZ z) = true.
Proof.
  intros Hz. unfold F64.valid, F64.ofZ.
  replace z with (Uint63Axioms.to_Z (Uint63Axioms.of_Z z)).
  - change (binary_normalize F64.prec F64.emax) with (binary_normalize FloatOps.prec FloatOps.emax).
    rewrite <- FloatAxioms.of_uint63_spec. apply FloatAxioms.Prim2SF_valid.
  - rewrite Uint63.of_Z_spec. apply Z.mod_small. exact Hz.
Qed.
End Binary64.

(** ** Sorting binary64 numbers *)

Lemma jsSort_bySimilarity_sorted_F64 {Row : Type} (l : list (Row * F64.t)) :
  Forall (fun entry => F64.isNumber (snd entry) = true) l ->
  StronglySorted similarityGe (jsSort VectorRepository.bySimilarityDescending l).
Proof.
  apply jsSort_StronglySorted_on;
    unfold VectorRepository.bySimilarityDescending, similarityGe; intros.
  - now apply F64_sub_not_pos.
  - apply F64_sub_pos; auto using isNumber_valid.
  - eapply F64_geb_trans; eauto.
Qed.


(* ================================================================== *)
(** * Reciprocal rank fusion *)
(* ================================================================== *)

Section JSMapEntries.
Context {V : Type}.

Lemma In_map_set_inv (key key' : string) (v v' : V) (m : JSMap V) :
  In (key', v') (map_set key v m) -> (key' = key /\ v' = v) \/ In (key', v') m.
Proof.
  induction m as [| [k0 v0] rest IH]; simpl.
  - intros [[= <- <-] | []]. now left.
  - destruct (String.eqb k0 key) eqn:E; simpl.
    + apply String.eqb_eq in E; subst k0.
      intros [[= <- <-] | Hin]; [now left | right; now right].
    + intros [Heq | Hin]; [right; now left |].
      destruct (IH Hin) as [? | ?]; [now left | right; now right].
Qed.


Lemma entriesAll_set (P : string -> V -> Prop) key v m :
  entriesAll P m -> P key v -> entriesAll P (map_set key v m).
Proof.
  intros Hall Hv k' v' Hin. apply In_map_set_inv in Hin. destruct Hin as [[-> ->] | ?]; auto.
Qed.
End JSMapEntries.

Section FusionFacts.
Context {num : Type} `{Number num}.
Implicit Types (documents : JSMap (SearchResult num)) (fts5Results vectorResults : list (SearchResult num)).


Lemma keyed_nil : @keyed num [].
Proof. split; [constructor | intros ? ? []]. Qed.

Lemma keyed_set documents key v :
  keyed documents -> nodeType v = key -> keyed (map_set key v documents).
Proof.
  intros [Hnd Hall] Hv. split; [now apply NoDup_map_keys_set | now apply entriesAll_set].
Qed.

Lemma keyed_get documents key v : keyed documents -> map_get key documents = Some v -> nodeType v = key.
Proof. intros [_ Hall] Hget. apply Hall. now apply map_get_In. Qed.

(** *** The first loop *)

Lemma addFts5Results_keyed index fts5Results documents :
  keyed documents -> keyed (RRFFusion.addFts5Results index fts5Results documents).
Proof.
  revert index documents. induction fts5Results as [| r rest IH]; intros index documents Hk; simpl; auto.
  apply IH. now apply keyed_set.
Qed.

Lemma addFts5Results_keys index fts5Results documents entity :
  In entity (map_keys (RRFFusion.addFts5Results index fts5Results documents)) <->
  In entity (map_keys documents) \/ In entity (map (@nodeType num) fts5Results).
Proof.
  revert index documents. induction fts5Results as [| r rest IH]; intros index documents; simpl.
  - tauto.
  - rewrite IH, in_map_keys_set. intuition congruence.
Qed.

Lemma addFts5Results_method index fts5Results documents :
  entriesAll (fun _ v => searchMethod v = fts5) documents ->
  entriesAll (fun _ v => searchMethod v = fts5) (RRFFusion.addFts5Results index fts5Results documents).
Proof.
  revert index documents. induction fts5Results as [| r rest IH]; intros index documents Hall; simpl; auto.
  apply IH. now apply entriesAll_set.
Qed.

(** *** The second loop *)

Lemma addVectorResults_keyed index vectorResults documents :
  keyed documents -> keyed (RRFFusion.addVectorResults index vectorResults documents).
Proof.
  revert index documents. induction vectorResults as [| r rest IH]; intros index documents Hk; simpl; auto.
  apply IH. destruct (map_get (nodeType r) documents) as [existing |] eqn:Hget.
  - apply keyed_set; auto. simpl. eapply keyed_get; eauto.
  - now apply keyed_set.
Qed.

Lemma addVectorResults_keys index vectorResults documents entity :
  In entity (map_keys (RRFFusion.addVectorResults index vectorResults documents)) <->
  In entity (map_keys documents) \/ In entity (map (@nodeType num) vectorResults).
Proof.
  revert index documents. induction vectorResults as [| r rest IH]; intros index documents; simpl.
  - tauto.
  - rewrite IH. destruct (map_get (nodeType r) documents); rewrite in_map_keys_set; intuition congruence.
Qed.

(** An entity the vector list does not mention keeps its entry. *)
Lemma addVectorResults_untouched index vectorResults documents entity :
  ~ In entity (map (@nodeType num) vectorResults) ->
  map_get entity (RRFFusion.addVectorResults index vectorResults documents) = map_get entity documents.
Proof.
  revert index documents. induction vectorResults as [| r rest IH]; intros index documents Hnotin; simpl; auto.
  simpl in Hnotin. rewrite IH by tauto.
  destruct (map_get (nodeType r) documents); apply map_get_set_other; tauto.
Qed.

(** An entity already filed that the vector list mentions ends as
    ['hybrid']. *)
Lemma addVectorResults_hybrid index vectorResults documents entity :
  In entity (map (@nodeType num) vectorResults) ->
  map_get entity documents <> None ->
  exists v, map_get entity (RRFFusion.addVectorResults index vectorResults documents) = Some v
            /\ searchMethod v = hybrid.
Proof.
  revert index documents. induction vectorResults as [| r rest IH]; intros index documents Hin Hsome;
    simpl in *; [contradiction |].
  destruct (string_dec (nodeType r) entity) as [Heq | Hne].
  - subst entity. destruct (map_get (nodeType r) documents) as [existing |] eqn:Hget; [| congruence].
    destruct (in_dec string_dec (nodeType r) (map (@nodeType num) rest)) as [Hin' | Hnotin].
    + apply IH; auto. rewrite map_get_set_same. discriminate.
    + rewrite addVectorResults_untouched by assumption.
      rewrite map_get_set_same. eexists; split; [reflexivity | reflexivity].
  - destruct Hin as [? | Hin]; [contradiction |].
    apply IH; auto.
    destruct (map_get (nodeType r) documents); now rewrite map_get_set_other.
Qed.

(** An entity not yet filed that the vector list mentions once ends as
    ['vector']. *)
Lemma addVectorResults_vector index vectorResults documents entity :
  NoDup (map (@nodeType num) vectorResults) ->
  In entity (map (@nodeType num) vectorResults) ->
  map_get entity documents = None ->
  exists v, map_get entity (RRFFusion.addVectorResults index vectorResults documents) = Some v
            /\ searchMethod v = vector.
Proof.
  revert index documents. induction vectorResults as [| r rest IH]; intros index documents Hnd Hin Hnone;
    simpl in *; [contradiction |].
  inversion Hnd as [| ? ? Hnotin Hnd']; subst.
  destruct (string_dec (nodeType r) entity) as [Heq | Hne].
  - subst entity. rewrite Hnone.
    rewrite addVectorResults_untouched by assumption.
    rewrite map_get_set_same. eexists; split; reflexivity.
  - destruct Hin as [? | Hin]; [contradiction |].
    apply IH; auto.
    destruct (map_get (nodeType r) documents); now rewrite map_get_set_other.
Qed.

(** *** The unified document set *)

Lemma createUnifiedDocumentSet_keyed fts5Results vectorResults :
  keyed (RRFFusion.createUnifiedDocumentSet fts5Results vectorResults).
Proof. apply addVectorResults_keyed, addFts5Results_keyed, keyed_nil. Qed.

Lemma createUnifiedDocumentSet_keys fts5Results vectorResults entity :
  In entity (map_keys (RRFFusion.createUnifiedDocumentSet fts5Results vectorResults)) <->
  In entity (map (@nodeType num) fts5Results) \/ In entity (map (@nodeType num) vectorResults).
Proof.
  unfold RRFFusion.createUnifiedDocumentSet.
  rewrite addVectorResults_keys, addFts5Results_keys. simpl. tauto.
Qed.

Lemma createUnifiedDocumentSet_method fts5Results vectorResults key v :
  In (key, v) (RRFFusion.createUnifiedDocumentSet fts5Results vectorResults) ->
  (In key (map (@nodeType num) fts5Results) -> In key (map (@nodeType num) vectorResults) ->
     searchMethod v = hybrid)
  /\ (In key (map (@nodeType num) fts5Results) -> ~ In key (map (@nodeType num) vectorResults) ->
     searchMethod v = fts5)
  /\ (~ In key (map (@nodeType num) fts5Results) -> NoDup (map (@nodeType num) vectorResults) ->
     searchMethod v = vector).
Proof.
  intros Hin.
  pose proof (createUnifiedDocumentSet_keyed fts5Results vectorResults) as [Hnd _].
  pose proof (In_map_get _ _ _ Hnd Hin) as Hget.
  unfold RRFFusion.createUnifiedDocumentSet in *.
  set (first := RRFFusion.addFts5Results 0 fts5Results []) in *.
  assert (Hfirst : forall e, In e (map_keys first) <-> In e (map (@nodeType num) fts5Results)).
  { intros e. unfold first. rewrite addFts5Results_keys. simpl. tauto. }
  repeat split.
  - intros Hf Hv.
    destruct (addVectorResults_hybrid 0 vectorResults first key Hv) as [v' [Hget' Hm]].
    + apply map_get_in_keys. now apply Hfirst.
    + congruence.
  - intros Hf Hv.
    rewrite addVectorResults_untouched in Hget by assumption.
    apply map_get_In in Hget.
    exact (addFts5Results_method 0 fts5Results [] (fun _ _ F => match F with end) _ _ Hget).
  - intros Hf Hndv.
    assert (Hv : In key (map (@nodeType num) vectorResults)).
    { assert (Hk : In key (map_keys (RRFFusion.addVectorResults 0 vectorResults first))).
      { apply map_get_in_keys. congruence. }
      apply addVectorResults_keys in Hk. destruct Hk as [Hk | Hk]; [| assumption].
      apply Hfirst in Hk. contradiction. }
    destruct (addVectorResults_vector 0 vectorResults first key Hndv Hv) as [v' [Hget' Hm]].
    + apply map_get_none. rewrite Hfirst. assumption.
    + congruence.
Qed.
End FusionFacts.

Section FusionScores.
Context {num : Type} `{Number num}.
Implicit Types (documents : JSMap (SearchResult num)) (fts5Results vectorResults results : list (SearchResult num)).

(** *** The ranking maps *)

Lemma rankFrom_None index entity results :
  ~ In entity (map (@nodeType num) results) -> FusionSpec.rankFrom index entity results = None.
Proof.
  revert index. induction results as [| r rest IH]; intros index Hnotin; simpl in *; auto.
  destruct (String.eqb (nodeType r) entity) eqn:E.
  - apply String.eqb_eq in E. tauto.
  - apply IH. tauto.
Qed.

Lemma rankFrom_Some index entity results :
  In entity (map (@nodeType num) results) -> FusionSpec.rankFrom index entity results <> None.
Proof.
  revert index. induction results as [| r rest IH]; intros index Hin; simpl in *; [contradiction |].
  destruct (String.eqb (nodeType r) entity) eqn:E; [discriminate |].
  apply String.eqb_neq in E. apply IH. tauto.
Qed.

(** The rank the specification speaks of is a position in the list:
    the element there is the entity, and the rank is its index plus 1. *)
Lemma rankFrom_position index entity results rank :
  FusionSpec.rankFrom index entity results = Some rank ->
  exists i r, nth_error results i = Some r /\ nodeType r = entity
              /\ rank = (Z.of_nat (index + i) + 1)%Z.
Proof.
  revert index. induction results as [| r rest IH]; intros index; simpl; [discriminate |].
  destruct (String.eqb (nodeType r) entity) eqn:E.
  - intros [= <-]. apply String.eqb_eq in E. exists 0, r. rewrite Nat.add_0_r. auto.
  - intros Hr. destruct (IH _ Hr) as [i [r' [Hnth [Hty Hrank]]]].
    exists (S i), r'. repeat split; auto. rewrite Hrank. f_equal. lia.
Qed.

Lemma rankOf_position entity results rank :
  FusionSpec.rankOf entity results = Some rank ->
  exists i r, nth_error results i = Some r /\ nodeType r = entity /\ rank = (Z.of_nat i + 1)%Z.
Proof. apply rankFrom_position. Qed.

(** In a list that names no entity twice, the ranking map holds the
    position of each entity (with repetitions it holds the last one). *)
Lemma setRankings_get index results rankings entity :
  NoDup (map (@nodeType num) results) ->
  map_get entity (RRFFusion.setRankings index results rankings) =
    match FusionSpec.rankFrom index entity results with
    | Some rank => Some rank
    | None => map_get entity rankings
    end.
Proof.
  revert index rankings. induction results as [| r rest IH]; intros index rankings Hnd; simpl; auto.
  inversion Hnd as [| ? ? Hnotin Hnd']; subst.
  rewrite IH by assumption.
  destruct (String.eqb (nodeType r) entity) eqn:E.
  - apply String.eqb_eq in E; subst entity.
    rewrite rankFrom_None by assumption. apply map_get_set_same.
  - apply String.eqb_neq in E.
    destruct (FusionSpec.rankFrom (S index) entity rest); auto.
    now apply map_get_set_other.
Qed.

Lemma setRankings_rankOf results entity :
  NoDup (map (@nodeType num) results) ->
  map_get entity (RRFFusion.setRankings 0 results []) = FusionSpec.rankOf entity results.
Proof.
  intros Hnd. rewrite setRankings_get by assumption.
  unfold FusionSpec.rankOf. now destruct (FusionSpec.rankFrom 0 entity results).
Qed.

(** *** The score map and the fused results *)

Lemma fold_scores_get (f : string -> num) documents (rrfScores : JSMap num) entity :
  map_get entity
    (fold_left (fun acc (entry : string * SearchResult num) => map_set (fst entry) (f (fst entry)) acc)
       documents rrfScores) =
  if in_dec string_dec entity (map_keys documents) then Some (f entity) else map_get entity rrfScores.
Proof.
  revert rrfScores. induction documents as [| [k0 d0] rest IH]; intros rrfScores; simpl; auto.
  rewrite IH. destruct (string_dec k0 entity) as [-> | Hne].
  - destruct (in_dec string_dec entity (map_keys rest)); auto. apply map_get_set_same.
  - destruct (in_dec string_dec entity (map_keys rest)); auto. now apply map_get_set_other.
Qed.

Lemma calculateRRFScores_get this documents fts5Results vectorResults entity :
  In entity (map_keys documents) ->
  map_get entity (RRFFusion.calculateRRFScores this documents fts5Results vectorResults) =
    Some (RRFFusion.rrfScoreOf this (RRFFusion.setRankings 0 fts5Results [])
            (RRFFusion.setRankings 0 vectorResults []) entity).
Proof.
  intros Hin. unfold RRFFusion.calculateRRFScores. rewrite fold_scores_get.
  destruct (in_dec string_dec entity (map_keys documents)); [reflexivity | contradiction].
Qed.

Lemma createFusedResults_nodeTypes documents rrfScores :
  keyed documents ->
  map (@nodeType num) (RRFFusion.createFusedResults documents rrfScores) = map_keys documents.
Proof.
  intros [_ Hall]. unfold RRFFusion.createFusedResults, map_keys. rewrite map_map.
  apply map_ext_in. intros [key doc] Hin. simpl. now apply Hall.
Qed.

(** What [fuseResults] returns, element by element: a document of the
    unified set, with the score the scoring loop computed for its key. *)
Lemma fuseResults_In_inv this fts5Results vectorResults r :
  In r (RRFFusion.fuseResults this fts5Results vectorResults) ->
  exists document,
    In (nodeType r, document) (RRFFusion.createUnifiedDocumentSet fts5Results vectorResults)
    /\ searchMethod r = searchMethod document
    /\ relevanceScore r =
         norElse (Some (RRFFusion.rrfScoreOf this (RRFFusion.setRankings 0 fts5Results [])
                          (RRFFusion.setRankings 0 vectorResults []) (nodeType r))) (nofZ 0).
Proof.
  unfold RRFFusion.fuseResults. rewrite jsSort_In.
  unfold RRFFusion.createFusedResults. rewrite in_map_iff.
  intros [[key doc] [<- Hin]]. simpl.
  pose proof (createUnifiedDocumentSet_keyed fts5Results vectorResults) as [Hnd Hall].
  pose proof (Hall _ _ Hin) as Hkey. simpl in Hkey.
  exists doc. rewrite Hkey. split; [assumption |]. split; [reflexivity |].
  rewrite calculateRRFScores_get; [reflexivity |].
  unfold map_keys. change key with (fst (key, doc)). now apply in_map.
Qed.

Lemma fuseResults_nodeTypes this fts5Results vectorResults :
  Permutation (map (@nodeType num) (RRFFusion.fuseResults this fts5Results vectorResults))
    (map_keys (RRFFusion.createUnifiedDocumentSet fts5Results vectorResults)).
Proof.
  unfold RRFFusion.fuseResults.
  rewrite <- (createFusedResults_nodeTypes _
    (RRFFusion.calculateRRFScores this
       (RRFFusion.createUnifiedDocumentSet fts5Results vectorResults) fts5Results vectorResults)
    (createUnifiedDocumentSet_keyed fts5Results vectorResults)).
  apply Permutation_map. symmetry. apply jsSort_Permutation.
Qed.

Lemma fuseResults_mentions this fts5Results vectorResults entity :
  In entity (map (@nodeType num) (RRFFusion.fuseResults this fts5Results vectorResults)) <->
  In entity (map (@nodeType num) fts5Results) \/ In entity (map (@nodeType num) vectorResults).
Proof.
  rewrite <- createUnifiedDocumentSet_keys.
  split; apply Permutation_in; [| symmetry]; apply fuseResults_nodeTypes.
Qed.

End FusionScores.

(** C10.  Whatever the two input lists, the fused list names each
    entity once, names exactly the entities of the two lists, marks an
    entity of both lists ['hybrid'] and an entity of the lexical list
    alone ['fts5']; an entity of the vector list alone is marked
    ['vector'] when that list names no entity twice. *)
Theorem fuseResults_union_once {num : Type} `{Number num}
    (this : RRFFusion.t num) (fts5Results vectorResults : list (SearchResult num)) :
  let fused := RRFFusion.fuseResults this fts5Results vectorResults in
  NoDup (map (@nodeType num) fused)
  /\ (forall entity,
        In entity (map (@nodeType num) fused) <->
        In entity (map (@nodeType num) fts5Results) \/ In entity (map (@nodeType num) vectorResults))
  /\ (forall r, In r fused ->
        (In (nodeType r) (map (@nodeType num) fts5Results) ->
         In (nodeType r) (map (@nodeType num) vectorResults) -> searchMethod r = hybrid)
        /\ (In (nodeType r) (map (@nodeType num) fts5Results) ->
            ~ In (nodeType r) (map (@nodeType num) vectorResults) -> searchMethod r = fts5)
        /\ (~ In (nodeType r) (map (@nodeType num) fts5Results) ->
            NoDup (map (@nodeType num) vectorResults) -> searchMethod r = vector)).
Proof.
  intros fused. split; [| split].
  - apply (Permutation_NoDup (Permutation_sym (fuseResults_nodeTypes this fts5Results vectorResults))).
    apply createUnifiedDocumentSet_keyed.
  - intros entity. apply fuseResults_mentions.
  - intros r Hin. apply fuseResults_In_inv in Hin as [document [Hdoc [Hmethod _]]].
    rewrite Hmethod. now apply createUnifiedDocumentSet_method.
Qed.

Lemma nodeTypes_lexicalAB {num : Type} `{Number num} :
  map (@nodeType num) Examples.lexicalAB = ["A"; "B"]%string.
Proof. reflexivity. Qed.

Lemma nodeTypes_vectorBAC {num : Type} `{Number num} :
  map (@nodeType num) Examples.vectorBAC = ["B"; "A"; "C"]%string.
Proof. reflexivity. Qed.

Lemma NoDup_lexicalAB {num : Type} `{Number num} :
  NoDup (map (@nodeType num) Examples.lexicalAB).
Proof. rewrite nodeTypes_lexicalAB. repeat constructor; simpl; intuition discriminate. Qed.

Lemma NoDup_vectorBAC {num : Type} `{Number num} :
  NoDup (map (@nodeType num) Examples.vectorBAC).
Proof. rewrite nodeTypes_vectorBAC. repeat constructor; simpl; intuition discriminate. Qed.

(** The vector-only entity [C] of the scenario is marked ['vector']. *)
Lemma fuseResults_union_once_witness :
  exists r : SearchResult F64.t,
    In r (RRFFusion.fuseResults (RRFFusion.new None) Examples.lexicalAB Examples.vectorBAC)
    /\ nodeType r = "C"%string /\ searchMethod r = vector.
Proof.
  pose proof (fuseResults_union_once (RRFFusion.new None)
                (@Examples.lexicalAB F64.t _) (@Examples.vectorBAC F64.t _)) as [_ [Hunion Hmethod]].
  destruct (Hunion "C"%string) as [_ Hin].
  rewrite nodeTypes_vectorBAC in Hin.
  specialize (Hin (or_intror (or_intror (or_intror (or_introl eq_refl))))).
  destruct (proj1 (in_map_iff _ _ _) Hin) as [r [Hty Hin']].
  exists r. split; [exact Hin' |]. split; [exact Hty |].
  destruct (Hmethod r Hin') as [_ [_ Hvector]].
  apply Hvector; [| apply NoDup_vectorBAC].
  rewrite Hty, nodeTypes_lexicalAB. simpl. intuition discriminate.
Defined.

(** Why the vector list must not repeat an entity for the ['vector']
    mark: the second occurrence finds the first one already filed and
    turns it into ['hybrid']. *)
Example fuseResults_repeated_vector_entity :
  map (fun r : SearchResult F64.t => (nodeType r, searchMethod r))
    (RRFFusion.fuseResults (RRFFusion.new None) [] Examples.vectorXX)
  = [("X"%string, hybrid)].
Proof. vm_compute. reflexivity. Qed.

(** ** The fused score *)

Section FusedScore.
Context {num : Type} `{Number num}.

(** The score of an entity of the union is [sum || 0], the sum being
    added up from 0 with the lexical term first, and each rank being the
    position the specification speaks of. *)
Lemma fuseResults_score_accumulated (this : RRFFusion.t num)
    (fts5Results vectorResults : list (SearchResult num)) (entity : string) :
  NoDup (map (@nodeType num) fts5Results) ->
  NoDup (map (@nodeType num) vectorResults) ->
  In entity (map (@nodeType num) fts5Results ++ map (@nodeType num) vectorResults) ->
  exists r,
    In r (RRFFusion.fuseResults this fts5Results vectorResults)
    /\ nodeType r = entity
    /\ relevanceScore r =
         norElse (Some (FusionSpec.accumulated this (FusionSpec.rankOf entity fts5Results)
                          (FusionSpec.rankOf entity vectorResults))) (nofZ 0).
Proof.
  intros Hnf Hnv Hunion.
  apply in_app_or, (fuseResults_mentions this), in_map_iff in Hunion as [r [Hty Hin]].
  exists r. split; [assumption |]. split; [assumption |].
  apply fuseResults_In_inv in Hin as [_ [_ [_ Hscore]]].
  rewrite Hty in Hscore. rewrite Hscore.
  unfold RRFFusion.rrfScoreOf, FusionSpec.accumulated, FusionSpec.term.
  now rewrite !setRankings_rankOf by assumption.
Qed.
End FusedScore.

(** *** On binary64 *)

Section FusedScoreF64.

(** Adding to [+0] returns the number added, but for [-0]; after
    [|| 0] no difference is left. *)
Lemma F64_orZero_add_zero (a b : F64.t) :
  norElse (Some (F64.add (F64.add (F64.ofZ 0) a) b)) (F64.ofZ 0)
  = norElse (Some (F64.add a b)) (F64.ofZ 0).
Proof.
  destruct a as [sa | sa | | sa ma ea]; try reflexivity.
  destruct sa; [| reflexivity].
  destruct b as [sb | sb | | sb mb eb]; try reflexivity.
  destruct sb; reflexivity.
Qed.

Lemma F64_orZero_zero_add (a : F64.t) :
  norElse (Some (F64.add (F64.ofZ 0) a)) (F64.ofZ 0) = norElse (Some a) (F64.ofZ 0).
Proof.
  destruct a as [sa | sa | | sa ma ea]; try reflexivity.
  destruct sa; reflexivity.
Qed.

Lemma F64_orZero_accumulated (this : RRFFusion.t F64.t) (rankA rankB : option Z) :
  norElse (Some (FusionSpec.accumulated this rankA rankB)) (F64.ofZ 0)
  = norElse (Some (FusionSpec.score this rankA rankB)) (F64.ofZ 0).
Proof.
  unfold FusionSpec.accumulated, FusionSpec.score.
  destruct rankA as [a |], rankB as [b |]; try reflexivity.
  - apply F64_orZero_add_zero.
  - apply F64_orZero_zero_add.
  - apply F64_orZero_zero_add.
Qed.

(** The product of 1 and a binary64 number is that number. *)
Lemma digits2_pos_shift_52 (m : positive) :
  Z.pos (digits2_pos (4503599627370496 * m)) = (Z.pos (digits2_pos m) + 52)%Z.
Proof.
  change (4503599627370496 * m)%positive with
    (m~0~0~0~0~0~0~0~0~0~0~0~0~0~0~0~0~0~0~0~0~0~0~0~0~0~0~0~0~0~0~0~0~0~0~0~0~0~0~0~0~0~0~0~0~0~0~0~0~0~0~0~0)%positive.
  cbn [digits2_pos]. rewrite !Pos2Z.inj_succ. lia.
Qed.

Lemma F64_mul_one (x : F64.t) : F64.valid x = true -> F64.mul (F64.ofZ 1) x = x.
Proof.
  destruct x as [s | s | | s m e]; try reflexivity.
  unfold F64.valid. intros Hvalid. cbn [valid_binary] in Hvalid. unfold bounded in Hvalid.
  apply andb_prop in Hvalid as [Hcanon Hbound].
  unfold canonical_mantissa in Hcanon. apply Z.eqb_eq in Hcanon.
  change (F64.ofZ 1) with (S754_finite false 4503599627370496 (-52)).
  unfold F64.mul, SFmul. cbn [xorb].
  unfold binary_round_aux, shr_fexp.
  unfold Zdigits2 at 1.
  rewrite digits2_pos_shift_52.
  replace (Z.pos (digits2_pos m) + 52 + (-52 + e))%Z with (Z.pos (digits2_pos m) + e)%Z by lia.
  rewrite Hcanon.
  replace (e - (-52 + e))%Z with 52%Z by lia.
  change (4503599627370496 * m)%positive with
    (m~0~0~0~0~0~0~0~0~0~0~0~0~0~0~0~0~0~0~0~0~0~0~0~0~0~0~0~0~0~0~0~0~0~0~0~0~0~0~0~0~0~0~0~0~0~0~0~0~0~0~0~0)%positive.
  cbn [shr shr_record_of_loc iter_pos shr_1 shr_m shr_r shr_s orb loc_of_shr_record
       round_nearest_even Zdigits2].
  replace (-52 + e + 52)%Z with e by lia.
  rewrite Hcanon, Z.sub_diag. cbn [shr shr_m].
  change (F64.emax - F64.prec)%Z with 971%Z in *.
  rewrite Hbound. destruct s; reflexivity.
Qed.

(** A rank is a position in a list, and a list is shorter than [2^32]. *)
Lemma rankOf_in_range (entity : string) (results : list (SearchResult F64.t)) (rank : Z) :
  (Z.of_nat (List.length results) < 2 ^ 32)%Z ->
  FusionSpec.rankOf entity results = Some rank -> (0 < rank < 2 ^ 63)%Z.
Proof.
  intros Hlen Hrank.
  apply rankOf_position in Hrank as [i [r [Hnth [_ ->]]]].
  assert (i < List.length results)%nat by (apply nth_error_Some; congruence).
  lia.
Qed.

Lemma F64_valid_quotient (k : F64.t) (rank : Z) :
  F64.valid k = true -> (0 <= rank < 2 ^ 63)%Z ->
  F64.valid (F64.div (F64.ofZ 1) (F64.add k (F64.ofZ rank))) = true.
Proof.
  intros Hk Hrank. apply F64_valid_div; [reflexivity |].
  apply F64_valid_add; [exact Hk |]. now apply F64_valid_ofZ.
Qed.

Lemma F64_score_unweighted (this : RRFFusion.t F64.t) (rankA rankB : option Z) :
  RRFFusion.weight_fts5 (RRFFusion.weights this) = F64.one ->
  RRFFusion.weight_vector (RRFFusion.weights this) = F64.one ->
  F64.valid (RRFFusion.k this) = true ->
  (forall r, rankA = Some r -> (0 <= r < 2 ^ 63)%Z) ->
  (forall r, rankB = Some r -> (0 <= r < 2 ^ 63)%Z) ->
  FusionSpec.score this rankA rankB = FusionSpec.unweightedScore (RRFFusion.k this) rankA rankB.
Proof.
  intros Hwf Hwv Hk HrangeA HrangeB.
  unfold FusionSpec.score, FusionSpec.unweightedScore, FusionSpec.term. rewrite Hwf, Hwv.
  destruct rankA as [a |], rankB as [b |]; try reflexivity;
    change (@nmul F64.t F64Number) with F64.mul; change (@ndiv F64.t F64Number) with F64.div;
    change (@nadd F64.t F64Number) with F64.add; change (@nofZ F64.t F64Number) with F64.ofZ;
    unfold F64.one;
    rewrite ?(F64_mul_one _ (F64_valid_quotient _ a Hk (HrangeA a eq_refl))),
      ?(F64_mul_one _ (F64_valid_quotient _ b Hk (HrangeB b eq_refl)));
    reflexivity.
Qed.
(** For a [k] that is not below zero and positive weights, a term and
    the sum are not below zero, and adding the terms to 0 changes
    nothing. *)
Lemma F64_term_nonNegative (w k : F64.t) (rank : Z) :
  F64.valid k = true -> F64.isNonNegative k = true -> F64.isPositiveFinite w = true ->
  (0 < rank < 2 ^ 63)%Z ->
  F64.isNonNegative (FusionSpec.term w k rank) = true.
Proof.
  intros Hk Hk0 Hw Hrank. unfold FusionSpec.term.
  change (@nmul F64.t F64Number) with F64.mul. change (@ndiv F64.t F64Number) with F64.div.
  change (@nadd F64.t F64Number) with F64.add. change (@nofZ F64.t F64Number) with F64.ofZ.
  apply isNonNegative_mul; [assumption |]. apply isNonNegative_reciprocal.
  apply add_positive; [assumption | apply F64_valid_ofZ; lia | assumption
                      | apply ofZ_positive; lia].
Qed.

Lemma F64_score_nonNegative (this : RRFFusion.t F64.t) (rankA rankB : option Z) :
  F64.valid (RRFFusion.k this) = true ->
  F64.isNonNegative (RRFFusion.k this) = true ->
  F64.isPositiveFinite (RRFFusion.weight_fts5 (RRFFusion.weights this)) = true ->
  F64.isPositiveFinite (RRFFusion.weight_vector (RRFFusion.weights this)) = true ->
  (forall rank, rankA = Some rank -> (0 < rank < 2 ^ 63)%Z) ->
  (forall rank, rankB = Some rank -> (0 < rank < 2 ^ 63)%Z) ->
  F64.isNonNegative (FusionSpec.score this rankA rankB) = true
  /\ FusionSpec.accumulated this rankA rankB = FusionSpec.score this rankA rankB.
Proof.
  intros Hk Hk0 Hwf Hwv HrangeA HrangeB.
  unfold FusionSpec.score, FusionSpec.accumulated.
  change (@nadd F64.t F64Number) with F64.add. change (@nofZ F64.t F64Number 0) with (F64.ofZ 0).
  destruct rankA as [a |], rankB as [b |].
  - pose proof (F64_term_nonNegative _ _ a Hk Hk0 Hwf (HrangeA a eq_refl)) as Ha.
    pose proof (F64_term_nonNegative _ _ b Hk Hk0 Hwv (HrangeB b eq_refl)) as Hb.
    rewrite (add_zero_nonNegative _ Ha). split; [now apply isNonNegative_add | reflexivity].
  - pose proof (F64_term_nonNegative _ _ a Hk Hk0 Hwf (HrangeA a eq_refl)) as Ha.
    rewrite (add_zero_nonNegative _ Ha). split; [assumption | reflexivity].
  - pose proof (F64_term_nonNegative _ _ b Hk Hk0 Hwv (HrangeB b eq_refl)) as Hb.
    rewrite (add_zero_nonNegative _ Hb). split; [assumption | reflexivity].
  - split; reflexivity.
Qed.
End FusedScoreF64.

(** *** The order of the fused list on binary64 *)

Section FusedOrderF64.





End FusedOrderF64.

(** *** In exact arithmetic *)

Section FusedScoreExact.
Local Open Scope R_scope.

Lemma R_orZero (x : R) : norElse (Some x) (nofZ 0) = x.
Proof.
  unfold norElse, nfalsy. simpl. unfold RExact.eqb.
  destruct (Req_dec_T x 0) as [-> | Hne]; reflexivity.
Qed.

Lemma R_accumulated (this : RRFFusion.t R) (rankA rankB : option Z) :
  FusionSpec.accumulated this rankA rankB = FusionSpec.score this rankA rankB.
Proof.
  unfold FusionSpec.accumulated, FusionSpec.score.
  destruct rankA as [a |], rankB as [b |]; simpl; lra.
Qed.

Lemma R_score_unweighted (this : RRFFusion.t R) (rankA rankB : option Z) :
  RRFFusion.weight_fts5 (RRFFusion.weights this) = 1 ->
  RRFFusion.weight_vector (RRFFusion.weights this) = 1 ->
  FusionSpec.score this rankA rankB = FusionSpec.unweightedScore (RRFFusion.k this) rankA rankB.
Proof.
  intros Hwf Hwv. unfold FusionSpec.score, FusionSpec.unweightedScore, FusionSpec.term.
  rewrite Hwf, Hwv. destruct rankA as [a |], rankB as [b |]; simpl; lra.
Qed.
End FusedScoreExact.

(** C1 (as the code has it).  For two ranked lists that name no entity
    twice, every entity of their union has a result in the fused list
    whose score is [sum || 0], where [sum] is the weighted sum of
    [1/(k + rank)] over the lists that contain the entity, [rank] being
    its 1-based position there.  On binary64 the sum is the rounded one,
    the score is the sum unless the sum is NaN or a zero, and it is [+0]
    then; with both weights equal to 1 the sum is [1/(k + r1) + 1/(k +
    r2)], or the single term of the only list that contains the entity,
    for every [k] that is a binary64 number and lists shorter than
    [2^32], the bound of a JavaScript array.  For a [k] that is not
    below zero and positive weights, the parameters the program is meant
    for, the score is the sum itself.  In exact arithmetic the score is
    exactly the sum. *)
Theorem fuseResults_score :
  (forall (this : RRFFusion.t F64.t) (fts5Results vectorResults : list (SearchResult F64.t)),
     NoDup (map (@nodeType F64.t) fts5Results) ->
     NoDup (map (@nodeType F64.t) vectorResults) ->
     forall entity,
       In entity (map (@nodeType F64.t) fts5Results ++ map (@nodeType F64.t) vectorResults) ->
       let rankA := FusionSpec.rankOf entity fts5Results in
       let rankB := FusionSpec.rankOf entity vectorResults in
       let sum := FusionSpec.score this rankA rankB in
       exists r,
         In r (RRFFusion.fuseResults this fts5Results vectorResults)
         /\ nodeType r = entity
         /\ relevanceScore r = norElse (Some sum) (nofZ 0)
         /\ (nfalsy sum = false -> relevanceScore r = sum)
         /\ (nfalsy sum = true -> relevanceScore r = F64.zero)
         /\ (RRFFusion.weight_fts5 (RRFFusion.weights this) = F64.one ->
             RRFFusion.weight_vector (RRFFusion.weights this) = F64.one ->
             F64.valid (RRFFusion.k this) = true ->
             (Z.of_nat (List.length fts5Results) < 2 ^ 32)%Z ->
             (Z.of_nat (List.length vectorResults) < 2 ^ 32)%Z ->
             relevanceScore r
             = norElse (Some (FusionSpec.unweightedScore (RRFFusion.k this) rankA rankB))
                 (nofZ 0))
         /\ (F64.valid (RRFFusion.k this) = true ->
             F64.isNonNegative (RRFFusion.k this) = true ->
             F64.isPositiveFinite (RRFFusion.weight_fts5 (RRFFusion.weights this)) = true ->
             F64.isPositiveFinite (RRFFusion.weight_vector (RRFFusion.weights this)) = true ->
             (Z.of_nat (List.length fts5Results) < 2 ^ 32)%Z ->
             (Z.of_nat (List.length vectorResults) < 2 ^ 32)%Z ->
             relevanceScore r = sum
             /\ (RRFFusion.weight_fts5 (RRFFusion.weights this) = F64.one ->
                 RRFFusion.weight_vector (RRFFusion.weights this) = F64.one ->
                 relevanceScore r
                 = FusionSpec.unweightedScore (RRFFusion.k this) rankA rankB)))
  /\ (forall (this : RRFFusion.t R) (fts5Results vectorResults : list (SearchResult R)),
        NoDup (map (@nodeType R) fts5Results) ->
        NoDup (map (@nodeType R) vectorResults) ->
        forall entity,
          In entity (map (@nodeType R) fts5Results ++ map (@nodeType R) vectorResults) ->
          let rankA := FusionSpec.rankOf entity fts5Results in
          let rankB := FusionSpec.rankOf entity vectorResults in
          exists r,
            In r (RRFFusion.fuseResults this fts5Results vectorResults)
            /\ nodeType r = entity
            /\ relevanceScore r = FusionSpec.score this rankA rankB
            /\ (RRFFusion.weight_fts5 (RRFFusion.weights this) = 1%R ->
                RRFFusion.weight_vector (RRFFusion.weights this) = 1%R ->
                relevanceScore r = FusionSpec.unweightedScore (RRFFusion.k this) rankA rankB)).
Proof.
  split.
  - intros this fts5Results vectorResults Hnf Hnv entity Hunion rankA rankB sum.
    destruct (fuseResults_score_accumulated this fts5Results vectorResults entity Hnf Hnv Hunion)
      as [r [Hin [Hty Hscore]]].
    fold rankA rankB in Hscore.
    change (@nofZ F64.t F64Number 0) with (F64.ofZ 0) in Hscore.
    rewrite F64_orZero_accumulated in Hscore. fold sum in Hscore.
    exists r. split; [assumption |]. split; [assumption |]. split; [exact Hscore |].
    split; [| split; [| split]].
    + intros Hsum. rewrite Hscore. unfold norElse. now rewrite Hsum.
    + intros Hsum. rewrite Hscore. unfold norElse. now rewrite Hsum.
    + intros Hwf Hwv Hk HlenA HlenB. rewrite Hscore. unfold sum.
      rewrite (F64_score_unweighted this rankA rankB Hwf Hwv Hk); [reflexivity | |];
        intros rank Hrank.
      * pose proof (rankOf_in_range entity fts5Results rank HlenA Hrank). lia.
      * pose proof (rankOf_in_range entity vectorResults rank HlenB Hrank). lia.
    + intros Hk Hk0 Hwf Hwv HlenA HlenB.
      destruct (F64_score_nonNegative this rankA rankB Hk Hk0 Hwf Hwv) as [Hsign Hsum];
        [exact (fun rank => rankOf_in_range entity fts5Results rank HlenA)
        | exact (fun rank => rankOf_in_range entity vectorResults rank HlenB) |].
      assert (Hexact : relevanceScore r = sum)
        by (rewrite Hscore; now apply norElse_nonNegative).
      split; [exact Hexact |].
      intros Hone1 Hone2. rewrite Hexact. unfold sum.
      apply F64_score_unweighted; try assumption; intros rank Hrank.
      * pose proof (rankOf_in_range entity fts5Results rank HlenA Hrank). lia.
      * pose proof (rankOf_in_range entity vectorResults rank HlenB Hrank). lia.
  - intros this fts5Results vectorResults Hnf Hnv entity Hunion rankA rankB.
    destruct (fuseResults_score_accumulated this fts5Results vectorResults entity Hnf Hnv Hunion)
      as [r [Hin [Hty Hscore]]].
    fold rankA rankB in Hscore. rewrite R_orZero, R_accumulated in Hscore.
    exists r. split; [assumption |]. split; [assumption |]. split; [exact Hscore |].
    intros Hwf Hwv. rewrite Hscore. now apply R_score_unweighted.
Qed.

(** The scenario of the specification.  On binary64 [A], first in the
    lexical list and second in the vector list, scores the rounded
    [1/61 + 1/62]; in exact arithmetic it scores [1/61 + 1/62]. *)
Lemma fuseResults_score_witness :
  (exists r : SearchResult F64.t,
     In r (RRFFusion.fuseResults (RRFFusion.new None) Examples.lexicalAB Examples.vectorBAC)
     /\ nodeType r = "A"%string
     /\ relevanceScore r
        = F64.add (F64.div (F64.ofZ 1) (F64.add (F64.ofZ 60) (F64.ofZ 1)))
            (F64.div (F64.ofZ 1) (F64.add (F64.ofZ 60) (F64.ofZ 2))))
  /\ (exists r : SearchResult R,
        In r (RRFFusion.fuseResults (RRFFusion.new None) Examples.lexicalAB Examples.vectorBAC)
        /\ nodeType r = "A"%string
        /\ relevanceScore r = (1 / (60 + 1) + 1 / (60 + 2))%R).
Proof.
  split.
  - destruct (proj1 fuseResults_score (RRFFusion.new None) Examples.lexicalAB Examples.vectorBAC
                NoDup_lexicalAB NoDup_vectorBAC "A"%string)
      as [r [Hin [Hty [_ [_ [_ [_ Hexact]]]]]]].
    + rewrite nodeTypes_lexicalAB. simpl. auto.
    + exists r. split; [exact Hin |]. split; [exact Hty |].
      refine (eq_trans (proj2 (Hexact eq_refl eq_refl eq_refl eq_refl _ _) eq_refl eq_refl) _);
        vm_compute; reflexivity.
  - destruct (proj2 fuseResults_score (RRFFusion.new None) Examples.lexicalAB Examples.vectorBAC
                NoDup_lexicalAB NoDup_vectorBAC "A"%string) as [r [Hin [Hty [_ Hunit]]]].
    + rewrite nodeTypes_lexicalAB. simpl. auto.
    + exists r. split; [assumption |]. split; [assumption |].
      rewrite (Hunit eq_refl eq_refl). reflexivity.
Defined.

(** With [k = NaN], which the constructor accepts, the sum of [A] is
    NaN on binary64 and the fused score of [A] is [+0]. *)
Lemma fused_score_is_not_a_NaN_sum :
  (exists r : SearchResult F64.t,
     In r (RRFFusion.fuseResults
             (RRFFusion.new (Some {| RRFFusion.options_k := S754_nan;
                                     RRFFusion.options_weights := None |}))
             Examples.lexicalAB Examples.vectorBAC)
     /\ nodeType r = "A"%string
     /\ relevanceScore r = F64.zero)
  /\ F64.isNaN
       (FusionSpec.score
          (RRFFusion.new (Some {| RRFFusion.options_k := S754_nan;
                                  RRFFusion.options_weights := None |}))
          (FusionSpec.rankOf "A" (@Examples.lexicalAB F64.t _))
          (FusionSpec.rankOf "A" (@Examples.vectorBAC F64.t _)))
     = true.
Proof.
  split; [| vm_compute; reflexivity].
  eexists. split; [vm_compute; left; reflexivity |]. split; reflexivity.
Qed.

(** The same scenario on binary64: the order of the specification,
    [A], [B], [C], with [A] and [B] tied and kept in input order. *)
Example fuseResults_scenario_F64 :
  map (fun r : SearchResult F64.t => (nodeType r, searchMethod r))
    (RRFFusion.fuseResults (RRFFusion.new None) Examples.lexicalAB Examples.vectorBAC)
  = [("A"%string, hybrid); ("B"%string, hybrid); ("C"%string, vector)].
Proof. vm_compute. reflexivity. Qed.

(** C9 (as the code has it).  [getOptimalK] returns 30 below 10
    combined results, 60 from 10 to 49, and 90 from 50 on. *)
Theorem getOptimalK_cases (fts5Count vectorCount : Z) :
  let totalResults := (fts5Count + vectorCount)%Z in
  ((totalResults < 10)%Z -> RRFFusion.getOptimalK fts5Count vectorCount = 30%Z)
  /\ ((10 <= totalResults < 50)%Z -> RRFFusion.getOptimalK fts5Count vectorCount = 60%Z)
  /\ ((50 <= totalResults)%Z -> RRFFusion.getOptimalK fts5Count vectorCount = 90%Z).
Proof.
  intros totalResults. unfold RRFFusion.getOptimalK. fold totalResults.
  destruct (totalResults <? 10)%Z eqn:E10; destruct (totalResults <? 50)%Z eqn:E50;
    rewrite ?Z.ltb_lt, ?Z.ltb_ge in *; repeat split; intros; try reflexivity; lia.
Qed.

Lemma getOptimalK_cases_witness :
  RRFFusion.getOptimalK 4 5 = 30%Z
  /\ RRFFusion.getOptimalK 10 0 = 60%Z
  /\ RRFFusion.getOptimalK 20 29 = 60%Z
  /\ RRFFusion.getOptimalK 25 25 = 90%Z.
Proof.
  split; [| split; [| split]].
  - apply (proj1 (getOptimalK_cases 4 5)). simpl. lia.
  - apply (proj1 (proj2 (getOptimalK_cases 10 0))). simpl. lia.
  - apply (proj1 (proj2 (getOptimalK_cases 20 29))). simpl. lia.
  - apply (proj2 (proj2 (getOptimalK_cases 25 25))). simpl. lia.
Defined.

(** At exactly 50 combined results the helper answers 90, not 60. *)
Lemma getOptimalK_at_50 : RRFFusion.getOptimalK 25 25 <> 60%Z.
Proof. vm_compute. discriminate. Qed.

(* ================================================================== *)
(** * Cosine similarity *)
(* ================================================================== *)

(** ** On binary64 *)

Section F64Zeros.

Lemma F64_mul_zero_l (x y : F64.t) : VectorSpec.isZero x = true -> zeroOrNaN (F64.mul x y) = true.
Proof. destruct x, y; simpl; intros; try discriminate; reflexivity. Qed.

Lemma F64_mul_zero_r (x y : F64.t) : VectorSpec.isZero y = true -> zeroOrNaN (F64.mul x y) = true.
Proof. destruct x, y; simpl; intros; try discriminate; reflexivity. Qed.

Lemma F64_mul_zero_zero (x : F64.t) : VectorSpec.isZero x = true -> F64.mul x x = F64.zero.
Proof. destruct x as [[|] | | |]; simpl; intros; try discriminate; reflexivity. Qed.

Lemma F64_add_zeroOrNaN (x y : F64.t) :
  zeroOrNaN x = true -> zeroOrNaN y = true -> zeroOrNaN (F64.add x y) = true.
Proof.
  destruct x as [[|] | | |], y as [[|] | | |]; simpl; intros; try discriminate; reflexivity.
Qed.

Lemma F64_div_zeroOrNaN (x y : F64.t) :
  zeroOrNaN x = true -> zeroOrNaN y = true -> F64.div x y = S754_nan.
Proof. destruct x, y; simpl; intros; try discriminate; reflexivity. Qed.

Lemma accumulate_zero_l (a b : list F64.t) (dotProduct normB : F64.t) :
  VectorSpec.zeroVector a -> zeroOrNaN dotProduct = true ->
  exists dotProduct' normB',
    VectorRepository.accumulate a b dotProduct F64.zero normB = (dotProduct', F64.zero, normB')
    /\ zeroOrNaN dotProduct' = true.
Proof.
  intros Hzero. revert b dotProduct normB.
  induction Hzero as [| x a Hx Hzero IH]; intros b dotProduct normB Hdot; simpl.
  - eauto.
  - destruct b as [| y b]; [eauto |].
    change (nmul x x) with (F64.mul x x). rewrite (F64_mul_zero_zero x Hx).
    change (nadd F64.zero F64.zero) with F64.zero.
    apply IH. apply F64_add_zeroOrNaN; [assumption | now apply F64_mul_zero_l].
Qed.

Lemma accumulate_zero_r (a b : list F64.t) (dotProduct normA : F64.t) :
  VectorSpec.zeroVector b -> zeroOrNaN dotProduct = true ->
  exists dotProduct' normA',
    VectorRepository.accumulate a b dotProduct normA F64.zero = (dotProduct', normA', F64.zero)
    /\ zeroOrNaN dotProduct' = true.
Proof.
  intros Hzero. revert a dotProduct normA.
  induction Hzero as [| y b Hy Hzero IH]; intros a dotProduct normA Hdot; simpl.
  - destruct a; simpl; eauto.
  - destruct a as [| x a]; simpl; [eauto |].
    change (nmul y y) with (F64.mul y y). rewrite (F64_mul_zero_zero y Hy).
    change (nadd F64.zero F64.zero) with F64.zero.
    apply IH. apply F64_add_zeroOrNaN; [assumption | now apply F64_mul_zero_r].
Qed.

Lemma cosine_zero_vector (a b : list F64.t) :
  List.length a = List.length b ->
  VectorSpec.zeroVector a \/ VectorSpec.zeroVector b ->
  VectorRepository.calculateCosineSimilarity a b = Ok F64.zero.
Proof.
  intros Hlen Hzero. unfold VectorRepository.calculateCosineSimilarity.
  rewrite Hlen, Nat.eqb_refl. simpl negb. cbv iota.
  change (@nofZ F64.t _ 0) with F64.zero.
  destruct Hzero as [Ha | Hb].
  - destruct (accumulate_zero_l a b F64.zero F64.zero Ha eq_refl) as [d [nB [-> Hd]]].
    change (nsqrt F64.zero) with F64.zero.
    rewrite (F64_div_zeroOrNaN d _ Hd (F64_mul_zero_l F64.zero _ eq_refl)). reflexivity.
  - destruct (accumulate_zero_r a b F64.zero F64.zero Hb eq_refl) as [d [nA [-> Hd]]].
    change (nsqrt F64.zero) with F64.zero.
    rewrite (F64_div_zeroOrNaN d _ Hd (F64_mul_zero_r _ F64.zero eq_refl)). reflexivity.
Qed.

Lemma cosine_never_NaN (a b : list F64.t) :
  List.length a = List.length b ->
  exists similarity,
    VectorRepository.calculateCosineSimilarity a b = Ok similarity /\ F64.isNaN similarity = false.
Proof.
  intros Hlen. unfold VectorRepository.calculateCosineSimilarity.
  rewrite Hlen, Nat.eqb_refl. simpl negb. cbv iota.
  destruct (VectorRepository.accumulate a b (nofZ 0) (nofZ 0) (nofZ 0)) as [[d nA] nB].
  eexists. split; [reflexivity |].
  change (@nisNaN F64.t _) with F64.isNaN.
  destruct (F64.isNaN (d / (nsqrt nA * nsqrt nB))%num) eqn:E; [reflexivity | exact E].
Qed.
End F64Zeros.

(** ** In exact arithmetic *)

Section CosineExact.
Local Open Scope R_scope.

(** One step of the Cauchy-Schwarz inequality. *)
Lemma cauchy_schwarz_step (d nA nB x y : R) :
  0 <= nA -> 0 <= nB -> d * d <= nA * nB ->
  (d + x * y) * (d + x * y) <= (nA + x * x) * (nB + y * y).
Proof.
  intros HA HB Hd.
  set (p := 2 * d * (x * y)). set (u := nA * (y * y)). set (v := nB * (x * x)).
  assert (Hxx : 0 <= x * x) by apply Rle_0_sqr.
  assert (Hyy : 0 <= y * y) by apply Rle_0_sqr.
  assert (Hu : 0 <= u) by (now apply Rmult_le_pos).
  assert (Hv : 0 <= v) by (now apply Rmult_le_pos).
  assert (Hpp : p * p <= 4 * (u * v)).
  { replace (p * p) with (4 * ((d * d) * ((x * x) * (y * y)))) by (unfold p; ring).
    replace (4 * (u * v)) with (4 * ((nA * nB) * ((x * x) * (y * y)))) by (unfold u, v; ring).
    apply Rmult_le_compat_l; [lra |].
    apply Rmult_le_compat_r; [now apply Rmult_le_pos | assumption]. }
  assert (Huv : 4 * (u * v) <= (u + v) * (u + v)).
  { pose proof (Rle_0_sqr (u - v)) as Hsq. unfold Rsqr in Hsq.
    replace ((u + v) * (u + v)) with ((u - v) * (u - v) + 4 * (u * v)) by ring. lra. }
  assert (Hcross : p <= u + v).
  { destruct (Rle_or_lt p (u + v)) as [Hle | Hgt]; [assumption | exfalso].
    assert (Hlt : (u + v) * (u + v) < p * p).
    { apply Rle_lt_trans with ((u + v) * p).
      - apply Rmult_le_compat_l; lra.
      - apply Rmult_lt_compat_r; lra. }
    lra. }
  replace ((d + x * y) * (d + x * y)) with (d * d + p + (x * x) * (y * y)) by (unfold p; ring).
  replace ((nA + x * x) * (nB + y * y)) with (nA * nB + (u + v) + (x * x) * (y * y))
    by (unfold u, v; ring).
  lra.
Qed.

Lemma accumulate_exact (a b : list R) (d nA nB : R) :
  List.length a = List.length b ->
  0 <= nA -> 0 <= nB -> d * d <= nA * nB ->
  exists d' nA' nB',
    VectorRepository.accumulate a b d nA nB = (d', nA', nB')
    /\ nA <= nA' /\ nB <= nB' /\ d' * d' <= nA' * nB'
    /\ (VectorSpec.nonZero a -> 0 < nA')
    /\ (VectorSpec.nonZero b -> 0 < nB').
Proof.
  revert b d nA nB. induction a as [| x a IH]; intros [| y b] d nA nB Hlen HA HB Hd;
    simpl in Hlen; try discriminate.
  - exists d, nA, nB. simpl. repeat split; try lra; intros Hex; inversion Hex.
  - injection Hlen as Hlen. simpl.
    destruct (IH b (d + x * y) (nA + x * x) (nB + y * y) Hlen) as
      [d' [nA' [nB' [Heq [HleA [HleB [Hcs [HposA HposB]]]]]]]]; try nra.
    { now apply cauchy_schwarz_step. }
    exists d', nA', nB'. split; [exact Heq |].
    split; [nra |]. split; [nra |]. split; [assumption |].
    split; intros Hex; inversion Hex as [? ? Hne | ? ? Hex']; subst; auto.
    + assert (0 < x * x) by nra. lra.
    + assert (0 < y * y) by nra. lra.
Qed.

Lemma cosine_exact_bounded (a b : list R) :
  List.length a = List.length b ->
  VectorSpec.nonZero a -> VectorSpec.nonZero b ->
  exists similarity,
    VectorRepository.calculateCosineSimilarity a b = Ok similarity
    /\ -1 <= similarity <= 1.
Proof.
  intros Hlen Ha Hb. unfold VectorRepository.calculateCosineSimilarity.
  rewrite Hlen, Nat.eqb_refl. simpl negb. cbv iota.
  destruct (accumulate_exact a b 0 0 0 Hlen) as [d [nA [nB [Heq [_ [_ [Hcs [HposA HposB]]]]]]]];
    try lra.
  simpl nofZ. rewrite Heq. simpl.
  specialize (HposA Ha). specialize (HposB Hb).
  eexists. split; [reflexivity |].
  set (s := sqrt nA * sqrt nB).
  assert (Hs : 0 < s) by (apply Rmult_lt_0_compat; now apply sqrt_lt_R0).
  assert (Hss : s * s = nA * nB).
  { unfold s. replace (sqrt nA * sqrt nB * (sqrt nA * sqrt nB))
      with ((sqrt nA * sqrt nA) * (sqrt nB * sqrt nB)) by ring.
    rewrite !sqrt_sqrt; lra. }
  assert (Hd : - s <= d <= s) by nra.
  unfold Rdiv. split.
  - apply Rmult_le_reg_r with s; [assumption |].
    rewrite Rmult_assoc, Rinv_l by lra. lra.
  - apply Rmult_le_reg_r with s; [assumption |].
    rewrite Rmult_assoc, Rinv_l by lra. lra.
Qed.
End CosineExact.

(** C6 (as the code has it).  On binary64 the similarity of two arrays
    of the same length is computed without an exception and is never
    NaN, and it is exactly [+0] when either array is the zero vector; in
    exact arithmetic the similarity of two non-zero vectors lies in
    [[-1, 1]].  (On binary64 the quotient is rounded and is not
    clamped: see [cosine_of_ones_exceeds_one].) *)
Theorem calculateCosineSimilarity_total_zero_bounded :
  (forall a b : list F64.t,
     List.length a = List.length b ->
     exists similarity,
       VectorRepository.calculateCosineSimilarity a b = Ok similarity
       /\ F64.isNaN similarity = false)
  /\ (forall a b : list F64.t,
        List.length a = List.length b ->
        VectorSpec.zeroVector a \/ VectorSpec.zeroVector b ->
        VectorRepository.calculateCosineSimilarity a b = Ok F64.zero)
  /\ (forall a b : list R,
        List.length a = List.length b ->
        VectorSpec.nonZero a -> VectorSpec.nonZero b ->
        exists similarity,
          VectorRepository.calculateCosineSimilarity a b = Ok similarity
          /\ (-1 <= similarity <= 1)%R).
Proof.
  split; [exact cosine_never_NaN | split; [exact cosine_zero_vector | exact cosine_exact_bounded]].
Qed.

Lemma zeroVector_zeros : VectorSpec.zeroVector Examples.zeros.
Proof. repeat constructor. Qed.

Lemma nonZero_ones : VectorSpec.nonZero (@Examples.ones R _).
Proof. constructor. simpl. lra. Qed.

(** The zero vector against [(1, 1, 1)] on binary64, and [(1, 1, 1)]
    against itself in exact arithmetic. *)
Lemma calculateCosineSimilarity_total_zero_bounded_witness :
  VectorRepository.calculateCosineSimilarity (@Examples.zeros F64.t _) Examples.ones = Ok F64.zero
  /\ exists similarity : R,
       VectorRepository.calculateCosineSimilarity (@Examples.ones R _) Examples.ones = Ok similarity
       /\ (-1 <= similarity <= 1)%R.
Proof.
  split.
  - apply (proj1 (proj2 calculateCosineSimilarity_total_zero_bounded));
      [reflexivity | left; exact zeroVector_zeros].
  - apply (proj2 (proj2 calculateCosineSimilarity_total_zero_bounded));
      [reflexivity | exact nonZero_ones | exact nonZero_ones].
Defined.

(** On binary64 the similarity of [(1, 1, 1)] with itself is
    [1 + 2^-52 = 1.0000000000000002]: [sqrt 3 * sqrt 3] rounds to
    [2.9999999999999996], and [3] divided by it rounds above [1]. *)
Lemma cosine_of_ones_exceeds_one :
  VectorRepository.calculateCosineSimilarity (@Examples.ones F64.t _) Examples.ones
    = Ok (S754_finite false 4503599627370497 (-52))
  /\ F64.gtb (S754_finite false 4503599627370497 (-52)) F64.one = true.
Proof. split; vm_compute; reflexivity. Qed.

(* ================================================================== *)
(** * Similarity search *)
(* ================================================================== *)

Section FindSimilar.
Context {num : Type} `{Number num}.

(** The scan keeps the candidates that reach the threshold. *)
Lemma scan_reaching {Row : Type} (embedding : Row -> option (ArrayBuffer.t num))
    (queryVector : list num) (threshold : num) (rows : list Row) :
  VectorRepository.scan embedding queryVector threshold rows
  = SimilaritySpec.reaching threshold (SimilaritySpec.candidates embedding queryVector rows).
Proof.
  unfold VectorRepository.scan, SimilaritySpec.reaching, SimilaritySpec.candidates.
  induction rows as [| row rest IH]; [reflexivity |].
  cbn [flat_map]. rewrite filter_app, <- IH. f_equal.
  unfold VectorRepository.similarityWith.
  destruct (embedding row) as [stored |]; [| reflexivity].
  destruct (ArrayBuffer.asFloat32Array stored) as [vector | msg]; [| reflexivity].
  cbn [bind].
  destruct (VectorRepository.calculateCosineSimilarity queryVector vector) as [similarity | msg];
    [| reflexivity].
  cbn [filter snd]. now destruct (ngeb similarity threshold).
Qed.

(** Who the candidates are. *)
Lemma candidates_In {Row : Type} (embedding : Row -> option (ArrayBuffer.t num))
    (queryVector : list num) (rows : list Row) (row : Row) (similarity : num) :
  In (row, similarity) (SimilaritySpec.candidates embedding queryVector rows) <->
  In row rows
  /\ exists stored vector,
       embedding row = Some stored
       /\ ArrayBuffer.asFloat32Array stored = Ok vector
       /\ VectorRepository.calculateCosineSimilarity queryVector vector = Ok similarity.
Proof.
  unfold SimilaritySpec.candidates. rewrite in_flat_map. split.
  - intros [row' [Hin Hkeep]].
    destruct (embedding row') as [stored |] eqn:Hemb; [| contradiction].
    destruct (ArrayBuffer.asFloat32Array stored) as [vector | msg] eqn:Hread; [| contradiction].
    destruct (VectorRepository.calculateCosineSimilarity queryVector vector) as [s | msg] eqn:Hcos;
      [| contradiction].
    destruct Hkeep as [[= <- <-] | []]. split; [assumption |]. exists stored, vector. auto.
  - intros [Hin [stored [vector [Hemb [Hread Hcos]]]]]. exists row. split; [assumption |].
    rewrite Hemb, Hread, Hcos. now left.
Qed.

Lemma reaching_In {Row : Type} (threshold : num) (candidates : list (Row * num))
    (row : Row) (similarity : num) :
  In (row, similarity) (SimilaritySpec.reaching threshold candidates) <->
  In (row, similarity) candidates /\ ngeb similarity threshold = true.
Proof. unfold SimilaritySpec.reaching. now rewrite filter_In. Qed.

(** The statement selects the rows that hold a vector; the others are
    no candidates anyway. *)
Lemma candidates_with_vector {Row : Type} (embedding : Row -> option (ArrayBuffer.t num))
    (queryVector : list num) (rows : list Row) :
  SimilaritySpec.candidates embedding queryVector
    (filter (fun row => isNotNull (embedding row)) rows)
  = SimilaritySpec.candidates embedding queryVector rows.
Proof.
  unfold SimilaritySpec.candidates.
  induction rows as [| row rest IH]; [reflexivity |].
  cbn [filter flat_map]. destruct (embedding row) as [stored |] eqn:Hemb; cbn [isNotNull].
  - cbn [flat_map]. rewrite Hemb, IH. reflexivity.
  - exact IH.
Qed.

(** What the scan keeps: the rows that hold a vector of the length of
    the query whose similarity reaches the threshold. *)
Lemma scan_In {Row : Type} (embedding : Row -> option (ArrayBuffer.t num)) (queryVector : list num)
    (threshold : num) (rows : list Row) (row : Row) (similarity : num) :
  In (row, similarity) (VectorRepository.scan embedding queryVector threshold rows) <->
  In row rows
  /\ exists stored vector,
       embedding row = Some stored
       /\ ArrayBuffer.asFloat32Array stored = Ok vector
       /\ VectorRepository.calculateCosineSimilarity queryVector vector = Ok similarity
       /\ ngeb similarity threshold = true.
Proof.
  rewrite scan_reaching, reaching_In, candidates_In. split.
  - intros [[Hin [stored [vector [Hemb [Hread Hcos]]]]] Hge].
    split; [assumption |]. exists stored, vector. auto.
  - intros [Hin [stored [vector [Hemb [Hread [Hcos Hge]]]]]].
    split; [| assumption]. split; [assumption |]. exists stored, vector. auto.
Qed.

Lemma scan_threshold {Row : Type} (embedding : Row -> option (ArrayBuffer.t num))
    (queryVector : list num) (threshold : num) (rows : list Row) :
  Forall (fun entry => ngeb (snd entry) threshold = true)
    (VectorRepository.scan embedding queryVector threshold rows).
Proof.
  apply Forall_forall. intros [row similarity] Hin. apply scan_In in Hin. simpl.
  destruct Hin as [_ [stored [vector [_ [_ [_ Hge]]]]]]. exact Hge.
Qed.

Lemma sliceTo_incl {A : Type} (l : list A) (stop : Z) (x : A) : In x (sliceTo l stop) -> In x l.
Proof.
  unfold sliceTo. intros Hin. rewrite <- (firstn_skipn
    (if (0 <=? stop)%Z then Z.to_nat stop else List.length l - Z.to_nat (- stop)) l).
  apply in_or_app. left. destruct (0 <=? stop)%Z; exact Hin.
Qed.

Lemma sliceTo_length {A : Type} (l : list A) (stop : Z) :
  (0 <= stop)%Z -> (Z.of_nat (List.length (sliceTo l stop)) <= stop)%Z.
Proof.
  intros Hstop. unfold sliceTo. destruct (0 <=? stop)%Z eqn:E; [| apply Z.leb_gt in E; lia].
  rewrite length_firstn. lia.
Qed.

Lemma sliceTo_length_min {A : Type} (l : list A) (stop : Z) :
  (0 <= stop)%Z -> List.length (sliceTo l stop) = Nat.min (Z.to_nat stop) (List.length l).
Proof.
  intros Hstop. unfold sliceTo. destruct (0 <=? stop)%Z eqn:E; [| apply Z.leb_gt in E; lia].
  apply length_firstn.
Qed.

(** What every arithmetic gives of the three steps after the scan, for
    any way [toResult] of turning a row and its similarity into a result
    that scores that similarity. *)
Lemma rank_and_cut_any {Row : Type} (toResult : Row * num -> SearchResult num)
    (threshold : num) (survivors : list (Row * num)) (limit : Z) :
  (forall entry, relevanceScore (toResult entry) = snd entry) ->
  Forall (fun entry => ngeb (snd entry) threshold = true) survivors ->
  let ranked := jsSort VectorRepository.bySimilarityDescending survivors in
  Permutation ranked survivors
  /\ neighboursInOrder VectorRepository.bySimilarityDescending ranked
  /\ Forall (fun r => ngeb (relevanceScore r) threshold = true)
       (map toResult (sliceTo ranked limit))
  /\ ((0 <= limit)%Z ->
      List.length (map toResult (sliceTo ranked limit))
      = Nat.min (Z.to_nat limit) (List.length survivors)).
Proof.
  intros Hscore Hthreshold ranked.
  split; [symmetry; apply jsSort_Permutation |].
  split; [apply jsSort_neighbours |]. split.
  - apply Forall_forall. intros r Hin. apply in_map_iff in Hin as [entry [<- Hin]].
    rewrite Hscore. apply sliceTo_incl in Hin. apply jsSort_In in Hin.
    rewrite Forall_forall in Hthreshold. now apply Hthreshold.
  - intros Hlimit. rewrite length_map, sliceTo_length_min by assumption.
    unfold ranked. now rewrite jsSort_length.
Qed.

(** The three steps after the scan, where the sign of a difference
    decides the order. *)
Lemma rank_and_cut `{!OrderedArith num} {Row : Type} (toResult : Row * num -> SearchResult num)
    (threshold : num) (survivors : list (Row * num)) (limit : Z) :
  (forall entry, relevanceScore (toResult entry) = snd entry) ->
  Forall (fun entry => ngeb (snd entry) threshold = true) survivors ->
  exists ranked,
    Permutation ranked survivors
    /\ StronglySorted similarityGe ranked
    /\ map toResult (sliceTo (jsSort VectorRepository.bySimilarityDescending survivors) limit)
       = map toResult (sliceTo ranked limit)
    /\ nonIncreasing (map toResult (sliceTo ranked limit))
    /\ Forall (fun r => ngeb (relevanceScore r) threshold = true) (map toResult (sliceTo ranked limit)).
Proof.
  intros Hscore Hthreshold.
  exists (jsSort VectorRepository.bySimilarityDescending survivors).
  assert (Hsorted : StronglySorted similarityGe
                      (jsSort (@VectorRepository.bySimilarityDescending num _ Row) survivors)).
  { apply jsSort_StronglySorted; unfold VectorRepository.bySimilarityDescending, similarityGe; intros.
    - now apply ord_sub_not_pos.
    - now apply ord_sub_pos.
    - eapply ord_geb_trans; eauto. }
  split; [symmetry; apply jsSort_Permutation |]. split; [exact Hsorted |]. split; [reflexivity |].
  split.
  - apply StronglySorted_map with (R := similarityGe).
    + intros a b Hab. unfold scoreGe. rewrite !Hscore. exact Hab.
    + now apply StronglySorted_sliceTo.
  - apply Forall_forall. intros r Hin. apply in_map_iff in Hin as [entry [<- Hin]].
    rewrite Hscore. apply sliceTo_incl in Hin. apply jsSort_In in Hin.
    rewrite Forall_forall in Hthreshold. now apply Hthreshold.
Qed.

(** With the storage ready, the two searches are the three steps on the
    candidates of their table. *)
Lemma findSimilarNodes_steps (db : DatabaseAdapter num) (queryVector : list num)
    (options : VectorRepository.VectorSearchOptions num) :
  embeddingColumns db = true ->
  VectorRepository.findSimilarNodes db queryVector options
  = map (VectorRepository.nodeResult
           match VectorRepository.includeDistances options with Some b => b | None => false end)
      (sliceTo
         (jsSort VectorRepository.bySimilarityDescending
            (SimilaritySpec.reaching
               match VectorRepository.threshold options with Some t => t | None => ndecimal 5 10 end
               (SimilaritySpec.candidates (@Node.embedding_vector num) queryVector (nodes db))))
         (VectorRepository.limit options)).
Proof.
  intros Hready.
  unfold VectorRepository.findSimilarNodes, VectorRepository.selectNodesWithEmbeddings.
  rewrite Hready, scan_reaching, candidates_with_vector. reflexivity.
Qed.

Lemma findSimilarTemplates_steps (db : DatabaseAdapter num) (queryVector : list num)
    (options : VectorRepository.VectorSearchOptions num) :
  embeddingColumns db = true ->
  VectorRepository.findSimilarTemplates db queryVector options
  = map (VectorRepository.templateResult
           match VectorRepository.includeDistances options with Some b => b | None => false end)
      (sliceTo
         (jsSort VectorRepository.bySimilarityDescending
            (SimilaritySpec.reaching
               match VectorRepository.threshold options with Some t => t | None => ndecimal 5 10 end
               (SimilaritySpec.candidates (@Template.embedding_vector num) queryVector
                  (templates db))))
         (VectorRepository.limit options)).
Proof.
  intros Hready.
  unfold VectorRepository.findSimilarTemplates, VectorRepository.selectTemplatesWithEmbeddings.
  rewrite Hready, scan_reaching, candidates_with_vector. reflexivity.
Qed.

Lemma reaching_threshold {Row : Type} (threshold : num) (candidates : list (Row * num)) :
  Forall (fun entry => ngeb (snd entry) threshold = true)
    (SimilaritySpec.reaching threshold candidates).
Proof.
  apply Forall_forall. intros [row similarity] Hin. now apply reaching_In in Hin.
Qed.
End FindSimilar.

(** *** On binary64 *)

Section FindSimilarF64.

Lemma allValid_cons (x : F64.t) (l : list F64.t) :
  F64.allValid (x :: l) = true -> F64.valid x = true /\ F64.allValid l = true.
Proof. unfold F64.allValid. simpl. intros Hall. now apply andb_prop in Hall. Qed.

Lemma accumulate_valid (a b : list F64.t) (dotProduct normA normB : F64.t) :
  F64.allValid a = true -> F64.allValid b = true ->
  F64.valid dotProduct = true -> F64.valid normA = true -> F64.valid normB = true ->
  F64.valid (fst (fst (VectorRepository.accumulate a b dotProduct normA normB))) = true
  /\ F64.valid (snd (fst (VectorRepository.accumulate a b dotProduct normA normB))) = true
  /\ F64.valid (snd (VectorRepository.accumulate a b dotProduct normA normB)) = true.
Proof.
  revert b dotProduct normA normB.
  induction a as [| ai a IH]; intros [| bi b] d na nb Ha Hb Hd Hna Hnb; simpl; auto.
  apply allValid_cons in Ha as [Hai Ha]. apply allValid_cons in Hb as [Hbi Hb].
  apply IH; auto; apply F64_valid_add; auto; apply F64_valid_mul; auto.
Qed.

(** The similarity of two arrays of binary64 numbers is a binary64
    number, and never NaN. *)
Lemma cosine_isNumber (a b : list F64.t) (similarity : F64.t) :
  F64.allValid a = true -> F64.allValid b = true ->
  VectorRepository.calculateCosineSimilarity a b = Ok similarity ->
  F64.isNumber similarity = true.
Proof.
  intros Ha Hb. unfold VectorRepository.calculateCosineSimilarity.
  destruct (negb _); [discriminate |].
  pose proof (accumulate_valid a b (F64.ofZ 0) (F64.ofZ 0) (F64.ofZ 0) Ha Hb
                eq_refl eq_refl eq_refl) as [Hd [Hna Hnb]].
  change (@nofZ F64.t F64Number 0) with (F64.ofZ 0).
  destruct (VectorRepository.accumulate a b _ _ _) as [[d na] nb]. cbn [fst snd] in Hd, Hna, Hnb.
  intros [= <-].
  assert (Hvalid : F64.valid (F64.div d (F64.mul (F64.sqrt na) (F64.sqrt nb))) = true)
    by (apply F64_valid_div; [assumption |]; apply F64_valid_mul; now apply F64_valid_sqrt).
  change (@ndiv F64.t F64Number) with F64.div. change (@nmul F64.t F64Number) with F64.mul.
  change (@nsqrt F64.t F64Number) with F64.sqrt. change (@nisNaN F64.t F64Number) with F64.isNaN.
  destruct (F64.isNaN _) eqn:E; [reflexivity |].
  unfold F64.isNumber. now rewrite Hvalid, E.
Qed.

Lemma candidates_isNumber {Row : Type} (embedding : Row -> option (ArrayBuffer.t F64.t))
    (queryVector : list F64.t) (rows : list Row) :
  F64.allValid queryVector = true -> holdsBinary64 embedding rows = true ->
  Forall (fun entry => F64.isNumber (snd entry) = true)
    (SimilaritySpec.candidates embedding queryVector rows).
Proof.
  intros Hquery Hrows. apply Forall_forall. intros [row similarity] Hin.
  apply candidates_In in Hin as [Hrow [stored [values [Hemb [Hread Hcos]]]]].
  unfold holdsBinary64 in Hrows. rewrite forallb_forall in Hrows.
  specialize (Hrows row Hrow). cbv beta in Hrows. rewrite Hemb in Hrows.
  unfold ArrayBuffer.asFloat32Array in Hread.
  destruct (ArrayBuffer.trailing stored =? 0)%nat; [injection Hread as <- | discriminate].
  exact (cosine_isNumber queryVector _ similarity Hquery Hrows Hcos).
Qed.

Lemma reaching_isNumber {Row : Type} (threshold : F64.t) (candidates : list (Row * F64.t)) :
  Forall (fun entry => F64.isNumber (snd entry) = true) candidates ->
  Forall (fun entry => F64.isNumber (snd entry) = true)
    (SimilaritySpec.reaching threshold candidates).
Proof.
  rewrite !Forall_forall. intros Hall entry Hin.
  unfold SimilaritySpec.reaching in Hin. apply filter_In in Hin as [Hin _]. now apply Hall.
Qed.

(** On binary64 numbers the results of the two searches are
    non-increasing in score. *)
Lemma findSimilarNodes_nonIncreasing_F64 (db : DatabaseAdapter F64.t) (queryVector : list F64.t)
    (options : VectorRepository.VectorSearchOptions F64.t) :
  F64.allValid queryVector = true ->
  holdsBinary64 (@Node.embedding_vector F64.t) (nodes db) = true ->
  nonIncreasing (VectorRepository.findSimilarNodes db queryVector options).
Proof.
  intros Hquery Hdb. destruct (embeddingColumns db) eqn:Hready.
  - rewrite (findSimilarNodes_steps db queryVector options Hready).
    apply StronglySorted_map with (R := similarityGe).
    + now intros [row1 similarity1] [row2 similarity2].
    + apply StronglySorted_sliceTo, jsSort_bySimilarity_sorted_F64, reaching_isNumber.
      now apply candidates_isNumber.
  - unfold VectorRepository.findSimilarNodes, VectorRepository.selectNodesWithEmbeddings.
    rewrite Hready. constructor.
Qed.

Lemma findSimilarTemplates_nonIncreasing_F64 (db : DatabaseAdapter F64.t)
    (queryVector : list F64.t) (options : VectorRepository.VectorSearchOptions F64.t) :
  F64.allValid queryVector = true ->
  holdsBinary64 (@Template.embedding_vector F64.t) (templates db) = true ->
  nonIncreasing (VectorRepository.findSimilarTemplates db queryVector options).
Proof.
  intros Hquery Hdb. destruct (embeddingColumns db) eqn:Hready.
  - rewrite (findSimilarTemplates_steps db queryVector options Hready).
    apply StronglySorted_map with (R := similarityGe).
    + now intros [row1 similarity1] [row2 similarity2].
    + apply StronglySorted_sliceTo, jsSort_bySimilarity_sorted_F64, reaching_isNumber.
      now apply candidates_isNumber.
  - unfold VectorRepository.findSimilarTemplates, VectorRepository.selectTemplatesWithEmbeddings.
    rewrite Hready. constructor.
Qed.
End FindSimilarF64.

Lemma nonIncreasing_nil {num : Type} `{Number num} : nonIncreasing (@nil (SearchResult num)).
Proof. constructor. Qed.

Lemma findSimilarNodes_nonIncreasing {num : Type} `{OrderedArith num}
    (db : DatabaseAdapter num) (queryVector : list num)
    (options : VectorRepository.VectorSearchOptions num) :
  nonIncreasing (VectorRepository.findSimilarNodes db queryVector options).
Proof.
  unfold VectorRepository.findSimilarNodes, VectorRepository.selectNodesWithEmbeddings.
  destruct (embeddingColumns db); [| apply nonIncreasing_nil].
  edestruct (rank_and_cut (VectorRepository.nodeResult
               match VectorRepository.includeDistances options with Some b => b | None => false end))
    as [ranked [_ [_ [Heq [Hinc _]]]]].
  - now intros [row similarity].
  - apply scan_threshold.
  - rewrite Heq. exact Hinc.
Qed.

Lemma findSimilarTemplates_nonIncreasing {num : Type} `{OrderedArith num}
    (db : DatabaseAdapter num) (queryVector : list num)
    (options : VectorRepository.VectorSearchOptions num) :
  nonIncreasing (VectorRepository.findSimilarTemplates db queryVector options).
Proof.
  unfold VectorRepository.findSimilarTemplates, VectorRepository.selectTemplatesWithEmbeddings.
  destruct (embeddingColumns db); [| apply nonIncreasing_nil].
  edestruct (rank_and_cut (VectorRepository.templateResult
               match VectorRepository.includeDistances options with Some b => b | None => false end))
    as [ranked [_ [_ [Heq [Hinc _]]]]].
  - now intros [row similarity].
  - apply scan_threshold.
  - rewrite Heq. exact Hinc.
Qed.




(** C3 (as the code has it).  With the storage ready, [findSimilarNodes]
    and [findSimilarTemplates] take the candidates of their table (the
    rows that hold a vector of the length of the query), keep those whose
    cosine similarity reaches the threshold and discard the others, sort
    the kept ones with the comparator [b.similarity - a.similarity], and
    return the first [limit] of them, each scored with its similarity.
    The threshold is the one the caller supplies, and 0.5 when the
    caller supplies none.  This holds in every arithmetic, binary64
    included, where the sorted list is a rearrangement of the kept
    candidates in which no two neighbours are out of order for the
    comparator.  On binary64, for a query and stored vectors that are
    made of binary64 numbers, as every JavaScript number is, the sorted
    list is non-increasing in similarity, and so are the results; the
    same holds in exact arithmetic. *)
Theorem findSimilar_discards_sorts_truncates :
  (forall {num : Type} `{Number num} (db : DatabaseAdapter num) (queryVector : list num)
          (options : VectorRepository.VectorSearchOptions num),
     let threshold :=
       match VectorRepository.threshold options with Some t => t | None => ndecimal 5 10 end in
     let includeDistances :=
       match VectorRepository.includeDistances options with Some b => b | None => false end in
     let keptNodes :=
       SimilaritySpec.reaching threshold
         (SimilaritySpec.candidates (@Node.embedding_vector num) queryVector (nodes db)) in
     let keptTemplates :=
       SimilaritySpec.reaching threshold
         (SimilaritySpec.candidates (@Template.embedding_vector num) queryVector (templates db)) in
     let rankedNodes := jsSort VectorRepository.bySimilarityDescending keptNodes in
     let rankedTemplates := jsSort VectorRepository.bySimilarityDescending keptTemplates in
     embeddingColumns db = true ->
     (VectorRepository.findSimilarNodes db queryVector options
      = map (VectorRepository.nodeResult includeDistances)
          (sliceTo rankedNodes (VectorRepository.limit options))
      /\ VectorRepository.findSimilarTemplates db queryVector options
         = map (VectorRepository.templateResult includeDistances)
             (sliceTo rankedTemplates (VectorRepository.limit options)))
     /\ (forall row similarity,
           In (row, similarity) keptNodes <->
           In row (nodes db)
           /\ exists stored vector,
                Node.embedding_vector row = Some stored
                /\ ArrayBuffer.asFloat32Array stored = Ok vector
                /\ VectorRepository.calculateCosineSimilarity queryVector vector = Ok similarity
                /\ ngeb similarity threshold = true)
     /\ (forall row similarity,
           In (row, similarity) keptTemplates <->
           In row (templates db)
           /\ exists stored vector,
                Template.embedding_vector row = Some stored
                /\ ArrayBuffer.asFloat32Array stored = Ok vector
                /\ VectorRepository.calculateCosineSimilarity queryVector vector = Ok similarity
                /\ ngeb similarity threshold = true)
     /\ (Permutation rankedNodes keptNodes
         /\ neighboursInOrder VectorRepository.bySimilarityDescending rankedNodes)
     /\ (Permutation rankedTemplates keptTemplates
         /\ neighboursInOrder VectorRepository.bySimilarityDescending rankedTemplates)
     /\ (Forall (fun r => ngeb (relevanceScore r) threshold = true)
           (VectorRepository.findSimilarNodes db queryVector options)
         /\ Forall (fun r => ngeb (relevanceScore r) threshold = true)
              (VectorRepository.findSimilarTemplates db queryVector options))
     /\ ((0 <= VectorRepository.limit options)%Z ->
         List.length (VectorRepository.findSimilarNodes db queryVector options)
         = Nat.min (Z.to_nat (VectorRepository.limit options)) (List.length keptNodes)
         /\ List.length (VectorRepository.findSimilarTemplates db queryVector options)
            = Nat.min (Z.to_nat (VectorRepository.limit options)) (List.length keptTemplates)))
  /\ (forall (db : DatabaseAdapter F64.t) (queryVector : list F64.t)
             (options : VectorRepository.VectorSearchOptions F64.t),
        let threshold :=
          match VectorRepository.threshold options with Some t => t | None => ndecimal 5 10 end in
        F64.allValid queryVector = true ->
        (holdsBinary64 (@Node.embedding_vector F64.t) (nodes db) = true ->
         StronglySorted similarityGe
           (jsSort VectorRepository.bySimilarityDescending
              (SimilaritySpec.reaching threshold
                 (SimilaritySpec.candidates (@Node.embedding_vector F64.t) queryVector
                    (nodes db))))
         /\ nonIncreasing (VectorRepository.findSimilarNodes db queryVector options))
        /\ (holdsBinary64 (@Template.embedding_vector F64.t) (templates db) = true ->
            StronglySorted similarityGe
              (jsSort VectorRepository.bySimilarityDescending
                 (SimilaritySpec.reaching threshold
                    (SimilaritySpec.candidates (@Template.embedding_vector F64.t) queryVector
                       (templates db))))
            /\ nonIncreasing (VectorRepository.findSimilarTemplates db queryVector options)))
  /\ (forall (db : DatabaseAdapter R) (queryVector : list R)
             (options : VectorRepository.VectorSearchOptions R),
        let threshold :=
          match VectorRepository.threshold options with Some t => t | None => ndecimal 5 10 end in
        StronglySorted similarityGe
          (jsSort VectorRepository.bySimilarityDescending
             (SimilaritySpec.reaching threshold
                (SimilaritySpec.candidates (@Node.embedding_vector R) queryVector (nodes db))))
        /\ StronglySorted similarityGe
             (jsSort VectorRepository.bySimilarityDescending
                (SimilaritySpec.reaching threshold
                   (SimilaritySpec.candidates (@Template.embedding_vector R) queryVector
                      (templates db))))
        /\ nonIncreasing (VectorRepository.findSimilarNodes db queryVector options)
        /\ nonIncreasing (VectorRepository.findSimilarTemplates db queryVector options)).
Proof.
  split.
  - intros num Hnum db queryVector options threshold includeDistances keptNodes keptTemplates
      rankedNodes rankedTemplates Hready.
    pose proof (findSimilarNodes_steps db queryVector options Hready) as HN.
    pose proof (findSimilarTemplates_steps db queryVector options Hready) as HT.
    fold threshold includeDistances in HN, HT. fold keptNodes rankedNodes in HN.
    fold keptTemplates rankedTemplates in HT.
    destruct (rank_and_cut_any (VectorRepository.nodeResult includeDistances) threshold keptNodes
                (VectorRepository.limit options))
      as [HpermN [HnbN [HthrN HlenN]]];
      [now intros [row similarity] | apply reaching_threshold |].
    destruct (rank_and_cut_any (VectorRepository.templateResult includeDistances) threshold
                keptTemplates (VectorRepository.limit options))
      as [HpermT [HnbT [HthrT HlenT]]];
      [now intros [row similarity] | apply reaching_threshold |].
    split; [split; assumption |].
    split; [intros row similarity; unfold keptNodes;
            rewrite reaching_In, candidates_In; split;
            [intros [[Hin [stored [vector [Hemb [Hread Hcos]]]]] Hge];
             split; [assumption | exists stored, vector; auto]
            | intros [Hin [stored [vector [Hemb [Hread [Hcos Hge]]]]]];
              split; [split; [assumption | exists stored, vector; auto] | assumption]] |].
    split; [intros row similarity; unfold keptTemplates;
            rewrite reaching_In, candidates_In; split;
            [intros [[Hin [stored [vector [Hemb [Hread Hcos]]]]] Hge];
             split; [assumption | exists stored, vector; auto]
            | intros [Hin [stored [vector [Hemb [Hread [Hcos Hge]]]]]];
              split; [split; [assumption | exists stored, vector; auto] | assumption]] |].
    split; [split; assumption |]. split; [split; assumption |].
    rewrite HN, HT. split; [split; assumption |].
    intros Hlimit. split; [now apply HlenN | now apply HlenT].
  - split.
    + intros db queryVector options threshold Hquery. split; intros Hdb; split.
      * apply jsSort_bySimilarity_sorted_F64, reaching_isNumber. now apply candidates_isNumber.
      * now apply findSimilarNodes_nonIncreasing_F64.
      * apply jsSort_bySimilarity_sorted_F64, reaching_isNumber. now apply candidates_isNumber.
      * now apply findSimilarTemplates_nonIncreasing_F64.
    + intros db queryVector options threshold.
      split; [| split; [| split]].
      * apply jsSort_bySimilarity_sorted.
      * apply jsSort_bySimilarity_sorted.
      * apply findSimilarNodes_nonIncreasing.
      * apply findSimilarTemplates_nonIncreasing.
Qed.

(** The plane in exact arithmetic: seen from [(1, 0)], each of the
    three nodes is a candidate whose similarity is at least -1. *)
Lemma RExact_geb_true (x y : R) : (x >= y)%R -> RExact.geb x y = true.
Proof. intros Hge. unfold RExact.geb. now destruct (Rge_dec x y). Qed.

Lemma plane_kept_exact :
  List.length
    (SimilaritySpec.reaching (-1)%R
       (SimilaritySpec.candidates (@Node.embedding_vector R) Examples.planeQuery
          (nodes Examples.planeDb)))
  = 3.
Proof.
  assert (Hq : VectorSpec.nonZero (@Examples.planeQuery R _)) by (constructor; simpl; lra).
  destruct (cosine_exact_bounded Examples.planeQuery [nofZ 0; nofZ 1] eq_refl Hq)
    as [s1 [Hcos1 Hb1]]; [right; constructor; simpl; lra |].
  destruct (cosine_exact_bounded Examples.planeQuery [nofZ 5; nofZ 12] eq_refl Hq)
    as [s2 [Hcos2 Hb2]]; [constructor; simpl; lra |].
  destruct (cosine_exact_bounded Examples.planeQuery [nofZ 2; nofZ 0] eq_refl Hq)
    as [s3 [Hcos3 Hb3]]; [constructor; simpl; lra |].
  unfold SimilaritySpec.candidates, SimilaritySpec.reaching.
  cbn [nodes Examples.planeDb flat_map Node.embedding_vector Examples.node Examples.near
       Examples.far Examples.same option_map TypedArray.buffer TypedArray.ofElements ArrayBuffer.asFloat32Array
       ArrayBuffer.trailing ArrayBuffer.slots TypedArray.before TypedArray.elements
       TypedArray.behind TypedArray.trailing Nat.eqb app].
  rewrite Hcos1, Hcos2, Hcos3. cbn [app filter snd].
  change (@ngeb R RNumber) with RExact.geb.
  rewrite !RExact_geb_true by lra. reflexivity.
Qed.

(** In exact arithmetic, with the threshold -1, the three nodes of the
    plane come back, in non-increasing order; on binary64, with the
    threshold 0.2, every result scores at least 0.2, and the two nodes
    that come back do so in non-increasing order. *)
Lemma findSimilar_discards_sorts_truncates_witness :
  (nonIncreasing
     (VectorRepository.findSimilarNodes (@Examples.planeDb R _) Examples.planeQuery
        (Examples.planeOptions (Some (-1)%R)))
   /\ List.length
        (VectorRepository.findSimilarNodes (@Examples.planeDb R _) Examples.planeQuery
           (Examples.planeOptions (Some (-1)%R)))
      = 3)
  /\ Forall (fun r : SearchResult F64.t => ngeb (relevanceScore r) (ndecimal 2 10) = true)
       (VectorRepository.findSimilarNodes Examples.planeDb Examples.planeQuery
          (Examples.planeOptions (Some (ndecimal 2 10))))
  /\ (nonIncreasing
        (VectorRepository.findSimilarNodes (@Examples.planeDb F64.t _) Examples.planeQuery
           (Examples.planeOptions (Some (ndecimal 2 10))))
      /\ map (@nodeType F64.t)
           (VectorRepository.findSimilarNodes Examples.planeDb Examples.planeQuery
              (Examples.planeOptions (Some (ndecimal 2 10))))
         = ["same"%string; "near"%string]).
Proof.
  split; [split | split; [| split]].
  - exact (proj1 (proj2 (proj2
             (proj2 (proj2 findSimilar_discards_sorts_truncates) (@Examples.planeDb R _)
                Examples.planeQuery (Examples.planeOptions (Some (-1)%R)))))).
  - destruct (proj1 findSimilar_discards_sorts_truncates R _ (@Examples.planeDb R _)
                Examples.planeQuery (Examples.planeOptions (Some (-1)%R)) eq_refl)
      as [_ [_ [_ [_ [_ [_ Hlength]]]]]].
    rewrite (proj1 (Hlength ltac:(simpl; lia))).
    cbn [VectorRepository.threshold Examples.planeOptions].
    rewrite plane_kept_exact. reflexivity.
  - exact (proj1 (proj1 (proj2 (proj2 (proj2 (proj2 (proj2
             (proj1 findSimilar_discards_sorts_truncates F64.t _ (@Examples.planeDb F64.t _)
                Examples.planeQuery (Examples.planeOptions (Some (ndecimal 2 10))) eq_refl)))))))).
  - refine (proj2 (proj1 (proj1 (proj2 findSimilar_discards_sorts_truncates)
                            (@Examples.planeDb F64.t _) Examples.planeQuery
                            (Examples.planeOptions (Some (ndecimal 2 10))) _) _));
      vm_compute; reflexivity.
  - vm_compute. reflexivity.
Defined.

(** On binary64: a node whose similarity is [5/13], above 0.2 and below
    0.5, is dropped when the caller supplies no threshold, and kept when
    the caller supplies 0.2. *)
Lemma findSimilarNodes_default_threshold :
  map (@nodeType F64.t)
    (VectorRepository.findSimilarNodes Examples.planeDb Examples.planeQuery
       (Examples.planeOptions None))
  = ["same"%string]
  /\ map (@nodeType F64.t)
       (VectorRepository.findSimilarNodes Examples.planeDb Examples.planeQuery
          (Examples.planeOptions (Some (ndecimal 2 10))))
     = ["same"%string; "near"%string].
Proof. split; vm_compute; reflexivity. Qed.

(** Without the embedding columns the statement throws and the search
    answers with the empty list. *)
Lemma findSimilar_storage_not_ready {num : Type} `{Number num}
    (db : DatabaseAdapter num) (queryVector : list num)
    (options : VectorRepository.VectorSearchOptions num) :
  embeddingColumns db = false ->
  VectorRepository.findSimilarNodes db queryVector options = []
  /\ VectorRepository.findSimilarTemplates db queryVector options = [].
Proof.
  intros Hmissing.
  unfold VectorRepository.findSimilarNodes, VectorRepository.selectNodesWithEmbeddings,
    VectorRepository.findSimilarTemplates, VectorRepository.selectTemplatesWithEmbeddings.
  rewrite Hmissing. split; reflexivity.
Qed.

(* ================================================================== *)
(** * Which rows need an embedding *)
(* ================================================================== *)

Section NeedsEmbedding.
Context {num : Type} `{Number num}.

Lemma sqlWhere_In {A : Type} (condition : A -> option bool) (rows : list A) (row : A) :
  In row (sqlWhere condition rows) <-> In row rows /\ condition row = Some true.
Proof.
  unfold sqlWhere. rewrite filter_In.
  destruct (condition row) as [[|] |]; intuition congruence.
Qed.

Lemma needs_embedding_condition {A B : Type} (vector : option A) (hash : option B)
    (generated updated : option Z) :
  sqlOr (sqlOr (sqlIsNull vector) (sqlIsNull hash)) (sqlLt generated updated) = Some true <->
  vector = None \/ hash = None
  \/ exists g u, generated = Some g /\ updated = Some u /\ (g < u)%Z.
Proof.
  destruct vector, hash, generated as [g |], updated as [u |]; simpl;
    try destruct (g <? u)%Z eqn:E; rewrite ?Z.ltb_lt, ?Z.ltb_ge in *;
    (split; [intros Hc; try discriminate; auto |
             intros [Hc | [Hc | [g' [u' [Hg [Hu Hlt]]]]]]; try discriminate; try reflexivity]).
  all: try (right; right; exists g, u; auto).
  all: try (injection Hg as <-; injection Hu as <-; lia).
Qed.

Lemma nodeNeedsEmbedding_iff (row : Node.Row num) :
  VectorRepository.nodeNeedsEmbedding row = Some true <->
  Node.embedding_vector row = None \/ Node.embedding_content_hash row = None
  \/ exists g u, Node.embedding_generated_at row = Some g /\ Node.updated_at row = Some u /\ (g < u)%Z.
Proof. apply needs_embedding_condition. Qed.

Lemma templateNeedsEmbedding_iff (row : Template.Row num) :
  VectorRepository.templateNeedsEmbedding row = Some true <->
  Template.embedding_vector row = None \/ Template.embedding_content_hash row = None
  \/ exists g u,
       Template.embedding_generated_at row = Some g /\ Template.updated_at row = Some u /\ (g < u)%Z.
Proof. apply needs_embedding_condition. Qed.

(** A node just saved is reported again only when its [updated_at] lies
    after the time of the save. *)
Lemma saveEmbedding_then_needs (db db' : DatabaseAdapter num) (nodeType : string)
    (embedding : TypedArray.t num) (contentHash : string) (model : option string)
    (row : Node.Row num) :
  VectorRepository.saveEmbedding db nodeType embedding contentHash model = Ok db' ->
  In row (VectorRepository.getNodesNeedingEmbeddings db') ->
  Node.node_type row = nodeType ->
  Node.embedding_content_hash row = Some contentHash
  /\ exists u, Node.updated_at row = Some u /\ (CURRENT_TIMESTAMP db < u)%Z.
Proof.
  unfold VectorRepository.saveEmbedding, VectorRepository.getNodesNeedingEmbeddings.
  destruct (embeddingColumns db) eqn:Hready; [| discriminate].
  intros [= <-]. simpl. rewrite ?Hready. rewrite sqlWhere_In, in_map_iff.
  intros [[old [<- Hold]] Hneeds] Htype.
  unfold VectorRepository.updateNode in *.
  destruct (String.eqb (Node.node_type old) nodeType) eqn:E.
  - apply nodeNeedsEmbedding_iff in Hneeds. simpl in *. split; [reflexivity |].
    destruct Hneeds as [Hc | [Hc | [g [u [Hg [Hu Hlt]]]]]]; try discriminate.
    injection Hg as <-. eauto.
  - apply String.eqb_neq in E. contradiction.
Qed.

Lemma saveTemplateEmbedding_then_needs (db db' : DatabaseAdapter num) (templateId : Z)
    (embedding : TypedArray.t num) (contentHash : string) (model : option string)
    (row : Template.Row num) :
  VectorRepository.saveTemplateEmbedding db templateId embedding contentHash model = Ok db' ->
  In row (VectorRepository.getTemplatesNeedingEmbeddings db') ->
  Template.id row = templateId ->
  Template.embedding_content_hash row = Some contentHash
  /\ exists u, Template.updated_at row = Some u /\ (CURRENT_TIMESTAMP db < u)%Z.
Proof.
  unfold VectorRepository.saveTemplateEmbedding, VectorRepository.getTemplatesNeedingEmbeddings.
  destruct (embeddingColumns db) eqn:Hready; [| discriminate].
  intros [= <-]. simpl. rewrite ?Hready. rewrite sqlWhere_In, in_map_iff.
  intros [[old [<- Hold]] Hneeds] Htype.
  unfold VectorRepository.updateTemplate in *.
  destruct (Template.id old =? templateId)%Z eqn:E.
  - apply templateNeedsEmbedding_iff in Hneeds. simpl in *. split; [reflexivity |].
    destruct Hneeds as [Hc | [Hc | [g [u [Hg [Hu Hlt]]]]]]; try discriminate.
    injection Hg as <-. eauto.
  - apply Z.eqb_neq in E. contradiction.
Qed.

(** The script regenerates a reported row unless its stored hash is the
    hash of its current text and regeneration is not forced. *)
Lemma nodesToSave_In (contentHash : Node.Row num -> string) (forceRegenerate : bool)
    (batch : list (Node.Row num)) (node : Node.Row num) :
  In node (GenerateEmbeddings.nodesToSave contentHash forceRegenerate batch) <->
  In node batch
  /\ (forceRegenerate = true \/ Node.embedding_content_hash node <> Some (contentHash node)).
Proof.
  unfold GenerateEmbeddings.nodesToSave, GenerateEmbeddings.unchanged. rewrite filter_In.
  destruct forceRegenerate; simpl.
  - intuition.
  - destruct (Node.embedding_content_hash node) as [h |] eqn:Hh; simpl.
    + destruct (String.eqb h (contentHash node)) eqn:E; simpl.
      * apply String.eqb_eq in E. subst. intuition (congruence || discriminate).
      * apply String.eqb_neq in E. intuition (congruence || discriminate).
    + intuition (congruence || discriminate).
Qed.
End NeedsEmbedding.

(** C2 (as the code has it).  With the embedding columns in place, the
    needs-embedding queries report exactly the rows whose vector is
    missing, whose stored hash is missing, or whose embedding is older
    than the row's last update; they never compare hashes.  After
    [saveEmbedding] a row holds the new hash and is reported again only
    if its last update lies after the save.  The generation script then
    regenerates a reported row when regeneration is forced or its stored
    hash differs from the hash of its current text. *)
Theorem needsEmbedding_by_columns_and_time {num : Type} `{Number num} (db : DatabaseAdapter num) :
  embeddingColumns db = true ->
  (forall row,
     In row (VectorRepository.getNodesNeedingEmbeddings db) <->
     In row (nodes db)
     /\ (Node.embedding_vector row = None \/ Node.embedding_content_hash row = None
         \/ exists g u, Node.embedding_generated_at row = Some g
                        /\ Node.updated_at row = Some u /\ (g < u)%Z))
  /\ (forall row,
        In row (VectorRepository.getTemplatesNeedingEmbeddings db) <->
        In row (templates db)
        /\ (Template.embedding_vector row = None \/ Template.embedding_content_hash row = None
            \/ exists g u, Template.embedding_generated_at row = Some g
                           /\ Template.updated_at row = Some u /\ (g < u)%Z))
  /\ (forall nodeType embedding contentHash model db' row,
        VectorRepository.saveEmbedding db nodeType embedding contentHash model = Ok db' ->
        In row (VectorRepository.getNodesNeedingEmbeddings db') ->
        Node.node_type row = nodeType ->
        Node.embedding_content_hash row = Some contentHash
        /\ exists u, Node.updated_at row = Some u /\ (CURRENT_TIMESTAMP db < u)%Z)
  /\ (forall templateId embedding contentHash model db' row,
        VectorRepository.saveTemplateEmbedding db templateId embedding contentHash model = Ok db' ->
        In row (VectorRepository.getTemplatesNeedingEmbeddings db') ->
        Template.id row = templateId ->
        Template.embedding_content_hash row = Some contentHash
        /\ exists u, Template.updated_at row = Some u /\ (CURRENT_TIMESTAMP db < u)%Z)
  /\ (forall (currentHash : Node.Row num -> string) forceRegenerate node,
        In node (GenerateEmbeddings.nodesToSave currentHash forceRegenerate
                   (VectorRepository.getNodesNeedingEmbeddings db)) <->
        In node (VectorRepository.getNodesNeedingEmbeddings db)
        /\ (forceRegenerate = true \/ Node.embedding_content_hash node <> Some (currentHash node))).
Proof.
  intros Hready.
  split; [| split; [| split; [| split]]].
  - intros row. unfold VectorRepository.getNodesNeedingEmbeddings.
    rewrite Hready, sqlWhere_In, nodeNeedsEmbedding_iff. reflexivity.
  - intros row. unfold VectorRepository.getTemplatesNeedingEmbeddings.
    rewrite Hready, sqlWhere_In, templateNeedsEmbedding_iff. reflexivity.
  - intros nodeType embedding contentHash model db' row Hsave Hin Htype.
    eapply saveEmbedding_then_needs; eauto.
  - intros templateId embedding contentHash model db' row Hsave Hin Hid.
    eapply saveTemplateEmbedding_then_needs; eauto.
  - intros currentHash forceRegenerate node. apply nodesToSave_In.
Qed.

(** The node [near] was embedded after its last update: the query does
    not report it, whatever its text hashes to now. *)
Lemma needsEmbedding_by_columns_and_time_witness :
  In Examples.near (nodes (@Examples.planeDb F64.t _))
  /\ ~ In Examples.near (VectorRepository.getNodesNeedingEmbeddings (@Examples.planeDb F64.t _)).
Proof.
  split; [right; left; reflexivity |].
  intros Hin.
  destruct (proj1 (proj1 (needsEmbedding_by_columns_and_time (@Examples.planeDb F64.t _) eq_refl)
                     Examples.near) Hin) as [_ [Hc | [Hc | [g [u [Hg [Hu Hlt]]]]]]].
  - discriminate Hc.
  - discriminate Hc.
  - injection Hg as <-. injection Hu as <-. lia.
Defined.

(** The stored hash of [near] is ["H1"]; let its current text hash to
    ["H2"]: the record is stale and the query does not report it. *)
Lemma stale_hash_not_reported : ~ StalenessSpec.reportsEveryStaleNode.
Proof.
  intros Hclaim.
  pose proof (Hclaim (fun _ => "H2"%string) Examples.planeDb Examples.near "H1"%string eq_refl
                (or_intror (or_introl eq_refl)) eq_refl) as Hreported.
  assert (Hne : "H1"%string <> "H2"%string) by discriminate.
  specialize (Hreported Hne).
  vm_compute in Hreported. exact Hreported.
Qed.

(* ================================================================== *)
(** * Reranking *)
(* ================================================================== *)

Lemma tryCatch_fallback {A : Type} (m : Outcome A) (fallback : A) :
  exists a, tryCatch m (fun _ => Ok fallback) = Ok a.
Proof. destruct m; simpl; eauto. Qed.

Lemma firstn_min_skipn {A : Type} (l : list A) (n : nat) :
  firstn (Nat.min (List.length l) n) l ++ skipn n l = l.
Proof.
  destruct (Nat.le_ge_cases n (List.length l)) as [Hle | Hge].
  - rewrite Nat.min_r by assumption. apply firstn_skipn.
  - rewrite Nat.min_l by assumption. rewrite firstn_all, skipn_all2 by assumption.
    apply app_nil_r.
Qed.

Lemma firstn_min_length {A : Type} (l : list A) (n : nat) :
  firstn (Nat.min (List.length l) n) l = firstn n l.
Proof.
  destruct (Nat.le_ge_cases n (List.length l)) as [Hle | Hge].
  - now rewrite Nat.min_r.
  - rewrite Nat.min_l by assumption. rewrite firstn_all. symmetry. now apply firstn_all2.
Qed.

Section RerankFacts.
Context {num : Type} `{Number num}.
Implicit Types (env : CohereReranker.Environment num) (this : CohereReranker.t)
  (documents : list (SearchResult num)).

Lemma processRerankResponse_Ok (response : CohereReranker.RerankResponse num) documents query :
  exists l, CohereReranker.processRerankResponse (Some response) documents query = Ok l.
Proof.
  unfold CohereReranker.processRerankResponse.
  destruct (CohereReranker.results response) as [[| item items] |]; eauto.
Qed.

Lemma processRerankResponse_withoutResults (response : CohereReranker.RerankResponse num)
    documents query :
  RerankSpec.withoutResults response ->
  CohereReranker.processRerankResponse (Some response) documents query = Ok documents.
Proof.
  unfold CohereReranker.processRerankResponse. intros [-> | ->]; reflexivity.
Qed.

(** When every remaining attempt fails the loop ends with the final
    [throw]. *)
Lemma retryRerank_all_fail env request documents query remaining attempt :
  (forall a, attempt <= a < attempt + remaining -> RerankSpec.attemptFails env request a) ->
  exists msg, CohereReranker.retryRerank env request documents query remaining attempt = Throw msg.
Proof.
  revert attempt. induction remaining as [| remaining IH]; intros attempt Hfail; simpl.
  - eauto.
  - destruct (Hfail attempt ltac:(lia)) as [[msg ->] | ->]; simpl; apply IH; intros a Ha;
      apply Hfail; lia.
Qed.

(** The loop stops at the first attempt that resolves with a response
    and returns what [processRerankResponse] makes of it. *)
Lemma retryRerank_first_response env request documents query remaining attempt n
    (response : CohereReranker.RerankResponse num) :
  n < remaining ->
  (forall a, attempt <= a < attempt + n -> RerankSpec.attemptFails env request a) ->
  CohereReranker.rerankEndpoint env request (attempt + n) = Ok (Some response) ->
  CohereReranker.retryRerank env request documents query remaining attempt =
    CohereReranker.processRerankResponse (Some response) documents query.
Proof.
  revert attempt remaining. induction n as [| n IH]; intros attempt remaining Hlt Hfail Hresp.
  - destruct remaining as [| remaining]; [lia |]. cbn [CohereReranker.retryRerank].
    rewrite Nat.add_0_r in Hresp. rewrite Hresp. cbn [bind].
    destruct (processRerankResponse_Ok response documents query) as [l Hl].
    rewrite Hl. reflexivity.
  - destruct remaining as [| remaining]; [lia |]. cbn [CohereReranker.retryRerank].
    assert (Hnext : CohereReranker.retryRerank env request documents query remaining (S attempt)
                    = CohereReranker.processRerankResponse (Some response) documents query).
    { apply IH; [lia | intros a Ha; apply Hfail; lia |].
      now replace (S attempt + n) with (attempt + S n) by lia. }
    destruct (Hfail attempt ltac:(lia)) as [[msg ->] | ->]; simpl; exact Hnext.
Qed.

Lemma rerank_total env this query documents options :
  exists l, CohereReranker.rerank env this query documents options = Ok l.
Proof.
  unfold CohereReranker.rerank.
  destruct ((List.length documents =? 0)%nat || isBlank query); [eauto |].
  apply tryCatch_fallback.
Qed.

Lemma rerank_init_fails env this query documents options :
  (exists msg, CohereReranker.initializeCohere env this = Throw msg) ->
  CohereReranker.rerank env this query documents options = Ok documents.
Proof.
  intros [msg Hinit]. unfold CohereReranker.rerank.
  destruct ((List.length documents =? 0)%nat || isBlank query); [reflexivity |].
  rewrite Hinit. reflexivity.
Qed.

Lemma initializeCohere_client env this this' :
  CohereReranker.initializeCohere env this = Ok this' -> CohereReranker.client this' = true.
Proof.
  unfold CohereReranker.initializeCohere.
  destruct (CohereReranker.client this) eqn:Hc.
  - intros [= <-]. exact Hc.
  - destruct (CohereReranker.missing _); [discriminate |].
    destruct (CohereReranker.importCohere env); [| discriminate].
    intros [= <-]. reflexivity.
Qed.

Lemma initializeCohere_config env this this' :
  CohereReranker.initializeCohere env this = Ok this' ->
  CohereReranker.maxRetries this' = CohereReranker.maxRetries this
  /\ CohereReranker.maxDocuments this' = CohereReranker.maxDocuments this.
Proof.
  unfold CohereReranker.initializeCohere.
  destruct (CohereReranker.client this).
  - intros [= <-]. auto.
  - destruct (CohereReranker.missing _); [discriminate |].
    destruct (CohereReranker.importCohere env); [| discriminate].
    intros [= <-]. auto.
Qed.

Lemma rerank_all_attempts_fail env this query documents options :
  (forall request attempt,
     attempt < CohereReranker.maxRetries this -> RerankSpec.attemptFails env request attempt) ->
  CohereReranker.rerank env this query documents options = Ok documents.
Proof.
  intros Hfail. unfold CohereReranker.rerank.
  destruct ((List.length documents =? 0)%nat || isBlank query); [reflexivity |].
  destruct (CohereReranker.initializeCohere env this) as [this' | msg] eqn:Hinit; [| reflexivity].
  simpl. rewrite (initializeCohere_client _ _ _ Hinit). simpl.
  destruct (initializeCohere_config _ _ _ Hinit) as [Hretries _].
  unfold CohereReranker.rerankWithRetries. rewrite Hretries.
  edestruct retryRerank_all_fail as [msg ->]; [| reflexivity].
  intros a Ha. apply Hfail. lia.
Qed.

Lemma rerank_response_without_results env this query documents options n
    (response : CohereReranker.RerankResponse num) :
  n < CohereReranker.maxRetries this ->
  (forall request attempt, attempt < n -> RerankSpec.attemptFails env request attempt) ->
  (forall request, CohereReranker.rerankEndpoint env request n = Ok (Some response)) ->
  RerankSpec.withoutResults response ->
  CohereReranker.rerank env this query documents options = Ok documents.
Proof.
  intros Hn Hfail Hresp Hempty. unfold CohereReranker.rerank.
  destruct ((List.length documents =? 0)%nat || isBlank query); [reflexivity |].
  destruct (CohereReranker.initializeCohere env this) as [this' | msg] eqn:Hinit; [| reflexivity].
  simpl. rewrite (initializeCohere_client _ _ _ Hinit). simpl.
  destruct (initializeCohere_config _ _ _ Hinit) as [Hretries Hdocs].
  unfold CohereReranker.rerankWithRetries. rewrite Hretries.
  rewrite (retryRerank_first_response _ _ _ _ _ 0 n response Hn).
  - rewrite processRerankResponse_withoutResults by assumption. simpl.
    unfold sliceFrom. rewrite Hdocs. now rewrite firstn_min_skipn.
  - intros a Ha. apply Hfail. lia.
  - apply Hresp.
Qed.
(** Entries that name no candidate add nothing to the reranked list. *)
Lemma collectReranked_names_no_candidate (items : list (RerankItem.t num)) documents query
    (rerankedResults : list (SearchResult num)) :
  RerankSpec.namesNoCandidate items documents ->
  CohereReranker.collectReranked items documents query rerankedResults = rerankedResults.
Proof.
  intros Hnone. revert rerankedResults.
  induction Hnone as [| item items Hitem Hnone IH]; intros rerankedResults; simpl; [reflexivity |].
  rewrite Hitem. apply IH.
Qed.

(** A response whose entries name no candidate is not treated as a
    failure: the candidates sent are dropped and only the excess is
    returned. *)
Lemma rerank_response_names_no_candidate env this query documents options n
    (items : list (RerankItem.t num)) :
  (List.length documents =? 0)%nat || isBlank query = false ->
  CohereReranker.isAvailable env this = true ->
  n < CohereReranker.maxRetries this ->
  (forall request attempt, attempt < n -> RerankSpec.attemptFails env request attempt) ->
  (forall request,
     CohereReranker.rerankEndpoint env request n
     = Ok (Some {| CohereReranker.results := Some items |})) ->
  items <> [] ->
  RerankSpec.namesNoCandidate items
    (firstn (Nat.min (List.length documents) (CohereReranker.maxDocuments this)) documents) ->
  CohereReranker.rerank env this query documents options
  = Ok (sliceFrom documents (CohereReranker.maxDocuments this)).
Proof.
  intros Hguard Havailable Hn Hfail Hresp Hitems Hnone. unfold CohereReranker.rerank.
  rewrite Hguard. unfold CohereReranker.isAvailable in Havailable.
  destruct (CohereReranker.initializeCohere env this) as [this' | msg] eqn:Hinit; [| discriminate].
  simpl. rewrite (initializeCohere_client _ _ _ Hinit). simpl.
  destruct (initializeCohere_config _ _ _ Hinit) as [Hretries Hdocs].
  unfold CohereReranker.rerankWithRetries. rewrite Hretries.
  rewrite (retryRerank_first_response _ _ _ _ _ 0 n
             {| CohereReranker.results := Some items |} Hn).
  - unfold CohereReranker.processRerankResponse. simpl.
    destruct items as [| item items']; [contradiction |].
    rewrite (collectReranked_names_no_candidate _ _ _ _ Hnone). simpl.
    now rewrite Hdocs.
  - intros a Ha. apply Hfail. lia.
  - apply Hresp.
Qed.

(** The loop of [processRerankResponse] builds what the response stands
    for, numbered from the length of the list it started with. *)
Lemma collectReranked_reranked (items : list (RerankItem.t num)) documents query
    (rerankedResults : list (SearchResult num)) :
  CohereReranker.collectReranked items documents query rerankedResults
  = rerankedResults
    ++ RerankSpec.reranked (Z.of_nat (List.length rerankedResults) + 1) items documents query.
Proof.
  revert rerankedResults.
  induction items as [| item items IH]; intros rerankedResults; simpl.
  - now rewrite app_nil_r.
  - destruct (at_property documents (RerankItem.index item)) as [document |]; [| apply IH].
    rewrite IH, <- app_assoc, length_app. simpl. unfold rerankedAs.
    do 3 f_equal. lia.
Qed.

(** A response with entries is not checked any further: what it stands
    for replaces the candidates sent, and the excess follows. *)
Lemma rerank_response_entries env this query documents options n
    (items : list (RerankItem.t num)) :
  (List.length documents =? 0)%nat || isBlank query = false ->
  CohereReranker.isAvailable env this = true ->
  n < CohereReranker.maxRetries this ->
  (forall request attempt, attempt < n -> RerankSpec.attemptFails env request attempt) ->
  (forall request,
     CohereReranker.rerankEndpoint env request n
     = Ok (Some {| CohereReranker.results := Some items |})) ->
  items <> [] ->
  CohereReranker.rerank env this query documents options
  = Ok (RerankSpec.reranked 1 items (firstn (CohereReranker.maxDocuments this) documents) query
        ++ sliceFrom documents (CohereReranker.maxDocuments this)).
Proof.
  intros Hguard Havailable Hn Hfail Hresp Hitems. unfold CohereReranker.rerank.
  rewrite Hguard. unfold CohereReranker.isAvailable in Havailable.
  destruct (CohereReranker.initializeCohere env this) as [this' | msg] eqn:Hinit; [| discriminate].
  simpl. rewrite (initializeCohere_client _ _ _ Hinit). simpl.
  destruct (initializeCohere_config _ _ _ Hinit) as [Hretries Hdocs].
  unfold CohereReranker.rerankWithRetries. rewrite Hretries.
  rewrite (retryRerank_first_response _ _ _ _ _ 0 n
             {| CohereReranker.results := Some items |} Hn).
  - unfold CohereReranker.processRerankResponse. cbn [CohereReranker.results].
    destruct items as [| item items']; [contradiction |].
    rewrite collectReranked_reranked. cbn [bind tryCatch app List.length Z.of_nat Z.add].
    now rewrite Hdocs, firstn_min_length.
  - intros a Ha. apply Hfail. lia.
  - apply Hresp.
Qed.
End RerankFacts.

(** C5 (as the code has it).  [rerank] always resolves with a list.
    It resolves with the candidates it was given, in their order and
    with their scores, when the client cannot be initialised, when every
    attempt of the remote call fails, and when the first response the
    service gives carries no results.  A response whose entries name no
    candidate is not a failure to the code: the candidates sent are
    dropped, and the list is the excess beyond [maxDocuments].  In
    general a response with entries replaces the candidates sent by one
    result per entry that names one of them, in the order of the
    response, an entry that names none being skipped and an entry
    without a score being scored 0; the excess follows. *)
Theorem rerank_failure_returns_original {num : Type} `{Number num}
    (env : CohereReranker.Environment num) (this : CohereReranker.t) (query : string)
    (documents : list (SearchResult num)) (options : option CohereReranker.CohereRerankOptions) :
  (exists l, CohereReranker.rerank env this query documents options = Ok l)
  /\ ((exists msg, CohereReranker.initializeCohere env this = Throw msg) ->
      CohereReranker.rerank env this query documents options = Ok documents)
  /\ ((forall request attempt,
         attempt < CohereReranker.maxRetries this -> RerankSpec.attemptFails env request attempt) ->
      CohereReranker.rerank env this query documents options = Ok documents)
  /\ (forall n response,
        n < CohereReranker.maxRetries this ->
        (forall request attempt, attempt < n -> RerankSpec.attemptFails env request attempt) ->
        (forall request, CohereReranker.rerankEndpoint env request n = Ok (Some response)) ->
        RerankSpec.withoutResults response ->
        CohereReranker.rerank env this query documents options = Ok documents)
  /\ (forall n items,
        (List.length documents =? 0)%nat || isBlank query = false ->
        CohereReranker.isAvailable env this = true ->
        n < CohereReranker.maxRetries this ->
        (forall request attempt, attempt < n -> RerankSpec.attemptFails env request attempt) ->
        (forall request,
           CohereReranker.rerankEndpoint env request n
           = Ok (Some {| CohereReranker.results := Some items |})) ->
        items <> [] ->
        RerankSpec.namesNoCandidate items
          (firstn (Nat.min (List.length documents) (CohereReranker.maxDocuments this)) documents) ->
        CohereReranker.rerank env this query documents options
        = Ok (sliceFrom documents (CohereReranker.maxDocuments this)))
  /\ (forall n items,
        (List.length documents =? 0)%nat || isBlank query = false ->
        CohereReranker.isAvailable env this = true ->
        n < CohereReranker.maxRetries this ->
        (forall request attempt, attempt < n -> RerankSpec.attemptFails env request attempt) ->
        (forall request,
           CohereReranker.rerankEndpoint env request n
           = Ok (Some {| CohereReranker.results := Some items |})) ->
        items <> [] ->
        CohereReranker.rerank env this query documents options
        = Ok (RerankSpec.reranked 1 items
                (firstn (CohereReranker.maxDocuments this) documents) query
              ++ sliceFrom documents (CohereReranker.maxDocuments this)))
  /\ (forall (item : RerankItem.t num) (document : SearchResult num) rank,
        RerankItem.relevanceScore item = None ->
        RerankItem.relevance_score item = None ->
        relevanceScore (rerankedAs item document rank query) = nofZ 0).
Proof.
  split; [apply rerank_total |].
  split; [apply rerank_init_fails |].
  split; [apply rerank_all_attempts_fail |].
  split; [intros n response; apply rerank_response_without_results |].
  split; [intros n items; apply rerank_response_names_no_candidate |].
  split; [intros n items; apply rerank_response_entries |].
  intros item document rank Hnew Hold. unfold rerankedAs. simpl. now rewrite Hnew, Hold.
Qed.

(** With the service down, the fused scenario comes back as it went
    in; with a service that ranks the first candidate only, that
    candidate comes back alone, with the score of the service. *)
Lemma rerank_failure_returns_original_witness :
  CohereReranker.rerank Examples.rerankerDown (CohereReranker.new None None None) "slack"
    (@Examples.vectorBAC F64.t _) None
  = Ok Examples.vectorBAC
  /\ (exists l : list (SearchResult F64.t),
        CohereReranker.rerank Examples.rerankerFirstOnly (CohereReranker.new None None None)
          "slack" Examples.lexicalAB None = Ok l
        /\ map (fun r : SearchResult F64.t => (nodeType r, relevanceScore r)) l
           = [("A"%string, ndecimal 1 10)]).
Proof.
  split.
  - apply (proj1 (proj2 (proj2 (rerank_failure_returns_original Examples.rerankerDown
             (CohereReranker.new None None None) "slack" (@Examples.vectorBAC F64.t _) None)))).
    intros request attempt _. left. exists "503 Service Unavailable"%string. reflexivity.
  - eexists. split.
    + refine (proj1 (proj2 (proj2 (proj2 (proj2 (proj2
                (rerank_failure_returns_original Examples.rerankerFirstOnly
                   (CohereReranker.new None None None) "slack"%string
                   (@Examples.lexicalAB F64.t _) None))))))
                0
                [ {| RerankItem.index := Some 0%Z;
                     RerankItem.relevanceScore := Some (ndecimal 1 10);
                     RerankItem.relevance_score := None |} ]
                eq_refl eq_refl _
                (fun request attempt (Hlt : attempt < 0) =>
                   match Nat.nlt_0_r attempt Hlt with end)
                (fun _ => eq_refl) _); [simpl; lia | discriminate].
    + vm_compute. reflexivity.
Defined.

(** A query that is one no-break space, U+00A0, is blank to [trim]:
    [rerank] returns the candidates as they came, without a call. *)
Example rerank_blank_query :
  isBlank Examples.noBreakSpace = true
  /\ CohereReranker.rerank Examples.rerankerNoIndex (CohereReranker.new None None None)
       Examples.noBreakSpace (@Examples.lexicalAB F64.t _) None
     = Ok Examples.lexicalAB.
Proof. split; vm_compute; reflexivity. Qed.

(** A malformed response, one entry with a score and no index: the
    two candidates are lost, and [rerank] resolves with the empty list. *)
Lemma rerank_entry_without_index_loses_candidates :
  CohereReranker.rerank Examples.rerankerNoIndex (CohereReranker.new None None None) "slack"
    (@Examples.lexicalAB F64.t _) None
  = Ok []
  /\ (@Examples.lexicalAB F64.t _) <> [].
Proof. split; [vm_compute; reflexivity | discriminate]. Qed.

(* ================================================================== *)
(** * Embedding generation *)
(* ================================================================== *)

(** Two sorted arrangements of the same elements are the same list,
    when the order tells the elements apart. *)
Lemma sorted_permutation_unique {A : Type} (R : A -> A -> Prop) (l1 l2 : list A) :
  StronglySorted R l1 -> StronglySorted R l2 -> Permutation l1 l2 ->
  (forall x y, In x l1 -> In y l1 -> R x y -> R y x -> x = y) ->
  l1 = l2.
Proof.
  revert l2. induction l1 as [| x l1 IH]; intros l2 S1 S2 P anti.
  - apply Permutation_nil in P. now subst.
  - destruct l2 as [| y l2]; [apply Permutation_sym, Permutation_nil in P; discriminate |].
    inversion S1 as [| ? ? S1' F1]; inversion S2 as [| ? ? S2' F2]; subst.
    rewrite Forall_forall in F1, F2.
    assert (Hxy : x = y).
    { pose proof (Permutation_in x P (in_eq x l1)) as Hx.
      pose proof (Permutation_in y (Permutation_sym P) (in_eq y l2)) as Hy.
      destruct Hx as [-> | Hx]; [reflexivity |].
      destruct Hy as [-> | Hy]; [reflexivity |].
      apply anti; [now left | now right | now apply F1 | now apply F2]. }
    subst y. f_equal. apply IH; auto.
    + now apply Permutation_cons_inv in P.
    + intros a b Ha Hb. apply anti; now right.
Qed.

Section EmbeddingFacts.
Context {num : Type} `{Number num}.
Implicit Types (env : EmbeddingService.Environment num) (this : EmbeddingService.t num)
  (embed : string -> list num) (texts : list string).

(** *** The owed entries *)

Lemma indexedFrom_In embed i texts item :
  In item (EmbeddingSpec.indexedFrom embed i texts) ->
  exists j text,
    nth_error texts j = Some text
    /\ item = {| EmbeddingItem.embedding := embed text; EmbeddingItem.index := Z.of_nat (i + j) |}.
Proof.
  revert i. induction texts as [| text rest IH]; intros i; simpl; [contradiction |].
  intros [<- | Hin].
  - exists 0, text. rewrite Nat.add_0_r. auto.
  - destruct (IH _ Hin) as [j [text' [Hnth ->]]]. exists (S j), text'.
    split; [assumption |]. do 2 f_equal. lia.
Qed.

Lemma indexedFrom_sorted embed i texts :
  StronglySorted (fun a b => (EmbeddingItem.index a <= EmbeddingItem.index b)%Z)
    (EmbeddingSpec.indexedFrom embed i texts).
Proof.
  revert i. induction texts as [| text rest IH]; intros i; simpl; constructor; [apply IH |].
  apply Forall_forall. intros item Hin.
  destruct (indexedFrom_In _ _ _ _ Hin) as [j [text' [_ ->]]]. simpl. lia.
Qed.

Lemma indexedFrom_distinct embed i texts a b :
  In a (EmbeddingSpec.indexedFrom embed i texts) ->
  In b (EmbeddingSpec.indexedFrom embed i texts) ->
  EmbeddingItem.index a = EmbeddingItem.index b -> a = b.
Proof.
  intros Ha Hb Heq.
  destruct (indexedFrom_In _ _ _ _ Ha) as [ja [ta [Hna ->]]].
  destruct (indexedFrom_In _ _ _ _ Hb) as [jb [tb [Hnb ->]]].
  simpl in Heq. assert (ja = jb) by lia. subst jb.
  rewrite Hna in Hnb. now injection Hnb as <-.
Qed.

Lemma indexedFrom_embeddings embed i texts :
  map (@EmbeddingItem.embedding num) (EmbeddingSpec.indexedFrom embed i texts) = map embed texts.
Proof. revert i. induction texts as [| text rest IH]; intros i; simpl; [| rewrite IH]; reflexivity. Qed.

(** Sorting by index puts the entries of any answer back in the order
    of the texts. *)
Lemma jsSort_byIndex_restores embed texts (data : list (EmbeddingItem.t num)) :
  Permutation data (EmbeddingSpec.indexedFrom embed 0 texts) ->
  jsSort EmbeddingService.byIndex data = EmbeddingSpec.indexedFrom embed 0 texts.
Proof.
  intros Hperm.
  apply sorted_permutation_unique
    with (R := fun a b => (EmbeddingItem.index a <= EmbeddingItem.index b)%Z).
  - apply jsSort_StronglySorted; unfold EmbeddingService.byIndex; intros a b; try intros c;
      rewrite ?Z.gtb_ltb, ?Z.ltb_lt, ?Z.ltb_ge; lia.
  - apply indexedFrom_sorted.
  - rewrite <- Hperm. symmetry. apply jsSort_Permutation.
  - intros x y Hx Hy Hxy Hyx.
    apply (indexedFrom_distinct embed 0 texts).
    + apply (Permutation_in x Hperm). now apply jsSort_In in Hx.
    + apply (Permutation_in y Hperm). now apply jsSort_In in Hy.
    + lia.
Qed.

(** *** The batches *)

Lemma slice_length {A : Type} (l : list A) (i b : nat) :
  i < List.length l -> 1 <= b ->
  1 <= List.length (slice l i (i + b)) <= b.
Proof.
  intros Hi Hb. unfold slice. rewrite length_firstn, length_skipn. lia.
Qed.

Lemma batchesFrom_concat (fuel i : nat) texts (b : nat) :
  1 <= b -> List.length texts - i <= fuel ->
  List.concat (EmbeddingService.batchesFrom fuel i texts b) = skipn i texts.
Proof.
  intros Hb. revert i. induction fuel as [| fuel IH]; intros i Hfuel; simpl.
  - symmetry. apply skipn_all2. lia.
  - destruct (i <? List.length texts) eqn:E.
    + apply Nat.ltb_lt in E. simpl. rewrite IH by lia. unfold slice.
      replace (i + b - i) with b by lia.
      replace (skipn (i + b) texts) with (skipn b (skipn i texts))
        by (rewrite skipn_skipn; f_equal; lia).
      apply firstn_skipn.
    + apply Nat.ltb_ge in E. symmetry. now apply skipn_all2.
Qed.

Lemma batchesFrom_sizes (fuel i : nat) texts (b : nat) :
  1 <= b ->
  Forall (fun batch => 1 <= List.length batch <= b) (EmbeddingService.batchesFrom fuel i texts b).
Proof.
  intros Hb. revert i. induction fuel as [| fuel IH]; intros i; simpl; [constructor |].
  destruct (i <? List.length texts) eqn:E; [| constructor].
  apply Nat.ltb_lt in E. constructor; [now apply slice_length | apply IH].
Qed.

Lemma createBatches_concat texts (batchSize : positive) :
  List.concat (EmbeddingService.createBatches texts batchSize) = texts.
Proof.
  unfold EmbeddingService.createBatches. rewrite batchesFrom_concat; [reflexivity | lia | lia].
Qed.

Lemma createBatches_sizes texts (batchSize : positive) :
  Forall (fun batch => 1 <= List.length batch <= Pos.to_nat batchSize)
    (EmbeddingService.createBatches texts batchSize).
Proof. apply batchesFrom_sizes. lia. Qed.

(** *** One batch, then all of them *)

Lemma initializeOpenAI_client env this this' :
  EmbeddingService.initializeOpenAI env this = Ok this' ->
  EmbeddingService.openai this' = true
  /\ EmbeddingService.batchSize this' = EmbeddingService.batchSize this
  /\ EmbeddingService.maxRetries this' = EmbeddingService.maxRetries this
  /\ EmbeddingService.cache this' = EmbeddingService.cache this.
Proof.
  unfold EmbeddingService.initializeOpenAI.
  destruct (EmbeddingService.openai this) eqn:Hc.
  - intros [= <-]. auto.
  - destruct (EmbeddingService.missing _); [discriminate |].
    destruct (EmbeddingService.importOpenAI env); [| discriminate].
    intros [= <-]. auto.
Qed.

Lemma processBatch_answered env this embed texts sent :
  EmbeddingService.openai this = true ->
  1 <= EmbeddingService.maxRetries this ->
  EmbeddingSpec.answers env embed ->
  exists result request,
    EmbeddingService.processBatch env this texts sent = (Ok result, sent ++ [request])
    /\ EmbeddingService.input request = texts
    /\ EmbeddingService.embeddings result
       = map (fun text => EmbeddingService.toFloat32Array (embed text)) texts.
Proof.
  intros Hclient Hretries Hanswers. unfold EmbeddingService.processBatch.
  destruct (EmbeddingService.maxRetries this) as [| remaining]; [lia |].
  simpl. rewrite Hclient. simpl.
  unfold EmbeddingService.orElse, EmbeddingService.andThen, EmbeddingService.create.
  set (request := {| EmbeddingService.request_model := EmbeddingService.model this;
                     EmbeddingService.input := texts;
                     EmbeddingService.request_dimensions := EmbeddingService.dimensions this |}).
  destruct (Hanswers request (List.length sent)) as [response [-> Hperm]].
  exists (EmbeddingService.batchResult response), request.
  split; [reflexivity |]. split; [reflexivity |].
  unfold EmbeddingService.batchResult. simpl.
  rewrite (jsSort_byIndex_restores embed texts) by exact Hperm.
  rewrite <- (map_map (@EmbeddingItem.embedding num) EmbeddingService.toFloat32Array).
  rewrite indexedFrom_embeddings. now rewrite map_map.
Qed.

Lemma processBatches_answered env this embed (batches : list (list string)) acc sent :
  EmbeddingService.openai this = true ->
  1 <= EmbeddingService.maxRetries this ->
  EmbeddingSpec.answers env embed ->
  exists result requests,
    EmbeddingService.processBatches env this batches acc sent = (Ok result, sent ++ requests)
    /\ map EmbeddingService.input requests = batches
    /\ EmbeddingService.embeddings result
       = EmbeddingService.embeddings acc
         ++ map (fun text => EmbeddingService.toFloat32Array (embed text)) (List.concat batches).
Proof.
  intros Hclient Hretries Hanswers. revert acc sent.
  induction batches as [| batch rest IH]; intros acc sent; simpl.
  - exists acc, []. unfold EmbeddingService.ret. rewrite !app_nil_r. auto.
  - unfold EmbeddingService.andThen.
    destruct (processBatch_answered env this embed batch sent Hclient Hretries Hanswers)
      as [result [request [-> [Hinput Hemb]]]].
    destruct (IH {| EmbeddingService.embeddings :=
                      EmbeddingService.embeddings acc ++ EmbeddingService.embeddings result;
                    EmbeddingService.totalTokens :=
                      nadd (EmbeddingService.totalTokens acc) (EmbeddingService.totalTokens result);
                    EmbeddingService.totalCost :=
                      nadd (EmbeddingService.totalCost acc) (EmbeddingService.totalCost result) |}
                 (sent ++ [request])) as [final [requests [-> [Hinputs Hfinal]]]].
    exists final, (request :: requests).
    split; [now rewrite <- app_assoc |]. split; [simpl; congruence |].
    rewrite Hfinal. simpl. rewrite Hemb, map_app, app_assoc. reflexivity.
Qed.
End EmbeddingFacts.

(** C8.  The texts are cut into consecutive batches of at least one and
    at most [batchSize] texts (100 unless configured), whose
    concatenation is the input.  When the client can be initialised and
    the provider answers every request with the owed entries in any
    order, [generateEmbeddings] sends one request per batch, in the
    order of the batches, and returns one vector per text in the order
    of the texts. *)
Theorem generateEmbeddings_batches_in_order {num : Type} `{Number num}
    (env : EmbeddingService.Environment num) (this : EmbeddingService.t num)
    (embed : string -> list num) (texts : list string)
    (sent : list EmbeddingService.CreateRequest) :
  EmbeddingService.isAvailable env this = true ->
  1 <= EmbeddingService.maxRetries this ->
  EmbeddingSpec.answers env embed ->
  let batches := EmbeddingService.createBatches texts (EmbeddingService.batchSize this) in
  EmbeddingService.batchSize (EmbeddingService.new (num := num) None) = 100%positive
  /\ List.concat batches = texts
  /\ Forall (fun batch =>
               1 <= List.length batch <= Pos.to_nat (EmbeddingService.batchSize this)) batches
  /\ exists result requests,
       EmbeddingService.generateEmbeddings env this texts sent = (Ok result, sent ++ requests)
       /\ map EmbeddingService.input requests = batches
       /\ EmbeddingService.embeddings result
          = map (fun text => EmbeddingService.toFloat32Array (embed text)) texts.
Proof.
  intros Havailable Hretries Hanswers batches.
  split; [reflexivity |]. split; [apply createBatches_concat |].
  split; [apply createBatches_sizes |].
  unfold EmbeddingService.generateEmbeddings.
  destruct texts as [| text texts'].
  - exists EmbeddingService.emptyResult, []. simpl. unfold EmbeddingService.ret.
    rewrite app_nil_r. auto.
  - cbn [List.length Nat.eqb].
    unfold EmbeddingService.isAvailable in Havailable.
    destruct (EmbeddingService.initializeOpenAI env this) as [this' | msg] eqn:Hinit;
      [| discriminate].
    destruct (initializeOpenAI_client _ _ _ Hinit) as [Hclient [Hsize [Hmax _]]].
    destruct (processBatches_answered env this' embed
                (EmbeddingService.createBatches (text :: texts') (EmbeddingService.batchSize this'))
                EmbeddingService.emptyResult sent Hclient) as [result [requests [Hrun [Hinputs Hemb]]]];
      [lia | assumption |].
    exists result, requests. rewrite Hrun. split; [reflexivity |].
    split; [unfold batches; now rewrite <- Hsize |].
    rewrite Hemb, createBatches_concat. reflexivity.
Qed.

Lemma answers_reversingProvider {num : Type} `{Number num} :
  EmbeddingSpec.answers (@Examples.reversingProvider num _) Examples.lengthEmbedding.
Proof.
  intros request calls. eexists. split; [reflexivity |]. simpl.
  symmetry. apply Permutation_rev.
Qed.

(** Five texts, batches of two, a provider that answers in reverse
    order: three requests, and the five vectors in the order of the
    texts. *)
Lemma generateEmbeddings_batches_in_order_witness :
  exists result requests,
    EmbeddingService.generateEmbeddings (@Examples.reversingProvider F64.t _) Examples.batchesOfTwo
      ["a"; "bb"; "ccc"; "dddd"; "eeeee"]%string []
    = (Ok result, [] ++ requests)
    /\ map EmbeddingService.input requests
       = EmbeddingService.createBatches ["a"; "bb"; "ccc"; "dddd"; "eeeee"]%string 2
    /\ EmbeddingService.embeddings result
       = map (fun text => EmbeddingService.toFloat32Array (Examples.lengthEmbedding text))
           ["a"; "bb"; "ccc"; "dddd"; "eeeee"]%string.
Proof.
  apply (generateEmbeddings_batches_in_order (@Examples.reversingProvider F64.t _)
           Examples.batchesOfTwo Examples.lengthEmbedding
           ["a"; "bb"; "ccc"; "dddd"; "eeeee"]%string []).
  - reflexivity.
  - simpl. lia.
  - apply answers_reversingProvider.
Defined.

(* ================================================================== *)
(** * The search pipeline *)
(* ================================================================== *)

Section PipelineFacts.
Context {num : Type} `{Number num}.
Variable sha256 : string -> string.
Implicit Types (env : HybridSearchEngine.Environment num) (this : HybridSearchEngine.t num)
  (options : HybridSearchEngine.HybridSearchOptions).

Lemma executeVectorSearch_embedding_fails env this query limit msg :
  fst (EmbeddingService.getEmbedding sha256 (HybridSearchEngine.embeddingEnvironment env)
         (HybridSearchEngine.embeddingService this) query []) = Throw msg ->
  HybridSearchEngine.executeVectorSearch sha256 env this query limit = [].
Proof.
  intros Hfail. unfold HybridSearchEngine.executeVectorSearch.
  destruct (negb (VectorRepository.isVectorStorageReady (HybridSearchEngine.db this)));
    [reflexivity | now rewrite Hfail].
Qed.



Lemma rerankStage_total env this query options fusedResults :
  exists finalResults,
    HybridSearchEngine.rerankStage env this query options fusedResults = Ok finalResults.
Proof.
  unfold HybridSearchEngine.rerankStage.
  destruct (_ && _); [| eauto].
  destruct (CohereReranker.isAvailable _ _); [apply rerank_total | eauto].
Qed.

Lemma executeSearchPipeline_total env this query options :
  exists results, HybridSearchEngine.executeSearchPipeline sha256 env this query options = Ok results.
Proof.
  unfold HybridSearchEngine.executeSearchPipeline.
  edestruct rerankStage_total as [finalResults ->]. simpl. eauto.
Qed.

(** [search] never rejects: every stage of the pipeline catches its own
    failures. *)
Lemma search_total env this query (options : HybridSearchEngine.PartialOptions) :
  exists results, fst (HybridSearchEngine.search sha256 env this query options) = Ok results.
Proof.
  unfold HybridSearchEngine.search.
  destruct (isBlank query); [simpl; eauto |].
  destruct (match HybridSearchEngine.enableCache this, HybridSearchEngine.cache this with
            | true, Some cache => _
            | _, _ => None
            end) as [cached |]; [simpl; eauto |].
  edestruct executeSearchPipeline_total as [results ->]. simpl. eauto.
Qed.

Lemma includes_lexicalOnly options :
  HybridSearchEngine.includes (HybridSearchEngine.searchMethods (EngineSpec.lexicalOnly options)) fts5
    = HybridSearchEngine.includes (HybridSearchEngine.searchMethods options) fts5
  /\ HybridSearchEngine.includes (HybridSearchEngine.searchMethods (EngineSpec.lexicalOnly options))
       vector = false.
Proof.
  unfold HybridSearchEngine.includes, EngineSpec.lexicalOnly. simpl.
  induction (HybridSearchEngine.searchMethods options) as [| m rest [IHf IHv]]; [auto |].
  destruct m; simpl; auto.
Qed.

Lemma fuse_without_vector this rrf rrf' (fts5Results : list (SearchResult num)) :
  HybridSearchEngine.fuse this rrf fts5Results [] = HybridSearchEngine.fuse this rrf' fts5Results [].
Proof.
  unfold HybridSearchEngine.fuse. simpl. now rewrite !andb_false_r.
Qed.

(** When the embedding of the query cannot be had, the pipeline
    computes what it computes without ['vector'] among the methods. *)
Lemma executeSearchPipeline_embedding_fails env this query options msg :
  fst (EmbeddingService.getEmbedding sha256 (HybridSearchEngine.embeddingEnvironment env)
         (HybridSearchEngine.embeddingService this) query []) = Throw msg ->
  HybridSearchEngine.executeSearchPipeline sha256 env this query options
  = HybridSearchEngine.executeSearchPipeline sha256 env this query (EngineSpec.lexicalOnly options).
Proof.
  intros Hfail. unfold HybridSearchEngine.executeSearchPipeline.
  destruct (includes_lexicalOnly options) as [-> ->].
  rewrite (executeVectorSearch_embedding_fails _ _ _ _ _ Hfail).
  assert (Hempty : (if HybridSearchEngine.includes (HybridSearchEngine.searchMethods options) vector
                    then [] else []) = @nil (SearchResult num))
    by (destruct (HybridSearchEngine.includes (HybridSearchEngine.searchMethods options) vector);
        reflexivity).
  rewrite Hempty.
  change (HybridSearchEngine.limit (EngineSpec.lexicalOnly options))
    with (HybridSearchEngine.limit options).
  rewrite (fuse_without_vector this _
             (1 <? List.length (HybridSearchEngine.searchMethods (EngineSpec.lexicalOnly options)))%nat).
  reflexivity.
Qed.

Lemma executeSearchPipeline_no_lexical env this query options msg :
  fst (EmbeddingService.getEmbedding sha256 (HybridSearchEngine.embeddingEnvironment env)
         (HybridSearchEngine.embeddingService this) query []) = Throw msg ->
  HybridSearchEngine.includes (HybridSearchEngine.searchMethods options) fts5 = false ->
  HybridSearchEngine.executeSearchPipeline sha256 env this query options = Ok [].
Proof.
  intros Hfail Hno. unfold HybridSearchEngine.executeSearchPipeline.
  rewrite Hno, (executeVectorSearch_embedding_fails _ _ _ _ _ Hfail).
  assert (Hempty : (if HybridSearchEngine.includes (HybridSearchEngine.searchMethods options) vector
                    then [] else []) = @nil (SearchResult num))
    by (destruct (HybridSearchEngine.includes (HybridSearchEngine.searchMethods options) vector);
        reflexivity).
  rewrite Hempty.
  unfold HybridSearchEngine.fuse, HybridSearchEngine.rerankStage. simpl.
  rewrite !andb_false_r. simpl. unfold sliceTo.
  destruct (0 <=? HybridSearchEngine.limit options)%Z; now rewrite firstn_nil.
Qed.

Lemma includes_both_rrf (methods : list SearchMethod) :
  HybridSearchEngine.includes methods fts5 = true ->
  HybridSearchEngine.includes methods vector = true ->
  (1 <? List.length methods)%nat = true.
Proof.
  unfold HybridSearchEngine.includes.
  destruct methods as [| a [| b rest]]; simpl; try discriminate; [| reflexivity].
  destruct a; simpl; discriminate.
Qed.


End PipelineFacts.

(** C4 (as the code has it).  [search] never rejects.  When the
    embedding of the query cannot be had, vector search yields the empty
    list and the pipeline computes what it computes with ['vector']
    taken out of the search methods: the lexical results alone in hybrid
    mode, and the empty list when ['fts5'] is not among the methods. *)
Theorem search_embedding_failure_degrades {num : Type} `{Number num} (sha256 : string -> string)
    (env : HybridSearchEngine.Environment num) (this : HybridSearchEngine.t num)
    (query : string) (options : HybridSearchEngine.PartialOptions) (msg : string) :
  let searchOptions := HybridSearchEngine.mergeOptions this options in
  let cleanQuery := trim query in
  fst (EmbeddingService.getEmbedding sha256 (HybridSearchEngine.embeddingEnvironment env)
         (HybridSearchEngine.embeddingService this) cleanQuery []) = Throw msg ->
  (exists results, fst (HybridSearchEngine.search sha256 env this query options) = Ok results)
  /\ HybridSearchEngine.executeVectorSearch sha256 env this cleanQuery
       (HybridSearchEngine.limit searchOptions * 2) = []
  /\ HybridSearchEngine.executeSearchPipeline sha256 env this cleanQuery searchOptions
     = HybridSearchEngine.executeSearchPipeline sha256 env this cleanQuery
         (EngineSpec.lexicalOnly searchOptions)
  /\ (HybridSearchEngine.includes (HybridSearchEngine.searchMethods searchOptions) fts5 = false ->
      HybridSearchEngine.executeSearchPipeline sha256 env this cleanQuery searchOptions = Ok []).
Proof.
  intros searchOptions cleanQuery Hfail.
  split; [apply search_total |].
  split; [eapply executeVectorSearch_embedding_fails; eauto |].
  split; [eapply executeSearchPipeline_embedding_fails; eauto |].
  intros Hno. eapply executeSearchPipeline_no_lexical; eauto.
Qed.

(** Without an API key the embedding of ["slack"] cannot be had, and
    vector search yields the empty list. *)
Lemma search_embedding_failure_degrades_witness :
  HybridSearchEngine.executeVectorSearch Examples.digest (@Examples.offline F64.t) Examples.engine
    (trim "slack"%string) (HybridSearchEngine.limit
                      (HybridSearchEngine.mergeOptions Examples.engine Examples.vectorOnly) * 2)
  = [].
Proof.
  apply (proj1 (proj2 (search_embedding_failure_degrades Examples.digest (@Examples.offline F64.t)
           Examples.engine "slack"%string Examples.vectorOnly
           "OPENAI_API_KEY environment variable is required"%string eq_refl))).
Defined.

(** Vector search is the only method, the embedding service has no API
    key: [search] resolves with the empty list; it does not reject. *)
Lemma search_vector_only_does_not_raise :
  HybridSearchEngine.searchMethods
    (HybridSearchEngine.mergeOptions (@Examples.engine F64.t _) Examples.vectorOnly) = [vector]
  /\ fst (EmbeddingService.getEmbedding Examples.digest (@Examples.embeddingOffline F64.t)
            (EmbeddingService.new None) "slack"%string [])
     = Throw "OPENAI_API_KEY environment variable is required"%string
  /\ fst (HybridSearchEngine.search Examples.digest (@Examples.offline F64.t) Examples.engine
            "slack"%string Examples.vectorOnly)
     = Ok [].
Proof. repeat split; vm_compute; reflexivity. Qed.

(** In exact arithmetic the lexical list is non-increasing: its scores
    are [1 - index / count]. *)
Section LexicalExact.
Local Open Scope R_scope.



End LexicalExact.

Section PipelineExact.
Variable sha256 : string -> string.


End PipelineExact.





(* ================================================================== *)
(** * Further properties of the fusion *)
(* ================================================================== *)

(** ** What the fused results carry along *)

Section FusionMetadata.
Context {num : Type} `{Number num}.
Implicit Types (documents : JSMap (SearchResult num))
  (fts5Results vectorResults : list (SearchResult num)).

Lemma addFts5Results_untouched index fts5Results documents entity :
  ~ In entity (map (@nodeType num) fts5Results) ->
  map_get entity (RRFFusion.addFts5Results index fts5Results documents) = map_get entity documents.
Proof.
  revert index documents. induction fts5Results as [| r rest IH]; intros index documents Hnotin;
    simpl; auto.
  simpl in Hnotin. rewrite IH by tauto. apply map_get_set_other. tauto.
Qed.

(** After the first loop an entity of the lexical list is filed with
    its rank there. *)
Lemma addFts5Results_rank index fts5Results documents entity rank :
  NoDup (map (@nodeType num) fts5Results) ->
  FusionSpec.rankFrom index entity fts5Results = Some rank ->
  exists d m,
    map_get entity (RRFFusion.addFts5Results index fts5Results documents) = Some d
    /\ metadata d = Some m /\ ftsRank m = Some rank.
Proof.
  revert index documents. induction fts5Results as [| r rest IH]; intros index documents Hnd;
    simpl; [discriminate |].
  inversion Hnd as [| ? ? Hnotin Hnd']; subst.
  destruct (String.eqb (nodeType r) entity) eqn:E.
  - apply String.eqb_eq in E; subst entity. intros [= <-].
    rewrite addFts5Results_untouched by assumption. rewrite map_get_set_same.
    eexists; eexists; split; [reflexivity |]. split; reflexivity.
  - intros Hrank. now apply IH.
Qed.

(** The second loop keeps the lexical rank of what it merges. *)
Lemma addVectorResults_keeps_ftsRank index vectorResults documents entity d m rank :
  map_get entity documents = Some d -> metadata d = Some m -> ftsRank m = Some rank ->
  exists d' m',
    map_get entity (RRFFusion.addVectorResults index vectorResults documents) = Some d'
    /\ metadata d' = Some m' /\ ftsRank m' = Some rank.
Proof.
  revert index documents d m.
  induction vectorResults as [| r rest IH]; intros index documents d m Hget Hmeta Hrank; simpl.
  - eauto.
  - destruct (string_dec (nodeType r) entity) as [Heq | Hne].
    + subst entity. rewrite Hget. eapply IH.
      * apply map_get_set_same.
      * reflexivity.
      * simpl. rewrite Hmeta. exact Hrank.
    + eapply IH; [| exact Hmeta | exact Hrank].
      destruct (map_get (nodeType r) documents); now rewrite map_get_set_other.
Qed.

(** After the second loop an entity of the vector list is filed with
    its rank and its similarity there. *)
Lemma addVectorResults_rank index vectorResults documents entity rank :
  NoDup (map (@nodeType num) vectorResults) ->
  FusionSpec.rankFrom index entity vectorResults = Some rank ->
  exists d m,
    map_get entity (RRFFusion.addVectorResults index vectorResults documents) = Some d
    /\ metadata d = Some m /\ vectorRank m = Some rank
    /\ forall v, In v vectorResults -> nodeType v = entity ->
                 vectorSimilarity m = Some (relevanceScore v).
Proof.
  revert index documents. induction vectorResults as [| r rest IH]; intros index documents Hnd;
    simpl; [discriminate |].
  inversion Hnd as [| ? ? Hnotin Hnd']; subst.
  destruct (String.eqb (nodeType r) entity) eqn:E.
  - apply String.eqb_eq in E; subst entity. intros [= <-].
    rewrite addVectorResults_untouched by assumption.
    assert (Hsame : forall v, r = v \/ In v rest -> nodeType v = nodeType r -> v = r).
    { intros v [<- | Hin] Hty; [reflexivity |]. exfalso. apply Hnotin. rewrite <- Hty.
      now apply in_map. }
    destruct (map_get (nodeType r) documents) as [existing |]; rewrite map_get_set_same;
      (eexists; eexists; split; [reflexivity |]; split; [reflexivity |]; split; [reflexivity |]);
      intros v Hin Hty; rewrite (Hsame v Hin Hty); reflexivity.
  - intros Hrank. apply String.eqb_neq in E.
    destruct (IH (S index)
                (match map_get (nodeType r) documents with
                 | Some existing =>
                     map_set (nodeType r)
                       (set_method_metadata existing hybrid
                          (set_vectorRank
                             (set_vectorSimilarity (spread (metadata existing)) (relevanceScore r))
                             (Z.of_nat index + 1))) documents
                 | None =>
                     map_set (nodeType r)
                       (set_method_metadata r vector
                          (set_vectorRank
                             (set_vectorSimilarity (spread (metadata r)) (relevanceScore r))
                             (Z.of_nat index + 1))) documents
                 end) Hnd' Hrank) as [d [m [Hget [Hmeta [Hvr Hsim]]]]].
    exists d, m. split; [exact Hget |]. split; [exact Hmeta |]. split; [exact Hvr |].
    intros v [<- | Hin] Hty; [contradiction | now apply Hsim].
Qed.

(** What [fuseResults] returns, element by element: a document of the
    unified set, its metadata extended with the fused score. *)
Lemma fuseResults_In_document this fts5Results vectorResults r :
  In r (RRFFusion.fuseResults this fts5Results vectorResults) ->
  exists document,
    map_get (nodeType r) (RRFFusion.createUnifiedDocumentSet fts5Results vectorResults)
      = Some document
    /\ metadata r = Some (set_rrfScore (spread (metadata document)) (relevanceScore r)).
Proof.
  unfold RRFFusion.fuseResults. rewrite jsSort_In.
  unfold RRFFusion.createFusedResults. rewrite in_map_iff.
  intros [[key doc] [<- Hin]]. simpl.
  pose proof (createUnifiedDocumentSet_keyed fts5Results vectorResults) as [Hnd Hall].
  pose proof (Hall _ _ Hin) as Hkey. simpl in Hkey.
  exists doc. split; [| reflexivity].
  rewrite Hkey. now apply In_map_get.
Qed.
End FusionMetadata.

(** X1.  For two ranked lists that name no entity twice, every fused
    result carries metadata: its fused score as [rrfScore], its rank in
    the lexical list as [ftsRank] when it is there, and its rank and its
    score in the vector list as [vectorRank] and [vectorSimilarity] when
    it is there. *)
Theorem fuseResults_metadata {num : Type} `{Number num}
    (this : RRFFusion.t num) (fts5Results vectorResults : list (SearchResult num))
    (r : SearchResult num) :
  NoDup (map (@nodeType num) fts5Results) ->
  NoDup (map (@nodeType num) vectorResults) ->
  In r (RRFFusion.fuseResults this fts5Results vectorResults) ->
  exists m,
    metadata r = Some m
    /\ rrfScore m = Some (relevanceScore r)
    /\ (forall rank, FusionSpec.rankOf (nodeType r) fts5Results = Some rank ->
                     ftsRank m = Some rank)
    /\ (forall rank, FusionSpec.rankOf (nodeType r) vectorResults = Some rank ->
                     vectorRank m = Some rank)
    /\ (forall v, In v vectorResults -> nodeType v = nodeType r ->
                  vectorSimilarity m = Some (relevanceScore v)).
Proof.
  intros Hnf Hnv Hin.
  destruct (fuseResults_In_document this fts5Results vectorResults r Hin) as [document [Hget Hmeta]].
  eexists. split; [exact Hmeta |]. split; [reflexivity |].
  unfold RRFFusion.createUnifiedDocumentSet in Hget.
  split; [| split].
  - intros rank Hrank.
    destruct (addFts5Results_rank 0 fts5Results [] (nodeType r) rank Hnf Hrank)
      as [d0 [m0 [Hget0 [Hmeta0 Hfts0]]]].
    destruct (addVectorResults_keeps_ftsRank 0 vectorResults _ _ d0 m0 rank Hget0 Hmeta0 Hfts0)
      as [d' [m' [Hget' [Hmeta' Hfts']]]].
    rewrite Hget in Hget'. injection Hget' as <-. rewrite Hmeta'. exact Hfts'.
  - intros rank Hrank.
    destruct (addVectorResults_rank 0 vectorResults (RRFFusion.addFts5Results 0 fts5Results [])
                (nodeType r) rank Hnv Hrank) as [d' [m' [Hget' [Hmeta' [Hvr _]]]]].
    rewrite Hget in Hget'. injection Hget' as <-. rewrite Hmeta'. exact Hvr.
  - intros v Hv Hty.
    assert (Hmentioned : In (nodeType r) (map (@nodeType num) vectorResults)).
    { rewrite <- Hty. now apply in_map. }
    destruct (FusionSpec.rankOf (nodeType r) vectorResults) as [rank |] eqn:Hrank;
      [| exfalso; now apply (rankFrom_Some 0 (nodeType r) vectorResults)].
    destruct (addVectorResults_rank 0 vectorResults (RRFFusion.addFts5Results 0 fts5Results [])
                (nodeType r) rank Hnv Hrank) as [d' [m' [Hget' [Hmeta' [_ Hsim]]]]].
    rewrite Hget in Hget'. injection Hget' as <-. rewrite Hmeta'. simpl. now apply Hsim.
Qed.

(** In the scenario of the specification [A] is first in the lexical
    list and second in the vector list. *)
Lemma fuseResults_metadata_witness :
  exists (r : SearchResult F64.t) m,
    In r (RRFFusion.fuseResults (RRFFusion.new None) Examples.lexicalAB Examples.vectorBAC)
    /\ nodeType r = "A"%string
    /\ metadata r = Some m
    /\ ftsRank m = Some 1%Z /\ vectorRank m = Some 2%Z.
Proof.
  assert (Hmentioned : In "A"%string
            (map (@nodeType F64.t)
               (RRFFusion.fuseResults (RRFFusion.new None) Examples.lexicalAB Examples.vectorBAC))).
  { pose proof (proj2 (fuseResults_mentions (RRFFusion.new None) (@Examples.lexicalAB F64.t _)
                         Examples.vectorBAC "A"%string)) as Hmention.
    rewrite nodeTypes_lexicalAB in Hmention.
    exact (Hmention (or_introl (or_introl eq_refl))). }
  destruct (proj1 (in_map_iff _ _ _) Hmentioned) as [r [Hty Hin]].
  destruct (fuseResults_metadata (RRFFusion.new None) Examples.lexicalAB Examples.vectorBAC r
              NoDup_lexicalAB NoDup_vectorBAC Hin) as [m [Hmeta [_ [Hfts [Hvec _]]]]].
  exists r, m. split; [exact Hin |]. split; [exact Hty |]. split; [exact Hmeta |].
  rewrite Hty in Hfts, Hvec. split; [apply Hfts | apply Hvec]; reflexivity.
Defined.

(** ** The parameters *)

(** X2.  In exact arithmetic [updateParameters] accepts [k] and the
    weights (those given, else the current ones) exactly when
    [1 <= k <= 1000], no weight is negative and their sum is not 0; it
    then installs them, and throws otherwise. *)
Theorem updateParameters_exact (this : RRFFusion.t R) (k : R)
    (weights : option (RRFFusion.Weights R)) :
  let w := match weights with Some w => w | None => RRFFusion.weights this end in
  let acceptable :=
    (1 <= k <= 1000 /\ 0 <= RRFFusion.weight_fts5 w /\ 0 <= RRFFusion.weight_vector w
     /\ RRFFusion.weight_fts5 w + RRFFusion.weight_vector w <> 0)%R in
  (acceptable ->
   RRFFusion.updateParameters this k weights = Ok {| RRFFusion.k := k; RRFFusion.weights := w |})
  /\ (~ acceptable -> exists msg, RRFFusion.updateParameters this k weights = Throw msg).
Proof.
  intros w acceptable. unfold RRFFusion.updateParameters, RRFFusion.validateParameters.
  fold w. simpl. unfold RExact.gtb, RExact.eqb.
  destruct (Rgt_dec 1 k) as [Hk1 | Hk1]; destruct (Rgt_dec k 1000) as [Hk2 | Hk2];
    destruct (Rgt_dec 0 (RRFFusion.weight_fts5 w)) as [Hf | Hf];
    destruct (Rgt_dec 0 (RRFFusion.weight_vector w)) as [Hv | Hv];
    destruct (Req_dec_T (RRFFusion.weight_fts5 w + RRFFusion.weight_vector w) 0) as [Hs | Hs];
    simpl; unfold acceptable;
    (split; [intros [[? ?] [? [? ?]]]; try reflexivity; exfalso; (lra || contradiction)
            | intros Hnot; try (eexists; reflexivity); exfalso; apply Hnot; repeat split; lra || assumption]).
Qed.

Lemma updateParameters_exact_witness :
  RRFFusion.updateParameters (RRFFusion.new None) 30%R None
  = Ok {| RRFFusion.k := 30%R;
          RRFFusion.weights := {| RRFFusion.weight_fts5 := 1%R; RRFFusion.weight_vector := 1%R |} |}.
Proof.
  refine (proj1 (updateParameters_exact (RRFFusion.new None) 30%R None) _).
  simpl. repeat split; lra.
Defined.

(** On binary64 a [k] that is NaN passes the validation: neither
    [k < 1] nor [k > 1000] holds of it. *)
Example updateParameters_accepts_NaN :
  RRFFusion.updateParameters (RRFFusion.new None) (S754_nan : F64.t) None
  = Ok {| RRFFusion.k := S754_nan;
          RRFFusion.weights := {| RRFFusion.weight_fts5 := F64.one;
                                  RRFFusion.weight_vector := F64.one |} |}.
Proof. vm_compute. reflexivity. Qed.

(** X3.  [getOptimalK] depends on the two counts through their sum
    only, and does not decrease when the sum grows. *)
Theorem getOptimalK_monotone (fts5Count vectorCount fts5Count' vectorCount' : Z) :
  (fts5Count + vectorCount <= fts5Count' + vectorCount')%Z ->
  (RRFFusion.getOptimalK fts5Count vectorCount <= RRFFusion.getOptimalK fts5Count' vectorCount')%Z.
Proof.
  intros Hle. unfold RRFFusion.getOptimalK.
  destruct (fts5Count + vectorCount <? 10)%Z eqn:A1; destruct (fts5Count + vectorCount <? 50)%Z eqn:A2;
    destruct (fts5Count' + vectorCount' <? 10)%Z eqn:B1;
    destruct (fts5Count' + vectorCount' <? 50)%Z eqn:B2;
    rewrite ?Z.ltb_lt, ?Z.ltb_ge in *; lia.
Qed.

Lemma getOptimalK_monotone_witness :
  (RRFFusion.getOptimalK 3 4 <= RRFFusion.getOptimalK 40 2)%Z.
Proof. apply getOptimalK_monotone. lia. Defined.

(** ** Normalised scores *)

Section NormalizeExact.
Local Open Scope R_scope.

Lemma mathMin2_exact (a b : R) : mathMin2 a b = Rmin a b.
Proof.
  unfold mathMin2, nisNegativeZero, Rmin. simpl. unfold RExact.gtb, RExact.eqb.
  destruct (Rgt_dec a b), (Rgt_dec b a), (Rle_dec a b); try lra; try reflexivity.
  assert (a = b) by lra. subst.
  destruct (Req_dec_T b 0); simpl; [destruct (Rgt_dec 0 (1 / b)) |]; reflexivity.
Qed.

Lemma mathMax2_exact (a b : R) : mathMax2 a b = Rmax a b.
Proof.
  unfold mathMax2, nisNegativeZero, Rmax. simpl. unfold RExact.gtb, RExact.eqb.
  destruct (Rgt_dec a b), (Rgt_dec b a), (Rle_dec a b); try lra; try reflexivity.
  assert (a = b) by lra. subst.
  destruct (Req_dec_T b 0); simpl; [destruct (Rgt_dec 0 (1 / b)) |]; reflexivity.
Qed.

Lemma mathMin_le (first : R) (rest : list R) :
  mathMin first rest <= first /\ Forall (fun x => mathMin first rest <= x) rest.
Proof.
  unfold mathMin. revert first. induction rest as [| x rest IH]; intros first; simpl.
  - split; [lra | constructor].
  - rewrite mathMin2_exact. destruct (IH (Rmin first x)) as [Hle Hall].
    pose proof (Rmin_l first x). pose proof (Rmin_r first x).
    split; [lra |]. constructor; [lra | exact Hall].
Qed.

Lemma mathMax_ge (first : R) (rest : list R) :
  first <= mathMax first rest /\ Forall (fun x => x <= mathMax first rest) rest.
Proof.
  unfold mathMax. revert first. induction rest as [| x rest IH]; intros first; simpl.
  - split; [lra | constructor].
  - rewrite mathMax2_exact. destruct (IH (Rmax first x)) as [Hle Hall].
    pose proof (Rmax_l first x). pose proof (Rmax_r first x).
    split; [lra |]. constructor; [lra | exact Hall].
Qed.
End NormalizeExact.

Section NormalizeBounds.
Local Open Scope R_scope.

Lemma mathMin_In (first : R) (rest : list R) : In (mathMin first rest) (first :: rest).
Proof.
  unfold mathMin. revert first. induction rest as [| x rest IH]; intros first; simpl.
  - now left.
  - rewrite mathMin2_exact. destruct (IH (Rmin first x)) as [Heq | Hin].
    + rewrite <- Heq. unfold Rmin. destruct (Rle_dec first x); auto.
    + auto.
Qed.

Lemma mathMax_In (first : R) (rest : list R) : In (mathMax first rest) (first :: rest).
Proof.
  unfold mathMax. revert first. induction rest as [| x rest IH]; intros first; simpl.
  - now left.
  - rewrite mathMax2_exact. destruct (IH (Rmax first x)) as [Heq | Hin].
    + rewrite <- Heq. unfold Rmax. destruct (Rle_dec first x); auto.
    + auto.
Qed.
End NormalizeBounds.

(** X4.  In exact arithmetic [normalizeScores] leaves the empty list
    as it is; in a list that is not empty it replaces every score [s] by
    [(s - lo) / (hi - lo)], [lo] and [hi] being the least and the
    greatest score of the list, and by 1 when all scores are equal.
    Nothing else of a result changes, nor the order or the length of the
    list; the new scores lie in [[0, 1]] and are ordered as the old ones
    were. *)
Theorem normalizeScores_unit_interval (results : list (SearchResult R)) :
  (results = [] -> RRFFusion.normalizeScores results = [])
  /\ (results <> [] ->
      exists lo hi : R,
        In lo (map (@relevanceScore R) results)
        /\ In hi (map (@relevanceScore R) results)
        /\ (forall s, In s (map (@relevanceScore R) results) -> (lo <= s <= hi)%R)
        /\ (lo = hi ->
            RRFFusion.normalizeScores results
            = map (fun r => set_relevanceScore r 1%R) results)
        /\ (lo <> hi ->
            RRFFusion.normalizeScores results
            = map (fun r => set_relevanceScore r ((relevanceScore r - lo) / (hi - lo))%R) results)
        /\ (forall r, In r (RRFFusion.normalizeScores results) ->
              (0 <= relevanceScore r <= 1)%R)
        /\ (forall i j r r' n n',
              nth_error results i = Some r -> nth_error results j = Some r' ->
              nth_error (RRFFusion.normalizeScores results) i = Some n ->
              nth_error (RRFFusion.normalizeScores results) j = Some n' ->
              (relevanceScore r <= relevanceScore r')%R ->
              (relevanceScore n <= relevanceScore n')%R)).
Proof.
  split; [intros ->; reflexivity |].
  intros Hne. unfold RRFFusion.normalizeScores.
  destruct (map (@relevanceScore R) results) as [| first rest] eqn:Hscores;
    [destruct results; [contradiction | discriminate] |].
  destruct (mathMin_le first rest) as [Hmin Hmins].
  destruct (mathMax_ge first rest) as [Hmax Hmaxs].
  pose proof (mathMin_In first rest) as Hlo. pose proof (mathMax_In first rest) as Hhi.
  set (lo := mathMin first rest) in *. set (hi := mathMax first rest) in *.
  assert (Hbounds : forall s, In s (first :: rest) -> (lo <= s <= hi)%R).
  { rewrite Forall_forall in Hmins, Hmaxs.
    intros s [<- | Hs]; [lra |]. split; [now apply Hmins | now apply Hmaxs]. }
  exists lo, hi. split; [exact Hlo |]. split; [exact Hhi |]. split; [exact Hbounds |].
  simpl. unfold RExact.eqb. destruct (Req_dec_T (hi - lo) 0) as [Hzero | Hrange].
  - split; [reflexivity |]. split; [intros Hdiff; lra |]. split.
    + intros r Hin. apply in_map_iff in Hin as [old [<- _]]. simpl. lra.
    + intros i j r r' n n' _ _. rewrite !nth_error_map.
      destruct (nth_error results i); [| discriminate].
      destruct (nth_error results j); [| discriminate].
      simpl. intros [= <-] [= <-] _. simpl. lra.
  - assert (Hpos : (0 < hi - lo)%R).
    { specialize (Hbounds first (or_introl eq_refl)). lra. }
    split; [intros Heq; lra |]. split; [reflexivity |]. split.
    + intros r Hin. apply in_map_iff in Hin as [old [<- Hold]]. simpl.
      assert (Hs : (lo <= relevanceScore old <= hi)%R).
      { apply Hbounds. rewrite <- Hscores. now apply in_map. }
      unfold Rdiv. split.
      * apply Rmult_le_pos; [lra |]. left. now apply Rinv_0_lt_compat.
      * apply Rmult_le_reg_r with (hi - lo)%R; [assumption |].
        rewrite Rmult_assoc, Rinv_l by lra. lra.
    + intros i j r r' n n' Hi Hj. rewrite !nth_error_map, Hi, Hj. simpl.
      intros [= <-] [= <-] Hle. simpl. unfold Rdiv.
      apply Rmult_le_compat_r; [| lra]. left. now apply Rinv_0_lt_compat.
Qed.

(** The lexical list of the scenario, scored 1 and 1/2, is normalised
    to 1 and 0. *)
Lemma normalizeScores_unit_interval_witness :
  map (@relevanceScore R) (RRFFusion.normalizeScores Examples.lexicalAB) = [1%R; 0%R].
Proof.
  destruct (proj2 (normalizeScores_unit_interval Examples.lexicalAB) ltac:(discriminate))
    as [lo [hi [Hlo [Hhi [Hbounds [_ [Hrange _]]]]]]].
  assert (Hhalf : @ndecimal R _ 5 10 = (5 / 10)%R) by reflexivity.
  assert (Hlo' : lo = (5 / 10)%R).
  { pose proof (Hbounds (ndecimal 5 10) (or_intror (or_introl eq_refl))) as Hb.
    simpl in Hlo. try rewrite Hhalf in *. destruct Hlo as [<- | [<- | []]]; lra. }
  assert (Hhi' : hi = 1%R).
  { pose proof (Hbounds 1%R (or_introl eq_refl)) as Hb.
    simpl in Hhi. try rewrite Hhalf in *. destruct Hhi as [<- | [<- | []]]; lra. }
  rewrite Hrange by lra. subst lo hi. simpl. try rewrite Hhalf. f_equal; [| f_equal]; field.
Defined.

(* ================================================================== *)
(** * Further properties of the vector repository *)
(* ================================================================== *)

Section RepositoryFacts.
Context {num : Type} `{Number num}.
Implicit Types (db : DatabaseAdapter num) (row : Node.Row num).

Lemma calculateCosineSimilarity_Ok_length (a b : list num) (similarity : num) :
  VectorRepository.calculateCosineSimilarity a b = Ok similarity ->
  List.length a = List.length b.
Proof.
  unfold VectorRepository.calculateCosineSimilarity.
  destruct (List.length a =? List.length b)%nat eqn:E; simpl; [| discriminate].
  intros _. now apply Nat.eqb_eq.
Qed.

(** What [findSimilarNodes] returns, element by element. *)
Lemma findSimilarNodes_In db (queryVector : list num)
    (options : VectorRepository.VectorSearchOptions num) (r : SearchResult num) :
  In r (VectorRepository.findSimilarNodes db queryVector options) ->
  exists row stored values,
    In row (nodes db)
    /\ Node.embedding_vector row = Some stored
    /\ ArrayBuffer.asFloat32Array stored = Ok values
    /\ VectorRepository.calculateCosineSimilarity queryVector values = Ok (relevanceScore r)
    /\ ngeb (relevanceScore r)
         match VectorRepository.threshold options with Some t => t | None => ndecimal 5 10 end
       = true
    /\ nodeType r = Node.node_type row
    /\ searchMethod r = vector.
Proof.
  unfold VectorRepository.findSimilarNodes, VectorRepository.selectNodesWithEmbeddings.
  destruct (embeddingColumns db); [| intros []].
  rewrite in_map_iff. intros [[row similarity] [<- Hin]].
  apply sliceTo_incl, jsSort_In, scan_In in Hin.
  destruct Hin as [Hrow [stored [values [Hemb [Hread [Hcos Hge]]]]]].
  apply filter_In in Hrow as [Hrow _].
  exists row, stored, values. simpl. auto 8.
Qed.

Lemma candidates_length {Row : Type} (embedding : Row -> option (ArrayBuffer.t num))
    (queryVector : list num) (rows : list Row) :
  List.length (SimilaritySpec.candidates embedding queryVector rows) <= List.length rows.
Proof.
  unfold SimilaritySpec.candidates. induction rows as [| row rest IH]; simpl; [lia |].
  rewrite length_app.
  destruct (embedding row) as [stored |]; simpl; [| lia].
  destruct (ArrayBuffer.asFloat32Array stored) as [values | msg]; simpl; [| lia].
  destruct (VectorRepository.calculateCosineSimilarity queryVector values); simpl; lia.
Qed.

(** A candidate that reaches the threshold is returned when the limit
    does not cut the list. *)
Lemma findSimilarNodes_complete db (queryVector : list num)
    (options : VectorRepository.VectorSearchOptions num) row stored values similarity :
  embeddingColumns db = true ->
  (Z.of_nat (List.length (nodes db)) <= VectorRepository.limit options)%Z ->
  In row (nodes db) ->
  Node.embedding_vector row = Some stored ->
  ArrayBuffer.asFloat32Array stored = Ok values ->
  VectorRepository.calculateCosineSimilarity queryVector values = Ok similarity ->
  ngeb similarity
    match VectorRepository.threshold options with Some t => t | None => ndecimal 5 10 end = true ->
  In (VectorRepository.nodeResult
        match VectorRepository.includeDistances options with Some b => b | None => false end
        (row, similarity))
     (VectorRepository.findSimilarNodes db queryVector options).
Proof.
  intros Hready Hlimit Hrow Hemb Hread Hcos Hge.
  rewrite findSimilarNodes_steps by assumption. apply in_map.
  set (kept := SimilaritySpec.reaching _ _).
  assert (Hlen : List.length kept <= List.length (nodes db)).
  { unfold kept, SimilaritySpec.reaching.
    etransitivity; [apply filter_length_le | apply candidates_length]. }
  assert (Hall : sliceTo (jsSort VectorRepository.bySimilarityDescending kept)
                   (VectorRepository.limit options)
                 = jsSort VectorRepository.bySimilarityDescending kept).
  { unfold sliceTo.
    destruct (0 <=? VectorRepository.limit options)%Z eqn:E; [| apply Z.leb_gt in E; lia].
    apply firstn_all2. rewrite jsSort_length. lia. }
  rewrite Hall. apply jsSort_In. unfold kept. apply reaching_In. split; [| exact Hge].
  apply candidates_In. split; [exact Hrow |]. exists stored, values. auto.
Qed.

(** A row that holds no array of the length of the query is no
    candidate, wherever it stands in the table. *)
Lemma candidates_comparable (queryVector : list num) (rows : list (Node.Row num)) :
  SimilaritySpec.candidates (@Node.embedding_vector num) queryVector
    (filter (holdsVectorOfLength (List.length queryVector)) rows)
  = SimilaritySpec.candidates (@Node.embedding_vector num) queryVector rows.
Proof.
  unfold SimilaritySpec.candidates.
  induction rows as [| row rest IH]; [reflexivity |].
  cbn [filter flat_map]. unfold holdsVectorOfLength at 1.
  destruct (Node.embedding_vector row) as [stored |] eqn:Hemb; [| exact IH].
  destruct (ArrayBuffer.asFloat32Array stored) as [values | msg] eqn:Hread; [| exact IH].
  destruct (List.length queryVector =? List.length values)%nat eqn:Hlen.
  - cbn [flat_map]. now rewrite Hemb, Hread, IH.
  - unfold VectorRepository.calculateCosineSimilarity. rewrite Hlen. exact IH.
Qed.

(** The rows an [UPDATE ... WHERE node_type = ?] leaves alone. *)
Lemma updateNode_other now nodeType (embedding : TypedArray.t num) contentHash model row :
  Node.node_type row <> nodeType ->
  VectorRepository.updateNode now nodeType embedding contentHash model row = row.
Proof.
  intros Hne. unfold VectorRepository.updateNode.
  apply String.eqb_neq in Hne. now rewrite Hne.
Qed.

Lemma updateNode_node_type now nodeType (embedding : TypedArray.t num) contentHash model row :
  Node.node_type (VectorRepository.updateNode now nodeType embedding contentHash model row)
  = Node.node_type row.
Proof. unfold VectorRepository.updateNode. now destruct (String.eqb _ _). Qed.

Lemma clearNode_node_type nodeType row :
  Node.node_type (VectorRepository.clearNode nodeType row) = Node.node_type row.
Proof. unfold VectorRepository.clearNode. now destruct (String.eqb _ _). Qed.

(** A statement that rewrites the rows of one node type does not change
    which row a lookup of another node type finds. *)
Lemma find_other_node (change : Node.Row num -> Node.Row num) nodeType other
    (rows : list (Node.Row num)) :
  (forall row, Node.node_type (change row) = Node.node_type row) ->
  (forall row, Node.node_type row <> nodeType -> change row = row) ->
  other <> nodeType ->
  find (fun row => String.eqb (Node.node_type row) other && isNotNull (Node.embedding_vector row))
    (map change rows)
  = find (fun row => String.eqb (Node.node_type row) other && isNotNull (Node.embedding_vector row))
      rows.
Proof.
  intros Htype Hother Hne. induction rows as [| row rest IH]; simpl; [reflexivity |].
  rewrite Htype. destruct (String.eqb (Node.node_type row) other) eqn:E; simpl.
  - apply String.eqb_eq in E. rewrite Hother by congruence.
    destruct (isNotNull (Node.embedding_vector row)); [reflexivity | exact IH].
  - exact IH.
Qed.

Lemma updateNode_embedding now nodeType (embedding : TypedArray.t num) contentHash model row :
  Node.node_type row = nodeType ->
  Node.embedding_vector (VectorRepository.updateNode now nodeType embedding contentHash model row)
  = Some (TypedArray.buffer embedding).
Proof.
  intros Hty. unfold VectorRepository.updateNode.
  apply String.eqb_eq in Hty. now rewrite Hty.
Qed.

Lemma updateNode_dimensions now nodeType (embedding : TypedArray.t num) contentHash model row :
  Node.node_type row = nodeType ->
  Node.embedding_dimensions
    (VectorRepository.updateNode now nodeType embedding contentHash model row)
  = Some (Z.of_nat (TypedArray.length embedding)).
Proof.
  intros Hty. unfold VectorRepository.updateNode.
  apply String.eqb_eq in Hty. now rewrite Hty.
Qed.

Lemma clearNode_embedding nodeType row :
  Node.node_type row = nodeType ->
  Node.embedding_vector (VectorRepository.clearNode nodeType row) = None.
Proof.
  intros Hty. unfold VectorRepository.clearNode.
  apply String.eqb_eq in Hty. now rewrite Hty.
Qed.

Lemma find_saved now nodeType (embedding : TypedArray.t num) contentHash model
    (rows : list (Node.Row num)) :
  In nodeType (map (@Node.node_type num) rows) ->
  exists row,
    find (fun row => String.eqb (Node.node_type row) nodeType
                     && isNotNull (Node.embedding_vector row))
      (map (VectorRepository.updateNode now nodeType embedding contentHash model) rows)
    = Some row
    /\ Node.embedding_vector row = Some (TypedArray.buffer embedding).
Proof.
  induction rows as [| row rest IH]; simpl; [intros [] |].
  intros Hin. rewrite updateNode_node_type.
  destruct (String.eqb (Node.node_type row) nodeType) eqn:E; simpl.
  - apply String.eqb_eq in E. rewrite (updateNode_embedding _ _ _ _ _ _ E). simpl.
    eexists. split; [reflexivity | now apply updateNode_embedding].
  - apply IH. destruct Hin as [Heq | Hin]; [| exact Hin].
    apply String.eqb_neq in E. contradiction.
Qed.

Lemma find_cleared nodeType (rows : list (Node.Row num)) :
  find (fun row => String.eqb (Node.node_type row) nodeType
                   && isNotNull (Node.embedding_vector row))
    (map (VectorRepository.clearNode nodeType) rows)
  = None.
Proof.
  induction rows as [| row rest IH]; simpl; [reflexivity |].
  rewrite clearNode_node_type.
  destruct (String.eqb (Node.node_type row) nodeType) eqn:E; simpl; [| exact IH].
  apply String.eqb_eq in E. rewrite (clearNode_embedding _ _ E). simpl. exact IH.
Qed.

(** What [getEmbedding] answers after a save, for a node type the table
    has. *)
Lemma getEmbedding_saved db nodeType (embedding : TypedArray.t num) contentHash model :
  embeddingColumns db = true ->
  In nodeType (map (@Node.node_type num) (nodes db)) ->
  VectorRepository.getEmbedding
    (withNodes db
       (map (VectorRepository.updateNode (CURRENT_TIMESTAMP db) nodeType embedding contentHash
               model) (nodes db)))
    nodeType
  = match ArrayBuffer.asFloat32Array (TypedArray.buffer embedding) with
    | Ok values => Some values
    | Throw _ => None
    end.
Proof.
  intros Hready Hin. unfold VectorRepository.getEmbedding, withNodes.
  cbn [embeddingColumns nodes]. rewrite Hready.
  destruct (find_saved (CURRENT_TIMESTAMP db) nodeType embedding contentHash model (nodes db) Hin)
    as [row [-> Hemb]].
  now rewrite Hemb.
Qed.
End RepositoryFacts.

(** X5.  Every result of [findSimilarNodes] is a stored node whose
    vector has the length of the query vector, whose relevance score is
    its cosine similarity with the query and reaches the threshold.  With
    the storage ready and a limit that is not below the number of nodes,
    every such node is a result.  A row whose stored bytes are no vector
    of that length is skipped and does not stop the search: the search
    returns what it returns on the table without those rows. *)
Theorem findSimilarNodes_provenance {num : Type} `{Number num}
    (db : DatabaseAdapter num) (queryVector : list num)
    (options : VectorRepository.VectorSearchOptions num) :
  let threshold :=
    match VectorRepository.threshold options with Some t => t | None => ndecimal 5 10 end in
  let includeDistances :=
    match VectorRepository.includeDistances options with Some b => b | None => false end in
  (forall r,
     In r (VectorRepository.findSimilarNodes db queryVector options) ->
     exists row stored values,
       In row (nodes db)
       /\ nodeType r = Node.node_type row
       /\ Node.embedding_vector row = Some stored
       /\ ArrayBuffer.asFloat32Array stored = Ok values
       /\ List.length values = List.length queryVector
       /\ VectorRepository.calculateCosineSimilarity queryVector values = Ok (relevanceScore r)
       /\ ngeb (relevanceScore r) threshold = true
       /\ searchMethod r = vector)
  /\ (forall row stored values similarity,
        embeddingColumns db = true ->
        (Z.of_nat (List.length (nodes db)) <= VectorRepository.limit options)%Z ->
        In row (nodes db) ->
        Node.embedding_vector row = Some stored ->
        ArrayBuffer.asFloat32Array stored = Ok values ->
        VectorRepository.calculateCosineSimilarity queryVector values = Ok similarity ->
        ngeb similarity threshold = true ->
        In (VectorRepository.nodeResult includeDistances (row, similarity))
           (VectorRepository.findSimilarNodes db queryVector options))
  /\ VectorRepository.findSimilarNodes db queryVector options
     = VectorRepository.findSimilarNodes
         (withNodes db (filter (holdsVectorOfLength (List.length queryVector)) (nodes db)))
         queryVector options.
Proof.
  intros threshold includeDistances. split; [| split].
  - intros r Hin. destruct (findSimilarNodes_In db queryVector options r Hin)
      as [row [stored [values [Hrow [Hemb [Hread [Hcos [Hge [Hty Hmethod]]]]]]]]].
    exists row, stored, values. repeat split; auto.
    symmetry. eapply calculateCosineSimilarity_Ok_length; eauto.
  - intros row stored values similarity Hready Hlimit Hrow Hemb Hread Hcos Hge.
    now apply findSimilarNodes_complete with (stored := stored) (values := values).
  - unfold VectorRepository.findSimilarNodes, VectorRepository.selectNodesWithEmbeddings, withNodes.
    cbn [embeddingColumns nodes]. destruct (embeddingColumns db); [| reflexivity].
    now rewrite !scan_reaching, !candidates_with_vector, candidates_comparable.
Qed.

(** On binary64: in the table [far], [space], [near], [same] the node
    [space] holds a vector of three elements.  A search from [(1, 0)]
    with the threshold 0.2 goes past it and returns [same] and [near],
    which is what it returns on the table without [space]. *)
Lemma findSimilarNodes_provenance_witness :
  map (@nodeType F64.t)
    (VectorRepository.findSimilarNodes Examples.mixedDb Examples.planeQuery
       (Examples.planeOptions (Some (ndecimal 2 10))))
  = ["same"%string; "near"%string]
  /\ map (@Node.node_type F64.t)
       (filter (holdsVectorOfLength (List.length (@Examples.planeQuery F64.t _)))
          (nodes Examples.mixedDb))
     = ["far"%string; "near"%string; "same"%string].
Proof.
  split; [| reflexivity].
  rewrite (proj2 (proj2 (findSimilarNodes_provenance Examples.mixedDb Examples.planeQuery
                           (Examples.planeOptions (Some (ndecimal 2 10)))))).
  vm_compute. reflexivity.
Defined.

(** X6.  After [saveEmbedding] succeeded for a node type the table has,
    [getEmbedding] answers with the whole buffer of the saved array, read
    as binary32 numbers: the saved vector when the array owns its buffer,
    the elements before and after it too when the array is a view of a
    larger buffer, and [null] when the byte length of the buffer is no
    multiple of 4.  The column [embedding_dimensions] holds the length of
    the array all the same.  The statement changes nothing when the
    table has no such node, and the embeddings of the other node types
    and the templates stay as they were. *)
Theorem saveEmbedding_getEmbedding {num : Type} `{Number num}
    (db db' : DatabaseAdapter num) (nodeType : string) (embedding : TypedArray.t num)
    (contentHash : string) (model : option string) :
  VectorRepository.saveEmbedding db nodeType embedding contentHash model = Ok db' ->
  (In nodeType (map (@Node.node_type num) (nodes db)) ->
   (TypedArray.trailing embedding = 0 ->
    VectorRepository.getEmbedding db' nodeType
    = Some (TypedArray.before embedding ++ TypedArray.elements embedding
            ++ TypedArray.behind embedding))
   /\ (TypedArray.trailing embedding <> 0 -> VectorRepository.getEmbedding db' nodeType = None)
   /\ (forall values, embedding = TypedArray.ofElements values ->
         VectorRepository.getEmbedding db' nodeType = Some values)
   /\ (forall row, In row (nodes db') -> Node.node_type row = nodeType ->
         Node.embedding_dimensions row
         = Some (Z.of_nat (List.length (TypedArray.elements embedding)))))
  /\ (~ In nodeType (map (@Node.node_type num) (nodes db)) -> db' = db)
  /\ (forall other, other <> nodeType ->
        VectorRepository.getEmbedding db' other = VectorRepository.getEmbedding db other)
  /\ templates db' = templates db.
Proof.
  unfold VectorRepository.saveEmbedding.
  destruct (embeddingColumns db) eqn:Hready; [| discriminate].
  intros [= <-].
  set (model' := match model with Some m => m | None => "text-embedding-3-small"%string end).
  split; [| split; [| split]].
  - intros Hin.
    pose proof (getEmbedding_saved db nodeType embedding contentHash model' Hready Hin) as Hget.
    unfold withNodes in Hget. rewrite Hready in Hget.
    unfold ArrayBuffer.asFloat32Array, TypedArray.buffer in Hget.
    cbn [ArrayBuffer.trailing ArrayBuffer.slots] in Hget.
    split; [| split; [| split]].
    + intros Hzero. rewrite Hget, Hzero. reflexivity.
    + intros Hrest. rewrite Hget.
      destruct (TypedArray.trailing embedding =? 0)%nat eqn:E; [| reflexivity].
      apply Nat.eqb_eq in E. contradiction.
    + intros values ->. rewrite Hget. cbn. now rewrite app_nil_r.
    + intros row Hrow Hty. cbn [nodes] in Hrow. apply in_map_iff in Hrow as [old [<- Hold]].
      rewrite updateNode_node_type in Hty. now apply updateNode_dimensions.
  - intros Hnotin. destruct db as [rows ts ready now fts]. simpl in *. f_equal; [| now subst].
    induction rows as [| row rest IH]; simpl; [reflexivity |].
    simpl in Hnotin. rewrite updateNode_other by tauto. f_equal. apply IH. tauto.
  - intros other Hne. unfold VectorRepository.getEmbedding. cbn [embeddingColumns nodes].
    rewrite Hready. rewrite find_other_node with (nodeType := nodeType); auto.
    + intros row. apply updateNode_node_type.
    + intros row. apply updateNode_other.
  - reflexivity.
Qed.

(** On binary64, for the node [near] of the plane database: saving an
    array [(3, 4)] that owns its buffer and reading it back gives
    [(3, 4)]; saving the view [(3, 4)] of the buffer of [(7, 3, 4, 9)]
    and reading it back gives [(7, 3, 4, 9)]. *)
Lemma saveEmbedding_getEmbedding_witness :
  (exists db' : DatabaseAdapter F64.t,
     VectorRepository.saveEmbedding Examples.planeDb "near"
       (TypedArray.ofElements [F64.ofZ 3; F64.ofZ 4]) "H3" None = Ok db'
     /\ VectorRepository.getEmbedding db' "near" = Some [F64.ofZ 3; F64.ofZ 4])
  /\ (TypedArray.elements (@Examples.threeFourView F64.t _) = [F64.ofZ 3; F64.ofZ 4]
      /\ exists db' : DatabaseAdapter F64.t,
           VectorRepository.saveEmbedding Examples.planeDb "near" Examples.threeFourView "H3" None
           = Ok db'
           /\ VectorRepository.getEmbedding db' "near"
              = Some [F64.ofZ 7; F64.ofZ 3; F64.ofZ 4; F64.ofZ 9]).
Proof.
  split; [| split; [reflexivity |]].
  - eexists. split; [reflexivity |].
    refine (proj1 (proj2 (proj2 (proj1 (saveEmbedding_getEmbedding Examples.planeDb _
                     "near"%string (TypedArray.ofElements [F64.ofZ 3; F64.ofZ 4]) "H3"%string
                     None eq_refl) _))) _ eq_refl).
    right. left. reflexivity.
  - eexists. split; [reflexivity |].
    refine (proj1 (proj1 (saveEmbedding_getEmbedding Examples.planeDb _
                     "near"%string Examples.threeFourView "H3"%string None eq_refl) _) eq_refl).
    right. left. reflexivity.
Defined.

(** X7.  After [deleteEmbedding] succeeded, [getEmbedding] answers
    [null] for that node type, the needs-embedding query reports every
    node of that type, no similarity search returns it, and the
    embeddings of the other node types stay as they were. *)
Theorem deleteEmbedding_clears {num : Type} `{Number num}
    (db db' : DatabaseAdapter num) (target : string) :
  VectorRepository.deleteEmbedding db target = Ok db' ->
  VectorRepository.getEmbedding db' target = None
  /\ (forall row, In row (nodes db') -> Node.node_type row = target ->
        In row (VectorRepository.getNodesNeedingEmbeddings db'))
  /\ (forall queryVector options r,
        In r (VectorRepository.findSimilarNodes db' queryVector options) ->
        nodeType r = target -> False)
  /\ (forall other, other <> target ->
        VectorRepository.getEmbedding db' other = VectorRepository.getEmbedding db other).
Proof.
  unfold VectorRepository.deleteEmbedding.
  destruct (embeddingColumns db) eqn:Hready; [| discriminate].
  intros [= <-].
  assert (Hcleared : forall row,
            In row (map (VectorRepository.clearNode target) (nodes db)) ->
            Node.node_type row = target -> Node.embedding_vector row = None).
  { intros row Hin Hty. apply in_map_iff in Hin as [old [<- Hold]].
    rewrite clearNode_node_type in Hty. now apply clearNode_embedding. }
  split; [| split; [| split]].
  - unfold VectorRepository.getEmbedding. simpl. rewrite ?Hready. now rewrite find_cleared.
  - intros row Hin Hty. unfold VectorRepository.getNodesNeedingEmbeddings. simpl in *.
    rewrite ?Hready. apply sqlWhere_In. split; [exact Hin |].
    apply nodeNeedsEmbedding_iff. left. now apply Hcleared.
  - intros queryVector options r Hin Hty.
    destruct (findSimilarNodes_In _ queryVector options r Hin)
      as [row [stored [values [Hrow [Hemb [_ [_ [_ [Hty' _]]]]]]]]].
    simpl in Hrow. rewrite (Hcleared row Hrow) in Hemb; [discriminate | congruence].
  - intros other Hne. unfold VectorRepository.getEmbedding. simpl. rewrite ?Hready.
    rewrite find_other_node with (nodeType := target); auto.
    + intros row. apply clearNode_node_type.
    + intros row Hrow. unfold VectorRepository.clearNode.
      apply String.eqb_neq in Hrow. now rewrite Hrow.
Qed.

(** Deleting the embedding of [near] in the plane database. *)
Lemma deleteEmbedding_clears_witness :
  exists db' : DatabaseAdapter F64.t,
    VectorRepository.deleteEmbedding Examples.planeDb "near" = Ok db'
    /\ VectorRepository.getEmbedding db' "near" = None.
Proof.
  eexists. split; [reflexivity |].
  exact (proj1 (deleteEmbedding_clears Examples.planeDb _ "near"%string eq_refl)).
Defined.

(** ** Cosine similarity, further *)

Section CosineSymmetry.

Lemma F64_mul_comm (x y : F64.t) : F64.mul x y = F64.mul y x.
Proof.
  destruct x as [sx | sx | | sx mx ex], y as [sy | sy | | sy my ey]; simpl;
    try reflexivity; try (now rewrite xorb_comm).
  unfold F64.mul, SFmul. now rewrite xorb_comm, Pos.mul_comm, Z.add_comm.
Qed.

Lemma accumulate_swap (a b : list F64.t) (dotProduct normA normB : F64.t) :
  VectorRepository.accumulate b a dotProduct normB normA =
    let '(dotProduct', normA', normB') := VectorRepository.accumulate a b dotProduct normA normB in
    (dotProduct', normB', normA').
Proof.
  revert b dotProduct normA normB. induction a as [| x a IH]; intros [| y b] d nA nB; simpl;
    try reflexivity.
  change (nmul y x) with (F64.mul y x). rewrite (F64_mul_comm y x). apply IH.
Qed.
End CosineSymmetry.

(** X8.  On binary64 the cosine similarity is symmetric: swapping the
    two arrays gives the same number, or the same exception when their
    lengths differ. *)
Theorem calculateCosineSimilarity_symmetric (a b : list F64.t) :
  VectorRepository.calculateCosineSimilarity a b = VectorRepository.calculateCosineSimilarity b a.
Proof.
  unfold VectorRepository.calculateCosineSimilarity.
  rewrite (Nat.eqb_sym (List.length b) (List.length a)).
  destruct (negb (List.length a =? List.length b)%nat); [reflexivity |].
  rewrite (accumulate_swap a b).
  destruct (VectorRepository.accumulate a b (nofZ 0) (nofZ 0) (nofZ 0)) as [[d nA] nB].
  change (nmul (nsqrt nB) (nsqrt nA)) with (F64.mul (F64.sqrt nB) (F64.sqrt nA)).
  rewrite (F64_mul_comm (F64.sqrt nB) (F64.sqrt nA)). reflexivity.
Qed.

Section CosineSelf.
Local Open Scope R_scope.

Lemma accumulate_self (a : list R) (s : R) :
  exists s', VectorRepository.accumulate a a s s s = (s', s', s').
Proof.
  revert s. induction a as [| x a IH]; intros s; simpl; [eauto | apply IH].
Qed.

Lemma cosine_self_exact (a : list R) :
  VectorSpec.nonZero a -> VectorRepository.calculateCosineSimilarity a a = Ok 1.
Proof.
  intros Hnz. unfold VectorRepository.calculateCosineSimilarity.
  rewrite Nat.eqb_refl. simpl negb. cbv iota.
  destruct (accumulate_exact a a 0 0 0 eq_refl) as [d [nA [nB [Heq [_ [_ [_ [Hpos _]]]]]]]];
    try lra.
  destruct (accumulate_self a 0) as [s Hs].
  simpl nofZ. rewrite Hs in *. injection Heq as <- <- <-. specialize (Hpos Hnz).
  simpl. f_equal. rewrite sqrt_sqrt by lra. unfold Rdiv. apply Rinv_r. lra.
Qed.

End CosineSelf.

Lemma asFloat32Array_ofElements {num : Type} (values : list num) :
  ArrayBuffer.asFloat32Array (TypedArray.buffer (TypedArray.ofElements values)) = Ok values.
Proof. cbn. now rewrite app_nil_r. Qed.

(** X9.  A node whose embedding was just saved from an array that owns
    its buffer is found by a search for that very vector exactly when the
    similarity of the vector with itself reaches the threshold, the limit
    being not below the number of nodes; its score is then that
    similarity.  (The similarity of a vector with itself is 1 in exact
    arithmetic; on binary64 it is 1 up to a rounding error, and for
    [(1, 1)] it is below 1.) *)
Theorem saved_embedding_is_found {num : Type} `{Number num}
    (db db' : DatabaseAdapter num) (target : string)
    (values : list num) (contentHash : string) (model : option string)
    (options : VectorRepository.VectorSearchOptions num) (selfSimilarity : num) :
  let threshold :=
    match VectorRepository.threshold options with Some t => t | None => ndecimal 5 10 end in
  VectorRepository.saveEmbedding db target (TypedArray.ofElements values) contentHash model
  = Ok db' ->
  In target (map (@Node.node_type num) (nodes db)) ->
  VectorRepository.calculateCosineSimilarity values values = Ok selfSimilarity ->
  (Z.of_nat (List.length (nodes db)) <= VectorRepository.limit options)%Z ->
  (ngeb selfSimilarity threshold = true ->
   exists r,
     In r (VectorRepository.findSimilarNodes db' values options)
     /\ nodeType r = target /\ relevanceScore r = selfSimilarity)
  /\ (forall r,
        In r (VectorRepository.findSimilarNodes db' values options) ->
        nodeType r = target ->
        relevanceScore r = selfSimilarity /\ ngeb selfSimilarity threshold = true).
Proof.
  intros threshold Hsave Hknown Hself Hlimit.
  unfold VectorRepository.saveEmbedding in Hsave.
  destruct (embeddingColumns db) eqn:Hready; [| discriminate].
  injection Hsave as <-.
  set (model' := match model with Some m => m | None => "text-embedding-3-small"%string end).
  split.
  - intros Hreach.
    apply in_map_iff in Hknown as [old [Hty Hold]].
    set (saved := VectorRepository.updateNode (CURRENT_TIMESTAMP db) target
                    (TypedArray.ofElements values) contentHash model' old).
    exists (VectorRepository.nodeResult
              match VectorRepository.includeDistances options with Some b => b | None => false end
              (saved, selfSimilarity)).
    split; [| split; [cbn [nodeType VectorRepository.nodeResult]; unfold saved;
                      now rewrite updateNode_node_type
                     | reflexivity]].
    apply findSimilarNodes_complete
      with (stored := TypedArray.buffer (TypedArray.ofElements values)) (values := values).
    + reflexivity.
    + cbn [nodes]. now rewrite length_map.
    + cbn [nodes]. apply in_map. exact Hold.
    + now apply updateNode_embedding.
    + apply asFloat32Array_ofElements.
    + exact Hself.
    + exact Hreach.
  - intros r Hin Hname.
    destruct (findSimilarNodes_In _ values options r Hin)
      as [row [stored [values' [Hrow [Hemb [Hread [Hcos [Hge [Hty _]]]]]]]]].
    cbn [nodes] in Hrow. apply in_map_iff in Hrow as [old [<- Hold]].
    rewrite updateNode_node_type in Hty.
    rewrite updateNode_embedding in Hemb by congruence.
    injection Hemb as <-. rewrite asFloat32Array_ofElements in Hread. injection Hread as <-.
    rewrite Hself in Hcos. injection Hcos as Hscore.
    fold threshold in Hge. rewrite <- Hscore in Hge. split; [now symmetry | exact Hge].
Qed.

Lemma cosine_self_three_four :
  VectorRepository.calculateCosineSimilarity [F64.ofZ 3; F64.ofZ 4] [F64.ofZ 3; F64.ofZ 4]
  = Ok F64.one.
Proof. vm_compute. reflexivity. Qed.

Lemma one_reaches_half : F64.geb F64.one (ndecimal 5 10) = true.
Proof. vm_compute. reflexivity. Qed.

(** On binary64 [(3, 4)] has similarity 1 with itself: saved for [near]
    in the plane database, it is found by a search for [(3, 4)] with
    score 1. *)
Lemma saved_embedding_is_found_witness :
  exists (db' : DatabaseAdapter F64.t) r,
    VectorRepository.saveEmbedding Examples.planeDb "near"
      (TypedArray.ofElements [F64.ofZ 3; F64.ofZ 4]) "H3" None = Ok db'
    /\ In r (VectorRepository.findSimilarNodes db' [F64.ofZ 3; F64.ofZ 4]
               (Examples.planeOptions None))
    /\ nodeType r = "near"%string /\ relevanceScore r = F64.one.
Proof.
  eexists.
  destruct (proj1 (saved_embedding_is_found Examples.planeDb _ "near"%string
                     [F64.ofZ 3; F64.ofZ 4] "H3"%string None (Examples.planeOptions None)
                     F64.one eq_refl (or_intror (or_introl eq_refl)) cosine_self_three_four
                     ltac:(simpl; lia)) one_reaches_half) as [r Hr].
  exists r. split; [reflexivity | exact Hr].
Defined.

(** On binary64 [(1, 1)] has similarity [0.9999999999999998] with
    itself: with the threshold 1 a search for [(1, 1)] does not find the
    node it was just saved for. *)
Example saved_embedding_below_one :
  VectorRepository.calculateCosineSimilarity [F64.ofZ 1; F64.ofZ 1] [F64.ofZ 1; F64.ofZ 1]
  = Ok (S754_finite false 9007199254740990 (-53))
  /\ exists db' : DatabaseAdapter F64.t,
       VectorRepository.saveEmbedding Examples.planeDb "near"
         (TypedArray.ofElements [F64.ofZ 1; F64.ofZ 1]) "H3" None = Ok db'
       /\ VectorRepository.findSimilarNodes db' [F64.ofZ 1; F64.ofZ 1]
            (Examples.planeOptions (Some (F64.ofZ 1)))
          = [].
Proof.
  split; [vm_compute; reflexivity |].
  eexists. split; [reflexivity | vm_compute; reflexivity].
Qed.

(* ================================================================== *)
(** * Further properties of the embedding service *)
(* ================================================================== *)

Section EmbeddingRequests.
Context {num : Type} `{Number num}.
Implicit Types (env : EmbeddingService.Environment num) (this : EmbeddingService.t num)
  (texts : list string) (sent : list EmbeddingService.CreateRequest).

Lemma repeat_snoc {A : Type} (x : A) (n : nat) : repeat x n ++ [x] = x :: repeat x n.
Proof. induction n as [| n IH]; simpl; [reflexivity | now rewrite IH]. Qed.

Lemma retryBatch_all_fail env this texts remaining sent :
  EmbeddingService.openai this = true ->
  (forall n, List.length sent <= n < List.length sent + remaining ->
             exists msg, EmbeddingService.embeddingsCreate env (requestFor this texts) n = Throw msg) ->
  exists msg,
    EmbeddingService.retryBatch env this texts remaining sent
    = (Throw msg, sent ++ repeat (requestFor this texts) remaining).
Proof.
  intros Hclient. revert sent. induction remaining as [| remaining IH]; intros sent Hfail; simpl.
  - unfold EmbeddingService.raise. rewrite app_nil_r. eauto.
  - rewrite Hclient. simpl.
    unfold EmbeddingService.orElse, EmbeddingService.andThen, EmbeddingService.create.
    fold (requestFor this texts).
    destruct (Hfail (List.length sent) ltac:(lia)) as [msg ->].
    destruct (IH (sent ++ [requestFor this texts])) as [msg' ->].
    + intros n Hn. rewrite length_app in Hn. simpl in Hn. apply Hfail. lia.
    + exists msg'. now rewrite <- app_assoc.
Qed.

Lemma retryBatch_succeeds env this texts remaining sent j
    (response : EmbeddingService.CreateResponse num) :
  EmbeddingService.openai this = true ->
  j < remaining ->
  (forall n, List.length sent <= n < List.length sent + j ->
             exists msg, EmbeddingService.embeddingsCreate env (requestFor this texts) n = Throw msg) ->
  EmbeddingService.embeddingsCreate env (requestFor this texts) (List.length sent + j) = Ok response ->
  EmbeddingService.retryBatch env this texts remaining sent
  = (Ok (EmbeddingService.batchResult response), sent ++ repeat (requestFor this texts) (S j)).
Proof.
  intros Hclient. revert sent remaining.
  induction j as [| j IH]; intros sent remaining Hlt Hfail Hanswer;
    (destruct remaining as [| remaining]; [lia |]); simpl; rewrite Hclient; simpl;
    unfold EmbeddingService.orElse, EmbeddingService.andThen, EmbeddingService.create;
    fold (requestFor this texts).
  - rewrite Nat.add_0_r in Hanswer. rewrite Hanswer. reflexivity.
  - destruct (Hfail (List.length sent) ltac:(lia)) as [msg ->].
    rewrite (IH (sent ++ [requestFor this texts]) remaining).
    + now rewrite <- app_assoc.
    + lia.
    + intros n Hn. rewrite length_app in Hn. simpl in Hn. apply Hfail. lia.
    + rewrite length_app. simpl. now replace (List.length sent + 1 + j) with (List.length sent + S j) by lia.
Qed.

Lemma retryBatch_without_client env this texts remaining sent :
  EmbeddingService.openai this = false ->
  exists msg, EmbeddingService.retryBatch env this texts remaining sent = (Throw msg, sent).
Proof.
  intros Hclient. induction remaining as [| remaining IH]; simpl.
  - unfold EmbeddingService.raise. eauto.
  - rewrite Hclient. simpl. unfold EmbeddingService.orElse, EmbeddingService.raise. exact IH.
Qed.




(** *** The number of batches *)

Lemma batchesFrom_length (fuel i : nat) texts (b : nat) :
  1 <= b -> List.length texts - i <= fuel ->
  List.length (EmbeddingService.batchesFrom fuel i texts b)
  = (List.length texts - i + b - 1) / b.
Proof.
  intros Hb. revert i. induction fuel as [| fuel IH]; intros i Hfuel; simpl.
  - replace (List.length texts - i + b - 1) with (b - 1) by lia.
    symmetry. apply Nat.div_small. lia.
  - destruct (i <? List.length texts) eqn:E.
    + apply Nat.ltb_lt in E. simpl. rewrite IH by lia.
      replace (List.length texts - i + b - 1) with ((List.length texts - i - 1) + 1 * b) by lia.
      rewrite Nat.div_add by lia.
      destruct (Nat.le_gt_cases b (List.length texts - i)) as [Hfull | Hshort].
      * replace (List.length texts - (i + b) + b - 1) with (List.length texts - i - 1) by lia. lia.
      * replace (List.length texts - (i + b) + b - 1) with (b - 1) by lia.
        rewrite !Nat.div_small by lia. lia.
    + apply Nat.ltb_ge in E. simpl.
      replace (List.length texts - i + b - 1) with (b - 1) by lia.
      symmetry. apply Nat.div_small. lia.
Qed.

Lemma batchesFrom_nth (fuel i : nat) texts (b : nat) (j : nat) (batch : list string) :
  nth_error (EmbeddingService.batchesFrom fuel i texts b) j = Some batch ->
  batch = slice texts (i + j * b) (i + j * b + b) /\ i + j * b < List.length texts.
Proof.
  revert i j. induction fuel as [| fuel IH]; intros i j; simpl.
  - destruct j; discriminate.
  - destruct (i <? List.length texts) eqn:E; [| destruct j; discriminate].
    apply Nat.ltb_lt in E. destruct j as [| j]; simpl.
    + intros [= <-]. rewrite Nat.add_0_r. auto.
    + intros Hnth. destruct (IH _ _ Hnth) as [-> Hlt].
      split; [f_equal; lia | lia].
Qed.
End EmbeddingRequests.

(** X10.  [processBatch] sends the request of the batch again after
    each failure, at most [maxRetries] times: when every call fails it
    rejects after exactly [maxRetries] requests; when the first [j]
    calls fail and the next one is answered ([j < maxRetries]) it
    resolves after exactly [j + 1] requests with the embeddings of that
    answer; and without a client it rejects without sending anything. *)
Theorem processBatch_retries {num : Type} `{Number num}
    (env : EmbeddingService.Environment num) (this : EmbeddingService.t num)
    (texts : list string) (sent : list EmbeddingService.CreateRequest) :
  let request :=
    {| EmbeddingService.request_model := EmbeddingService.model this;
       EmbeddingService.input := texts;
       EmbeddingService.request_dimensions := EmbeddingService.dimensions this |} in
  (EmbeddingService.openai this = true ->
   (forall n, List.length sent <= n < List.length sent + EmbeddingService.maxRetries this ->
              exists msg, EmbeddingService.embeddingsCreate env request n = Throw msg) ->
   exists msg,
     EmbeddingService.processBatch env this texts sent
     = (Throw msg, sent ++ repeat request (EmbeddingService.maxRetries this)))
  /\ (forall j response,
        EmbeddingService.openai this = true ->
        j < EmbeddingService.maxRetries this ->
        (forall n, List.length sent <= n < List.length sent + j ->
                   exists msg, EmbeddingService.embeddingsCreate env request n = Throw msg) ->
        EmbeddingService.embeddingsCreate env request (List.length sent + j) = Ok response ->
        EmbeddingService.processBatch env this texts sent
        = (Ok (EmbeddingService.batchResult response), sent ++ repeat request (S j)))
  /\ (EmbeddingService.openai this = false ->
      exists msg, EmbeddingService.processBatch env this texts sent = (Throw msg, sent)).
Proof.
  intros request. unfold EmbeddingService.processBatch. split; [| split].
  - intros Hclient Hfail. now apply retryBatch_all_fail.
  - intros j response Hclient Hj Hfail Hanswer. now apply retryBatch_succeeds.
  - intros Hclient. now apply retryBatch_without_client.
Qed.

(** A provider that rejects two calls and answers the third: three
    requests, and the batch is embedded. *)
Lemma processBatch_retries_witness :
  exists result request,
    EmbeddingService.processBatch (@Examples.flakyProvider F64.t _)
      (EmbeddingService.withClient (EmbeddingService.new None)) ["a"; "bb"]%string []
    = (Ok result, [request; request; request])
    /\ EmbeddingService.input request = ["a"; "bb"]%string.
Proof.
  eexists. eexists. split.
  - refine (proj1 (proj2 (processBatch_retries (@Examples.flakyProvider F64.t _)
                            (EmbeddingService.withClient (EmbeddingService.new None))
                            ["a"; "bb"]%string [])) 2 _ eq_refl _ _ eq_refl).
    + simpl. lia.
    + intros n Hn. simpl in Hn.
      assert (Hcases : n = 0 \/ n = 1) by lia.
      destruct Hcases as [-> | ->]; eexists; reflexivity.
  - reflexivity.
Defined.


(** X12.  [createBatches] makes [ceil (n / batchSize)] batches of [n]
    texts, and every batch but the last holds exactly [batchSize]
    texts. *)
Theorem createBatches_count (texts : list string) (batchSize : positive) :
  let batches := EmbeddingService.createBatches texts batchSize in
  List.length batches = (List.length texts + Pos.to_nat batchSize - 1) / Pos.to_nat batchSize
  /\ forall j batch,
       nth_error batches j = Some batch -> S j < List.length batches ->
       List.length batch = Pos.to_nat batchSize.
Proof.
  intros batches. unfold batches, EmbeddingService.createBatches. split.
  - rewrite batchesFrom_length by lia. now rewrite Nat.sub_0_r.
  - intros j batch Hnth Hnext.
    destruct (nth_error (EmbeddingService.batchesFrom (List.length texts) 0 texts
                           (Pos.to_nat batchSize)) (S j)) as [next |] eqn:Hn;
      [| apply nth_error_None in Hn; lia].
    apply batchesFrom_nth in Hnth as [-> _]. apply batchesFrom_nth in Hn as [_ Hlt].
    unfold slice. rewrite length_firstn, length_skipn. simpl in *. lia.
Qed.

(** Five texts in batches of two: three batches, the first two full. *)
Lemma createBatches_count_witness :
  List.length (EmbeddingService.createBatches ["a"; "bb"; "ccc"; "dddd"; "eeeee"]%string 2) = 3
  /\ List.length ["a"; "bb"]%string = 2.
Proof.
  split.
  - exact (proj1 (createBatches_count ["a"; "bb"; "ccc"; "dddd"; "eeeee"]%string 2)).
  - refine (proj2 (createBatches_count ["a"; "bb"; "ccc"; "dddd"; "eeeee"]%string 2)
              0 ["a"; "bb"]%string eq_refl _).
    simpl. lia.
Defined.

(** X13.  When [getEmbedding] had to ask the provider and resolved, a
    later call for the same text is served from the cache until the
    entry is [cacheTTL] old: it resolves with the same vector, counts no
    token and no cost, sends no request, and leaves the cache as it is,
    whatever the provider does by then. *)
Theorem getEmbedding_second_call {num : Type} `{Number num} (sha256 : string -> string)
    (env env' : EmbeddingService.Environment num) (this this' : EmbeddingService.t num)
    (text : string) (sent sent' sent2 : list EmbeddingService.CreateRequest)
    (result : EmbeddingService.EmbeddingResult num) :
  EmbeddingService.getEmbedding sha256 env this text sent = (Ok (result, this'), sent') ->
  sent' <> sent ->
  (EmbeddingService.now env' - EmbeddingService.now env < EmbeddingService.cacheTTL this)%Z ->
  EmbeddingService.getEmbedding sha256 env' this' text sent2
  = (Ok ({| EmbeddingService.embedding := EmbeddingService.embedding result;
            EmbeddingService.tokenCount := nofZ 0;
            EmbeddingService.cost := nofZ 0 |}, this'), sent2).
Proof.
  unfold EmbeddingService.getEmbedding at 1.
  destruct (match map_get (EmbeddingService.generateContentHash sha256 text)
                    (EmbeddingService.cache this) with
            | Some entry =>
                if (EmbeddingService.now env - EmbeddingService.timestamp entry
                    <? EmbeddingService.cacheTTL this)%Z
                then Some entry else None
            | None => None
            end) as [entry |].
  - unfold EmbeddingService.ret. intros [= _ _ <-] Hsent. contradiction.
  - unfold EmbeddingService.andThen.
    destruct (EmbeddingService.generateEmbeddings env this [text] sent) as [[batch | msg] sent1];
      [| discriminate].
    destruct (EmbeddingService.embeddings batch) as [| embedding rest]; [discriminate |].
    unfold EmbeddingService.ret. intros [= <- <- _] _ Hfresh.
    unfold EmbeddingService.getEmbedding. simpl.
    rewrite map_get_set_same. simpl.
    apply Z.ltb_lt in Hfresh. rewrite Hfresh. reflexivity.
Qed.

(** The first call embeds ["slack"] with one request; a second call one
    hour later, with the provider out of reach, is served from the
    cache. *)
Lemma getEmbedding_second_call_witness :
  exists (result : EmbeddingService.EmbeddingResult F64.t) this' request,
    EmbeddingService.getEmbedding Examples.digest Examples.reversingProvider
      (EmbeddingService.new None) "slack" []
    = (Ok (result, this'), [request])
    /\ EmbeddingService.getEmbedding Examples.digest
         {| EmbeddingService.OPENAI_API_KEY := None;
            EmbeddingService.importOpenAI := false;
            EmbeddingService.embeddingsCreate := fun _ _ => Throw "unreachable";
            EmbeddingService.now := 3600000 |}
         this' "slack" []
       = (Ok ({| EmbeddingService.embedding := EmbeddingService.embedding result;
                 EmbeddingService.tokenCount := F64.zero;
                 EmbeddingService.cost := F64.zero |}, this'), []).
Proof.
  eexists. eexists. eexists. split; [vm_compute; reflexivity |].
  refine (getEmbedding_second_call Examples.digest Examples.reversingProvider _
            (EmbeddingService.new None) _ "slack"%string [] _ [] _ _ _ _).
  - vm_compute. reflexivity.
  - discriminate.
  - vm_compute. reflexivity.
Defined.

(* ================================================================== *)
(** * Further properties of the reranker *)
(* ================================================================== *)

Section RerankResults.
Context {num : Type} `{Number num}.
Implicit Types (documents : list (SearchResult num)) (items : list (RerankItem.t num)).

Lemma collectReranked_valid items documents query (rerankedResults : list (SearchResult num)) :
  Forall (fun item => at_property documents (RerankItem.index item) <> None) items ->
  exists added,
    CohereReranker.collectReranked items documents query rerankedResults = rerankedResults ++ added
    /\ List.length added = List.length items
    /\ forall j item,
         nth_error items j = Some item ->
         exists document,
           at_property documents (RerankItem.index item) = Some document
           /\ nth_error added j
              = Some (rerankedAs item document
                        (Z.of_nat (List.length rerankedResults + j) + 1) query).
Proof.
  intros Hvalid. revert rerankedResults.
  induction Hvalid as [| item items Hitem Hvalid IH]; intros rerankedResults; simpl.
  - exists []. rewrite app_nil_r. split; [reflexivity |]. split; [reflexivity |].
    intros [| j] item'; discriminate.
  - destruct (at_property documents (RerankItem.index item)) as [document |] eqn:Hdoc;
      [| contradiction].
    destruct (IH (rerankedResults
                  ++ [rerankedAs item document (Z.of_nat (List.length rerankedResults) + 1) query]))
      as [added [Hrun [Hlen Hnth]]].
    eexists (_ :: added). split; [| split].
    + unfold rerankedAs in Hrun. rewrite Hrun. now rewrite <- app_assoc.
    + simpl. now rewrite Hlen.
    + intros [| j] item'; simpl.
      * intros [= <-]. exists document. split; [exact Hdoc |].
        now rewrite Nat.add_0_r.
      * intros Hj. destruct (Hnth j item' Hj) as [document' [Hdoc' Hadded]].
        exists document'. split; [exact Hdoc' |]. rewrite Hadded.
        rewrite length_app. simpl. do 3 f_equal. lia.
Qed.

Lemma collectReranked_length items documents query (rerankedResults : list (SearchResult num)) :
  List.length (CohereReranker.collectReranked items documents query rerankedResults)
  = List.length rerankedResults + List.length (namingCandidates items documents).
Proof.
  unfold namingCandidates. revert rerankedResults.
  induction items as [| item items IH]; intros rerankedResults; simpl; [lia |].
  destruct (at_property documents (RerankItem.index item)); simpl.
  - rewrite IH, length_app. simpl. lia.
  - apply IH.
Qed.

Lemma processRerankResponse_items items documents query :
  items <> [] ->
  CohereReranker.processRerankResponse (Some {| CohereReranker.results := Some items |})
    documents query
  = Ok (CohereReranker.collectReranked items documents query []).
Proof. destruct items; [contradiction | reflexivity]. Qed.

(** What a response stands for, entry by entry. *)
Lemma reranked_nth items documents query (rank : Z) :
  List.length (RerankSpec.reranked rank items documents query)
  = List.length (namingCandidates items documents)
  /\ forall j item,
       nth_error (namingCandidates items documents) j = Some item ->
       exists document,
         at_property documents (RerankItem.index item) = Some document
         /\ nth_error (RerankSpec.reranked rank items documents query) j
            = Some (rerankedAs item document (rank + Z.of_nat j) query).
Proof.
  unfold namingCandidates. revert rank.
  induction items as [| item items IH]; intros rank; simpl.
  - split; [reflexivity |]. intros [| j] item'; discriminate.
  - destruct (at_property documents (RerankItem.index item)) as [document |] eqn:Hdoc; simpl.
    + destruct (IH (rank + 1)%Z) as [Hlen Hnth]. split; [now rewrite Hlen |].
      intros [| j] item'; simpl.
      * intros [= <-]. exists document. split; [exact Hdoc |]. now rewrite Z.add_0_r.
      * intros Hj. destruct (Hnth j item' Hj) as [document' [Hdoc' Hadded]].
        exists document'. split; [exact Hdoc' |]. rewrite Hadded. do 2 f_equal. lia.
    + apply IH.
Qed.
End RerankResults.

(** X14.  When every entry of a response names a candidate,
    [processRerankResponse] returns one result per entry, in the order
    of the response: the candidate the entry names, scored with the
    entry's score (the new property, else the old one, else 0), marked
    ['hybrid'], and numbered from 1 as [cohereRank]. *)
Theorem processRerankResponse_reranks {num : Type} `{Number num}
    (items : list (RerankItem.t num)) (documents : list (SearchResult num)) (query : string) :
  items <> [] ->
  Forall (fun item => at_property documents (RerankItem.index item) <> None) items ->
  exists reranked,
    CohereReranker.processRerankResponse (Some {| CohereReranker.results := Some items |})
      documents query = Ok reranked
    /\ List.length reranked = List.length items
    /\ forall j item,
         nth_error items j = Some item ->
         exists document,
           at_property documents (RerankItem.index item) = Some document
           /\ nth_error reranked j
              = Some (let score := CohereReranker.coalesce (RerankItem.relevanceScore item)
                                     (RerankItem.relevance_score item) in
                      set_score_method_metadata document score hybrid
                        (set_cohere (spread (metadata document)) score (Z.of_nat j + 1) query)).
Proof.
  intros Hitems Hvalid.
  destruct (collectReranked_valid items documents query [] Hvalid) as [added [Hrun [Hlen Hnth]]].
  exists added. rewrite processRerankResponse_items by assumption.
  split; [now rewrite Hrun |]. split; [exact Hlen | exact Hnth].
Qed.

(** A response with one entry, for the first of two candidates. *)
Lemma processRerankResponse_reranks_witness :
  exists reranked : list (SearchResult F64.t),
    CohereReranker.processRerankResponse
      (Some {| CohereReranker.results :=
                 Some [ {| RerankItem.index := Some 0%Z;
                           RerankItem.relevanceScore := Some (ndecimal 1 10);
                           RerankItem.relevance_score := None |} ] |})
      Examples.lexicalAB "slack" = Ok reranked
    /\ List.length reranked = 1.
Proof.
  destruct (processRerankResponse_reranks
              [ {| RerankItem.index := Some 0%Z;
                   RerankItem.relevanceScore := Some (@ndecimal F64.t _ 1 10);
                   RerankItem.relevance_score := None |} ]
              Examples.lexicalAB "slack"%string) as [reranked [Hrun [Hlen _]]].
  - discriminate.
  - constructor; [discriminate | constructor].
  - exists reranked. split; [exact Hrun | exact Hlen].
Defined.

(** X15.  When the service fails [n] times ([n < maxRetries]) and then
    answers with entries, [rerank] resolves with one result per entry
    that names one of the candidates sent, in the order of the response
    - the candidate named, with the score of the entry, marked ['hybrid']
    and numbered from 1 - followed by the candidates beyond
    [maxDocuments]: a candidate the response does not name is dropped,
    and [topN] is left to the service. *)
Theorem rerank_result_count {num : Type} `{Number num}
    (env : CohereReranker.Environment num) (this : CohereReranker.t) (query : string)
    (documents : list (SearchResult num)) (options : option CohereReranker.CohereRerankOptions)
    (n : nat) (items : list (RerankItem.t num)) :
  let sent := firstn (CohereReranker.maxDocuments this) documents in
  (List.length documents =? 0)%nat || isBlank query = false ->
  CohereReranker.isAvailable env this = true ->
  n < CohereReranker.maxRetries this ->
  (forall request attempt, attempt < n -> RerankSpec.attemptFails env request attempt) ->
  (forall request,
     CohereReranker.rerankEndpoint env request n
     = Ok (Some {| CohereReranker.results := Some items |})) ->
  items <> [] ->
  exists reranked,
    CohereReranker.rerank env this query documents options
    = Ok (reranked ++ sliceFrom documents (CohereReranker.maxDocuments this))
    /\ List.length reranked = List.length (namingCandidates items sent)
    /\ (forall j item,
          nth_error (namingCandidates items sent) j = Some item ->
          exists document,
            at_property sent (RerankItem.index item) = Some document
            /\ nth_error reranked j
               = Some (rerankedAs item document (Z.of_nat j + 1) query))
    /\ List.length (reranked ++ sliceFrom documents (CohereReranker.maxDocuments this))
       = List.length (namingCandidates items sent)
         + (List.length documents - CohereReranker.maxDocuments this).
Proof.
  intros sent Hguard Havailable Hretries Hfail Hanswer Hitems.
  exists (RerankSpec.reranked 1 items sent query).
  destruct (reranked_nth items sent query 1) as [Hlen Hnth].
  split; [now apply rerank_response_entries with (n := n) |].
  split; [exact Hlen |]. split.
  - intros j item Hj. destruct (Hnth j item Hj) as [document [Hdoc Hadded]].
    exists document. split; [exact Hdoc |]. rewrite Hadded. do 2 f_equal. lia.
  - rewrite length_app, Hlen. unfold sliceFrom. now rewrite length_skipn.
Qed.

(** Two candidates, a service that scores the first one only: one
    result comes back, the first candidate with the score 0.1. *)
Lemma rerank_result_count_witness :
  exists reranked : list (SearchResult F64.t),
    CohereReranker.rerank Examples.rerankerFirstOnly (CohereReranker.new None None None) "slack"
      Examples.lexicalAB None = Ok (reranked ++ [])
    /\ List.length reranked = 1
    /\ map (fun r : SearchResult F64.t => (nodeType r, relevanceScore r)) reranked
       = [("A"%string, ndecimal 1 10)].
Proof.
  destruct (rerank_result_count Examples.rerankerFirstOnly (CohereReranker.new None None None)
              "slack"%string (@Examples.lexicalAB F64.t _) None 0
              [ {| RerankItem.index := Some 0%Z;
                   RerankItem.relevanceScore := Some (ndecimal 1 10);
                   RerankItem.relevance_score := None |} ]
              eq_refl eq_refl ltac:(simpl; lia)
              (fun request attempt (Hlt : attempt < 0) =>
                 match Nat.nlt_0_r attempt Hlt with end)
              (fun _ => eq_refl) ltac:(discriminate))
    as [reranked [Hrun [Hlen [Hnth _]]]].
  exists reranked. split; [exact Hrun |]. split; [exact Hlen |].
  destruct (Hnth 0 _ eq_refl) as [document [Hdoc Hfirst]].
  injection Hdoc as <-.
  destruct reranked as [| r [| r' rest]]; try discriminate Hlen.
  injection Hfirst as ->. reflexivity.
Defined.

(** X22.  Whatever the service does, [rerank] resolves with a list that
    ends with the candidates beyond [maxDocuments], in the order and
    with the scores they came with: the excess is never reranked and
    never dropped. *)
Theorem rerank_keeps_excess {num : Type} `{Number num}
    (env : CohereReranker.Environment num) (this : CohereReranker.t) (query : string)
    (documents : list (SearchResult num)) (options : option CohereReranker.CohereRerankOptions) :
  exists reranked,
    CohereReranker.rerank env this query documents options
    = Ok (reranked ++ sliceFrom documents (CohereReranker.maxDocuments this)).
Proof.
  assert (Hsame : exists reranked,
            documents = reranked ++ sliceFrom documents (CohereReranker.maxDocuments this)).
  { exists (firstn (CohereReranker.maxDocuments this) documents).
    unfold sliceFrom. symmetry. apply firstn_skipn. }
  destruct Hsame as [kept Hkept].
  unfold CohereReranker.rerank.
  destruct ((List.length documents =? 0)%nat || isBlank query);
    [exists kept; now rewrite <- Hkept |].
  destruct (CohereReranker.initializeCohere env this) as [this' | msg] eqn:Hinit;
    [| exists kept; simpl; now rewrite <- Hkept].
  simpl. rewrite (initializeCohere_client _ _ _ Hinit). simpl.
  destruct (initializeCohere_config _ _ _ Hinit) as [_ Hdocs]. rewrite Hdocs.
  destruct (CohereReranker.rerankWithRetries _ _ _ _ _ _) as [rerankedResults | msg]; simpl.
  - now exists rerankedResults.
  - exists kept. now rewrite <- Hkept.
Qed.

(** X16.  [updateConfig] never touches the client, never makes
    [maxDocuments] or [maxRetries] zero or the model name empty when
    they were not (a property that is missing, [0] or [''] is skipped),
    and changes nothing when it is given the configuration [getConfig]
    returns. *)
Theorem updateConfig_keeps_limits (this : CohereReranker.t) (config : CohereReranker.Config) :
  let this' := CohereReranker.updateConfig this config in
  CohereReranker.client this' = CohereReranker.client this
  /\ (0 < CohereReranker.maxDocuments this -> 0 < CohereReranker.maxDocuments this')
  /\ (0 < CohereReranker.maxRetries this -> 0 < CohereReranker.maxRetries this')
  /\ (CohereReranker.model this <> EmptyString -> CohereReranker.model this' <> EmptyString)
  /\ CohereReranker.updateConfig this (CohereReranker.getConfig this) = this.
Proof.
  intros this'. unfold this'. clear this'.
  split; [reflexivity |].
  split; [destruct config as [m [[| d] |] r]; simpl; intros; lia |].
  split; [destruct config as [m d [[| r] |]]; simpl; intros; lia |].
  split; [destruct config as [[[| c m] |] d r]; simpl; intros Hm;
          [exact Hm | discriminate | exact Hm] |].
  destruct this as [client [| c model] [| maxDocuments] [| maxRetries]]; reflexivity.
Qed.

Lemma updateConfig_keeps_limits_witness :
  0 < CohereReranker.maxRetries
        (CohereReranker.updateConfig (CohereReranker.new None None None)
           {| CohereReranker.config_model := None;
              CohereReranker.config_maxDocuments := None;
              CohereReranker.config_maxRetries := Some 0 |}).
Proof.
  apply (proj1 (proj2 (proj2 (updateConfig_keeps_limits (CohereReranker.new None None None)
           {| CohereReranker.config_model := None;
              CohereReranker.config_maxDocuments := None;
              CohereReranker.config_maxRetries := Some 0 |})))).
  simpl. lia.
Defined.

(* ================================================================== *)
(** * Further properties of the search engine *)
(* ================================================================== *)

Section EngineFacts.
Context {num : Type} `{Number num}.
Variable sha256 : string -> string.
Implicit Types (env : HybridSearchEngine.Environment num) (this : HybridSearchEngine.t num)
  (options : HybridSearchEngine.HybridSearchOptions).

Lemma includes_Permutation (methods methods' : list SearchMethod) (m : SearchMethod) :
  Permutation methods methods' ->
  HybridSearchEngine.includes methods m = HybridSearchEngine.includes methods' m.
Proof.
  unfold HybridSearchEngine.includes.
  induction 1 as [| x l l' _ IH | x y l | l l' l'' _ IH1 _ IH2]; simpl.
  - reflexivity.
  - now rewrite IH.
  - destruct (SearchMethod_eqb m x), (SearchMethod_eqb m y); reflexivity.
  - now rewrite IH1.
Qed.

Lemma methodRank_injective (a b : SearchMethod) :
  HybridSearchEngine.methodRank a = HybridSearchEngine.methodRank b -> a = b.
Proof. destruct a, b; simpl; intros; congruence. Qed.

Lemma sortMethods_sorted (methods : list SearchMethod) :
  StronglySorted (fun a b => HybridSearchEngine.methodRank a <= HybridSearchEngine.methodRank b)
    (HybridSearchEngine.sortMethods methods).
Proof.
  unfold HybridSearchEngine.sortMethods.
  apply jsSort_StronglySorted.
  - intros a b Hafter. apply Nat.ltb_ge in Hafter. exact Hafter.
  - intros a b Hafter. apply Nat.ltb_lt in Hafter. lia.
  - intros a b c Hab Hbc. lia.
Qed.

Lemma sortMethods_Permutation (methods methods' : list SearchMethod) :
  Permutation methods methods' ->
  HybridSearchEngine.sortMethods methods = HybridSearchEngine.sortMethods methods'.
Proof.
  intros Hperm.
  apply sorted_permutation_unique
    with (R := fun a b => HybridSearchEngine.methodRank a <= HybridSearchEngine.methodRank b).
  - apply sortMethods_sorted.
  - apply sortMethods_sorted.
  - unfold HybridSearchEngine.sortMethods.
    rewrite <- !jsSort_Permutation. exact Hperm.
  - intros x y _ _ Hxy Hyx. apply methodRank_injective. lia.
Qed.

Lemma methods_eqb_refl (methods : list SearchMethod) : methods_eqb methods methods = true.
Proof. induction methods as [| m rest IH]; simpl; [reflexivity |]. rewrite IH. now destruct m. Qed.

Lemma CacheKey_eqb_refl (key : CacheKey) : CacheKey_eqb key key = true.
Proof.
  unfold CacheKey_eqb.
  now rewrite String.eqb_refl, !Z.eqb_refl, Bool.eqb_reflx, methods_eqb_refl.
Qed.

Lemma ftsResults_length (count index : nat) (rows : list (Node.Row num)) :
  List.length (HybridSearchEngine.ftsResults count index rows) = List.length rows.
Proof.
  revert index. induction rows as [| node rest IH]; intros index; simpl; [| rewrite IH]; reflexivity.
Qed.

Lemma ftsResults_nth (count index : nat) (rows : list (Node.Row num)) (i : nat)
    (r : SearchResult num) :
  nth_error (HybridSearchEngine.ftsResults count index rows) i = Some r ->
  relevanceScore r
  = nsub (nofZ 1) (ndiv (nofZ (Z.of_nat (index + i))) (nofZ (Z.of_nat (Nat.max count 1))))
  /\ metadata r = Some (set_ftsRank emptyMetadata (Z.of_nat (index + i) + 1))
  /\ searchMethod r = fts5.
Proof.
  revert index i. induction rows as [| node rest IH]; intros index [| i]; simpl; try discriminate.
  - intros [= <-]. simpl. rewrite Nat.add_0_r. auto.
  - intros Hnth. replace (index + S i) with (S index + i) by lia. now apply IH.
Qed.
End EngineFacts.

(** X17.  The order in which the caller names the search methods does
    not matter: two option sets that differ only in that order have the
    same cache key and the pipeline computes the same for both. *)
Theorem searchMethods_order_immaterial {num : Type} `{Number num} (sha256 : string -> string)
    (env : HybridSearchEngine.Environment num) (this : HybridSearchEngine.t num)
    (query : string) (options options' : HybridSearchEngine.HybridSearchOptions) :
  Permutation (HybridSearchEngine.searchMethods options) (HybridSearchEngine.searchMethods options') ->
  HybridSearchEngine.limit options = HybridSearchEngine.limit options' ->
  HybridSearchEngine.rrfK options = HybridSearchEngine.rrfK options' ->
  HybridSearchEngine.enableReranking options = HybridSearchEngine.enableReranking options' ->
  HybridSearchEngine.getCacheKey query options = HybridSearchEngine.getCacheKey query options'
  /\ HybridSearchEngine.executeSearchPipeline sha256 env this query options
     = HybridSearchEngine.executeSearchPipeline sha256 env this query options'.
Proof.
  intros Hperm Hlimit Hk Hrerank. split.
  - unfold HybridSearchEngine.getCacheKey.
    now rewrite Hlimit, Hk, Hrerank, (sortMethods_Permutation _ _ Hperm).
  - unfold HybridSearchEngine.executeSearchPipeline, HybridSearchEngine.rerankStage.
    rewrite !(includes_Permutation _ _ _ Hperm), (Permutation_length Hperm), Hlimit, Hrerank.
    reflexivity.
Qed.

(** ['fts5', 'vector'] (the default) and ['vector', 'fts5'] share a
    cache key. *)
Lemma searchMethods_order_immaterial_witness :
  HybridSearchEngine.getCacheKey "slack"
    (HybridSearchEngine.mergeOptions (@Examples.engine F64.t _) HybridSearchEngine.noOptions)
  = HybridSearchEngine.getCacheKey "slack"
      (HybridSearchEngine.mergeOptions (@Examples.engine F64.t _) Examples.vectorFirst).
Proof.
  refine (proj1 (searchMethods_order_immaterial Examples.digest Examples.offline Examples.engine
                   "slack"%string
                   (HybridSearchEngine.mergeOptions Examples.engine HybridSearchEngine.noOptions)
                   (HybridSearchEngine.mergeOptions Examples.engine Examples.vectorFirst)
                   _ eq_refl eq_refl eq_refl)).
  apply perm_swap.
Defined.

(** X18.  The pipeline returns at most [limit] results when the limit
    is not negative; so does [search] when it does not answer from the
    cache, and at most 20 when neither the caller nor the engine's
    defaults set a limit. *)
Theorem search_at_most_limit {num : Type} `{Number num} (sha256 : string -> string)
    (env : HybridSearchEngine.Environment num) (this : HybridSearchEngine.t num) :
  (forall query options results,
     HybridSearchEngine.executeSearchPipeline sha256 env this query options = Ok results ->
     (0 <= HybridSearchEngine.limit options)%Z ->
     (Z.of_nat (List.length results) <= HybridSearchEngine.limit options)%Z)
  /\ (forall query options results,
        HybridSearchEngine.enableCache this = false ->
        fst (HybridSearchEngine.search sha256 env this query options) = Ok results ->
        (0 <= HybridSearchEngine.limit (HybridSearchEngine.mergeOptions this options))%Z ->
        (Z.of_nat (List.length results)
         <= HybridSearchEngine.limit (HybridSearchEngine.mergeOptions this options))%Z)
  /\ (forall query options results,
        HybridSearchEngine.enableCache this = false ->
        HybridSearchEngine.partial_limit options = None ->
        HybridSearchEngine.partial_limit (HybridSearchEngine.defaultOptions this) = None ->
        fst (HybridSearchEngine.search sha256 env this query options) = Ok results ->
        List.length results <= 20).
Proof.
  assert (Hpipeline : forall query options results,
            HybridSearchEngine.executeSearchPipeline sha256 env this query options = Ok results ->
            (0 <= HybridSearchEngine.limit options)%Z ->
            (Z.of_nat (List.length results) <= HybridSearchEngine.limit options)%Z).
  { intros query options results Hrun Hlimit.
    unfold HybridSearchEngine.executeSearchPipeline in Hrun.
    destruct (HybridSearchEngine.rerankStage _ _ _ _ _) as [finalResults | msg]; [| discriminate].
    simpl in Hrun. injection Hrun as <-. now apply sliceTo_length. }
  assert (Hsearch : forall query options results,
            HybridSearchEngine.enableCache this = false ->
            fst (HybridSearchEngine.search sha256 env this query options) = Ok results ->
            (0 <= HybridSearchEngine.limit (HybridSearchEngine.mergeOptions this options))%Z ->
            (Z.of_nat (List.length results)
             <= HybridSearchEngine.limit (HybridSearchEngine.mergeOptions this options))%Z).
  { intros query options results Hoff Hrun Hlimit. unfold HybridSearchEngine.search in Hrun.
    rewrite Hoff in Hrun.
    destruct (isBlank query); [simpl in Hrun; injection Hrun as <-; exact Hlimit |].
    destruct (HybridSearchEngine.executeSearchPipeline sha256 env this (trim query)
                (HybridSearchEngine.mergeOptions this options)) as [found | msg] eqn:Hpipe;
      simpl in Hrun; [| discriminate].
    injection Hrun as <-.
    exact (Hpipeline _ _ _ Hpipe Hlimit). }
  split; [exact Hpipeline |]. split; [exact Hsearch |].
  intros query options results Hoff Hcaller Hdefaults Hrun.
  assert (Hlimit : HybridSearchEngine.limit (HybridSearchEngine.mergeOptions this options) = 20%Z).
  { unfold HybridSearchEngine.mergeOptions. simpl. now rewrite Hcaller, Hdefaults. }
  pose proof (Hsearch query options results Hoff Hrun) as Hle. rewrite Hlimit in Hle. lia.
Qed.

(** The pipeline over the plane database, with its default limit. *)
Lemma search_at_most_limit_witness :
  exists results : list (SearchResult F64.t),
    HybridSearchEngine.executeSearchPipeline Examples.digest Examples.offline Examples.engine
      "slack"%string (HybridSearchEngine.mergeOptions Examples.engine HybridSearchEngine.noOptions)
    = Ok results
    /\ (Z.of_nat (List.length results) <= 20)%Z.
Proof.
  destruct (executeSearchPipeline_total Examples.digest (@Examples.offline F64.t) Examples.engine
              "slack"%string (HybridSearchEngine.mergeOptions Examples.engine HybridSearchEngine.noOptions))
    as [results Hrun].
  exists results. split; [exact Hrun |].
  refine (proj1 (search_at_most_limit Examples.digest Examples.offline Examples.engine)
            "slack"%string
            (HybridSearchEngine.mergeOptions Examples.engine HybridSearchEngine.noOptions)
            results Hrun _).
  simpl. lia.
Defined.

(** X19.  The engine holds a result cache exactly when caching is
    enabled: the constructor sets it up so, [updateConfig] restores it
    whenever it is given [enableCache] and keeps it otherwise, and
    [search] and [clearCache] keep it. *)
Theorem cache_exactly_when_enabled {num : Type} `{Number num} (sha256 : string -> string) :
  (forall (db : DatabaseAdapter num) options,
     cacheWhenEnabled (HybridSearchEngine.new db options))
  /\ (forall (this : HybridSearchEngine.t num) config,
        HybridSearchEngine.config_enableCache config <> None \/ cacheWhenEnabled this ->
        cacheWhenEnabled (HybridSearchEngine.updateConfig this config))
  /\ (forall env (this : HybridSearchEngine.t num) query options,
        cacheWhenEnabled this ->
        cacheWhenEnabled (snd (HybridSearchEngine.search sha256 env this query options)))
  /\ (forall this : HybridSearchEngine.t num,
        cacheWhenEnabled this -> cacheWhenEnabled (HybridSearchEngine.clearCache this)).
Proof.
  unfold cacheWhenEnabled. split; [| split; [| split]].
  - intros db options. unfold HybridSearchEngine.new. simpl.
    destruct (HybridSearchEngine.option_enableCache options) as [[|] |]; reflexivity.
  - intros this config Hcase. unfold HybridSearchEngine.updateConfig.
    destruct (HybridSearchEngine.config_enableCache config) as [enable |].
    + destruct (HybridSearchEngine.config_defaultOptions config); simpl;
        destruct enable, (HybridSearchEngine.cache this); reflexivity.
    + destruct Hcase as [Hgiven | Hkept]; [contradiction |].
      destruct (HybridSearchEngine.config_defaultOptions config); simpl; exact Hkept.
  - intros env this query options Hkept. unfold HybridSearchEngine.search.
    destruct (isBlank query); [exact Hkept |].
    destruct (HybridSearchEngine.enableCache this) eqn:Hon;
      destruct (HybridSearchEngine.cache this) as [cache |] eqn:Hcache; simpl in *.
    + destruct (SimpleCache.get cache _ _); [simpl; now rewrite Hcache, Hon |].
      destruct (HybridSearchEngine.executeSearchPipeline _ _ _ _ _); simpl;
        rewrite ?Hcache, ?Hon; reflexivity.
    + discriminate.
    + discriminate.
    + destruct (HybridSearchEngine.executeSearchPipeline _ _ _ _ _); simpl;
        rewrite ?Hcache, ?Hon; reflexivity.
  - intros this Hkept. unfold HybridSearchEngine.clearCache.
    destruct (HybridSearchEngine.cache this) as [cache |] eqn:Hcache; simpl in *;
      [exact Hkept | now rewrite Hcache].
Qed.

(** Switching the cache off on an engine that has one: the cache is
    dropped. *)
Lemma cache_exactly_when_enabled_witness :
  cacheWhenEnabled
    (HybridSearchEngine.updateConfig (@Examples.engine F64.t _)
       {| HybridSearchEngine.config_enableCache := Some false;
          HybridSearchEngine.config_defaultOptions := None |}).
Proof.
  apply (proj1 (proj2 (cache_exactly_when_enabled Examples.digest))).
  left. discriminate.
Defined.

(** X20.  With the result cache as the specification describes it: a
    search that was not answered from the cache stores its results, and
    the same search within the next 300 units of the cache's clock is
    answered with those results and leaves the engine as it is,
    whatever has become of the database and of the two services: the
    later engine only has to hold the cache the first search left, with
    caching on and the same default options. *)
Theorem search_served_from_cache {num : Type} `{Number num} (sha256 : string -> string)
    (env env' : HybridSearchEngine.Environment num) (this later : HybridSearchEngine.t num)
    (query : string) (options : HybridSearchEngine.PartialOptions)
    (held : SimpleCache.t (list (SearchResult num))) :
  HybridSearchEngine.enableCache this = true ->
  HybridSearchEngine.cache this = Some held ->
  isBlank query = false ->
  SimpleCache.get held (HybridSearchEngine.clock env)
    (HybridSearchEngine.getCacheKey (trim query) (HybridSearchEngine.mergeOptions this options))
  = None ->
  (HybridSearchEngine.clock env' < HybridSearchEngine.clock env + 300)%Z ->
  HybridSearchEngine.cache later
  = HybridSearchEngine.cache (snd (HybridSearchEngine.search sha256 env this query options)) ->
  HybridSearchEngine.enableCache later = true ->
  HybridSearchEngine.defaultOptions later = HybridSearchEngine.defaultOptions this ->
  HybridSearchEngine.search sha256 env' later query options
  = (fst (HybridSearchEngine.search sha256 env this query options), later).
Proof.
  intros Hon Hcache Hquery Hmiss Hfresh Hheld Hstill Hdefaults.
  unfold HybridSearchEngine.search in Hheld |- * at 2.
  rewrite Hquery, Hon, Hcache, Hmiss in *.
  destruct (executeSearchPipeline_total sha256 env this (trim query)
              (HybridSearchEngine.mergeOptions this options)) as [results Hrun].
  rewrite Hrun in *. cbn [fst snd] in *.
  unfold HybridSearchEngine.search. rewrite Hquery, Hstill, Hheld.
  assert (Hmerge : HybridSearchEngine.mergeOptions later options
                   = HybridSearchEngine.mergeOptions this options).
  { unfold HybridSearchEngine.mergeOptions. now rewrite Hdefaults. }
  rewrite Hmerge. cbn [HybridSearchEngine.cache HybridSearchEngine.withCache].
  cbn [SimpleCache.get SimpleCache.set SimpleCache.entry_key SimpleCache.entry_value
       SimpleCache.expiresAt].
  rewrite CacheKey_eqb_refl. apply Z.ltb_lt in Hfresh. rewrite Hfresh. reflexivity.
Qed.

(** A search at clock 100 with both services out of reach, and the
    same search at clock 399 on an engine over another database that
    holds the cache the first search left. *)
Lemma search_served_from_cache_witness :
  fst (HybridSearchEngine.search Examples.digest (@Examples.later F64.t _) Examples.engineLater
         "slack" HybridSearchEngine.noOptions)
  = fst (HybridSearchEngine.search Examples.digest (@Examples.offline F64.t) Examples.engine
           "slack" HybridSearchEngine.noOptions).
Proof.
  refine (f_equal fst
            (search_served_from_cache Examples.digest Examples.offline Examples.later
               Examples.engine Examples.engineLater
               "slack"%string HybridSearchEngine.noOptions SimpleCache.empty
               eq_refl eq_refl eq_refl eq_refl _ eq_refl eq_refl eq_refl)).
  simpl. lia.
Defined.

(** X21.  In exact arithmetic the [i]-th lexical result of [n] (from
    0) scores [1 - i/n], which lies in [(0, 1]]; it carries its
    position plus 1 as [ftsRank] and is marked ['fts5']. *)
Theorem executeFTS5Search_scores (this : HybridSearchEngine.t R) (query : string) (limit : Z)
    (i : nat) (r : SearchResult R) :
  let results := HybridSearchEngine.executeFTS5Search this query limit in
  nth_error results i = Some r ->
  relevanceScore r = (1 - IZR (Z.of_nat i) / IZR (Z.of_nat (List.length results)))%R
  /\ (0 < relevanceScore r <= 1)%R
  /\ metadata r = Some (set_ftsRank emptyMetadata (Z.of_nat i + 1))
  /\ searchMethod r = fts5.
Proof.
  intros results. unfold results, HybridSearchEngine.executeFTS5Search.
  destruct (nodes_fts (HybridSearchEngine.db this)) as [table |]; [| destruct i; discriminate].
  destruct (table _) as [matching | msg]; [| destruct i; discriminate].
  set (rows := sqlLimit matching limit). intros Hnth.
  assert (Hi : i < List.length rows).
  { rewrite <- (ftsResults_length (List.length rows) 0 rows). apply nth_error_Some. congruence. }
  destruct (ftsResults_nth _ _ _ _ _ Hnth) as [Hscore [Hmeta Hmethod]].
  rewrite ftsResults_length. simpl in Hscore, Hmeta.
  replace (Nat.max (List.length rows) 1) with (List.length rows) in Hscore by lia.
  split; [exact Hscore |]. split; [| split; [exact Hmeta | exact Hmethod]].
  rewrite Hscore.
  assert (Hn : (0 < IZR (Z.of_nat (List.length rows)))%R) by (apply IZR_lt; lia).
  assert (Hlo : (0 <= IZR (Z.of_nat i))%R) by (apply IZR_le; lia).
  assert (Hhi : (IZR (Z.of_nat i) < IZR (Z.of_nat (List.length rows)))%R) by (apply IZR_lt; lia).
  assert (Hq : (0 <= IZR (Z.of_nat i) / IZR (Z.of_nat (List.length rows)) < 1)%R).
  { unfold Rdiv. split.
    - apply Rmult_le_pos; [exact Hlo |]. left. now apply Rinv_0_lt_compat.
    - apply Rmult_lt_reg_r with (IZR (Z.of_nat (List.length rows))); [exact Hn |].
      rewrite Rmult_assoc, Rinv_l by lra. lra. }
  lra.
Qed.

(** The one lexical result of the plane database scores 1. *)
Lemma executeFTS5Search_scores_witness :
  exists r : SearchResult R,
    nth_error (HybridSearchEngine.executeFTS5Search Examples.engine "slack" 40) 0 = Some r
    /\ (0 < relevanceScore r <= 1)%R.
Proof.
  eexists. split; [reflexivity |].
  refine (proj1 (proj2 (executeFTS5Search_scores Examples.engine "slack"%string 40 0 _ eq_refl))).
Defined.

(** X23.  Stage 2 of the pipeline, by cases on the two lists of stage
    1: the fusion of the two when neither is empty, and otherwise the
    one that is not empty.  The lists are never merely concatenated:
    both methods being enabled, there is more than one method and the
    fusion runs. *)
Theorem pipeline_fusion_cases {num : Type} `{Number num} (this : HybridSearchEngine.t num)
    (methods : list SearchMethod) (lexical semantic : list (SearchResult num)) :
  let fts5Results := if HybridSearchEngine.includes methods fts5 then lexical else [] in
  let vectorResults := if HybridSearchEngine.includes methods vector then semantic else [] in
  HybridSearchEngine.fuse this (1 <? List.length methods)%nat fts5Results vectorResults
  = match fts5Results, vectorResults with
    | [], _ => vectorResults
    | _, [] => fts5Results
    | _, _ =>
        RRFFusion.fuseResults (HybridSearchEngine.rrfFusion this) fts5Results vectorResults
    end.
Proof.
  intros fts5Results vectorResults. unfold fts5Results, vectorResults, HybridSearchEngine.fuse.
  destruct (HybridSearchEngine.includes methods fts5) eqn:Ef;
    destruct (HybridSearchEngine.includes methods vector) eqn:Ev.
  - rewrite (includes_both_rrf _ Ef Ev).
    destruct lexical, semantic; reflexivity.
  - destruct lexical; simpl; rewrite ?andb_false_r; reflexivity.
  - destruct semantic; simpl; rewrite ?andb_false_r; reflexivity.
  - simpl. rewrite ?andb_false_r. reflexivity.
Qed.

(** X24.  Every result of the engine's vector search is a node of the
    database that holds a vector; its score is the cosine similarity of
    that vector with the embedding the embedding service returns for the
    query, and reaches 0.2; it carries that similarity as
    [vectorSimilarity] and is marked ['vector'].  With the storage ready
    and a limit that is not below the number of nodes, every node whose
    similarity with that embedding reaches 0.2 is a result. *)
Theorem executeVectorSearch_results {num : Type} `{Number num} (sha256 : string -> string)
    (env : HybridSearchEngine.Environment num) (this : HybridSearchEngine.t num)
    (query : string) (limit : Z) :
  (forall r,
     In r (HybridSearchEngine.executeVectorSearch sha256 env this query limit) ->
     exists embeddingResult service row stored values,
       fst (EmbeddingService.getEmbedding sha256 (HybridSearchEngine.embeddingEnvironment env)
              (HybridSearchEngine.embeddingService this) query [])
       = Ok (embeddingResult, service)
       /\ In row (nodes (HybridSearchEngine.db this))
       /\ Node.node_type row = nodeType r
       /\ Node.embedding_vector row = Some stored
       /\ ArrayBuffer.asFloat32Array stored = Ok values
       /\ VectorRepository.calculateCosineSimilarity
            (EmbeddingService.embedding embeddingResult) values
          = Ok (relevanceScore r)
       /\ ngeb (relevanceScore r) (ndecimal 2 10) = true
       /\ metadata r = Some (set_vectorSimilarity emptyMetadata (relevanceScore r))
       /\ searchMethod r = vector)
  /\ (forall embeddingResult service row stored values similarity,
        embeddingColumns (HybridSearchEngine.db this) = true ->
        fst (EmbeddingService.getEmbedding sha256 (HybridSearchEngine.embeddingEnvironment env)
               (HybridSearchEngine.embeddingService this) query [])
        = Ok (embeddingResult, service) ->
        (Z.of_nat (List.length (nodes (HybridSearchEngine.db this))) <= limit)%Z ->
        In row (nodes (HybridSearchEngine.db this)) ->
        Node.embedding_vector row = Some stored ->
        ArrayBuffer.asFloat32Array stored = Ok values ->
        VectorRepository.calculateCosineSimilarity
          (EmbeddingService.embedding embeddingResult) values
        = Ok similarity ->
        ngeb similarity (ndecimal 2 10) = true ->
        In (VectorRepository.nodeResult true (row, similarity))
           (HybridSearchEngine.executeVectorSearch sha256 env this query limit)).
Proof.
  split.
  - intros r. unfold HybridSearchEngine.executeVectorSearch.
    destruct (negb _); [intros [] |].
    destruct (fst _) as [[embeddingResult service] | msg] eqn:Hembedding; [| intros []].
    unfold VectorRepository.findSimilarNodes, VectorRepository.selectNodesWithEmbeddings.
    destruct (embeddingColumns (HybridSearchEngine.db this)); [| intros []].
    cbn [VectorRepository.threshold VectorRepository.includeDistances VectorRepository.limit].
    rewrite in_map_iff. intros [[row similarity] [<- Hin]].
    apply sliceTo_incl, jsSort_In, scan_In in Hin.
    destruct Hin as [Hrow [stored [values [Hemb [Hread [Hcos Hge]]]]]].
    apply filter_In in Hrow as [Hrow _].
    exists embeddingResult, service, row, stored, values. simpl. auto 10.
  - intros embeddingResult service row stored values similarity Hready Hembedding Hlimit Hrow
      Hemb Hread Hcos Hge.
    unfold HybridSearchEngine.executeVectorSearch, VectorRepository.isVectorStorageReady.
    rewrite Hready, Hembedding. cbn [negb].
    exact (findSimilarNodes_complete (HybridSearchEngine.db this)
             (EmbeddingService.embedding embeddingResult)
             {| VectorRepository.queryVector := EmbeddingService.embedding embeddingResult;
                VectorRepository.limit := limit;
                VectorRepository.threshold := Some (ndecimal 2 10);
                VectorRepository.includeDistances := Some true |}
             row stored values similarity Hready Hlimit Hrow Hemb Hread Hcos Hge).
Qed.

(** On binary64, with a provider that embeds the query as [(1, 0)],
    vector search over the plane database returns [same] and [near];
    the score of the first is the similarity of its vector [(2, 0)] with
    [(1, 0)]. *)
Lemma executeVectorSearch_results_witness :
  map (@nodeType F64.t)
    (HybridSearchEngine.executeVectorSearch Examples.digest Examples.semanticOnly
       Examples.engine "slack" 40)
  = ["same"%string; "near"%string]
  /\ exists r : SearchResult F64.t,
       In r (HybridSearchEngine.executeVectorSearch Examples.digest Examples.semanticOnly
               Examples.engine "slack" 40)
       /\ nodeType r = "same"%string
       /\ VectorRepository.calculateCosineSimilarity Examples.planeQuery [F64.ofZ 2; F64.ofZ 0]
          = Ok (relevanceScore r).
Proof.
  split; [vm_compute; reflexivity |].
  assert (Hcos : VectorRepository.calculateCosineSimilarity
                   (@Examples.planeQuery F64.t _) [F64.ofZ 2; F64.ofZ 0] = Ok F64.one)
    by (vm_compute; reflexivity).
  assert (Hin : In (VectorRepository.nodeResult true (@Examples.same F64.t _, F64.one))
                  (HybridSearchEngine.executeVectorSearch Examples.digest Examples.semanticOnly
                     Examples.engine "slack" 40)).
  { assert (Hembedding : exists embeddingResult service,
              fst (EmbeddingService.getEmbedding Examples.digest
                     (HybridSearchEngine.embeddingEnvironment (@Examples.semanticOnly F64.t _))
                     (HybridSearchEngine.embeddingService Examples.engine) "slack"%string [])
              = Ok (embeddingResult, service)
              /\ EmbeddingService.embedding embeddingResult = Examples.planeQuery).
    { do 2 eexists. split; [vm_compute; reflexivity | reflexivity]. }
    destruct Hembedding as [embeddingResult [service [Hembedding Hquery]]].
    refine (proj2 (executeVectorSearch_results Examples.digest Examples.semanticOnly
                     Examples.engine "slack"%string 40)
              embeddingResult service Examples.same _ [F64.ofZ 2; F64.ofZ 0] F64.one eq_refl
              Hembedding _ _ eq_refl eq_refl _ _).
    - simpl. lia.
    - right. right. left. reflexivity.
    - rewrite Hquery. exact Hcos.
    - vm_compute. reflexivity. }
  eexists. split; [exact Hin |]. split; [reflexivity | exact Hcos].
Defined.

(** X25.  New defaults given to [updateConfig] rank between the
    caller's options and the defaults the engine already had: merging
    options on the updated engine is merging, on the engine as it was,
    the new defaults overlaid with the caller's options. *)
Theorem mergeOptions_updateConfig {num : Type} `{Number num} (this : HybridSearchEngine.t num)
    (enable : option bool) (defaults options : HybridSearchEngine.PartialOptions) :
  HybridSearchEngine.mergeOptions
    (HybridSearchEngine.updateConfig this
       {| HybridSearchEngine.config_enableCache := enable;
          HybridSearchEngine.config_defaultOptions := Some defaults |})
    options
  = HybridSearchEngine.mergeOptions this (HybridSearchEngine.mergePartial defaults options).
Proof.
  unfold HybridSearchEngine.mergeOptions, HybridSearchEngine.updateConfig,
    HybridSearchEngine.mergePartial, HybridSearchEngine.spreadOver, HybridSearchEngine.pick.
  destruct enable as [enable |]; simpl;
    destruct options as [q l k e m i], defaults as [q' l' k' e' m' i']; simpl;
    destruct q, l, k, e, m, i, q', l', k', e', m', i'; reflexivity.
Qed.

(* ================================================================== *)
(** * The fused order *)
(* ================================================================== *)

Section FusionDominance.
Local Open Scope R_scope.

Lemma rankOf_positive (entity : string) (results : list (SearchResult R)) (rank : Z) :
  FusionSpec.rankOf entity results = Some rank -> (1 <= rank)%Z.
Proof.
  intros Hrank. destruct (rankOf_position entity results rank Hrank) as [i [r [_ [_ ->]]]]. lia.
Qed.

(** The fused score of a result, in exact arithmetic. *)
Lemma fuseResults_score_exact (this : RRFFusion.t R) (fts5Results vectorResults : list (SearchResult R))
    (r : SearchResult R) :
  NoDup (map (@nodeType R) fts5Results) ->
  NoDup (map (@nodeType R) vectorResults) ->
  In r (RRFFusion.fuseResults this fts5Results vectorResults) ->
  relevanceScore r
  = match FusionSpec.rankOf (nodeType r) fts5Results with
    | Some a => RRFFusion.weight_fts5 (RRFFusion.weights this) * (1 / (RRFFusion.k this + IZR a))
    | None => 0
    end
    + match FusionSpec.rankOf (nodeType r) vectorResults with
      | Some b => RRFFusion.weight_vector (RRFFusion.weights this) * (1 / (RRFFusion.k this + IZR b))
      | None => 0
      end.
Proof.
  intros Hnf Hnv Hin. apply fuseResults_In_inv in Hin as [_ [_ [_ ->]]].
  unfold RRFFusion.rrfScoreOf. rewrite !setRankings_rankOf by assumption.
  assert (Hor : forall s : R, norElse (Some s) (nofZ 0) = s).
  { intros s. unfold norElse, nfalsy. simpl. unfold RExact.eqb.
    destruct (Req_dec_T s 0); [now subst | reflexivity]. }
  rewrite Hor.
  destruct (FusionSpec.rankOf (nodeType r) fts5Results),
           (FusionSpec.rankOf (nodeType r) vectorResults); simpl; lra.
Qed.

Lemma term_antitone (w k : R) (a b : Z) :
  0 <= w -> 0 <= k -> (1 <= a)%Z -> (a <= b)%Z ->
  w * (1 / (k + IZR b)) <= w * (1 / (k + IZR a)).
Proof.
  intros Hw Hk Ha Hab.
  assert (HA : 1 <= IZR a) by (apply IZR_le; exact Ha).
  assert (HB : IZR a <= IZR b) by (apply IZR_le; exact Hab).
  apply Rmult_le_compat_l; [exact Hw |].
  unfold Rdiv. rewrite !Rmult_1_l. apply Rinv_le_contravar; lra.
Qed.

Lemma term_nonnegative (w k : R) (a : Z) :
  0 <= w -> 0 <= k -> (1 <= a)%Z -> 0 <= w * (1 / (k + IZR a)).
Proof.
  intros Hw Hk Ha.
  assert (HA : 1 <= IZR a) by (apply IZR_le; exact Ha).
  apply Rmult_le_pos; [exact Hw |].
  unfold Rdiv. rewrite Rmult_1_l. left. apply Rinv_0_lt_compat. lra.
Qed.
End FusionDominance.

(** X26.  In exact arithmetic, with [k >= 0] and weights that are not
    negative, fusion respects dominance: of two fused results, one whose
    rank is at least as good in the lexical list and in the vector list
    (absence from a list being the worst rank) scores at least as much
    as the other. *)
Theorem fuseResults_dominance (this : RRFFusion.t R)
    (fts5Results vectorResults : list (SearchResult R)) (r r' : SearchResult R) :
  (0 <= RRFFusion.k this)%R ->
  (0 <= RRFFusion.weight_fts5 (RRFFusion.weights this))%R ->
  (0 <= RRFFusion.weight_vector (RRFFusion.weights this))%R ->
  NoDup (map (@nodeType R) fts5Results) ->
  NoDup (map (@nodeType R) vectorResults) ->
  In r (RRFFusion.fuseResults this fts5Results vectorResults) ->
  In r' (RRFFusion.fuseResults this fts5Results vectorResults) ->
  FusionSpec.atLeastAsGood (FusionSpec.rankOf (nodeType r) fts5Results)
    (FusionSpec.rankOf (nodeType r') fts5Results) ->
  FusionSpec.atLeastAsGood (FusionSpec.rankOf (nodeType r) vectorResults)
    (FusionSpec.rankOf (nodeType r') vectorResults) ->
  (relevanceScore r' <= relevanceScore r)%R.
Proof.
  intros Hk Hwf Hwv Hnf Hnv Hin Hin' Hfts Hvec.
  rewrite (fuseResults_score_exact this fts5Results vectorResults r Hnf Hnv Hin).
  rewrite (fuseResults_score_exact this fts5Results vectorResults r' Hnf Hnv Hin').
  apply Rplus_le_compat.
  - destruct (FusionSpec.rankOf (nodeType r) fts5Results) as [a |] eqn:Ea;
      destruct (FusionSpec.rankOf (nodeType r') fts5Results) as [a' |] eqn:Ea';
      simpl in Hfts; try contradiction.
    + apply term_antitone; auto. eapply rankOf_positive; eauto.
    + apply term_nonnegative; auto. eapply rankOf_positive; eauto.
    + apply Rle_refl.
  - destruct (FusionSpec.rankOf (nodeType r) vectorResults) as [b |] eqn:Eb;
      destruct (FusionSpec.rankOf (nodeType r') vectorResults) as [b' |] eqn:Eb';
      simpl in Hvec; try contradiction.
    + apply term_antitone; auto. eapply rankOf_positive; eauto.
    + apply term_nonnegative; auto. eapply rankOf_positive; eauto.
    + apply Rle_refl.
Qed.

(** In the scenario of the specification [A], first and second, scores
    at least as much as [C], absent and third. *)
Lemma fuseResults_dominance_witness :
  exists r r' : SearchResult R,
    In r (RRFFusion.fuseResults (RRFFusion.new None) Examples.lexicalAB Examples.vectorBAC)
    /\ In r' (RRFFusion.fuseResults (RRFFusion.new None) Examples.lexicalAB Examples.vectorBAC)
    /\ nodeType r = "A"%string /\ nodeType r' = "C"%string
    /\ (relevanceScore r' <= relevanceScore r)%R.
Proof.
  pose proof (proj2 (fuseResults_mentions (RRFFusion.new None) (@Examples.lexicalAB R _)
                       Examples.vectorBAC "A"%string)) as HA.
  pose proof (proj2 (fuseResults_mentions (RRFFusion.new None) (@Examples.lexicalAB R _)
                       Examples.vectorBAC "C"%string)) as HC.
  rewrite nodeTypes_lexicalAB in HA. rewrite nodeTypes_vectorBAC in HC.
  specialize (HA (or_introl (or_introl eq_refl))).
  specialize (HC (or_intror (or_intror (or_intror (or_introl eq_refl))))).
  destruct (proj1 (in_map_iff _ _ _) HA) as [r [Hty Hin]].
  destruct (proj1 (in_map_iff _ _ _) HC) as [r' [Hty' Hin']].
  exists r, r'. split; [exact Hin |]. split; [exact Hin' |]. split; [exact Hty |].
  split; [exact Hty' |].
  apply (fuseResults_dominance (RRFFusion.new None) Examples.lexicalAB Examples.vectorBAC r r');
    try assumption.
  - simpl. lra.
  - simpl. lra.
  - simpl. lra.
  - apply NoDup_lexicalAB.
  - apply NoDup_vectorBAC.
  - rewrite Hty, Hty'. exact I.
  - rewrite Hty, Hty'. simpl. lia.
Defined.

(* ================================================================== *)
(** * What reranking cannot do *)
(* ================================================================== *)

Section RerankCandidates.
Context {num : Type} `{Number num}.
Implicit Types (documents : list (SearchResult num)) (items : list (RerankItem.t num)).

Lemma sameEntity_refl (r : SearchResult num) : sameEntity r r.
Proof. repeat split. Qed.

Lemma at_property_In documents (i : option Z) (document : SearchResult num) :
  at_property documents i = Some document -> In document documents.
Proof.
  destruct i as [i |]; simpl; [| discriminate]. unfold at_index.
  destruct (i <? 0)%Z; [discriminate |]. apply nth_error_In.
Qed.

Lemma collectReranked_candidates items documents query (rerankedResults : list (SearchResult num)) :
  Forall (fun r => exists document, In document documents /\ sameEntity r document) rerankedResults ->
  Forall (fun r => exists document, In document documents /\ sameEntity r document)
    (CohereReranker.collectReranked items documents query rerankedResults).
Proof.
  revert rerankedResults. induction items as [| item items IH]; intros rerankedResults Hall; simpl;
    [exact Hall |].
  destruct (at_property documents (RerankItem.index item)) as [document |] eqn:Hdoc;
    [| now apply IH].
  apply IH. apply Forall_app. split; [exact Hall |].
  constructor; [| constructor].
  exists document. split; [eapply at_property_In; eauto | repeat split].
Qed.

Lemma processRerankResponse_candidates (response : option (CohereReranker.RerankResponse num))
    documents query results :
  CohereReranker.processRerankResponse response documents query = Ok results ->
  Forall (fun r => exists document, In document documents /\ sameEntity r document) results.
Proof.
  unfold CohereReranker.processRerankResponse.
  destruct response as [response |]; [| discriminate].
  assert (Hown : Forall (fun r => exists document, In document documents /\ sameEntity r document)
                   documents).
  { apply Forall_forall. intros r Hin. exists r. split; [exact Hin | apply sameEntity_refl]. }
  destruct (CohereReranker.results response) as [[| item items] |]; intros [= <-];
    try exact Hown.
  exact (collectReranked_candidates (item :: items) documents query [] (Forall_nil _)).
Qed.

Lemma retryRerank_candidates env request documents query remaining attempt results :
  CohereReranker.retryRerank env request documents query remaining attempt = Ok results ->
  Forall (fun r => exists document, In document documents /\ sameEntity r document) results.
Proof.
  revert attempt. induction remaining as [| remaining IH]; intros attempt; simpl; [discriminate |].
  destruct (CohereReranker.rerankEndpoint env request attempt) as [response | msg]; simpl;
    [| apply IH].
  destruct (CohereReranker.processRerankResponse response documents query) as [found | msg] eqn:Hp;
    simpl; [| apply IH].
  intros [= <-]. eapply processRerankResponse_candidates; eauto.
Qed.
End RerankCandidates.

(** X27.  Whatever the service answers, every result of [rerank]
    describes one of the candidates it was given: same node type, name,
    description, category and package.  Reranking can rescore, reorder,
    repeat and drop candidates; it cannot bring in anything else. *)
Theorem rerank_results_are_candidates {num : Type} `{Number num}
    (env : CohereReranker.Environment num) (this : CohereReranker.t) (query : string)
    (documents : list (SearchResult num)) (options : option CohereReranker.CohereRerankOptions)
    (results : list (SearchResult num)) (r : SearchResult num) :
  CohereReranker.rerank env this query documents options = Ok results ->
  In r results ->
  exists document, In document documents /\ sameEntity r document.
Proof.
  intros Hrun Hin.
  assert (Hown : forall l, l = documents ->
            Forall (fun r => exists document, In document documents /\ sameEntity r document) l).
  { intros l ->. apply Forall_forall. intros d Hd. exists d.
    split; [exact Hd | apply sameEntity_refl]. }
  assert (Hall : Forall (fun r => exists document, In document documents /\ sameEntity r document)
                   results).
  { unfold CohereReranker.rerank in Hrun.
    destruct ((List.length documents =? 0)%nat || isBlank query);
      [injection Hrun as <-; now apply Hown |].
    destruct (CohereReranker.initializeCohere env this) as [this' | msg];
      [| simpl in Hrun; injection Hrun as <-; now apply Hown].
    simpl in Hrun.
    destruct (negb (CohereReranker.client this'));
      [simpl in Hrun; injection Hrun as <-; now apply Hown |].
    unfold CohereReranker.rerankWithRetries in Hrun.
    destruct (CohereReranker.retryRerank _ _ _ _ _ _) as [rerankedResults | msg] eqn:Hretry;
      simpl in Hrun; injection Hrun as <-; [| now apply Hown].
    apply Forall_app. split.
    - apply retryRerank_candidates in Hretry.
      eapply Forall_impl; [| exact Hretry].
      intros x [document [Hd Hsame]]. exists document. split; [| exact Hsame].
      rewrite <- (firstn_skipn (Nat.min (List.length documents) (CohereReranker.maxDocuments this))
                    documents).
      apply in_or_app. now left.
    - apply Forall_forall. intros d Hd. exists d. split; [| apply sameEntity_refl].
      unfold sliceFrom in Hd.
      rewrite <- (firstn_skipn (CohereReranker.maxDocuments this') documents).
      apply in_or_app. now right. }
  rewrite Forall_forall in Hall. now apply Hall.
Qed.

(** The one result the service leaves of the two candidates [A] and
    [B] is one of them. *)
Lemma rerank_results_are_candidates_witness :
  exists results (r document : SearchResult F64.t),
    CohereReranker.rerank Examples.rerankerFirstOnly (CohereReranker.new None None None)
      "slack" Examples.lexicalAB None = Ok results
    /\ In r results
    /\ In document Examples.lexicalAB /\ sameEntity r document.
Proof.
  assert (Hsome : exists results (r : SearchResult F64.t),
            CohereReranker.rerank Examples.rerankerFirstOnly (CohereReranker.new None None None)
              "slack" Examples.lexicalAB None = Ok results
            /\ In r results).
  { destruct (CohereReranker.rerank Examples.rerankerFirstOnly (CohereReranker.new None None None)
                "slack"%string (@Examples.lexicalAB F64.t _) None) as [results | msg] eqn:Hrun;
      [| vm_compute in Hrun; discriminate].
    destruct results as [| r rest]; [vm_compute in Hrun; discriminate |].
    exists (r :: rest), r. split; [reflexivity | now left]. }
  destruct Hsome as [results [r [Hrun Hin]]].
  destruct (rerank_results_are_candidates Examples.rerankerFirstOnly
              (CohereReranker.new None None None) "slack"%string (@Examples.lexicalAB F64.t _)
              None results r Hrun Hin) as [document [Hdocument Hsame]].
  exists results, r, document. auto.
Defined.
